(** * Resource Director Technology: resource / domain lifecycle

    A shallow embedding of arch/x86/kernel/cpu/resctrl/core.c.

    Integers of the C code are [Z] (or [N] where the code uses them as bit
    positions and bitmaps), truncations are written out.  Code that touches
    hardware, the log, the allocator or the hooks of the filesystem layer is
    written in a state monad over [kstate]; what the outside world answers
    (allocation success, hook return codes, topology, MSR behaviour) is read
    from a [kernel_env]. *)

From Stdlib Require Import ZArith NArith List String Ascii Bool Lia Permutation.
Import ListNotations.
Open Scope string_scope.
Open Scope list_scope.
Open Scope Z_scope.

(** ** Constants of headers that are not part of this file *)

(** Modelled from the spec: [MAX_MBA_BW] of internal.h, the "maximum
    representable value" of the linear delay encoding; the scenario
    "100% maps to delay 0, 10% maps to delay 90" fixes it to 100. *)
Definition MAX_MBA_BW : Z := 100.

(** Modelled from the spec: the MSR numbers of asm/msr-index.h.  Nothing
    proved below depends on their values. *)
Definition MSR_IA32_PQR_ASSOC : Z := 0xc8f.
Definition MSR_IA32_L3_CBM_BASE : Z := 0xc90.
Definition MSR_IA32_L2_CBM_BASE : Z := 0xd10.
Definition MSR_IA32_MBA_THRTL_BASE : Z := 0xd50.
Definition MSR_IA32_MBA_BW_BASE : Z := 0xc0000200.
Definition MSR_IA32_SMBA_BW_BASE : Z := 0xc0000280.

(** Modelled from the spec: the "reserved/default values" of the per-core
    tracking state (linux/resctrl.h). *)
Definition RESCTRL_RESERVED_CLOSID : Z := 0.
Definition RESCTRL_RESERVED_RMID : Z := 0.

Definition EINVAL : Z := 22.
Definition ENOMEM : Z := 12.
Definition EIO : Z := 5.

Definition u32 (z : Z) : Z := z mod 2 ^ 32.
Definition u64 (z : Z) : Z := z mod 2 ^ 64.

(** Modelled from the spec: [BIT_MASK(nr)] and [BIT_ULL_MASK(nr)] of
    linux/bits.h, one bit at position [nr] of a 64-bit word; minus one it is
    "all bits set within that length". *)
Definition BIT_MASK (nr : Z) : Z := Z.shiftl 1 (nr mod 64).
Definition BIT_ULL_MASK (nr : Z) : Z := Z.shiftl 1 (nr mod 64).

(** ** Data model *)

(** [enum resctrl_res_level]; [RDT_NUM_RESOURCES] closes the enumeration. *)
Definition RDT_RESOURCE_L3 : N := 0.
Definition RDT_RESOURCE_L2 : N := 1.
Definition RDT_RESOURCE_MBA : N := 2.
Definition RDT_RESOURCE_SMBA : N := 3.
Definition RDT_NUM_RESOURCES : N := 4.

(** [enum resctrl_scope]; a field the static table leaves out is zero. *)
Inductive resctrl_scope :=
| RESCTRL_SCOPE_ZERO
| RESCTRL_L2_CACHE
| RESCTRL_L3_CACHE
| RESCTRL_L3_NODE.

Inductive resctrl_schema_fmt := RESCTRL_SCHEMA_BITMAP | RESCTRL_SCHEMA_RANGE.

Inductive membw_throttle_mode :=
| THREAD_THROTTLE_UNDEFINED | THREAD_THROTTLE_MAX | THREAD_THROTTLE_PER_THREAD.

Inductive resctrl_domain_type := RESCTRL_CTRL_DOMAIN | RESCTRL_MON_DOMAIN.

Definition domain_type_eqb (a b : resctrl_domain_type) : bool :=
  match a, b with
  | RESCTRL_CTRL_DOMAIN, RESCTRL_CTRL_DOMAIN => true
  | RESCTRL_MON_DOMAIN, RESCTRL_MON_DOMAIN => true
  | _, _ => false
  end.

(** The [msr_update] member of a resource: which of the three writers it
    points to; the static table leaves it NULL for the bandwidth resources
    until the vendor defaults are filled in. *)
Inductive msr_update_fn := msr_update_NULL | cat_wrmsr_fn | mba_wrmsr_intel_fn | mba_wrmsr_amd_fn.

Record resctrl_cache := {
  cbm_len : Z;
  min_cbm_bits : Z;
  shareable_bits : Z;
  arch_has_sparse_bitmasks : bool;
  arch_has_per_cpu_cfg : bool
}.

Record resctrl_membw := {
  min_bw : Z;
  max_bw : Z;
  bw_gran : Z;
  delay_linear : bool;
  arch_needs_linear : bool;
  throttle_mode : membw_throttle_mode
}.

(** [struct rdt_domain_hdr]: a cpumask is a bitmap, bit [cpu] of [cpu_mask]. *)
Record rdt_domain_hdr := {
  id : Z;
  type : resctrl_domain_type;
  cpu_mask : N
}.

(** [struct rdt_ctrl_domain] inside [struct rdt_hw_ctrl_domain]; [plr] and
    [ctrl_val] are pointers, [None] is NULL. *)
Record rdt_ctrl_domain := {
  hdr : rdt_domain_hdr;
  plr : option Z
}.

Record rdt_hw_ctrl_domain := {
  d_resctrl : rdt_ctrl_domain;
  ctrl_val : option (list Z)
}.

Record rdt_mon_domain := {
  mon_hdr : rdt_domain_hdr;
  ci_id : Z
}.

Record rdt_hw_mon_domain := {
  mon_d_resctrl : rdt_mon_domain;
  arch_mbm_total : option (list Z);
  arch_mbm_local : option (list Z)
}.

(** [struct rdt_resource]; the two domain lists are kept in list order. *)
Record rdt_resource := {
  rid : N;
  alloc_capable : bool;
  mon_capable : bool;
  num_rmid : Z;
  ctrl_scope : resctrl_scope;
  mon_scope : resctrl_scope;
  cache : resctrl_cache;
  membw : resctrl_membw;
  ctrl_domains : list rdt_hw_ctrl_domain;
  mon_domains : list rdt_hw_mon_domain;
  res_name : string;
  schema_fmt : resctrl_schema_fmt;
  cdp_capable : bool
}.

Record rdt_hw_resource := {
  r_resctrl : rdt_resource;
  num_closid : Z;
  msr_base : Z;
  msr_update : msr_update_fn;
  cdp_enabled : bool
}.

(** [struct resctrl_pqr_state], one per CPU. *)
Record resctrl_pqr_state := {
  cur_rmid : Z;
  cur_closid : Z;
  default_rmid : Z;
  default_closid : Z
}.

(** [struct rdt_options], an entry of the option table. *)
Record rdt_options := {
  name : string;
  flag : Z;
  force_off : bool;
  force_on : bool
}.

(** Field updates, as the assignments of the C code. *)
Definition set_cpu_mask (h : rdt_domain_hdr) (m : N) : rdt_domain_hdr :=
  {| id := id h; type := type h; cpu_mask := m |}.

Definition ctrl_set_cpu_mask (d : rdt_hw_ctrl_domain) (m : N) : rdt_hw_ctrl_domain :=
  {| d_resctrl := {| hdr := set_cpu_mask (hdr (d_resctrl d)) m; plr := plr (d_resctrl d) |};
     ctrl_val := ctrl_val d |}.

Definition ctrl_set_ctrl_val (d : rdt_hw_ctrl_domain) (dc : option (list Z)) : rdt_hw_ctrl_domain :=
  {| d_resctrl := d_resctrl d; ctrl_val := dc |}.

Definition mon_set_cpu_mask (d : rdt_hw_mon_domain) (m : N) : rdt_hw_mon_domain :=
  {| mon_d_resctrl := {| mon_hdr := set_cpu_mask (mon_hdr (mon_d_resctrl d)) m;
                         ci_id := ci_id (mon_d_resctrl d) |};
     arch_mbm_total := arch_mbm_total d;
     arch_mbm_local := arch_mbm_local d |}.

Definition mon_set_ci_id (d : rdt_hw_mon_domain) (c : Z) : rdt_hw_mon_domain :=
  {| mon_d_resctrl := {| mon_hdr := mon_hdr (mon_d_resctrl d); ci_id := c |};
     arch_mbm_total := arch_mbm_total d;
     arch_mbm_local := arch_mbm_local d |}.

Definition mon_set_mbm (d : rdt_hw_mon_domain) (t l : option (list Z)) : rdt_hw_mon_domain :=
  {| mon_d_resctrl := mon_d_resctrl d; arch_mbm_total := t; arch_mbm_local := l |}.

Definition set_ctrl_domains (r : rdt_resource) (l : list rdt_hw_ctrl_domain) : rdt_resource :=
  {| rid := rid r; alloc_capable := alloc_capable r; mon_capable := mon_capable r;
     num_rmid := num_rmid r; ctrl_scope := ctrl_scope r; mon_scope := mon_scope r;
     cache := cache r; membw := membw r;
     ctrl_domains := l; mon_domains := mon_domains r;
     res_name := res_name r; schema_fmt := schema_fmt r; cdp_capable := cdp_capable r |}.

Definition set_mon_domains (r : rdt_resource) (l : list rdt_hw_mon_domain) : rdt_resource :=
  {| rid := rid r; alloc_capable := alloc_capable r; mon_capable := mon_capable r;
     num_rmid := num_rmid r; ctrl_scope := ctrl_scope r; mon_scope := mon_scope r;
     cache := cache r; membw := membw r;
     ctrl_domains := ctrl_domains r; mon_domains := l;
     res_name := res_name r; schema_fmt := schema_fmt r; cdp_capable := cdp_capable r |}.

Definition hw_set_resctrl (h : rdt_hw_resource) (r : rdt_resource) : rdt_hw_resource :=
  {| r_resctrl := r; num_closid := num_closid h; msr_base := msr_base h;
     msr_update := msr_update h; cdp_enabled := cdp_enabled h |}.

(** ** The static resource table *)

Definition cache_zero : resctrl_cache :=
  {| cbm_len := 0; min_cbm_bits := 0; shareable_bits := 0;
     arch_has_sparse_bitmasks := false; arch_has_per_cpu_cfg := false |}.

Definition membw_zero : resctrl_membw :=
  {| min_bw := 0; max_bw := 0; bw_gran := 0; delay_linear := false;
     arch_needs_linear := false; throttle_mode := THREAD_THROTTLE_UNDEFINED |}.

Definition resource_init (nm : string) (cs ms : resctrl_scope) (fmt : resctrl_schema_fmt)
  : rdt_resource :=
  {| rid := 0; alloc_capable := false; mon_capable := false; num_rmid := 0;
     ctrl_scope := cs; mon_scope := ms; cache := cache_zero; membw := membw_zero;
     ctrl_domains := []; mon_domains := [];
     res_name := nm; schema_fmt := fmt; cdp_capable := false |}.

Definition hw_resource_init (r : rdt_resource) (base : Z) (upd : msr_update_fn)
  : rdt_hw_resource :=
  {| r_resctrl := r; num_closid := 0; msr_base := base; msr_update := upd;
     cdp_enabled := false |}.

Definition rdt_resources_all_init : list rdt_hw_resource :=
  [ hw_resource_init
      (resource_init "L3" RESCTRL_L3_CACHE RESCTRL_L3_CACHE RESCTRL_SCHEMA_BITMAP)
      MSR_IA32_L3_CBM_BASE cat_wrmsr_fn;
    hw_resource_init
      (resource_init "L2" RESCTRL_L2_CACHE RESCTRL_SCOPE_ZERO RESCTRL_SCHEMA_BITMAP)
      MSR_IA32_L2_CBM_BASE cat_wrmsr_fn;
    hw_resource_init
      (resource_init "MB" RESCTRL_L3_CACHE RESCTRL_SCOPE_ZERO RESCTRL_SCHEMA_RANGE)
      0 msr_update_NULL;
    hw_resource_init
      (resource_init "SMBA" RESCTRL_L3_CACHE RESCTRL_SCOPE_ZERO RESCTRL_SCHEMA_RANGE)
      0 msr_update_NULL ].

(** A [struct rdt_resource *]: NULL, or the address of the [r_resctrl]
    member of [rdt_resources_all[idx]].  The address is formed for any
    index; with an index at or above [RDT_NUM_RESOURCES] it lies outside the
    array. *)
Inductive rdt_resource_ptr :=
| PTR_NULL
| PTR_RESOURCE (idx : N).

(** [resctrl_arch_get_resource]: the level is an unsigned enum value; the
    function forms the address [&rdt_resources_all[l].r_resctrl] and reads
    nothing. *)
Definition resctrl_arch_get_resource (l : N) : rdt_resource_ptr :=
  if (RDT_NUM_RESOURCES <=? l)%N then PTR_NULL
  else PTR_RESOURCE l.

(** ** Effects: kernel state, events, the outside world *)

(** Heap blocks handed to the allocator, named by what they hold. *)
Inductive kobj :=
| ObjHwCtrlDom (r : N) (dom : Z)
| ObjCtrlVal (r : N) (dom : Z)
| ObjHwMonDom (r : N) (dom : Z)
| ObjMbmTotal (r : N) (dom : Z)
| ObjMbmLocal (r : N) (dom : Z).

(** Call sites of [pr_warn_once] and [WARN_ON_ONCE]: each fires once. *)
Inductive once_site :=
| ONCE_nonlinear_delay
| ONCE_ctrl_id_add | ONCE_ctrl_type_add
| ONCE_mon_id_add | ONCE_mon_type_add | ONCE_mon_no_l3
| ONCE_ctrl_id_remove | ONCE_ctrl_type_remove
| ONCE_mon_id_remove | ONCE_mon_type_remove.

Definition once_site_eqb (a b : once_site) : bool :=
  match a, b with
  | ONCE_nonlinear_delay, ONCE_nonlinear_delay
  | ONCE_ctrl_id_add, ONCE_ctrl_id_add
  | ONCE_ctrl_type_add, ONCE_ctrl_type_add
  | ONCE_mon_id_add, ONCE_mon_id_add
  | ONCE_mon_type_add, ONCE_mon_type_add
  | ONCE_mon_no_l3, ONCE_mon_no_l3
  | ONCE_ctrl_id_remove, ONCE_ctrl_id_remove
  | ONCE_ctrl_type_remove, ONCE_ctrl_type_remove
  | ONCE_mon_id_remove, ONCE_mon_id_remove
  | ONCE_mon_type_remove, ONCE_mon_type_remove => true
  | _, _ => false
  end.

(** What the code does to the world, in program order. *)
Inductive event :=
| EvWarnOnce (site : once_site)
| EvWarn (msg : string)
| EvWrmsr (msr val : Z)
| EvKmalloc (o : kobj)
| EvKfree (o : kobj)
| EvListAddTailRcu (r : N) (t : resctrl_domain_type) (dom : Z)
| EvListDelRcu (r : N) (t : resctrl_domain_type) (dom : Z)
| EvSynchronizeRcu
| EvReconfigureCdp (r : N)
| EvArchMonDomainOnline (r : N) (dom : Z)
| EvOnlineCtrlDomain (r : N) (dom : Z)
| EvOfflineCtrlDomain (r : N) (dom : Z)
| EvOnlineMonDomain (r : N) (dom : Z)
| EvOfflineMonDomain (r : N) (dom : Z)
| EvPlrClear (p : Z)
| EvMsrUpdate (r : N) (dom : Z) (low high : Z)
| EvNullCall
| EvMutexLock
| EvMutexUnlock
| EvOnlineCpu (cpu : N)
| EvOfflineCpu (cpu : N)
| EvMbmApplyQuirk
| EvInfo (msg : string)
| EvPqrStateStore (cpu : N) (st : resctrl_pqr_state).

Record kstate := {
  rdt_resources_all : list rdt_hw_resource;
  rdt_alloc_capable : bool;
  rdt_options_table : list rdt_options;
  pqr_state : N -> resctrl_pqr_state;
  msrs : Z -> Z;
  once_fired : list once_site;
  trace : list event
}.

(** The [case] labels of [__check_quirks_intel] that [boot_cpu_data.x86_vfm]
    can match, and every other model. *)
Inductive intel_vfm := INTEL_HASWELL_X | INTEL_SKYLAKE_X | INTEL_BROADWELL_X | INTEL_OTHER_VFM.

(** Answers of everything the file calls but does not define. *)
Record kernel_env := {
  smp_processor_id : N;
  boot_cpu_has : Z -> bool;
  get_cpu_cacheinfo_id : N -> resctrl_scope -> Z;
  cpu_to_node : N -> Z;
  get_cpu_cacheinfo_level : N -> resctrl_scope -> option Z;
  kmalloc_ok : kobj -> bool;
  uninit : nat -> Z;
  resctrl_arch_is_mbm_total_enabled : bool;
  resctrl_arch_is_mbm_local_enabled : bool;
  resctrl_online_ctrl_domain : N -> Z -> Z;
  resctrl_online_mon_domain : N -> Z -> Z;
  msr_gp_fault : Z -> bool;
  msr_stick : Z -> Z -> Z;
  x86_vfm : intel_vfm;
  x86_stepping : Z
}.

Definition M (A : Type) : Type := kstate -> A * kstate.

Definition ret {A} (a : A) : M A := fun s => (a, s).

Definition bind {A B} (m : M A) (f : A -> M B) : M B :=
  fun s => let (a, s') := m s in f a s'.

Declare Scope kmonad_scope.
Delimit Scope kmonad_scope with kmonad.
Notation "x <- c1 ;; c2" := (bind c1 (fun x => c2))
  (at level 100, c1 at next level, right associativity) : kmonad_scope.
Notation "c1 ;; c2" := (bind c1 (fun _ => c2))
  (at level 100, right associativity) : kmonad_scope.
Open Scope kmonad_scope.

Definition with_trace (s : kstate) (t : list event) : kstate :=
  {| rdt_resources_all := rdt_resources_all s; rdt_alloc_capable := rdt_alloc_capable s;
     rdt_options_table := rdt_options_table s; pqr_state := pqr_state s;
     msrs := msrs s; once_fired := once_fired s; trace := t |}.

Definition with_once (s : kstate) (o : list once_site) : kstate :=
  {| rdt_resources_all := rdt_resources_all s; rdt_alloc_capable := rdt_alloc_capable s;
     rdt_options_table := rdt_options_table s; pqr_state := pqr_state s;
     msrs := msrs s; once_fired := o; trace := trace s |}.

Definition with_msrs (s : kstate) (m : Z -> Z) : kstate :=
  {| rdt_resources_all := rdt_resources_all s; rdt_alloc_capable := rdt_alloc_capable s;
     rdt_options_table := rdt_options_table s; pqr_state := pqr_state s;
     msrs := m; once_fired := once_fired s; trace := trace s |}.

Definition with_pqr_state (s : kstate) (p : N -> resctrl_pqr_state) : kstate :=
  {| rdt_resources_all := rdt_resources_all s; rdt_alloc_capable := rdt_alloc_capable s;
     rdt_options_table := rdt_options_table s; pqr_state := p;
     msrs := msrs s; once_fired := once_fired s; trace := trace s |}.

Definition with_resources (s : kstate) (t : list rdt_hw_resource) : kstate :=
  {| rdt_resources_all := t; rdt_alloc_capable := rdt_alloc_capable s;
     rdt_options_table := rdt_options_table s; pqr_state := pqr_state s;
     msrs := msrs s; once_fired := once_fired s; trace := trace s |}.

Definition with_alloc_capable (s : kstate) (b : bool) : kstate :=
  {| rdt_resources_all := rdt_resources_all s; rdt_alloc_capable := b;
     rdt_options_table := rdt_options_table s; pqr_state := pqr_state s;
     msrs := msrs s; once_fired := once_fired s; trace := trace s |}.

Definition with_options (s : kstate) (o : list rdt_options) : kstate :=
  {| rdt_resources_all := rdt_resources_all s; rdt_alloc_capable := rdt_alloc_capable s;
     rdt_options_table := o; pqr_state := pqr_state s;
     msrs := msrs s; once_fired := once_fired s; trace := trace s |}.

Definition emit (e : event) : M unit :=
  fun s => (tt, with_trace s (trace s ++ [e])).

Definition fired (site : once_site) (s : kstate) : bool :=
  existsb (once_site_eqb site) (once_fired s).

(** [pr_warn_once]: the message goes out the first time the site is reached. *)
Definition pr_warn_once (site : once_site) : M unit :=
  fun s =>
    if fired site s then (tt, s)
    else (tt, with_once (with_trace s (trace s ++ [EvWarnOnce site])) (site :: once_fired s)).

(** [WARN_ON_ONCE(cond)]: warns once when [cond] holds and hands [cond] back. *)
Definition WARN_ON_ONCE (site : once_site) (cond : bool) : M bool :=
  if cond then (pr_warn_once site ;; ret true) else ret false.

Definition when (b : bool) (m : M unit) : M unit := if b then m else ret tt.

(** [for (i = low; i < high; i++) body(i)] over unsigned bounds. *)
Fixpoint for_loop (n : nat) (i : Z) (body : Z -> M unit) : M unit :=
  match n with
  | O => ret tt
  | S n' => body i ;; for_loop n' (i + 1) body
  end.

Definition for_range (low high : Z) (body : Z -> M unit) : M unit :=
  for_loop (Z.to_nat (high - low)) low body.

Section WithEnv.

Variable E : kernel_env.

(** [wrmsrq_safe]: a #GP fault is reported as an error and leaves the register
    alone; otherwise the register keeps what the hardware lets stick. *)
Definition wrmsrq_safe (msr val : Z) : M Z :=
  fun s =>
    let s1 := with_trace s (trace s ++ [EvWrmsr msr val]) in
    if msr_gp_fault E msr then (- EIO, s1)
    else (0, with_msrs s1 (fun m => if m =? msr then msr_stick E msr val else msrs s1 m)).

Definition wrmsrq (msr val : Z) : M unit := wrmsrq_safe msr val ;; ret tt.

Definition wrmsr (msr low high : Z) : M unit :=
  wrmsrq msr (Z.lor (u32 low) (Z.shiftl (u32 high) 32)).

Definition rdmsrq (msr : Z) : M Z := fun s => (msrs s msr, s).

(** [kfree]: NULL is accepted and ignored. *)
Definition kfree {A} (p : option A) (o : kobj) : M unit :=
  match p with
  | Some _ => emit (EvKfree o)
  | None => ret tt
  end.

(** ** Capability probe of Haswell servers *)

Definition hsw_cache (c : resctrl_cache) : resctrl_cache :=
  {| cbm_len := 20; min_cbm_bits := 2; shareable_bits := 0xc0000;
     arch_has_sparse_bitmasks := false;
     arch_has_per_cpu_cfg := arch_has_per_cpu_cfg c |}.

Definition hsw_resource (r : rdt_resource) : rdt_resource :=
  {| rid := rid r; alloc_capable := true; mon_capable := mon_capable r;
     num_rmid := num_rmid r; ctrl_scope := ctrl_scope r; mon_scope := mon_scope r;
     cache := hsw_cache (cache r); membw := membw r;
     ctrl_domains := ctrl_domains r; mon_domains := mon_domains r;
     res_name := res_name r; schema_fmt := schema_fmt r; cdp_capable := cdp_capable r |}.

Definition hsw_hw_resource (h : rdt_hw_resource) : rdt_hw_resource :=
  {| r_resctrl := hsw_resource (r_resctrl h); num_closid := 4; msr_base := msr_base h;
     msr_update := msr_update h; cdp_enabled := cdp_enabled h |}.

(** [rdt_resources_all[i] = v]; the table has a fixed size. *)
Fixpoint table_set (tbl : list rdt_hw_resource) (i : nat) (f : rdt_hw_resource -> rdt_hw_resource)
  : list rdt_hw_resource :=
  match tbl, i with
  | [], _ => []
  | h :: t, O => f h :: t
  | h :: t, S i' => h :: table_set t i' f
  end.

Definition cache_alloc_hsw_probe : M unit :=
  let max_cbm := BIT_ULL_MASK 20 - 1 in
  err <- wrmsrq_safe MSR_IA32_L3_CBM_BASE max_cbm ;;
  if negb (err =? 0) then ret tt
  else
    l3_cbm_0 <- rdmsrq MSR_IA32_L3_CBM_BASE ;;
    if negb (l3_cbm_0 =? max_cbm) then ret tt
    else
      fun s =>
        (tt, with_alloc_capable
               (with_resources s
                  (table_set (rdt_resources_all s) (N.to_nat RDT_RESOURCE_L3) hsw_hw_resource))
               true).

(** ** Register programmer *)

(** [struct msr_param]: [res] and [dom] are pointers to a resource and to a
    control domain of it. *)
Record msr_param := {
  res : rdt_hw_resource;
  dom : rdt_hw_ctrl_domain;
  low : Z;
  high : Z
}.

(** [hw_dom->ctrl_val[i]]; the callers keep [i] inside the array, a read
    outside of it or through NULL shows as 0. *)
Definition ctrl_val_at (d : rdt_hw_ctrl_domain) (i : Z) : Z :=
  match ctrl_val d with
  | Some a => nth (Z.to_nat i) a 0
  | None => 0
  end.

Definition mba_wrmsr_amd (m : msr_param) : M unit :=
  for_range (low m) (high m)
    (fun i => wrmsrq (u32 (msr_base (res m) + i)) (ctrl_val_at (dom m) i)).

(** [delay_bw_map]: [bw] is an unsigned long, the result a u32. *)
Definition delay_bw_map (bw : Z) (r : rdt_resource) : M Z :=
  if delay_linear (membw r) then ret (u32 (u64 (MAX_MBA_BW - bw)))
  else (pr_warn_once ONCE_nonlinear_delay ;; ret MAX_MBA_BW).

Definition mba_wrmsr_intel (m : msr_param) : M unit :=
  for_range (low m) (high m)
    (fun i =>
       v <- delay_bw_map (ctrl_val_at (dom m) i) (r_resctrl (res m)) ;;
       wrmsrq (u32 (msr_base (res m) + i)) v).

Definition cat_wrmsr (m : msr_param) : M unit :=
  for_range (low m) (high m)
    (fun i => wrmsrq (u32 (msr_base (res m) + i)) (ctrl_val_at (dom m) i)).

(** [hw_res->msr_update(&m)]: the indirect call is recorded, then the writer
    the resource points to runs. *)
Definition call_msr_update (m : msr_param) : M unit :=
  emit (EvMsrUpdate (rid (r_resctrl (res m))) (id (hdr (d_resctrl (dom m)))) (low m) (high m)) ;;
  match msr_update (res m) with
  | cat_wrmsr_fn => cat_wrmsr m
  | mba_wrmsr_intel_fn => mba_wrmsr_intel m
  | mba_wrmsr_amd_fn => mba_wrmsr_amd m
  | msr_update_NULL => emit EvNullCall
  end.

Definition resctrl_arch_get_num_closid (h : rdt_hw_resource) : Z := num_closid h.

(** Modelled from the spec: [resctrl_get_default_ctrl] of linux/resctrl.h,
    the "no restriction" value: "for a cache: all representable bitmask bits
    set within the cache's bit-length; for bandwidth: 100% of maximum". *)
Definition resctrl_get_default_ctrl (r : rdt_resource) : Z :=
  match schema_fmt r with
  | RESCTRL_SCHEMA_BITMAP => u32 (BIT_MASK (cbm_len (cache r)) - 1)
  | RESCTRL_SCHEMA_RANGE => u32 (max_bw (membw r))
  end.

(** [dc[i] = v]; a store outside the array is not modelled. *)
Fixpoint array_set (a : list Z) (i : nat) (v : Z) : list Z :=
  match a, i with
  | [], _ => []
  | _ :: t, O => v :: t
  | x :: t, S i' => x :: array_set t i' v
  end.

Fixpoint setup_default_ctrlval_loop (n i : nat) (v : Z) (dc : list Z) : list Z :=
  match n with
  | O => dc
  | S n' => setup_default_ctrlval_loop n' (S i) v (array_set dc i v)
  end.

Definition setup_default_ctrlval (h : rdt_hw_resource) (dc : list Z) : list Z :=
  setup_default_ctrlval_loop (Z.to_nat (num_closid h)) 0
    (resctrl_get_default_ctrl (r_resctrl h)) dc.

Definition ctrl_domain_free (r : rdt_resource) (hw_dom : rdt_hw_ctrl_domain) : M unit :=
  kfree (ctrl_val hw_dom) (ObjCtrlVal (rid r) (id (hdr (d_resctrl hw_dom)))) ;;
  kfree (Some hw_dom) (ObjHwCtrlDom (rid r) (id (hdr (d_resctrl hw_dom)))).

Definition mon_domain_free (r : rdt_resource) (hw_dom : rdt_hw_mon_domain) : M unit :=
  kfree (arch_mbm_total hw_dom) (ObjMbmTotal (rid r) (id (mon_hdr (mon_d_resctrl hw_dom)))) ;;
  kfree (arch_mbm_local hw_dom) (ObjMbmLocal (rid r) (id (mon_hdr (mon_d_resctrl hw_dom)))) ;;
  kfree (Some hw_dom) (ObjHwMonDom (rid r) (id (mon_hdr (mon_d_resctrl hw_dom)))).

(** [kmalloc_array]/[kcalloc]: NULL when the allocator refuses, else a block
    of [n] elements, uninitialised or zeroed. *)
Definition kmalloc_array (n : Z) (o : kobj) : M (option (list Z)) :=
  if kmalloc_ok E o
  then (emit (EvKmalloc o) ;; ret (Some (map (uninit E) (seq 0 (Z.to_nat n)))))
  else ret None.

Definition kcalloc (n : Z) (o : kobj) : M (option (list Z)) :=
  if kmalloc_ok E o
  then (emit (EvKmalloc o) ;; ret (Some (repeat 0 (Z.to_nat n))))
  else ret None.

Definition domain_setup_ctrlval (h : rdt_hw_resource) (d : rdt_hw_ctrl_domain)
  : M (Z * rdt_hw_ctrl_domain) :=
  dc <- kmalloc_array (num_closid h) (ObjCtrlVal (rid (r_resctrl h)) (id (hdr (d_resctrl d)))) ;;
  match dc with
  | None => ret (- ENOMEM, d)
  | Some dc =>
      let d1 := ctrl_set_ctrl_val d (Some (setup_default_ctrlval h dc)) in
      call_msr_update {| res := h; dom := d1; low := 0; high := num_closid h |} ;;
      ret (0, d1)
  end.

(** The second allocation of [arch_domain_mbm_alloc] and its [return 0]. *)
Definition arch_domain_mbm_alloc_local (num_rmid : Z) (r : N) (hw_dom : rdt_hw_mon_domain)
  : M (Z * rdt_hw_mon_domain) :=
  let dom_id := id (mon_hdr (mon_d_resctrl hw_dom)) in
  if resctrl_arch_is_mbm_local_enabled E
  then
    l <- kcalloc num_rmid (ObjMbmLocal r dom_id) ;;
    match l with
    | None =>
        kfree (arch_mbm_total hw_dom) (ObjMbmTotal r dom_id) ;;
        ret (- ENOMEM, mon_set_mbm hw_dom None None)
    | Some _ => ret (0, mon_set_mbm hw_dom (arch_mbm_total hw_dom) l)
    end
  else ret (0, hw_dom).

Definition arch_domain_mbm_alloc (num_rmid : Z) (r : N) (hw_dom : rdt_hw_mon_domain)
  : M (Z * rdt_hw_mon_domain) :=
  let dom_id := id (mon_hdr (mon_d_resctrl hw_dom)) in
  if resctrl_arch_is_mbm_total_enabled E
  then
    t <- kcalloc num_rmid (ObjMbmTotal r dom_id) ;;
    match t with
    | None => ret (- ENOMEM, mon_set_mbm hw_dom None (arch_mbm_local hw_dom))
    | Some _ =>
        arch_domain_mbm_alloc_local num_rmid r (mon_set_mbm hw_dom t (arch_mbm_local hw_dom))
    end
  else arch_domain_mbm_alloc_local num_rmid r hw_dom.

Definition get_domain_id_from_scope (cpu : N) (scope : resctrl_scope) : Z :=
  match scope with
  | RESCTRL_L2_CACHE | RESCTRL_L3_CACHE => get_cpu_cacheinfo_id E cpu scope
  | RESCTRL_L3_NODE => cpu_to_node E cpu
  | RESCTRL_SCOPE_ZERO => - EINVAL
  end.

(** ** Domain registry *)

(** Modelled from the spec: [resctrl_find_domain] of the filesystem layer,
    "search the resource's domain list for an existing domain with that
    identity"; a domain is handed back with its place in the list, which is
    what the pointer of the C code stands for. *)
Fixpoint find_domain_from {A} (hdr_of : A -> rdt_domain_hdr) (h : list A) (dom_id : Z) (k : nat)
  : option (nat * A) :=
  match h with
  | [] => None
  | d :: t =>
      if dom_id =? id (hdr_of d) then Some (k, d)
      else find_domain_from hdr_of t dom_id (S k)
  end.

(** Modelled from the spec: the [pos] result of [resctrl_find_domain], "the
    position that preserves identity ordering": the first domain of a larger
    identity, or the end of the list. *)
Fixpoint find_add_pos {A} (hdr_of : A -> rdt_domain_hdr) (h : list A) (dom_id : Z) : nat :=
  match h with
  | [] => O
  | d :: t => if dom_id <? id (hdr_of d) then O else S (find_add_pos hdr_of t dom_id)
  end.

Definition resctrl_find_domain {A} (hdr_of : A -> rdt_domain_hdr) (h : list A) (dom_id : Z)
  : option (nat * A) * nat :=
  (find_domain_from hdr_of h dom_id 0, find_add_pos hdr_of h dom_id).

(** [list_add_tail_rcu(new, pos)]: link [new] in front of [pos]. *)
Definition list_add_tail_rcu {A} (d : A) (pos : nat) (h : list A) : list A :=
  firstn pos h ++ d :: skipn pos h.

(** [list_del_rcu(entry)]: unlink the node at place [k]. *)
Definition list_del_rcu {A} (k : nat) (h : list A) : list A :=
  firstn k h ++ skipn (S k) h.

(** A store through a pointer to the node at place [k]. *)
Fixpoint list_store {A} (k : nat) (d : A) (h : list A) : list A :=
  match h, k with
  | [], _ => []
  | _ :: t, O => d :: t
  | x :: t, S k' => x :: list_store k' d t
  end.

Definition cpumask_set_cpu (cpu : N) (m : N) : N := N.setbit m cpu.
Definition cpumask_clear_cpu (cpu : N) (m : N) : N := N.clearbit m cpu.
Definition cpumask_empty (m : N) : bool := (m =? 0)%N.

Definition ctrl_hdr (d : rdt_hw_ctrl_domain) : rdt_domain_hdr := hdr (d_resctrl d).
Definition mon_hw_hdr (d : rdt_hw_mon_domain) : rdt_domain_hdr := mon_hdr (mon_d_resctrl d).

Definition rdt_domain_reconfigure_cdp (r : rdt_resource) : M unit :=
  emit (EvReconfigureCdp (rid r)).

Definition arch_mon_domain_online (r : rdt_resource) (d : rdt_hw_mon_domain) : M unit :=
  emit (EvArchMonDomainOnline (rid r) (id (mon_hw_hdr d))).

(** [kzalloc_node]: a zeroed [struct rdt_hw_ctrl_domain], or NULL. *)
Definition ctrl_domain_zero : rdt_hw_ctrl_domain :=
  {| d_resctrl := {| hdr := {| id := 0; type := RESCTRL_CTRL_DOMAIN; cpu_mask := 0 |};
                     plr := None |};
     ctrl_val := None |}.

Definition mon_domain_zero : rdt_hw_mon_domain :=
  {| mon_d_resctrl := {| mon_hdr := {| id := 0; type := RESCTRL_CTRL_DOMAIN; cpu_mask := 0 |};
                         ci_id := 0 |};
     arch_mbm_total := None; arch_mbm_local := None |}.

Definition ctrl_domain_new (dom_id : Z) (cpu : N) : rdt_hw_ctrl_domain :=
  {| d_resctrl :=
       {| hdr := {| id := dom_id; type := RESCTRL_CTRL_DOMAIN;
                    cpu_mask := cpumask_set_cpu cpu (cpu_mask (ctrl_hdr ctrl_domain_zero)) |};
          plr := plr (d_resctrl ctrl_domain_zero) |};
     ctrl_val := ctrl_val ctrl_domain_zero |}.

Definition mon_domain_hdr_new (dom_id : Z) : rdt_hw_mon_domain :=
  {| mon_d_resctrl :=
       {| mon_hdr := {| id := dom_id; type := RESCTRL_MON_DOMAIN;
                        cpu_mask := cpu_mask (mon_hw_hdr mon_domain_zero) |};
          ci_id := ci_id (mon_d_resctrl mon_domain_zero) |};
     arch_mbm_total := arch_mbm_total mon_domain_zero;
     arch_mbm_local := arch_mbm_local mon_domain_zero |}.

Definition domain_add_cpu_ctrl (cpu : N) (h : rdt_hw_resource) : M rdt_hw_resource :=
  let r := r_resctrl h in
  let dom_id := get_domain_id_from_scope cpu (ctrl_scope r) in
  if dom_id <? 0 then (pr_warn_once ONCE_ctrl_id_add ;; ret h)
  else
    match resctrl_find_domain ctrl_hdr (ctrl_domains r) dom_id with
    | (Some (k, d), _) =>
        w <- WARN_ON_ONCE ONCE_ctrl_type_add
               (negb (domain_type_eqb (type (ctrl_hdr d)) RESCTRL_CTRL_DOMAIN)) ;;
        if w then ret h
        else
          let d1 := ctrl_set_cpu_mask d (cpumask_set_cpu cpu (cpu_mask (ctrl_hdr d))) in
          when (arch_has_per_cpu_cfg (cache r)) (rdt_domain_reconfigure_cdp r) ;;
          ret (hw_set_resctrl h (set_ctrl_domains r (list_store k d1 (ctrl_domains r))))
    | (None, add_pos) =>
        if negb (kmalloc_ok E (ObjHwCtrlDom (rid r) dom_id)) then ret h
        else
          emit (EvKmalloc (ObjHwCtrlDom (rid r) dom_id)) ;;
          let d := ctrl_domain_new dom_id cpu in
          rdt_domain_reconfigure_cdp r ;;
          ed <- domain_setup_ctrlval h d ;;
          let (err, d) := ed in
          if negb (err =? 0) then (ctrl_domain_free r d ;; ret h)
          else
            emit (EvListAddTailRcu (rid r) RESCTRL_CTRL_DOMAIN dom_id) ;;
            let linked := list_add_tail_rcu d add_pos (ctrl_domains r) in
            emit (EvOnlineCtrlDomain (rid r) dom_id) ;;
            let err := resctrl_online_ctrl_domain E (rid r) dom_id in
            if negb (err =? 0)
            then
              emit (EvListDelRcu (rid r) RESCTRL_CTRL_DOMAIN dom_id) ;;
              emit EvSynchronizeRcu ;;
              ctrl_domain_free r d ;;
              ret (hw_set_resctrl h (set_ctrl_domains r (list_del_rcu add_pos linked)))
            else ret (hw_set_resctrl h (set_ctrl_domains r linked))
    end.

Definition domain_add_cpu_mon (cpu : N) (h : rdt_hw_resource) : M rdt_hw_resource :=
  let r := r_resctrl h in
  let dom_id := get_domain_id_from_scope cpu (mon_scope r) in
  if dom_id <? 0 then (pr_warn_once ONCE_mon_id_add ;; ret h)
  else
    match resctrl_find_domain mon_hw_hdr (mon_domains r) dom_id with
    | (Some (k, d), _) =>
        w <- WARN_ON_ONCE ONCE_mon_type_add
               (negb (domain_type_eqb (type (mon_hw_hdr d)) RESCTRL_MON_DOMAIN)) ;;
        if w then ret h
        else
          let d1 := mon_set_cpu_mask d (cpumask_set_cpu cpu (cpu_mask (mon_hw_hdr d))) in
          ret (hw_set_resctrl h (set_mon_domains r (list_store k d1 (mon_domains r))))
    | (None, add_pos) =>
        if negb (kmalloc_ok E (ObjHwMonDom (rid r) dom_id)) then ret h
        else
          emit (EvKmalloc (ObjHwMonDom (rid r) dom_id)) ;;
          let d := mon_domain_hdr_new dom_id in
          match get_cpu_cacheinfo_level E cpu RESCTRL_L3_CACHE with
          | None =>
              pr_warn_once ONCE_mon_no_l3 ;;
              mon_domain_free r d ;;
              ret h
          | Some ci =>
              let d := mon_set_ci_id d ci in
              let d := mon_set_cpu_mask d (cpumask_set_cpu cpu (cpu_mask (mon_hw_hdr d))) in
              arch_mon_domain_online r d ;;
              ed <- arch_domain_mbm_alloc (num_rmid r) (rid r) d ;;
              let (err, d) := ed in
              if negb (err =? 0) then (mon_domain_free r d ;; ret h)
              else
                emit (EvListAddTailRcu (rid r) RESCTRL_MON_DOMAIN dom_id) ;;
                let linked := list_add_tail_rcu d add_pos (mon_domains r) in
                emit (EvOnlineMonDomain (rid r) dom_id) ;;
                let err := resctrl_online_mon_domain E (rid r) dom_id in
                if negb (err =? 0)
                then
                  emit (EvListDelRcu (rid r) RESCTRL_MON_DOMAIN dom_id) ;;
                  emit EvSynchronizeRcu ;;
                  mon_domain_free r d ;;
                  ret (hw_set_resctrl h (set_mon_domains r (list_del_rcu add_pos linked)))
                else ret (hw_set_resctrl h (set_mon_domains r linked))
          end
    end.

Definition domain_add_cpu (cpu : N) (h : rdt_hw_resource) : M rdt_hw_resource :=
  h1 <- (if alloc_capable (r_resctrl h) then domain_add_cpu_ctrl cpu h else ret h) ;;
  if mon_capable (r_resctrl h1) then domain_add_cpu_mon cpu h1 else ret h1.

Definition domain_remove_cpu_ctrl (cpu : N) (h : rdt_hw_resource) : M rdt_hw_resource :=
  let r := r_resctrl h in
  let dom_id := get_domain_id_from_scope cpu (ctrl_scope r) in
  if dom_id <? 0 then (pr_warn_once ONCE_ctrl_id_remove ;; ret h)
  else
    match fst (resctrl_find_domain ctrl_hdr (ctrl_domains r) dom_id) with
    | None => emit (EvWarn "Can't find control domain") ;; ret h
    | Some (k, d) =>
        w <- WARN_ON_ONCE ONCE_ctrl_type_remove
               (negb (domain_type_eqb (type (ctrl_hdr d)) RESCTRL_CTRL_DOMAIN)) ;;
        if w then ret h
        else
          let d1 := ctrl_set_cpu_mask d (cpumask_clear_cpu cpu (cpu_mask (ctrl_hdr d))) in
          let stored := list_store k d1 (ctrl_domains r) in
          if cpumask_empty (cpu_mask (ctrl_hdr d1))
          then
            emit (EvOfflineCtrlDomain (rid r) dom_id) ;;
            emit (EvListDelRcu (rid r) RESCTRL_CTRL_DOMAIN dom_id) ;;
            emit EvSynchronizeRcu ;;
            match plr (d_resctrl d1) with
            | Some p => emit (EvPlrClear p)
            | None => ret tt
            end ;;
            ctrl_domain_free r d1 ;;
            ret (hw_set_resctrl h (set_ctrl_domains r (list_del_rcu k stored)))
          else ret (hw_set_resctrl h (set_ctrl_domains r stored))
    end.

Definition domain_remove_cpu_mon (cpu : N) (h : rdt_hw_resource) : M rdt_hw_resource :=
  let r := r_resctrl h in
  let dom_id := get_domain_id_from_scope cpu (mon_scope r) in
  if dom_id <? 0 then (pr_warn_once ONCE_mon_id_remove ;; ret h)
  else
    match fst (resctrl_find_domain mon_hw_hdr (mon_domains r) dom_id) with
    | None => emit (EvWarn "Can't find monitor domain") ;; ret h
    | Some (k, d) =>
        w <- WARN_ON_ONCE ONCE_mon_type_remove
               (negb (domain_type_eqb (type (mon_hw_hdr d)) RESCTRL_MON_DOMAIN)) ;;
        if w then ret h
        else
          let d1 := mon_set_cpu_mask d (cpumask_clear_cpu cpu (cpu_mask (mon_hw_hdr d))) in
          let stored := list_store k d1 (mon_domains r) in
          if cpumask_empty (cpu_mask (mon_hw_hdr d1))
          then
            emit (EvOfflineMonDomain (rid r) dom_id) ;;
            emit (EvListDelRcu (rid r) RESCTRL_MON_DOMAIN dom_id) ;;
            emit EvSynchronizeRcu ;;
            mon_domain_free r d1 ;;
            ret (hw_set_resctrl h (set_mon_domains r (list_del_rcu k stored)))
          else ret (hw_set_resctrl h (set_mon_domains r stored))
    end.

Definition domain_remove_cpu (cpu : N) (h : rdt_hw_resource) : M rdt_hw_resource :=
  h1 <- (if alloc_capable (r_resctrl h) then domain_remove_cpu_ctrl cpu h else ret h) ;;
  if mon_capable (r_resctrl h1) then domain_remove_cpu_mon cpu h1 else ret h1.

(** ** Hotplug coordinator *)

Definition pqr_reserved : resctrl_pqr_state :=
  {| cur_rmid := RESCTRL_RESERVED_RMID; cur_closid := RESCTRL_RESERVED_CLOSID;
     default_rmid := RESCTRL_RESERVED_RMID; default_closid := RESCTRL_RESERVED_CLOSID |}.

(** The stores into [*this_cpu_ptr(&pqr_state)], the entry of the CPU the
    code runs on; they are kept in the trace, where the code that runs later
    finds them done. *)
Definition pqr_state_store (st : resctrl_pqr_state) : M unit :=
  fun s =>
    (tt, with_trace
           (with_pqr_state s
              (fun c => if (c =? smp_processor_id E)%N then st else pqr_state s c))
           (trace s ++ [EvPqrStateStore (smp_processor_id E) st])).

(** [clear_closid_rmid]: the four stores, then the register. *)
Definition clear_closid_rmid (cpu : N) : M unit :=
  pqr_state_store pqr_reserved ;;
  wrmsr MSR_IA32_PQR_ASSOC RESCTRL_RESERVED_RMID RESCTRL_RESERVED_CLOSID.

(** Modelled from the spec: [for_each_capable_rdt_resource] of internal.h, a
    walk over the resource table in its order that runs the body on "every
    allocation-capable" or "monitoring-capable" resource. *)
Fixpoint for_each_capable_rdt_resource (body : rdt_hw_resource -> M rdt_hw_resource)
  (tbl : list rdt_hw_resource) : M (list rdt_hw_resource) :=
  match tbl with
  | [] => ret []
  | h :: t =>
      h1 <- (if alloc_capable (r_resctrl h) || mon_capable (r_resctrl h)
             then body h else ret h) ;;
      t1 <- for_each_capable_rdt_resource body t ;;
      ret (h1 :: t1)
  end.

Definition get_resources : M (list rdt_hw_resource) := fun s => (rdt_resources_all s, s).
Definition put_resources (t : list rdt_hw_resource) : M unit :=
  fun s => (tt, with_resources s t).

Definition resctrl_arch_online_cpu (cpu : N) : M Z :=
  emit EvMutexLock ;;
  tbl <- get_resources ;;
  tbl1 <- for_each_capable_rdt_resource (domain_add_cpu cpu) tbl ;;
  put_resources tbl1 ;;
  emit EvMutexUnlock ;;
  clear_closid_rmid cpu ;;
  emit (EvOnlineCpu cpu) ;;
  ret 0.

Definition resctrl_arch_offline_cpu (cpu : N) : M Z :=
  emit (EvOfflineCpu cpu) ;;
  emit EvMutexLock ;;
  tbl <- get_resources ;;
  tbl1 <- for_each_capable_rdt_resource (domain_remove_cpu cpu) tbl ;;
  put_resources tbl1 ;;
  emit EvMutexUnlock ;;
  clear_closid_rmid cpu ;;
  ret 0.

(** ** Option override *)

Definition RDT_FLAG_CMT : nat := 0.
Definition RDT_FLAG_MBM_TOTAL : nat := 1.
Definition RDT_FLAG_MBM_LOCAL : nat := 2.
Definition RDT_FLAG_L3_CAT : nat := 3.
Definition RDT_FLAG_L3_CDP : nat := 4.
Definition RDT_FLAG_L2_CAT : nat := 5.
Definition RDT_FLAG_L2_CDP : nat := 6.
Definition RDT_FLAG_MBA : nat := 7.
Definition RDT_FLAG_SMBA : nat := 8.
Definition RDT_FLAG_BMEC : nat := 9.

(** The feature numbers of asm/cpufeatures.h the option table refers to;
    they are taken as given. *)
Record cpufeatures := {
  X86_FEATURE_CQM_OCCUP_LLC : Z;
  X86_FEATURE_CQM_MBM_TOTAL : Z;
  X86_FEATURE_CQM_MBM_LOCAL : Z;
  X86_FEATURE_CAT_L3 : Z;
  X86_FEATURE_CDP_L3 : Z;
  X86_FEATURE_CAT_L2 : Z;
  X86_FEATURE_CDP_L2 : Z;
  X86_FEATURE_MBA : Z;
  X86_FEATURE_SMBA : Z;
  X86_FEATURE_BMEC : Z
}.

Definition feature_list (F : cpufeatures) : list Z :=
  [ X86_FEATURE_CQM_OCCUP_LLC F; X86_FEATURE_CQM_MBM_TOTAL F; X86_FEATURE_CQM_MBM_LOCAL F;
    X86_FEATURE_CAT_L3 F; X86_FEATURE_CDP_L3 F; X86_FEATURE_CAT_L2 F; X86_FEATURE_CDP_L2 F;
    X86_FEATURE_MBA F; X86_FEATURE_SMBA F; X86_FEATURE_BMEC F ].

Definition RDT_OPT (n : string) (f : Z) : rdt_options :=
  {| name := n; flag := f; force_off := false; force_on := false |}.

(** The static [rdt_options[]] array, in the order of the [RDT_FLAG_*] indices. *)
Definition rdt_options_init (F : cpufeatures) : list rdt_options :=
  [ RDT_OPT "cmt" (X86_FEATURE_CQM_OCCUP_LLC F);
    RDT_OPT "mbmtotal" (X86_FEATURE_CQM_MBM_TOTAL F);
    RDT_OPT "mbmlocal" (X86_FEATURE_CQM_MBM_LOCAL F);
    RDT_OPT "l3cat" (X86_FEATURE_CAT_L3 F);
    RDT_OPT "l3cdp" (X86_FEATURE_CDP_L3 F);
    RDT_OPT "l2cat" (X86_FEATURE_CAT_L2 F);
    RDT_OPT "l2cdp" (X86_FEATURE_CDP_L2 F);
    RDT_OPT "mba" (X86_FEATURE_MBA F);
    RDT_OPT "smba" (X86_FEATURE_SMBA F);
    RDT_OPT "bmec" (X86_FEATURE_BMEC F) ].

(** [strsep(&str, ",")]: the token in front of the first comma, and the new
    [str]: what follows the comma, or NULL when there was none. *)
Fixpoint strsep (s : string) : string * option string :=
  match s with
  | EmptyString => (EmptyString, None)
  | String c s' =>
      if Ascii.eqb c ","%char then (EmptyString, Some s')
      else let (tok, rest) := strsep s' in (String c tok, rest)
  end.

(** The inner [for] of [set_rdt_options]: the first entry of that name gets
    its flag, then [break]. *)
Fixpoint set_rdt_option (tok : string) (off : bool) (o : list rdt_options) : list rdt_options :=
  match o with
  | [] => []
  | e :: o' =>
      if String.eqb tok (name e)
      then (if off
            then {| name := name e; flag := flag e; force_off := true; force_on := force_on e |}
            else {| name := name e; flag := flag e; force_off := force_off e; force_on := true |})
           :: o'
      else e :: set_rdt_option tok off o'
  end.

(** [force_off = *tok == '!'; if (force_off) tok++;] *)
Definition tok_force_off (tok : string) : bool :=
  match tok with
  | String c _ => Ascii.eqb c "!"%char
  | EmptyString => false
  end.

Definition tok_name (tok : string) : string :=
  match tok with
  | String c t => if Ascii.eqb c "!"%char then t else tok
  | EmptyString => tok
  end.

(** The [while ((tok = strsep(&str, ",")) != NULL)] loop; every turn takes at
    least one character or ends the string, so [fuel] above its length is
    never used up. *)
Fixpoint set_rdt_options_loop (fuel : nat) (str : option string) (o : list rdt_options)
  : list rdt_options :=
  match fuel with
  | O => o
  | S fuel' =>
      match str with
      | None => o
      | Some s =>
          let (tok, str') := strsep s in
          set_rdt_options_loop fuel' str' (set_rdt_option (tok_name tok) (tok_force_off tok) o)
      end
  end.

Definition skip_equals (str : string) : string :=
  match str with
  | String c t => if Ascii.eqb c "="%char then t else str
  | EmptyString => str
  end.

Definition set_rdt_options (str : string) : M Z :=
  fun s =>
    let str := skip_equals str in
    (1, with_options s
          (set_rdt_options_loop (S (String.length str)) (Some str) (rdt_options_table s))).

(** The [for] of [rdt_cpu_has]: the first entry of that flag decides. *)
Fixpoint rdt_cpu_has_loop (fl : Z) (ret0 : bool) (o : list rdt_options) : bool :=
  match o with
  | [] => ret0
  | e :: o' =>
      if fl =? flag e
      then
        let ret1 := if force_off e then false else ret0 in
        let ret2 := if force_on e then true else ret1 in
        ret2
      else rdt_cpu_has_loop fl ret0 o'
  end.

Definition rdt_cpu_has (fl : Z) : M bool :=
  fun s =>
    let ret0 := boot_cpu_has E fl in
    if negb ret0 then (ret0, s)
    else (rdt_cpu_has_loop fl ret0 (rdt_options_table s), s).

(** ** Quirks *)

Definition option_force_off (i : nat) : M bool :=
  fun s => (match nth_error (rdt_options_table s) i with
            | Some e => force_off e
            | None => false
            end, s).

Definition intel_rdt_mbm_apply_quirk : M unit := emit EvMbmApplyQuirk.

Definition __check_quirks_intel : M unit :=
  match x86_vfm E with
  | INTEL_HASWELL_X =>
      off <- option_force_off RDT_FLAG_L3_CAT ;;
      if negb off then cache_alloc_hsw_probe else ret tt
  | INTEL_SKYLAKE_X =>
      (if x86_stepping E <=? 4
       then set_rdt_options "!cmt,!mbmtotal,!mbmlocal,!l3cat"
       else set_rdt_options "!l3cat") ;;
      intel_rdt_mbm_apply_quirk
  | INTEL_BROADWELL_X => intel_rdt_mbm_apply_quirk
  | INTEL_OTHER_VFM => ret tt
  end.

End WithEnv.

(** * Capability discovery *)

(** [boot_cpu_data.x86_vendor], as far as this file tells vendors apart. *)
Inductive x86_vendor_id := X86_VENDOR_INTEL | X86_VENDOR_AMD | X86_VENDOR_OTHER.

(** The four registers a CPUID leaf answers with. *)
Record cpuid_regs := { eax : Z; ebx : Z; ecx : Z; edx : Z }.

(** [enum resctrl_event_id], and every other value the type can hold. *)
Inductive resctrl_event_id :=
| QOS_L3_OCCUP_EVENT_ID | QOS_L3_MBM_TOTAL_EVENT_ID | QOS_L3_MBM_LOCAL_EVENT_ID
| QOS_OTHER_EVENT_ID.

(** What the probing code takes from outside this file: the CPU it runs on,
    the bit-field layout of the CPUID unions and the constants of
    internal.h and cpufeatures.h (all taken as given), and the L3
    monitoring probe of monitor.c. *)
Record probe_env := {
  x86_vendor : x86_vendor_id;
  cpuid_count : Z -> Z -> cpuid_regs;
  cbm_len_width : Z;
  max_delay_width : Z;
  cos_max_width : Z;
  noncont_pos : Z;
  MBA_IS_LINEAR : Z;
  X86_FEATURE_RDT_A : Z;
  X86_FEATURE_PER_THREAD_MBA : Z;
  X86_FEATURE_CQM_LLC : Z;
  MBM_CNTR_WIDTH_OFFSET_AMD : Z;
  qos_event_id : resctrl_event_id -> Z;
  rdt_get_mon_l3_config : rdt_resource -> Z * rdt_resource
}.

(** A bit-field of [width] bits at bit [pos] of a 32-bit register. *)
Definition bitfield (v pos width : Z) : Z := Z.land (Z.shiftr v pos) (Z.ones width).

(** An unsigned 32-bit value stored into an [int]. *)
Definition s32 (z : Z) : Z := if u32 z <? 2 ^ 31 then u32 z else u32 z - 2 ^ 32.

Definition set_cache (r : rdt_resource) (c : resctrl_cache) : rdt_resource :=
  {| rid := rid r; alloc_capable := alloc_capable r; mon_capable := mon_capable r;
     num_rmid := num_rmid r; ctrl_scope := ctrl_scope r; mon_scope := mon_scope r;
     cache := c; membw := membw r;
     ctrl_domains := ctrl_domains r; mon_domains := mon_domains r;
     res_name := res_name r; schema_fmt := schema_fmt r; cdp_capable := cdp_capable r |}.

Definition set_membw (r : rdt_resource) (b : resctrl_membw) : rdt_resource :=
  {| rid := rid r; alloc_capable := alloc_capable r; mon_capable := mon_capable r;
     num_rmid := num_rmid r; ctrl_scope := ctrl_scope r; mon_scope := mon_scope r;
     cache := cache r; membw := b;
     ctrl_domains := ctrl_domains r; mon_domains := mon_domains r;
     res_name := res_name r; schema_fmt := schema_fmt r; cdp_capable := cdp_capable r |}.

Definition set_alloc_capable (r : rdt_resource) (b : bool) : rdt_resource :=
  {| rid := rid r; alloc_capable := b; mon_capable := mon_capable r;
     num_rmid := num_rmid r; ctrl_scope := ctrl_scope r; mon_scope := mon_scope r;
     cache := cache r; membw := membw r;
     ctrl_domains := ctrl_domains r; mon_domains := mon_domains r;
     res_name := res_name r; schema_fmt := schema_fmt r; cdp_capable := cdp_capable r |}.

Definition set_cdp_capable (r : rdt_resource) (b : bool) : rdt_resource :=
  {| rid := rid r; alloc_capable := alloc_capable r; mon_capable := mon_capable r;
     num_rmid := num_rmid r; ctrl_scope := ctrl_scope r; mon_scope := mon_scope r;
     cache := cache r; membw := membw r;
     ctrl_domains := ctrl_domains r; mon_domains := mon_domains r;
     res_name := res_name r; schema_fmt := schema_fmt r; cdp_capable := b |}.

Definition set_rid (r : rdt_resource) (n : N) : rdt_resource :=
  {| rid := n; alloc_capable := alloc_capable r; mon_capable := mon_capable r;
     num_rmid := num_rmid r; ctrl_scope := ctrl_scope r; mon_scope := mon_scope r;
     cache := cache r; membw := membw r;
     ctrl_domains := ctrl_domains r; mon_domains := mon_domains r;
     res_name := res_name r; schema_fmt := schema_fmt r; cdp_capable := cdp_capable r |}.

Definition hw_set_num_closid (h : rdt_hw_resource) (n : Z) : rdt_hw_resource :=
  {| r_resctrl := r_resctrl h; num_closid := n; msr_base := msr_base h;
     msr_update := msr_update h; cdp_enabled := cdp_enabled h |}.

Definition hw_set_msr (h : rdt_hw_resource) (base : Z) (upd : msr_update_fn) : rdt_hw_resource :=
  {| r_resctrl := r_resctrl h; num_closid := num_closid h; msr_base := base;
     msr_update := upd; cdp_enabled := cdp_enabled h |}.

Definition hw_set_cdp_enabled (h : rdt_hw_resource) (b : bool) : rdt_hw_resource :=
  {| r_resctrl := r_resctrl h; num_closid := num_closid h; msr_base := msr_base h;
     msr_update := msr_update h; cdp_enabled := b |}.

(** [rdt_resources_all[i]] is changed by [f]. *)
Definition modify_resource (i : N) (f : rdt_hw_resource -> rdt_hw_resource) : M unit :=
  fun s => (tt, with_resources s (table_set (rdt_resources_all s) (N.to_nat i) f)).

(** A probe that works on [rdt_resources_all[i]] through a pointer and
    answers a [bool]: what it leaves in the entry is stored back.  The table
    has [RDT_NUM_RESOURCES] entries, a shorter one is left alone. *)
Definition probe_resource (i : N) (f : rdt_hw_resource -> M (bool * rdt_hw_resource))
  : M bool :=
  fun s =>
    match nth_error (rdt_resources_all s) (N.to_nat i) with
    | Some h =>
        let (res, s1) := f h s in
        (fst res,
         with_resources s1 (table_set (rdt_resources_all s1) (N.to_nat i) (fun _ => snd res)))
    | None => (false, s)
    end.

(** [resctrl_arch_system_num_rmid_idx]: the RMID count of L3, 0 without one. *)
Definition resctrl_arch_system_num_rmid_idx (tbl : list rdt_hw_resource) : Z :=
  match nth_error tbl (N.to_nat RDT_RESOURCE_L3) with
  | Some h => u32 (num_rmid (r_resctrl h))
  | None => 0
  end.

(** Modelled from the spec: [for_each_rdt_resource] of internal.h, a walk
    over the resource table in its order. *)
Definition for_each_rdt_resource (body : rdt_hw_resource -> rdt_hw_resource)
  (tbl : list rdt_hw_resource) : list rdt_hw_resource :=
  map body tbl.

(** The first loop of [resctrl_arch_late_init]: entry [i] gets [rid = i]. *)
Fixpoint init_rids (i : N) (tbl : list rdt_hw_resource) : list rdt_hw_resource :=
  match tbl with
  | [] => []
  | h :: t => hw_set_resctrl h (set_rid (r_resctrl h) i) :: init_rids (i + 1) t
  end.

Section WithProbe.

Variable E : kernel_env.
Variable F : cpufeatures.
Variable P : probe_env.

(** [rdt_get_mb_table]: logs with [pr_info] that no table exists and
    answers false; the CPU family and model printed with the message are not
    kept. *)
Definition rdt_get_mb_table (r : rdt_resource) : M bool :=
  emit (EvInfo "MBA b/w map not implemented") ;;
  ret false.

Definition __get_mem_config_intel (h : rdt_hw_resource) : M (bool * rdt_hw_resource) :=
  let regs := cpuid_count P 0x10 3 in
  let r := r_resctrl h in
  let h1 := hw_set_num_closid h (u32 (bitfield (edx regs) 0 (cos_max_width P) + 1)) in
  let max_delay := u32 (bitfield (eax regs) 0 (max_delay_width P) + 1) in
  let finish (mb : resctrl_membw) :=
    let mode := if boot_cpu_has E (X86_FEATURE_PER_THREAD_MBA P)
                then THREAD_THROTTLE_PER_THREAD else THREAD_THROTTLE_MAX in
    let mb' := {| min_bw := min_bw mb; max_bw := max_bw mb; bw_gran := bw_gran mb;
                  delay_linear := delay_linear mb; arch_needs_linear := arch_needs_linear mb;
                  throttle_mode := mode |} in
    (true, hw_set_resctrl h1 (set_alloc_capable (set_membw r mb') true)) in
  let mb1 := {| min_bw := min_bw (membw r); max_bw := MAX_MBA_BW; bw_gran := bw_gran (membw r);
                delay_linear := delay_linear (membw r); arch_needs_linear := true;
                throttle_mode := throttle_mode (membw r) |} in
  if negb (Z.land (ecx regs) (MBA_IS_LINEAR P) =? 0)
  then
    ret (finish {| min_bw := u32 (MAX_MBA_BW - max_delay); max_bw := max_bw mb1;
                   bw_gran := u32 (MAX_MBA_BW - max_delay);
                   delay_linear := true; arch_needs_linear := arch_needs_linear mb1;
                   throttle_mode := throttle_mode mb1 |})
  else
    ok <- rdt_get_mb_table (set_membw r mb1) ;;
    if negb ok
    then ret (false, hw_set_resctrl h1 (set_membw r mb1))
    else
      ret (finish {| min_bw := min_bw mb1; max_bw := max_bw mb1; bw_gran := bw_gran mb1;
                     delay_linear := delay_linear mb1; arch_needs_linear := false;
                     throttle_mode := throttle_mode mb1 |}).

(** [__rdt_get_mem_config_amd].  [1 << eax] is a 32-bit shift by a [u32]
    count: for a count of 32 or more C leaves the result undefined, and the
    x86 shift instruction the kernel is compiled to takes the count modulo
    32, which is what is modelled. *)
Definition __rdt_get_mem_config_amd (h : rdt_hw_resource) : bool * rdt_hw_resource :=
  let r := r_resctrl h in
  let subleaf := if (rid r =? RDT_RESOURCE_SMBA)%N then 2 else 1 in
  let regs := cpuid_count P 0x80000020 subleaf in
  let h1 := hw_set_num_closid h (u32 (edx regs + 1)) in
  let mb := {| min_bw := 0; max_bw := u32 (Z.shiftl 1 (u32 (eax regs) mod 32)); bw_gran := 1;
               delay_linear := false; arch_needs_linear := false;
               throttle_mode := THREAD_THROTTLE_UNDEFINED |} in
  (true, hw_set_resctrl h1 (set_alloc_capable (set_membw r mb) true)).

Definition rdt_get_cache_alloc_cfg (idx : Z) (h : rdt_hw_resource) : rdt_hw_resource :=
  let regs := cpuid_count P 0x10 idx in
  let r := r_resctrl h in
  let h1 := hw_set_num_closid h (u32 (bitfield (edx regs) 0 (cos_max_width P) + 1)) in
  let cbm := bitfield (eax regs) 0 (cbm_len_width P) in
  let default_ctrl := u32 (BIT_MASK (cbm + 1) - 1) in
  let c := cache r in
  let sparse := if match x86_vendor P with X86_VENDOR_INTEL => true | _ => false end
                then negb (bitfield (ecx regs) (noncont_pos P) 1 =? 0)
                else arch_has_sparse_bitmasks c in
  let c' := {| cbm_len := u32 (cbm + 1); min_cbm_bits := min_cbm_bits c;
               shareable_bits := Z.land (ebx regs) default_ctrl;
               arch_has_sparse_bitmasks := sparse;
               arch_has_per_cpu_cfg := arch_has_per_cpu_cfg c |} in
  hw_set_resctrl h1 (set_alloc_capable (set_cache r c') true).

Definition rdt_get_cdp_config (level : N) : M unit :=
  modify_resource level
    (fun h => hw_set_resctrl (hw_set_cdp_enabled h false) (set_cdp_capable (r_resctrl h) true)).

Definition rdt_get_cdp_l3_config : M unit := rdt_get_cdp_config RDT_RESOURCE_L3.
Definition rdt_get_cdp_l2_config : M unit := rdt_get_cdp_config RDT_RESOURCE_L2.

(** [rdt_ctrl_update]: the argument is the [msr_param]. *)
Definition rdt_ctrl_update (m : msr_param) : M unit := call_msr_update E m.

Definition resctrl_arch_is_evt_configurable (evt : resctrl_event_id) : M bool :=
  b <- rdt_cpu_has E (X86_FEATURE_BMEC F) ;;
  if negb b then ret false
  else
    match evt with
    | QOS_L3_MBM_TOTAL_EVENT_ID => rdt_cpu_has E (X86_FEATURE_CQM_MBM_TOTAL F)
    | QOS_L3_MBM_LOCAL_EVENT_ID => rdt_cpu_has E (X86_FEATURE_CQM_MBM_LOCAL F)
    | _ => ret false
    end.

Definition get_mem_config : M bool :=
  b <- rdt_cpu_has E (X86_FEATURE_MBA F) ;;
  if negb b then ret false
  else
    match x86_vendor P with
    | X86_VENDOR_INTEL => probe_resource RDT_RESOURCE_MBA __get_mem_config_intel
    | X86_VENDOR_AMD =>
        probe_resource RDT_RESOURCE_MBA (fun h => ret (__rdt_get_mem_config_amd h))
    | X86_VENDOR_OTHER => ret false
    end.

Definition get_slow_mem_config : M bool :=
  b <- rdt_cpu_has E (X86_FEATURE_SMBA F) ;;
  if negb b then ret false
  else
    match x86_vendor P with
    | X86_VENDOR_AMD =>
        probe_resource RDT_RESOURCE_SMBA (fun h => ret (__rdt_get_mem_config_amd h))
    | _ => ret false
    end.

Definition get_rdt_alloc_resources : M bool :=
  fun s =>
    if rdt_alloc_capable s then (true, s)
    else if negb (boot_cpu_has E (X86_FEATURE_RDT_A P)) then (false, s)
    else
      (l3 <- rdt_cpu_has E (X86_FEATURE_CAT_L3 F) ;;
       (if l3
        then
          modify_resource RDT_RESOURCE_L3 (rdt_get_cache_alloc_cfg 1) ;;
          cdp <- rdt_cpu_has E (X86_FEATURE_CDP_L3 F) ;;
          when cdp rdt_get_cdp_l3_config
        else ret tt) ;;
       l2 <- rdt_cpu_has E (X86_FEATURE_CAT_L2 F) ;;
       (if l2
        then
          modify_resource RDT_RESOURCE_L2 (rdt_get_cache_alloc_cfg 2) ;;
          cdp <- rdt_cpu_has E (X86_FEATURE_CDP_L2 F) ;;
          when cdp rdt_get_cdp_l2_config
        else ret tt) ;;
       mb <- get_mem_config ;;
       smb <- get_slow_mem_config ;;
       ret (l3 || l2 || mb || smb)) s.

(** [get_rdt_mon_resources]: [rdt_mon_features] is a global of monitor.c; it
    comes in as [feat] and goes out with the answer. *)
Definition get_rdt_mon_resources (feat : Z) : M (bool * Z) :=
  b1 <- rdt_cpu_has E (X86_FEATURE_CQM_OCCUP_LLC F) ;;
  let f1 := if b1 then Z.lor feat (Z.shiftl 1 (qos_event_id P QOS_L3_OCCUP_EVENT_ID)) else feat in
  b2 <- rdt_cpu_has E (X86_FEATURE_CQM_MBM_TOTAL F) ;;
  let f2 := if b2 then Z.lor f1 (Z.shiftl 1 (qos_event_id P QOS_L3_MBM_TOTAL_EVENT_ID)) else f1 in
  b3 <- rdt_cpu_has E (X86_FEATURE_CQM_MBM_LOCAL F) ;;
  let f3 := if b3 then Z.lor f2 (Z.shiftl 1 (qos_event_id P QOS_L3_MBM_LOCAL_EVENT_ID)) else f2 in
  if f3 =? 0 then ret (false, f3)
  else
    err <- (fun s =>
              match nth_error (rdt_resources_all s) (N.to_nat RDT_RESOURCE_L3) with
              | Some h =>
                  (fst (rdt_get_mon_l3_config P (r_resctrl h)),
                   with_resources s
                     (table_set (rdt_resources_all s) (N.to_nat RDT_RESOURCE_L3)
                        (fun h0 => hw_set_resctrl h0
                                     (snd (rdt_get_mon_l3_config P (r_resctrl h0))))))
              | None => (0, s)
              end) ;;
    ret (err =? 0, f3).

Definition check_quirks : M unit :=
  match x86_vendor P with
  | X86_VENDOR_INTEL => __check_quirks_intel E
  | _ => ret tt
  end.

(** [get_rdt_resources]: the answer, then the new [rdt_mon_capable] and
    [rdt_mon_features]. *)
Definition get_rdt_resources (feat : Z) : M (bool * (bool * Z)) :=
  a <- get_rdt_alloc_resources ;;
  (fun s => (tt, with_alloc_capable s a)) ;;
  mf <- get_rdt_mon_resources feat ;;
  ret (fst mf || a, mf).

Definition rdt_init_res_defs_intel_body (h : rdt_hw_resource) : rdt_hw_resource :=
  let r := r_resctrl h in
  if ((rid r =? RDT_RESOURCE_L3) || (rid r =? RDT_RESOURCE_L2))%N
  then
    hw_set_resctrl h
      (set_cache r {| cbm_len := cbm_len (cache r); min_cbm_bits := 1;
                      shareable_bits := shareable_bits (cache r);
                      arch_has_sparse_bitmasks := arch_has_sparse_bitmasks (cache r);
                      arch_has_per_cpu_cfg := false |})
  else if (rid r =? RDT_RESOURCE_MBA)%N
       then hw_set_msr h MSR_IA32_MBA_THRTL_BASE mba_wrmsr_intel_fn
       else h.

Definition rdt_init_res_defs_amd_body (h : rdt_hw_resource) : rdt_hw_resource :=
  let r := r_resctrl h in
  if ((rid r =? RDT_RESOURCE_L3) || (rid r =? RDT_RESOURCE_L2))%N
  then
    hw_set_resctrl h
      (set_cache r {| cbm_len := cbm_len (cache r); min_cbm_bits := 0;
                      shareable_bits := shareable_bits (cache r);
                      arch_has_sparse_bitmasks := true;
                      arch_has_per_cpu_cfg := true |})
  else if (rid r =? RDT_RESOURCE_MBA)%N
       then hw_set_msr h MSR_IA32_MBA_BW_BASE mba_wrmsr_amd_fn
       else if (rid r =? RDT_RESOURCE_SMBA)%N
            then hw_set_msr h MSR_IA32_SMBA_BW_BASE mba_wrmsr_amd_fn
            else h.

Definition rdt_init_res_defs_intel : M unit :=
  fun s => (tt, with_resources s
                  (for_each_rdt_resource rdt_init_res_defs_intel_body (rdt_resources_all s))).

Definition rdt_init_res_defs_amd : M unit :=
  fun s => (tt, with_resources s
                  (for_each_rdt_resource rdt_init_res_defs_amd_body (rdt_resources_all s))).

Definition rdt_init_res_defs : M unit :=
  match x86_vendor P with
  | X86_VENDOR_INTEL => rdt_init_res_defs_intel
  | X86_VENDOR_AMD => rdt_init_res_defs_amd
  | X86_VENDOR_OTHER => ret tt
  end.

(** [resctrl_arch_late_init] up to its first [return]: identities, vendor
    defaults, quirks, discovery.  The answer is that of [get_rdt_resources];
    when it is false the function returns [-ENODEV]. *)
Definition resctrl_arch_late_init_probe (feat : Z) : M (bool * (bool * Z)) :=
  (fun s => (tt, with_resources s (init_rids 0 (rdt_resources_all s)))) ;;
  rdt_init_res_defs ;;
  check_quirks ;;
  get_rdt_resources feat.

End WithProbe.

(** [struct cpuinfo_x86], the members [resctrl_cpu_detect] deals with. *)
Record cpuinfo_x86 := {
  c_x86_vendor : x86_vendor_id;
  x86_capability : Z -> bool;
  x86_cache_max_rmid : Z;
  x86_cache_occ_scale : Z;
  x86_cache_mbm_width_offset : Z
}.

(** [resctrl_cpu_detect]: the three members are [int]s. *)
Definition resctrl_cpu_detect (F : cpufeatures) (P : probe_env) (c : cpuinfo_x86)
  : cpuinfo_x86 :=
  if negb (x86_capability c (X86_FEATURE_CQM_LLC P))
  then {| c_x86_vendor := c_x86_vendor c; x86_capability := x86_capability c;
          x86_cache_max_rmid := -1; x86_cache_occ_scale := -1;
          x86_cache_mbm_width_offset := -1 |}
  else
    let max_rmid := s32 (ebx (cpuid_count P 0xf 0)) in
    if x86_capability c (X86_FEATURE_CQM_OCCUP_LLC F)
       || x86_capability c (X86_FEATURE_CQM_MBM_TOTAL F)
       || x86_capability c (X86_FEATURE_CQM_MBM_LOCAL F)
    then
      let regs := cpuid_count P 0xf 1 in
      let off := Z.land (eax regs) 0xff in
      let off' := if match c_x86_vendor c with X86_VENDOR_AMD => true | _ => false end
                     && (off =? 0)
                  then MBM_CNTR_WIDTH_OFFSET_AMD P else off in
      {| c_x86_vendor := c_x86_vendor c; x86_capability := x86_capability c;
         x86_cache_max_rmid := s32 (ecx regs); x86_cache_occ_scale := s32 (ebx regs);
         x86_cache_mbm_width_offset := off' |}
    else
      {| c_x86_vendor := c_x86_vendor c; x86_capability := x86_capability c;
         x86_cache_max_rmid := max_rmid; x86_cache_occ_scale := x86_cache_occ_scale c;
         x86_cache_mbm_width_offset := x86_cache_mbm_width_offset c |}.

(** * Vocabulary of the statements *)

(** What a resource pointer finds in the table: nothing through NULL, and
    nothing at an address outside the table. *)
Definition rdt_resource_at (tbl : list rdt_hw_resource) (p : rdt_resource_ptr)
  : option rdt_resource :=
  match p with
  | PTR_NULL => None
  | PTR_RESOURCE idx => option_map r_resctrl (nth_error tbl (N.to_nat idx))
  end.

(** The entry of the option table that [rdt_cpu_has] stops at. *)
Definition option_of_flag (fl : Z) (o : list rdt_options) : option rdt_options :=
  find (fun e => fl =? flag e) o.

(** The tokens [strsep] cuts a string into, one per turn of the loop. *)
Fixpoint tokens (s : string) : list string :=
  match s with
  | EmptyString => [EmptyString]
  | String c s' =>
      if Ascii.eqb c ","%char then EmptyString :: tokens s'
      else match tokens s' with
           | t :: r => String c t :: r
           | [] => [String c EmptyString]
           end
  end.

(** A token names no option of the table. *)
Definition unrecognized (tok : string) (o : list rdt_options) : Prop :=
  forall e, In e o -> name e <> tok_name tok.

(** A computation only appends events, all of them of the kind [P]. *)
Definition emits {A} (P : event -> bool) (m : M A) : Prop :=
  forall s, exists t, trace (snd (m s)) = trace s ++ t /\ forallb P t = true.

(** What the three register writers may do: MSR writes and the one-time
    warning of the delay map (and the call through a NULL pointer). *)
Definition is_write_event (e : event) : bool :=
  match e with
  | EvWrmsr _ _ | EvWarnOnce _ | EvNullCall => true
  | _ => false
  end.

(** Events of the domain registry: everything but the lock, the per-core
    hooks and the reset of the per-CPU state of the hotplug coordinator. *)
Definition is_domain_event (e : event) : bool :=
  match e with
  | EvMutexLock | EvMutexUnlock | EvOnlineCpu _ | EvOfflineCpu _
  | EvPqrStateStore _ _ => false
  | _ => true
  end.

Definition is_msr_update (e : event) : bool :=
  match e with
  | EvMsrUpdate _ _ _ _ => true
  | _ => false
  end.

Definition kobj_eqb (a b : kobj) : bool :=
  match a, b with
  | ObjHwCtrlDom r1 d1, ObjHwCtrlDom r2 d2
  | ObjCtrlVal r1 d1, ObjCtrlVal r2 d2
  | ObjHwMonDom r1 d1, ObjHwMonDom r2 d2
  | ObjMbmTotal r1 d1, ObjMbmTotal r2 d2
  | ObjMbmLocal r1 d1, ObjMbmLocal r2 d2 => (r1 =? r2)%N && (d1 =? d2)
  | _, _ => false
  end.

Fixpoint remove_obj (o : kobj) (l : list kobj) : list kobj :=
  match l with
  | [] => []
  | x :: t => if kobj_eqb o x then t else x :: remove_obj o t
  end.

(** The heap blocks a run of events leaves allocated, given those that were
    allocated before. *)
Fixpoint live_objects (t : list event) (live : list kobj) : list kobj :=
  match t with
  | [] => live
  | EvKmalloc o :: t' => live_objects t' (o :: live)
  | EvKfree o :: t' => live_objects t' (remove_obj o live)
  | _ :: t' => live_objects t' live
  end.

(** The identities of the domains of a list. *)
Definition domain_ids {A} (hdr_of : A -> rdt_domain_hdr) (l : list A) : list Z :=
  map (fun d => id (hdr_of d)) l.

(** A domain list of kind [t] is well formed: identities are unique, every
    domain has the type of the list and at least one member core. *)
Definition domains_ok {A} (hdr_of : A -> rdt_domain_hdr) (t : resctrl_domain_type)
  (l : list A) : Prop :=
  NoDup (domain_ids hdr_of l) /\
  Forall (fun d => type (hdr_of d) = t /\ cpu_mask (hdr_of d) <> 0%N) l.

Definition resource_ok (h : rdt_hw_resource) : Prop :=
  domains_ok ctrl_hdr RESCTRL_CTRL_DOMAIN (ctrl_domains (r_resctrl h)) /\
  domains_ok mon_hw_hdr RESCTRL_MON_DOMAIN (mon_domains (r_resctrl h)).

(** The domain of identity [dom_id], if the list has one. *)
Definition domain_of_id {A} (hdr_of : A -> rdt_domain_hdr) (l : list A) (dom_id : Z)
  : option A :=
  find (fun d => dom_id =? id (hdr_of d)) l.

(** The member cores of the domain of identity [dom_id]: those of its mask,
    and none when the list has no such domain. *)
Definition members {A} (hdr_of : A -> rdt_domain_hdr) (l : list A) (dom_id : Z) : N :=
  match domain_of_id hdr_of l dom_id with
  | Some d => cpu_mask (hdr_of d)
  | None => 0%N
  end.

Definition ctrl_members (h : rdt_hw_resource) (dom_id : Z) : N :=
  members ctrl_hdr (ctrl_domains (r_resctrl h)) dom_id.

Definition mon_members (h : rdt_hw_resource) (dom_id : Z) : N :=
  members mon_hw_hdr (mon_domains (r_resctrl h)) dom_id.

(** The control domain [domain_add_cpu_ctrl] builds for the first core of an
    identity, once its quota array is set up. *)
Definition ctrl_domain_created (h : rdt_hw_resource) (dom_id : Z) (cpu : N)
  : rdt_hw_ctrl_domain :=
  ctrl_set_ctrl_val (ctrl_domain_new dom_id cpu)
    (Some (repeat (resctrl_get_default_ctrl (r_resctrl h)) (Z.to_nat (num_closid h)))).

(** What tearing a control domain down emits after the grace period. *)
Definition ctrl_teardown_frees (rid0 : N) (d : rdt_hw_ctrl_domain) : list event :=
  match plr (d_resctrl d) with Some p => [EvPlrClear p] | None => [] end
  ++ match ctrl_val d with
     | Some _ => [EvKfree (ObjCtrlVal rid0 (id (ctrl_hdr d)))]
     | None => []
     end
  ++ [EvKfree (ObjHwCtrlDom rid0 (id (ctrl_hdr d)))].

Definition mon_teardown_frees (rid0 : N) (d : rdt_hw_mon_domain) : list event :=
  match arch_mbm_total d with
  | Some _ => [EvKfree (ObjMbmTotal rid0 (id (mon_hw_hdr d)))]
  | None => []
  end
  ++ match arch_mbm_local d with
     | Some _ => [EvKfree (ObjMbmLocal rid0 (id (mon_hw_hdr d)))]
     | None => []
     end
  ++ [EvKfree (ObjHwMonDom rid0 (id (mon_hw_hdr d)))].

(** The monitor domain [domain_add_cpu_mon] builds for the first core of an
    identity: counter arrays only for the counter kinds that are enabled. *)
Definition mon_domain_created (E : kernel_env) (r : rdt_resource) (dom_id : Z) (cpu : N)
  (ci : Z) : rdt_hw_mon_domain :=
  {| mon_d_resctrl :=
       {| mon_hdr := {| id := dom_id; type := RESCTRL_MON_DOMAIN;
                        cpu_mask := cpumask_set_cpu cpu 0 |};
          ci_id := ci |};
     arch_mbm_total := if resctrl_arch_is_mbm_total_enabled E
                       then Some (repeat 0 (Z.to_nat (num_rmid r))) else None;
     arch_mbm_local := if resctrl_arch_is_mbm_local_enabled E
                       then Some (repeat 0 (Z.to_nat (num_rmid r))) else None |}.

(** Everything [domain_add_cpu_mon] needs to create a domain is granted. *)
Definition mon_create_succeeds (E : kernel_env) (r : rdt_resource) (dom_id : Z) (cpu : N)
  : bool :=
  kmalloc_ok E (ObjHwMonDom (rid r) dom_id)
  && match get_cpu_cacheinfo_level E cpu RESCTRL_L3_CACHE with
     | Some _ => true
     | None => false
     end
  && (negb (resctrl_arch_is_mbm_total_enabled E) || kmalloc_ok E (ObjMbmTotal (rid r) dom_id))
  && (negb (resctrl_arch_is_mbm_local_enabled E) || kmalloc_ok E (ObjMbmLocal (rid r) dom_id))
  && (resctrl_online_mon_domain E (rid r) dom_id =? 0).

(** The state [pr_warn_once] leaves. *)
Definition warn_once_state (site : once_site) (s : kstate) : kstate :=
  snd (pr_warn_once site s).

(** Where the domain a run of events deals with stands with respect to the
    list: not linked, linked, unlinked with readers possibly still on it, or
    unlinked and past the grace period. *)
Inductive link_state := NotLinked | Linked | Unlinked | Synced.

(** No block is freed while the domain is linked or before the grace period
    that follows its unlinking is over. *)
Fixpoint rcu_safe (st : link_state) (t : list event) : bool :=
  match t with
  | [] => true
  | EvListAddTailRcu _ _ _ :: t' => rcu_safe Linked t'
  | EvListDelRcu _ _ _ :: t' => rcu_safe Unlinked t'
  | EvSynchronizeRcu :: t' =>
      rcu_safe (match st with Unlinked => Synced | _ => st end) t'
  | EvKfree _ :: t' =>
      match st with
      | Linked | Unlinked => false
      | _ => rcu_safe st t'
      end
  | _ :: t' => rcu_safe st t'
  end.

(** Everything [domain_add_cpu_ctrl] needs to create a domain is granted. *)
Definition ctrl_create_succeeds (E : kernel_env) (r : rdt_resource) (dom_id : Z) : bool :=
  kmalloc_ok E (ObjHwCtrlDom (rid r) dom_id)
  && kmalloc_ok E (ObjCtrlVal (rid r) dom_id)
  && (resctrl_online_ctrl_domain E (rid r) dom_id =? 0).

(** Whether a core that comes online joins a control domain of the
    resource: the resource is allocation capable, the core has an identity
    there, and the domain of that identity is linked already or can be
    created. *)
Definition ctrl_joins (E : kernel_env) (cpu : N) (h : rdt_hw_resource) : bool :=
  let r := r_resctrl h in
  let dom_id := get_domain_id_from_scope E cpu (ctrl_scope r) in
  alloc_capable r && (0 <=? dom_id)
  && match domain_of_id ctrl_hdr (ctrl_domains r) dom_id with
     | Some _ => true
     | None => ctrl_create_succeeds E r dom_id
     end.

(** The same for its monitor domain. *)
Definition mon_joins (E : kernel_env) (cpu : N) (h : rdt_hw_resource) : bool :=
  let r := r_resctrl h in
  let dom_id := get_domain_id_from_scope E cpu (mon_scope r) in
  mon_capable r && (0 <=? dom_id)
  && match domain_of_id mon_hw_hdr (mon_domains r) dom_id with
     | Some _ => true
     | None => mon_create_succeeds E r dom_id cpu
     end.

(** Whether a core that goes offline leaves a control domain of the
    resource, and a monitor domain. *)
Definition ctrl_leaves (E : kernel_env) (cpu : N) (h : rdt_hw_resource) : bool :=
  let r := r_resctrl h in
  alloc_capable r && (0 <=? get_domain_id_from_scope E cpu (ctrl_scope r)).

Definition mon_leaves (E : kernel_env) (cpu : N) (h : rdt_hw_resource) : bool :=
  let r := r_resctrl h in
  mon_capable r && (0 <=? get_domain_id_from_scope E cpu (mon_scope r)).

(** The value [clear_closid_rmid] writes to the association register: the
    reserved RMID in the low half, the reserved CLOSID in the high half. *)
Definition pqr_assoc_reserved : Z :=
  Z.lor (u32 RESCTRL_RESERVED_RMID) (Z.shiftl (u32 RESCTRL_RESERVED_CLOSID) 32).

(** A resource the hotplug callbacks visit. *)
Definition capable (h : rdt_hw_resource) : bool :=
  alloc_capable (r_resctrl h) || mon_capable (r_resctrl h).

(** ** A machine to run the code on *)

(** Feature numbers to run the code with, in the word * 32 + bit form of
    asm/cpufeatures.h; all that matters below is that they differ. *)
Definition sample_features : cpufeatures :=
  {| X86_FEATURE_CQM_OCCUP_LLC := 11 * 32 + 1;
     X86_FEATURE_CQM_MBM_TOTAL := 11 * 32 + 2;
     X86_FEATURE_CQM_MBM_LOCAL := 11 * 32 + 3;
     X86_FEATURE_CAT_L3 := 7 * 32 + 4;
     X86_FEATURE_CDP_L3 := 7 * 32 + 6;
     X86_FEATURE_CAT_L2 := 7 * 32 + 5;
     X86_FEATURE_CDP_L2 := 7 * 32 + 15;
     X86_FEATURE_MBA := 7 * 32 + 18;
     X86_FEATURE_SMBA := 11 * 32 + 21;
     X86_FEATURE_BMEC := 11 * 32 + 22 |}.

(** Two hardware threads per cache instance, an allocator and hooks that
    succeed, MSRs that keep what is written; [hw] is what CPUID reports. *)
Definition sample_env (hw : Z -> bool) : kernel_env :=
  {| smp_processor_id := 0;
     boot_cpu_has := hw;
     get_cpu_cacheinfo_id := fun cpu _ => Z.of_N (cpu / 2);
     cpu_to_node := fun _ => 0;
     get_cpu_cacheinfo_level := fun cpu _ => Some (Z.of_N (cpu / 2));
     kmalloc_ok := fun _ => true;
     uninit := fun i => 0xdead + Z.of_nat i;
     resctrl_arch_is_mbm_total_enabled := true;
     resctrl_arch_is_mbm_local_enabled := true;
     resctrl_online_ctrl_domain := fun _ _ => 0;
     resctrl_online_mon_domain := fun _ _ => 0;
     msr_gp_fault := fun _ => false;
     msr_stick := fun _ v => v;
     x86_vfm := INTEL_HASWELL_X;
     x86_stepping := 2 |}.

Definition pqr_zero : resctrl_pqr_state :=
  {| cur_rmid := 0; cur_closid := 0; default_rmid := 0; default_closid := 0 |}.

(** The state the statically initialised data starts in. *)
Definition kstate_init (F : cpufeatures) : kstate :=
  {| rdt_resources_all := rdt_resources_all_init;
     rdt_alloc_capable := false;
     rdt_options_table := rdt_options_init F;
     pqr_state := fun _ => pqr_zero;
     msrs := fun _ => 0;
     once_fired := [];
     trace := [] |}.

(** The L3 resource as the Haswell probe leaves it: 4 classes, 20 mask bits. *)
Definition sample_l3 : rdt_hw_resource :=
  hsw_hw_resource
    (hw_resource_init
       (resource_init "L3" RESCTRL_L3_CACHE RESCTRL_L3_CACHE RESCTRL_SCHEMA_BITMAP)
       MSR_IA32_L3_CBM_BASE cat_wrmsr_fn).

(** A machine short of memory for the local counters and whose control
    domain hook refuses. *)
Definition failing_env : kernel_env :=
  {| smp_processor_id := 0;
     boot_cpu_has := fun _ => true;
     get_cpu_cacheinfo_id := fun cpu _ => Z.of_N (cpu / 2);
     cpu_to_node := fun _ => 0;
     get_cpu_cacheinfo_level := fun cpu _ => Some (Z.of_N (cpu / 2));
     kmalloc_ok := fun o => match o with ObjMbmLocal _ _ => false | _ => true end;
     uninit := fun i => 0xdead + Z.of_nat i;
     resctrl_arch_is_mbm_total_enabled := true;
     resctrl_arch_is_mbm_local_enabled := true;
     resctrl_online_ctrl_domain := fun _ _ => - ENOMEM;
     resctrl_online_mon_domain := fun _ _ => 0;
     msr_gp_fault := fun _ => false;
     msr_stick := fun _ v => v;
     x86_vfm := INTEL_HASWELL_X;
     x86_stepping := 2 |}.

(** A machine whose registers take every write but keep only the low 12
    bits of it. *)
Definition narrow_mask_env : kernel_env :=
  {| smp_processor_id := 0; boot_cpu_has := fun _ => true;
     get_cpu_cacheinfo_id := fun _ _ => 0; cpu_to_node := fun _ => 0;
     get_cpu_cacheinfo_level := fun _ _ => None; kmalloc_ok := fun _ => true;
     uninit := fun _ => 0;
     resctrl_arch_is_mbm_total_enabled := false;
     resctrl_arch_is_mbm_local_enabled := false;
     resctrl_online_ctrl_domain := fun _ _ => 0;
     resctrl_online_mon_domain := fun _ _ => 0;
     msr_gp_fault := fun _ => false;
     msr_stick := fun _ v => Z.land v 0xFFF;
     x86_vfm := INTEL_HASWELL_X; x86_stepping := 2 |}.

(** One turn of the loop of [set_rdt_options], for the token [tok]. *)
Definition set_rdt_token (o : list rdt_options) (tok : string) : list rdt_options :=
  set_rdt_option (tok_name tok) (tok_force_off tok) o.

(** Whether a token names an option of the table. *)
Definition recognized (o : list rdt_options) (tok : string) : bool :=
  existsb (String.eqb (tok_name tok)) (map name o).

(** An option entry after parsing: same name and flag, overrides that were
    set are still set. *)
Definition option_grown (e e' : rdt_options) : Prop :=
  name e' = name e /\ flag e' = flag e /\
  (force_off e = true -> force_off e' = true) /\
  (force_on e = true -> force_on e' = true).

(** The answer of [rdt_cpu_has], as a function of the option table. *)
Definition rdt_cpu_has_val (E : kernel_env) (fl : Z) (o : list rdt_options) : bool :=
  if negb (boot_cpu_has E fl) then false else rdt_cpu_has_loop fl true o.

(** Whether allocation discovery reaches [rdt_get_mb_table], the one place
    where it logs: allocation in CPUID, the bandwidth feature present and
    not switched off, an Intel processor, and no linear bit. *)
Definition mb_table_logged (E : kernel_env) (F : cpufeatures) (P : probe_env) (s : kstate)
  : bool :=
  boot_cpu_has E (X86_FEATURE_RDT_A P)
  && rdt_cpu_has_val E (X86_FEATURE_MBA F) (rdt_options_table s)
  && match x86_vendor P with
     | X86_VENDOR_INTEL => Z.land (ecx (cpuid_count P 0x10 3)) (MBA_IS_LINEAR P) =? 0
     | _ => false
     end.

(** The allocation-capable flags of a resource table. *)
Definition alloc_flags (tbl : list rdt_hw_resource) : list bool :=
  map (fun h => alloc_capable (r_resctrl h)) tbl.

(** A resource that can be allocated from has a register writer. *)
Definition writer_present (h : rdt_hw_resource) : Prop :=
  alloc_capable (r_resctrl h) = true -> msr_update h <> msr_update_NULL.

(** What the vendor defaults establish and discovery keeps: the cache
    resources write with [cat_wrmsr]; a bandwidth resource has the writer of
    the vendor, or, on a vendor without one, is not allocation capable. *)
Definition vendor_defaults_ok (v : x86_vendor_id) (tbl : list rdt_hw_resource) : Prop :=
  exists l3 l2 mba smba,
    tbl = [l3; l2; mba; smba] /\
    msr_update l3 = cat_wrmsr_fn /\ msr_update l2 = cat_wrmsr_fn /\
    match v with
    | X86_VENDOR_INTEL =>
        msr_update mba = mba_wrmsr_intel_fn /\ alloc_capable (r_resctrl smba) = false
    | X86_VENDOR_AMD =>
        msr_update mba = mba_wrmsr_amd_fn /\ msr_update smba = mba_wrmsr_amd_fn
    | X86_VENDOR_OTHER =>
        alloc_capable (r_resctrl mba) = false /\ alloc_capable (r_resctrl smba) = false
    end.

(** A computation keeps a property of the resource table. *)
Definition keeps_table {A} (I : list rdt_hw_resource -> Prop) (m : M A) : Prop :=
  forall s, I (rdt_resources_all s) -> I (rdt_resources_all (snd (m s))).

(** A CPU to probe: the bit-field layout and constants as the headers have
    them, Intel, L3 with 16 classes of 11 mask bits, L2 with 8 classes of 8,
    bandwidth allocation with linear delay up to 90 and 8 classes. *)
Definition sample_probe : probe_env :=
  {| x86_vendor := X86_VENDOR_INTEL;
     cpuid_count := fun leaf sub =>
       if leaf =? 0x10
       then (if sub =? 1 then {| eax := 10; ebx := 0x600; ecx := 4; edx := 15 |}
             else if sub =? 2 then {| eax := 7; ebx := 0; ecx := 0; edx := 7 |}
             else {| eax := 89; ebx := 0; ecx := 4; edx := 7 |})
       else {| eax := 24; ebx := 255; ecx := 127; edx := 0 |};
     cbm_len_width := 5;
     max_delay_width := 12;
     cos_max_width := 16;
     noncont_pos := 3;
     MBA_IS_LINEAR := 4;
     X86_FEATURE_RDT_A := 7 * 32 + 3;
     X86_FEATURE_PER_THREAD_MBA := 11 * 32 + 7;
     X86_FEATURE_CQM_LLC := 11 * 32 + 0;
     MBM_CNTR_WIDTH_OFFSET_AMD := 20;
     qos_event_id := fun e => match e with
                              | QOS_L3_OCCUP_EVENT_ID => 1
                              | QOS_L3_MBM_TOTAL_EVENT_ID => 2
                              | QOS_L3_MBM_LOCAL_EVENT_ID => 3
                              | QOS_OTHER_EVENT_ID => 0
                              end;
     rdt_get_mon_l3_config := fun r => (0, r) |}.

(** The same CPU with other answers from CPUID. *)
Definition probe_with_cpuid (P : probe_env) (f : Z -> Z -> cpuid_regs) : probe_env :=
  {| x86_vendor := x86_vendor P;
     cpuid_count := f;
     cbm_len_width := cbm_len_width P;
     max_delay_width := max_delay_width P;
     cos_max_width := cos_max_width P;
     noncont_pos := noncont_pos P;
     MBA_IS_LINEAR := MBA_IS_LINEAR P;
     X86_FEATURE_RDT_A := X86_FEATURE_RDT_A P;
     X86_FEATURE_PER_THREAD_MBA := X86_FEATURE_PER_THREAD_MBA P;
     X86_FEATURE_CQM_LLC := X86_FEATURE_CQM_LLC P;
     MBM_CNTR_WIDTH_OFFSET_AMD := MBM_CNTR_WIDTH_OFFSET_AMD P;
     qos_event_id := qos_event_id P;
     rdt_get_mon_l3_config := rdt_get_mon_l3_config P |}.

(** [sample_probe] with a bandwidth leaf that lacks the linear bit. *)
Definition sample_probe_nonlinear : probe_env :=
  probe_with_cpuid sample_probe
    (fun leaf sub =>
       if (leaf =? 0x10) && (sub =? 3) then {| eax := 89; ebx := 0; ecx := 0; edx := 7 |}
       else cpuid_count sample_probe leaf sub).

(** The core [cpu] is in neither of the domains it would join in [h]. *)
Definition not_member (E : kernel_env) (cpu : N) (h : rdt_hw_resource) : Prop :=
  let r := r_resctrl h in
  (forall d,
      domain_of_id ctrl_hdr (ctrl_domains r)
        (get_domain_id_from_scope E cpu (ctrl_scope r)) = Some d ->
      N.testbit (cpu_mask (ctrl_hdr d)) cpu = false) /\
  (forall d,
      domain_of_id mon_hw_hdr (mon_domains r)
        (get_domain_id_from_scope E cpu (mon_scope r)) = Some d ->
      N.testbit (cpu_mask (mon_hw_hdr d)) cpu = false).

(** [s'] differs from [s] at most in trace, registers and fired warnings. *)
Definition same_config (s s' : kstate) : Prop :=
  rdt_resources_all s' = rdt_resources_all s /\
  rdt_alloc_capable s' = rdt_alloc_capable s /\
  rdt_options_table s' = rdt_options_table s /\
  pqr_state s' = pqr_state s.

Definition keeps_config {A} (m : M A) : Prop := forall s, same_config s (snd (m s)).

(** The command line forced the feature [fl] on. *)
Definition forced_on (fl : Z) (o : list rdt_options) : bool :=
  match option_of_flag fl o with
  | Some e => force_on e
  | None => false
  end.

(** The allocation feature [fl] of entry [i] of the resource table is
    denied: [rdt_cpu_has] answers false for it, the entry is not allocation
    capable, and for L3, which the Haswell probe can enable without CPUID,
    the option entry of L3 allocation is forced off. *)
Definition alloc_denied (E : kernel_env) (fl : Z) (i : nat) (s : kstate) : Prop :=
  rdt_cpu_has_val E fl (rdt_options_table s) = false /\
  option_map (fun h => alloc_capable (r_resctrl h)) (nth_error (rdt_resources_all s) i)
  = Some false /\
  (i = 0%nat ->
   option_map force_off (nth_error (rdt_options_table s) RDT_FLAG_L3_CAT) = Some true).

(** The allocation features and the table entries they stand for. *)
Definition alloc_features (F : cpufeatures) : list (nat * Z) :=
  [ (0%nat, X86_FEATURE_CAT_L3 F); (1%nat, X86_FEATURE_CAT_L2 F);
    (2%nat, X86_FEATURE_MBA F); (3%nat, X86_FEATURE_SMBA F) ].

Definition keeps_inv {A} (J : kstate -> Prop) (m : M A) : Prop :=
  forall s, J s -> J (snd (m s)).

(** * Properties *)

(** ** Resource table *)

(** C10. The lookup by kind answers NULL for a level at or above the number
    of resources, and otherwise the address of the record at exactly that
    index, which the table has.  The address it answers is never one outside
    the table: an index it hands out is the level asked for and below the
    number of resources. *)
Theorem resctrl_arch_get_resource_in_table :
  forall (tbl : list rdt_hw_resource) (l : N),
    List.length tbl = N.to_nat RDT_NUM_RESOURCES ->
    ((RDT_NUM_RESOURCES <= l)%N -> resctrl_arch_get_resource l = PTR_NULL) /\
    ((l < RDT_NUM_RESOURCES)%N ->
       resctrl_arch_get_resource l = PTR_RESOURCE l /\
       exists h, nth_error tbl (N.to_nat l) = Some h /\
                 rdt_resource_at tbl (resctrl_arch_get_resource l) = Some (r_resctrl h)) /\
    (forall idx,
        resctrl_arch_get_resource l = PTR_RESOURCE idx ->
        idx = l /\ (idx < RDT_NUM_RESOURCES)%N /\ (N.to_nat idx < List.length tbl)%nat).
Proof.
  intros tbl l Hlen. unfold resctrl_arch_get_resource.
  destruct (N.leb_spec RDT_NUM_RESOURCES l) as [Hge|Hlt].
  - split; [reflexivity|]. split; [intros Hl; lia|]. intros idx Hc. discriminate Hc.
  - assert (Hin : (N.to_nat l < List.length tbl)%nat) by (rewrite Hlen; lia).
    split; [intros Hl; lia|]. split.
    + intros _. split; [reflexivity|]. cbn [rdt_resource_at].
      destruct (nth_error tbl (N.to_nat l)) as [h|] eqn:Hn.
      * exists h. split; reflexivity.
      * apply nth_error_None in Hn. lia.
    + intros idx Hc. injection Hc as <-. repeat split; assumption.
Qed.

Lemma resctrl_arch_get_resource_in_table_witness :
  resctrl_arch_get_resource 4 = PTR_NULL /\
  resctrl_arch_get_resource 7 = PTR_NULL /\
  resctrl_arch_get_resource RDT_RESOURCE_MBA = PTR_RESOURCE 2 /\
  exists h, nth_error rdt_resources_all_init 2 = Some h /\
            rdt_resource_at rdt_resources_all_init (resctrl_arch_get_resource RDT_RESOURCE_MBA)
            = Some (r_resctrl h).
Proof.
  destruct (resctrl_arch_get_resource_in_table rdt_resources_all_init 4 eq_refl) as [H4 _].
  destruct (resctrl_arch_get_resource_in_table rdt_resources_all_init 7 eq_refl) as [H7 _].
  destruct (resctrl_arch_get_resource_in_table rdt_resources_all_init RDT_RESOURCE_MBA eq_refl)
    as (_ & H2 & _).
  split; [apply H4; vm_compute; discriminate|].
  split; [apply H7; vm_compute; discriminate|].
  destruct H2 as [Hp Hd]; [reflexivity|].
  split; [exact Hp | exact Hd].
Defined.

(** ** Option override *)

Lemma rdt_cpu_has_loop_find :
  forall fl ret0 o,
    rdt_cpu_has_loop fl ret0 o =
    match option_of_flag fl o with
    | Some e => if force_on e then true else if force_off e then false else ret0
    | None => ret0
    end.
Proof.
  intros fl ret0 o. unfold option_of_flag.
  induction o as [|e o IH]; simpl; [reflexivity|].
  destruct (fl =? flag e); [reflexivity | exact IH].
Qed.

(** C1 (as the code has it). A feature the hardware does not report is absent
    whatever the option table says.  For a feature the hardware reports, the
    first table entry of that flag decides: force-on makes it present (also
    when force-off is set as well), force-off alone makes it absent, and with
    neither, or with no entry, the result is the hardware bit.  The query
    leaves the state alone. *)
Theorem rdt_cpu_has_override :
  forall (E : kernel_env) (s : kstate) (fl : Z),
    snd (rdt_cpu_has E fl s) = s /\
    (boot_cpu_has E fl = false -> fst (rdt_cpu_has E fl s) = false) /\
    (boot_cpu_has E fl = true ->
     forall e, option_of_flag fl (rdt_options_table s) = Some e ->
       (force_on e = true -> fst (rdt_cpu_has E fl s) = true) /\
       (force_on e = false -> force_off e = true -> fst (rdt_cpu_has E fl s) = false) /\
       (force_on e = false -> force_off e = false ->
        fst (rdt_cpu_has E fl s) = boot_cpu_has E fl)) /\
    (option_of_flag fl (rdt_options_table s) = None ->
     fst (rdt_cpu_has E fl s) = boot_cpu_has E fl).
Proof.
  intros E s fl. unfold rdt_cpu_has.
  destruct (boot_cpu_has E fl) eqn:Hhw; simpl;
    rewrite ?rdt_cpu_has_loop_find.
  - split; [reflexivity|]. split; [discriminate|]. split.
    + intros _ e He. rewrite He.
      split; [|split]; intros Hon; rewrite Hon; try reflexivity;
        intros Hoff; now rewrite Hoff.
    + intros Hn. now rewrite Hn.
  - split; [reflexivity|]. split; [reflexivity|]. split; [discriminate|reflexivity].
Qed.

Lemma rdt_cpu_has_override_witness :
  fst (rdt_cpu_has (sample_env (fun _ => false)) (X86_FEATURE_MBA sample_features)
         (snd (set_rdt_options "mba" (kstate_init sample_features)))) = false /\
  fst (rdt_cpu_has (sample_env (fun _ => true)) (X86_FEATURE_MBA sample_features)
         (snd (set_rdt_options "!mba,mba" (kstate_init sample_features)))) = true /\
  fst (rdt_cpu_has (sample_env (fun _ => true)) (X86_FEATURE_CAT_L3 sample_features)
         (snd (set_rdt_options "!l3cat" (kstate_init sample_features)))) = false /\
  fst (rdt_cpu_has (sample_env (fun _ => true)) (X86_FEATURE_CAT_L2 sample_features)
         (kstate_init sample_features)) = true /\
  fst (rdt_cpu_has (sample_env (fun _ => true)) 999 (kstate_init sample_features)) = true.
Proof.
  split; [|split; [|split; [|split]]].
  - refine (proj1 (proj2 (rdt_cpu_has_override
              (sample_env (fun _ => false))
              (snd (set_rdt_options "mba" (kstate_init sample_features)))
              (X86_FEATURE_MBA sample_features))) eq_refl).
  - refine (proj1 (proj1 (proj2 (proj2 (rdt_cpu_has_override
              (sample_env (fun _ => true))
              (snd (set_rdt_options "!mba,mba" (kstate_init sample_features)))
              (X86_FEATURE_MBA sample_features)))) eq_refl _ eq_refl) eq_refl).
  - refine (proj1 (proj2 (proj1 (proj2 (proj2 (rdt_cpu_has_override
              (sample_env (fun _ => true))
              (snd (set_rdt_options "!l3cat" (kstate_init sample_features)))
              (X86_FEATURE_CAT_L3 sample_features)))) eq_refl _ eq_refl)) eq_refl eq_refl).
  - refine (proj2 (proj2 (proj1 (proj2 (proj2 (rdt_cpu_has_override
              (sample_env (fun _ => true)) (kstate_init sample_features)
              (X86_FEATURE_CAT_L2 sample_features)))) eq_refl _ eq_refl)) eq_refl eq_refl).
  - refine (proj2 (proj2 (proj2 (rdt_cpu_has_override
              (sample_env (fun _ => true)) (kstate_init sample_features) 999))) eq_refl).
Defined.

(** C1, as the specification words it, fails on the code: with the option
    forced on and a CPU that does not report the feature the answer is
    false; and with both overrides set on a CPU that reports the feature the
    answer is true although the option is marked force-off. *)
Lemma rdt_cpu_has_force_counterexample :
  let mba := X86_FEATURE_MBA sample_features in
  let s_on := snd (set_rdt_options "mba" (kstate_init sample_features)) in
  let s_both := snd (set_rdt_options "!mba,mba" (kstate_init sample_features)) in
  (option_map force_on (option_of_flag mba (rdt_options_table s_on)) = Some true /\
   fst (rdt_cpu_has (sample_env (fun _ => false)) mba s_on) = false) /\
  (option_map force_off (option_of_flag mba (rdt_options_table s_both)) = Some true /\
   fst (rdt_cpu_has (sample_env (fun _ => true)) mba s_both) = true).
Proof. repeat split. Qed.

Lemma tokens_not_nil : forall s, tokens s <> [].
Proof.
  induction s as [|c s IH]; simpl; [discriminate|].
  destruct (Ascii.eqb c ","); [discriminate|].
  destruct (tokens s); [contradiction | discriminate].
Qed.

Lemma strsep_tokens :
  forall s,
    tokens s = fst (strsep s) :: match snd (strsep s) with
                                 | Some r => tokens r
                                 | None => []
                                 end.
Proof.
  induction s as [|c s IH]; simpl; [reflexivity|].
  destruct (Ascii.eqb c ","); [reflexivity|].
  rewrite IH. destruct (strsep s) as [tok rest]; reflexivity.
Qed.

Lemma strsep_shorter :
  forall s tok r, strsep s = (tok, Some r) -> (String.length r < String.length s)%nat.
Proof.
  induction s as [|c s IH]; simpl; intros tok r H; [discriminate|].
  destruct (Ascii.eqb c ",").
  - injection H as _ Hr. subst r. lia.
  - destruct (strsep s) as [tok' rest] eqn:Hs. injection H as _ Hr. subst rest.
    specialize (IH _ _ eq_refl). lia.
Qed.

(** The loop of [set_rdt_options] has fuel to spare: it handles the tokens
    of the string one after the other, all of them. *)
Lemma set_rdt_options_loop_tokens :
  forall fuel s o,
    (String.length s < fuel)%nat ->
    set_rdt_options_loop fuel (Some s) o =
    fold_left (fun o tok => set_rdt_option (tok_name tok) (tok_force_off tok) o) (tokens s) o.
Proof.
  induction fuel as [|fuel IH]; intros s o Hlt; [lia|].
  simpl. rewrite (strsep_tokens s).
  destruct (strsep s) as [tok rest] eqn:Hs. simpl.
  destruct rest as [r|].
  - apply IH. apply strsep_shorter in Hs. lia.
  - destruct fuel; reflexivity.
Qed.

Lemma set_rdt_option_unrecognized :
  forall tok off o,
    (forall e, In e o -> name e <> tok) -> set_rdt_option tok off o = o.
Proof.
  intros tok off o. induction o as [|e o IH]; intros Hun; simpl; [reflexivity|].
  destruct (String.eqb tok (name e)) eqn:Heq.
  - apply String.eqb_eq in Heq. exfalso. apply (Hun e); [now left | now symmetry].
  - f_equal. apply IH. intros e' He'. apply Hun. now right.
Qed.

Lemma set_rdt_options_table :
  forall str s,
    rdt_options_table (snd (set_rdt_options str s)) =
    fold_left (fun o tok => set_rdt_option (tok_name tok) (tok_force_off tok) o)
      (tokens (skip_equals str)) (rdt_options_table s).
Proof.
  intros str s. unfold set_rdt_options. cbn [snd rdt_options_table with_options].
  apply set_rdt_options_loop_tokens. lia.
Qed.

Lemma features_distinct :
  forall F i j a b,
    NoDup (feature_list F) ->
    nth_error (feature_list F) i = Some a ->
    nth_error (feature_list F) j = Some b ->
    i <> j -> (a =? b) = false.
Proof.
  intros F i j a b Hnd Hi Hj Hij. apply Z.eqb_neq. intros Hab. subst b.
  apply Hij. apply (proj1 (NoDup_nth_error (feature_list F)) Hnd).
  - apply nth_error_Some. rewrite Hi. discriminate.
  - now rewrite Hi, Hj.
Qed.

Lemma set_rdt_option_names :
  forall tok off o, map name (set_rdt_option tok off o) = map name o.
Proof.
  intros tok off o. induction o as [|e o IH]; simpl; [reflexivity|].
  destruct (String.eqb tok (name e)); [destruct off; reflexivity|].
  simpl. now rewrite IH.
Qed.

Lemma recognized_false :
  forall o tok, recognized o tok = false -> unrecognized tok o.
Proof.
  intros o tok Hr e He Hn. unfold recognized in Hr.
  assert (Ht : existsb (String.eqb (tok_name tok)) (map name o) = true).
  { apply existsb_exists. exists (name e). split; [now apply in_map|].
    rewrite Hn. apply String.eqb_refl. }
  congruence.
Qed.

(** The tokens that name no option can be taken out of the string: the
    table is what the remaining tokens make of it, in their order. *)
Lemma fold_set_rdt_token_recognized :
  forall toks o o0,
    map name o = map name o0 ->
    fold_left set_rdt_token toks o = fold_left set_rdt_token (filter (recognized o0) toks) o.
Proof.
  induction toks as [|tok toks IH]; intros o o0 Hn; [reflexivity|].
  cbn [fold_left filter]. destruct (recognized o0 tok) eqn:Hr.
  - cbn [fold_left]. apply IH. unfold set_rdt_token. now rewrite set_rdt_option_names.
  - assert (Hsame : set_rdt_token o tok = o).
    { unfold set_rdt_token. apply set_rdt_option_unrecognized.
      apply recognized_false. unfold recognized in *. now rewrite Hn. }
    rewrite Hsame. now apply IH.
Qed.

(** C9. Parsing "!l3cat,mba" into the static option table marks l3cat
    force-off and mba force-on and nothing else, so on a CPU that reports
    both features l3cat is absent and mba present.  Names the table does not
    know change nothing, wherever they stand in the string: any string gives
    the table that its recognized tokens alone give, in their order; so a
    string whose recognized tokens are "!l3cat" and "mba" gives the same
    table as "!l3cat,mba", and a string without a recognized token leaves
    the table as it is. *)
Theorem set_rdt_options_l3cat_mba :
  forall (E : kernel_env) (F : cpufeatures) (s : kstate),
    NoDup (feature_list F) ->
    rdt_options_table s = rdt_options_init F ->
    boot_cpu_has E (X86_FEATURE_CAT_L3 F) = true ->
    boot_cpu_has E (X86_FEATURE_MBA F) = true ->
    let s' := snd (set_rdt_options "!l3cat,mba" s) in
    rdt_options_table s' =
      [ RDT_OPT "cmt" (X86_FEATURE_CQM_OCCUP_LLC F);
        RDT_OPT "mbmtotal" (X86_FEATURE_CQM_MBM_TOTAL F);
        RDT_OPT "mbmlocal" (X86_FEATURE_CQM_MBM_LOCAL F);
        {| name := "l3cat"; flag := X86_FEATURE_CAT_L3 F; force_off := true; force_on := false |};
        RDT_OPT "l3cdp" (X86_FEATURE_CDP_L3 F);
        RDT_OPT "l2cat" (X86_FEATURE_CAT_L2 F);
        RDT_OPT "l2cdp" (X86_FEATURE_CDP_L2 F);
        {| name := "mba"; flag := X86_FEATURE_MBA F; force_off := false; force_on := true |};
        RDT_OPT "smba" (X86_FEATURE_SMBA F);
        RDT_OPT "bmec" (X86_FEATURE_BMEC F) ] /\
    fst (rdt_cpu_has E (X86_FEATURE_CAT_L3 F) s') = false /\
    fst (rdt_cpu_has E (X86_FEATURE_MBA F) s') = true /\
    (forall tok off o, (forall e, In e o -> name e <> tok) -> set_rdt_option tok off o = o) /\
    (forall str s0,
        (forall tok, In tok (tokens (skip_equals str)) ->
                     unrecognized tok (rdt_options_table s0)) ->
        rdt_options_table (snd (set_rdt_options str s0)) = rdt_options_table s0) /\
    (forall str s0,
        snd (set_rdt_options str s0) =
        with_options s0
          (fold_left set_rdt_token
             (filter (recognized (rdt_options_table s0)) (tokens (skip_equals str)))
             (rdt_options_table s0))) /\
    (forall str,
        filter (recognized (rdt_options_init F)) (tokens (skip_equals str)) = ["!l3cat"; "mba"] ->
        snd (set_rdt_options str s) = s').
Proof.
  intros E F s Hnd Htbl Hl3 Hmba s'.
  match goal with |- ?T = ?L /\ _ => assert (Htab : T = L) end.
  { subst s'. unfold set_rdt_options. cbn [snd rdt_options_table with_options].
    rewrite Htbl. reflexivity. }
  split; [exact Htab|].
  assert (D : forall i j a b, nth_error (feature_list F) i = Some a ->
                              nth_error (feature_list F) j = Some b ->
                              i <> j -> (a =? b) = false)
    by (intros; eapply features_distinct; eauto).
  assert (Hfilter : forall str s0,
             snd (set_rdt_options str s0) =
             with_options s0
               (fold_left set_rdt_token
                  (filter (recognized (rdt_options_table s0)) (tokens (skip_equals str)))
                  (rdt_options_table s0))).
  { intros str s0. unfold set_rdt_options. cbn [snd]. f_equal.
    rewrite set_rdt_options_loop_tokens by lia.
    apply (fold_set_rdt_token_recognized _ _ _ eq_refl). }
  split; [|split; [|split; [|split; [|split]]]].
  - unfold rdt_cpu_has. rewrite Hl3. cbn [negb fst]. rewrite Htab.
    cbn [rdt_cpu_has_loop flag RDT_OPT force_off force_on].
    rewrite (D 3%nat 0%nat _ _ eq_refl eq_refl), (D 3%nat 1%nat _ _ eq_refl eq_refl),
      (D 3%nat 2%nat _ _ eq_refl eq_refl) by discriminate.
    now rewrite Z.eqb_refl.
  - unfold rdt_cpu_has. rewrite Hmba. cbn [negb fst]. rewrite Htab.
    cbn [rdt_cpu_has_loop flag RDT_OPT force_off force_on].
    rewrite (D 7%nat 0%nat _ _ eq_refl eq_refl), (D 7%nat 1%nat _ _ eq_refl eq_refl),
      (D 7%nat 2%nat _ _ eq_refl eq_refl), (D 7%nat 3%nat _ _ eq_refl eq_refl),
      (D 7%nat 4%nat _ _ eq_refl eq_refl), (D 7%nat 5%nat _ _ eq_refl eq_refl),
      (D 7%nat 6%nat _ _ eq_refl eq_refl) by discriminate.
    now rewrite Z.eqb_refl.
  - exact set_rdt_option_unrecognized.
  - intros str s0 Hun. rewrite set_rdt_options_table.
    revert Hun. generalize (tokens (skip_equals str)) as toks.
    intros toks Hun. induction toks as [|tok toks IH]; simpl; [reflexivity|].
    rewrite set_rdt_option_unrecognized.
    + apply IH. intros t Ht'. apply Hun. now right.
    + apply (Hun tok). now left.
  - exact Hfilter.
  - intros str Hstr. rewrite Hfilter. subst s'. rewrite (Hfilter "!l3cat,mba" s).
    rewrite Htbl, Hstr. reflexivity.
Qed.

Lemma set_rdt_options_l3cat_mba_witness :
  let hw := sample_env (fun _ => true) in
  let s' := snd (set_rdt_options "!l3cat,mba" (kstate_init sample_features)) in
  fst (rdt_cpu_has hw (X86_FEATURE_CAT_L3 sample_features) s') = false /\
  fst (rdt_cpu_has hw (X86_FEATURE_MBA sample_features) s') = true /\
  rdt_options_table (snd (set_rdt_options "bogus,!nothing" (kstate_init sample_features)))
  = rdt_options_init sample_features /\
  snd (set_rdt_options "bogus,!l3cat,,!nothing,mba,l3" (kstate_init sample_features)) = s'.
Proof.
  assert (Hnd : NoDup (feature_list sample_features)).
  { repeat (constructor; [simpl; intuition discriminate|]). constructor. }
  destruct (set_rdt_options_l3cat_mba (sample_env (fun _ => true)) sample_features
              (kstate_init sample_features) Hnd eq_refl eq_refl eq_refl)
    as (_ & Hl3 & Hmba & _ & Hun & _ & Hmix).
  split; [exact Hl3|]. split; [exact Hmba|]. split.
  - apply (Hun "bogus,!nothing" (kstate_init sample_features)).
    intros tok Htok e He. simpl in Htok, He.
    intuition (subst; discriminate).
  - apply (Hmix "bogus,!l3cat,,!nothing,mba,l3"). reflexivity.
Defined.

(** A name the table does not know, between two it knows. *)
Example set_rdt_options_skips_unknown :
  rdt_options_table (snd (set_rdt_options "=!l3cat,bogus,mba" (kstate_init sample_features)))
  = rdt_options_table (snd (set_rdt_options "!l3cat,mba" (kstate_init sample_features))).
Proof. reflexivity. Qed.

(** ** Register programmer *)

(** C4. For a percentage [bw] (at most the maximum), the translation returns
    MAX - bw on a resource with linear delay, so 100 maps to 0 and 10 maps
    to 90, and emits nothing; on a resource without linear delay it returns
    MAX, the maximum throttling, and the warning goes out the first time
    only. *)
Theorem delay_bw_map_linear_or_max :
  forall (r : rdt_resource) (bw : Z) (s : kstate),
    0 <= bw <= MAX_MBA_BW ->
    (delay_linear (membw r) = true ->
       delay_bw_map bw r s = (MAX_MBA_BW - bw, s) /\
       fst (delay_bw_map 100 r s) = 0 /\
       fst (delay_bw_map 10 r s) = 90) /\
    (delay_linear (membw r) = false ->
       fst (delay_bw_map bw r s) = MAX_MBA_BW /\
       (fired ONCE_nonlinear_delay s = false ->
          trace (snd (delay_bw_map bw r s)) = trace s ++ [EvWarnOnce ONCE_nonlinear_delay] /\
          fired ONCE_nonlinear_delay (snd (delay_bw_map bw r s)) = true) /\
       (fired ONCE_nonlinear_delay s = true -> snd (delay_bw_map bw r s) = s)).
Proof.
  intros r bw s Hbw. unfold delay_bw_map, MAX_MBA_BW in *. split; intros Hlin; rewrite Hlin.
  - split; [|split; reflexivity].
    unfold ret, u32, u64. f_equal.
    rewrite (Z.mod_small (100 - bw)) by lia. apply Z.mod_small. lia.
  - unfold bind, pr_warn_once, ret.
    destruct (fired ONCE_nonlinear_delay s) eqn:Hf; simpl.
    + split; [reflexivity|]. split; [discriminate | reflexivity].
    + split; [reflexivity|]. split; [|discriminate].
      intros _. split; reflexivity.
Qed.

Lemma delay_bw_map_linear_or_max_witness :
  let lin := {| min_bw := 10; max_bw := 100; bw_gran := 10; delay_linear := true;
                arch_needs_linear := true; throttle_mode := THREAD_THROTTLE_MAX |} in
  let r_lin := {| rid := RDT_RESOURCE_MBA; alloc_capable := true; mon_capable := false;
                  num_rmid := 0; ctrl_scope := RESCTRL_L3_CACHE;
                  mon_scope := RESCTRL_SCOPE_ZERO; cache := cache_zero; membw := lin;
                  ctrl_domains := []; mon_domains := []; res_name := "MB";
                  schema_fmt := RESCTRL_SCHEMA_RANGE; cdp_capable := false |} in
  let r_non := resource_init "MB" RESCTRL_L3_CACHE RESCTRL_SCOPE_ZERO RESCTRL_SCHEMA_RANGE in
  let s := kstate_init sample_features in
  delay_bw_map 30 r_lin s = (70, s) /\
  fst (delay_bw_map 30 r_non s) = 100 /\
  trace (snd (delay_bw_map 30 r_non s)) = [EvWarnOnce ONCE_nonlinear_delay] /\
  snd (delay_bw_map 30 r_non (snd (delay_bw_map 30 r_non s))) = snd (delay_bw_map 30 r_non s).
Proof.
  intros lin r_lin r_non s.
  assert (H30 : 0 <= 30 <= MAX_MBA_BW) by (unfold MAX_MBA_BW; lia).
  destruct (delay_bw_map_linear_or_max r_lin 30 s H30) as [Hl _].
  destruct (delay_bw_map_linear_or_max r_non 30 s H30) as [_ Hn].
  destruct (delay_bw_map_linear_or_max r_non 30 (snd (delay_bw_map 30 r_non s)) H30)
    as [_ Hn2].
  destruct (Hl eq_refl) as [Hl1 _].
  destruct (Hn eq_refl) as (Hn1 & Hn3 & _).
  destruct (Hn2 eq_refl) as (_ & _ & Hn4).
  destruct (Hn3 eq_refl) as [Ht Hf].
  split; [exact Hl1|]. split; [exact Hn1|]. split; [exact Ht|].
  apply Hn4. exact Hf.
Defined.

(** ** Capability probe *)

Lemma cache_alloc_hsw_probe_run :
  forall (E : kernel_env) (s : kstate),
    let s1 := with_trace s (trace s ++ [EvWrmsr MSR_IA32_L3_CBM_BASE 0xFFFFF]) in
    let s2 := with_msrs s1 (fun m => if m =? MSR_IA32_L3_CBM_BASE
                                     then msr_stick E MSR_IA32_L3_CBM_BASE 0xFFFFF
                                     else msrs s1 m) in
    snd (cache_alloc_hsw_probe E s) =
    if msr_gp_fault E MSR_IA32_L3_CBM_BASE then s1
    else if msr_stick E MSR_IA32_L3_CBM_BASE 0xFFFFF =? 0xFFFFF
         then with_alloc_capable
                (with_resources s2 (table_set (rdt_resources_all s2) 0 hsw_hw_resource)) true
         else s2.
Proof.
  intros E s. unfold cache_alloc_hsw_probe, bind, wrmsrq_safe, rdmsrq, ret.
  change (BIT_ULL_MASK 20 - 1) with 0xFFFFF.
  destruct (msr_gp_fault E MSR_IA32_L3_CBM_BASE); [reflexivity|].
  cbn [negb Z.eqb msrs with_msrs]. rewrite Z.eqb_refl.
  destruct (msr_stick E MSR_IA32_L3_CBM_BASE 0xFFFFF =? 0xFFFFF); reflexivity.
Qed.

(** C8. The Haswell probe writes the 20-bit all-ones pattern to the first L3
    mask register, once, and reads the register back.  Only when the write
    did not fault and the register holds exactly the pattern is L3 marked
    allocation capable, with 4 classes, bitmask length 20 and a minimum of 2
    bits.  When the write faults nothing changes, the registers included.
    When the write is taken and the value read back differs, no kernel data
    changes (resource table, global flag, option table, per-CPU state are as
    before), but the register is not put back: it holds what stuck of the
    pattern, and every other register is as before. *)
Theorem cache_alloc_hsw_probe_round_trip :
  forall (E : kernel_env) (s : kstate),
    let max_cbm := 0xFFFFF in
    let s' := snd (cache_alloc_hsw_probe E s) in
    trace s' = trace s ++ [EvWrmsr MSR_IA32_L3_CBM_BASE max_cbm] /\
    (msr_gp_fault E MSR_IA32_L3_CBM_BASE = false ->
     msr_stick E MSR_IA32_L3_CBM_BASE max_cbm = max_cbm ->
       msrs s' MSR_IA32_L3_CBM_BASE = max_cbm /\
       rdt_alloc_capable s' = true /\
       rdt_resources_all s' =
         table_set (rdt_resources_all s) (N.to_nat RDT_RESOURCE_L3) hsw_hw_resource /\
       forall h, nth_error (rdt_resources_all s) (N.to_nat RDT_RESOURCE_L3) = Some h ->
         exists h', nth_error (rdt_resources_all s') (N.to_nat RDT_RESOURCE_L3) = Some h' /\
                    alloc_capable (r_resctrl h') = true /\
                    num_closid h' = 4 /\
                    cbm_len (cache (r_resctrl h')) = 20 /\
                    min_cbm_bits (cache (r_resctrl h')) = 2 /\
                    shareable_bits (cache (r_resctrl h')) = 0xc0000 /\
                    arch_has_sparse_bitmasks (cache (r_resctrl h')) = false) /\
    (msr_gp_fault E MSR_IA32_L3_CBM_BASE = true \/
     msr_stick E MSR_IA32_L3_CBM_BASE max_cbm <> max_cbm ->
       rdt_resources_all s' = rdt_resources_all s /\
       rdt_alloc_capable s' = rdt_alloc_capable s /\
       rdt_options_table s' = rdt_options_table s /\
       pqr_state s' = pqr_state s /\
       once_fired s' = once_fired s) /\
    (msr_gp_fault E MSR_IA32_L3_CBM_BASE = true -> msrs s' = msrs s) /\
    (msr_gp_fault E MSR_IA32_L3_CBM_BASE = false ->
       forall m, msrs s' m = if m =? MSR_IA32_L3_CBM_BASE
                             then msr_stick E MSR_IA32_L3_CBM_BASE max_cbm
                             else msrs s m).
Proof.
  intros E s max_cbm s'. subst s' max_cbm. rewrite cache_alloc_hsw_probe_run.
  destruct (msr_gp_fault E MSR_IA32_L3_CBM_BASE) eqn:Hgp.
  - split; [reflexivity|]. split; [discriminate|]. split; [|split; [reflexivity|discriminate]].
    intros _. repeat split.
  - destruct (msr_stick E MSR_IA32_L3_CBM_BASE 0xFFFFF =? 0xFFFFF) eqn:Hst.
    + split; [reflexivity|]. split; [|split; [|split; [discriminate|reflexivity]]].
      * intros _ Hstick. split; [simpl; exact Hstick|].
        split; [reflexivity|]. split; [reflexivity|].
        intros h Hh. simpl in *. destruct (rdt_resources_all s) as [|h0 t]; [discriminate|].
        injection Hh as ->. exists (hsw_hw_resource h). repeat split.
      * apply Z.eqb_eq in Hst. intros [Hc|Hc]; [discriminate | contradiction].
    + split; [reflexivity|]. split; [|split; [|split; [discriminate|reflexivity]]].
      * apply Z.eqb_neq in Hst. intros _ Hc. contradiction.
      * intros _. repeat split.
Qed.

Lemma cache_alloc_hsw_probe_round_trip_witness :
  let s := kstate_init sample_features in
  let good := sample_env (fun _ => true) in
  let bad := narrow_mask_env in
  rdt_alloc_capable (snd (cache_alloc_hsw_probe good s)) = true /\
  option_map num_closid (nth_error (rdt_resources_all (snd (cache_alloc_hsw_probe good s))) 0)
  = Some 4 /\
  rdt_resources_all (snd (cache_alloc_hsw_probe bad s)) = rdt_resources_all s /\
  rdt_alloc_capable (snd (cache_alloc_hsw_probe bad s)) = false /\
  msrs (snd (cache_alloc_hsw_probe bad s)) MSR_IA32_L3_CBM_BASE = 0xFFF /\
  msrs (snd (cache_alloc_hsw_probe bad s)) (MSR_IA32_L3_CBM_BASE + 1) = 0.
Proof.
  intros s good bad.
  destruct (cache_alloc_hsw_probe_round_trip good s) as (_ & Hok & _ & _).
  destruct (cache_alloc_hsw_probe_round_trip bad s) as (_ & _ & Hbad & _ & Hreg).
  destruct (Hok eq_refl eq_refl) as (_ & Hcap & Htbl & _).
  destruct Hbad as (Hr & Ha & _).
  { right. vm_compute. discriminate. }
  split; [exact Hcap|]. split; [rewrite Htbl; reflexivity|].
  split; [exact Hr|]. split; [exact Ha|].
  split; [exact (Hreg eq_refl MSR_IA32_L3_CBM_BASE) | exact (Hreg eq_refl (MSR_IA32_L3_CBM_BASE + 1))].
Defined.

(** C8, as the specification words it, fails on the code.  On a machine
    whose first L3 mask register takes the write but keeps only the low 12
    bits, with the register holding 3 before: the value read back differs
    from the pattern and L3 is not marked capable, yet the state has
    changed, for the register now holds 0xFFF; the probe does not write the
    old value back. *)
Lemma cache_alloc_hsw_probe_counterexample :
  let E := narrow_mask_env in
  let s := with_msrs (kstate_init sample_features)
             (fun m => if m =? MSR_IA32_L3_CBM_BASE then 3 else 0) in
  let s' := snd (cache_alloc_hsw_probe E s) in
  msr_gp_fault E MSR_IA32_L3_CBM_BASE = false /\
  msr_stick E MSR_IA32_L3_CBM_BASE 0xFFFFF <> 0xFFFFF /\
  rdt_alloc_capable s' = false /\
  msrs s MSR_IA32_L3_CBM_BASE = 3 /\
  msrs s' MSR_IA32_L3_CBM_BASE = 0xFFF /\
  msrs s' <> msrs s.
Proof.
  intros E s s'.
  split; [reflexivity|]. split; [vm_compute; discriminate|].
  split; [reflexivity|]. split; [reflexivity|]. split; [reflexivity|].
  intros Heq. apply (f_equal (fun f => f MSR_IA32_L3_CBM_BASE)) in Heq.
  vm_compute in Heq. discriminate Heq.
Qed.

(** The quirk of Haswell servers runs the probe unless l3cat is forced off. *)
Lemma check_quirks_intel_haswell :
  forall (E : kernel_env) (s : kstate),
    x86_vfm E = INTEL_HASWELL_X ->
    __check_quirks_intel E s =
    match nth_error (rdt_options_table s) RDT_FLAG_L3_CAT with
    | Some e => if force_off e then (tt, s) else cache_alloc_hsw_probe E s
    | None => cache_alloc_hsw_probe E s
    end.
Proof.
  intros E s Hv. unfold __check_quirks_intel, bind, option_force_off, ret. rewrite Hv.
  destruct (nth_error (rdt_options_table s) RDT_FLAG_L3_CAT) as [e|]; simpl;
    [destruct (force_off e)|]; reflexivity.
Qed.

(** ** Events of a computation *)

Lemma emits_ret : forall A P (a : A), emits P (ret a).
Proof. intros A P a s. exists []. split; [simpl; now rewrite app_nil_r | reflexivity]. Qed.

Lemma emits_bind :
  forall A B P (m : M A) (f : A -> M B),
    emits P m -> (forall a, emits P (f a)) -> emits P (bind m f).
Proof.
  intros A B P m f Hm Hf s. unfold bind.
  destruct (Hm s) as (t1 & Ht1 & Hp1). destruct (m s) as [a s1]. simpl in Ht1.
  destruct (Hf a s1) as (t2 & Ht2 & Hp2).
  exists (t1 ++ t2). split.
  - now rewrite Ht2, Ht1, app_assoc.
  - rewrite forallb_app. now rewrite Hp1, Hp2.
Qed.

Lemma emits_emit : forall P e, P e = true -> emits P (emit e).
Proof.
  intros P e He s. exists [e]. split; [reflexivity | simpl; now rewrite He].
Qed.

Lemma emits_pr_warn_once :
  forall P site, P (EvWarnOnce site) = true -> emits P (pr_warn_once site).
Proof.
  intros P site He s. unfold pr_warn_once. destruct (fired site s).
  - exists []. split; [simpl; now rewrite app_nil_r | reflexivity].
  - exists [EvWarnOnce site]. split; [reflexivity | simpl; now rewrite He].
Qed.

Lemma emits_WARN_ON_ONCE :
  forall P site c, P (EvWarnOnce site) = true -> emits P (WARN_ON_ONCE site c).
Proof.
  intros P site c He. unfold WARN_ON_ONCE. destruct c.
  - apply emits_bind; [now apply emits_pr_warn_once | intros; apply emits_ret].
  - apply emits_ret.
Qed.

Lemma emits_wrmsrq_safe :
  forall E P msr val, P (EvWrmsr msr val) = true -> emits P (wrmsrq_safe E msr val).
Proof.
  intros E P msr val He s. exists [EvWrmsr msr val]. unfold wrmsrq_safe.
  split; [|simpl; now rewrite He].
  destruct (msr_gp_fault E msr); reflexivity.
Qed.

Lemma emits_wrmsrq :
  forall E P msr val, P (EvWrmsr msr val) = true -> emits P (wrmsrq E msr val).
Proof.
  intros. unfold wrmsrq. apply emits_bind; [now apply emits_wrmsrq_safe | intros; apply emits_ret].
Qed.

Lemma emits_for_loop :
  forall P body n i, (forall j, emits P (body j)) -> emits P (for_loop n i body).
Proof.
  intros P body n. induction n as [|n IH]; intros i Hb; simpl.
  - apply emits_ret.
  - apply emits_bind; [apply Hb | intros _; now apply IH].
Qed.

Lemma emits_kfree :
  forall P A (p : option A) o, P (EvKfree o) = true -> emits P (kfree p o).
Proof.
  intros P A p o He. destruct p; simpl; [now apply emits_emit | apply emits_ret].
Qed.

Lemma emits_weaken :
  forall A (P Q : event -> bool) (m : M A),
    (forall e, P e = true -> Q e = true) -> emits P m -> emits Q m.
Proof.
  intros A P Q m HPQ Hm s. destruct (Hm s) as (t & Ht & Hp). exists t. split; [exact Ht|].
  rewrite forallb_forall in *. auto.
Qed.

(** Steps shared by the proofs that a piece of code emits events of a kind. *)
Ltac emits_step :=
  first
    [ apply emits_ret
    | apply emits_emit; reflexivity
    | apply emits_pr_warn_once; reflexivity
    | apply emits_WARN_ON_ONCE; reflexivity
    | apply emits_wrmsrq; reflexivity
    | apply emits_kfree; reflexivity
    | apply emits_for_loop; intro
    | apply emits_bind; [|intro] ].

Lemma bind_emit :
  forall A e (f : unit -> M A) s,
    bind (emit e) f s = f tt (with_trace s (trace s ++ [e])).
Proof. reflexivity. Qed.

Lemma bind_ret : forall A B (a : A) (f : A -> M B) s, bind (ret a) f s = f a s.
Proof. reflexivity. Qed.

Lemma bind_assoc :
  forall A B C (m : M A) (f : A -> M B) (g : B -> M C) s,
    bind (bind m f) g s = bind m (fun x => bind (f x) g) s.
Proof. intros. unfold bind. destruct (m s). reflexivity. Qed.

Lemma emits_writers :
  forall E m, emits is_write_event (cat_wrmsr E m) /\
              emits is_write_event (mba_wrmsr_amd E m) /\
              emits is_write_event (mba_wrmsr_intel E m).
Proof.
  intros E m. unfold cat_wrmsr, mba_wrmsr_amd, mba_wrmsr_intel, for_range, delay_bw_map.
  repeat split; repeat emits_step.
  destruct (delay_linear (membw (r_resctrl (res m)))); repeat emits_step.
Qed.

(** The indirect call is one [EvMsrUpdate] followed by what the writer does. *)
Lemma call_msr_update_trace :
  forall E m s,
    exists w,
      trace (snd (call_msr_update E m s)) =
      trace s ++ EvMsrUpdate (rid (r_resctrl (res m))) (id (hdr (d_resctrl (dom m))))
                   (low m) (high m) :: w /\
      forallb is_write_event w = true.
Proof.
  intros E m s. unfold call_msr_update. rewrite bind_emit.
  set (s1 := with_trace s _).
  assert (Hw : emits is_write_event
                 (match msr_update (res m) with
                  | cat_wrmsr_fn => cat_wrmsr E m
                  | mba_wrmsr_intel_fn => mba_wrmsr_intel E m
                  | mba_wrmsr_amd_fn => mba_wrmsr_amd E m
                  | msr_update_NULL => emit EvNullCall
                  end)).
  { destruct (emits_writers E m) as (H1 & H2 & H3).
    destruct (msr_update (res m)); try assumption. now apply emits_emit. }
  destruct (Hw s1) as (w & Ht & Hp). exists w. split; [|exact Hp].
  rewrite Ht. subst s1. simpl. now rewrite <- app_assoc.
Qed.

(** ** Domain lists *)

Section DomainLists.

Context {A : Type} (hdr_of : A -> rdt_domain_hdr).

Lemma find_domain_from_found :
  forall (l : list A) dom_id k0 k d,
    find_domain_from hdr_of l dom_id k0 = Some (k, d) ->
    exists l1 l2,
      l = l1 ++ d :: l2 /\ (k = k0 + List.length l1)%nat /\ id (hdr_of d) = dom_id /\
      ~ In dom_id (domain_ids hdr_of l1).
Proof.
  induction l as [|x l IH]; intros dom_id k0 k d H; simpl in H; [discriminate|].
  destruct (dom_id =? id (hdr_of x)) eqn:Hx.
  - injection H as <- <-. apply Z.eqb_eq in Hx.
    exists [], l. simpl. split; [reflexivity|]. split; [lia|]. split; [now symmetry|].
    intros [].
  - apply IH in H. destruct H as (l1 & l2 & -> & -> & Hid & Hni).
    exists (x :: l1), l2. simpl. split; [reflexivity|]. split; [lia|]. split; [exact Hid|].
    apply Z.eqb_neq in Hx. intros [Hc|Hc]; [now symmetry in Hc | contradiction].
Qed.

Lemma find_domain_from_none :
  forall (l : list A) dom_id k0,
    find_domain_from hdr_of l dom_id k0 = None <-> ~ In dom_id (domain_ids hdr_of l).
Proof.
  induction l as [|x l IH]; intros dom_id k0; simpl; [tauto|].
  destruct (dom_id =? id (hdr_of x)) eqn:Hx.
  - apply Z.eqb_eq in Hx. split; [discriminate|]. intros H. exfalso. apply H. now left.
  - apply Z.eqb_neq in Hx. rewrite IH. split.
    + intros H [Hc|Hc]; [now symmetry in Hc | contradiction].
    + intros H Hc. apply H. now right.
Qed.

Lemma find_domain_from_of_id :
  forall (l : list A) dom_id k0,
    option_map snd (find_domain_from hdr_of l dom_id k0) = domain_of_id hdr_of l dom_id.
Proof.
  unfold domain_of_id. induction l as [|x l IH]; intros dom_id k0; simpl; [reflexivity|].
  destruct (dom_id =? id (hdr_of x)); [reflexivity | apply IH].
Qed.

Lemma domain_of_id_none :
  forall (l : list A) dom_id,
    domain_of_id hdr_of l dom_id = None <-> ~ In dom_id (domain_ids hdr_of l).
Proof.
  intros l dom_id. rewrite <- (find_domain_from_of_id l dom_id 0).
  rewrite <- (find_domain_from_none l dom_id 0).
  destruct (find_domain_from hdr_of l dom_id 0); simpl; split; congruence.
Qed.

Lemma domain_of_id_middle :
  forall (l1 l2 : list A) d,
    ~ In (id (hdr_of d)) (domain_ids hdr_of l1) ->
    domain_of_id hdr_of (l1 ++ d :: l2) (id (hdr_of d)) = Some d.
Proof.
  unfold domain_of_id. induction l1 as [|x l1 IH]; intros l2 d Hni; simpl.
  - now rewrite Z.eqb_refl.
  - destruct (id (hdr_of d) =? id (hdr_of x)) eqn:Hx.
    + apply Z.eqb_eq in Hx. exfalso. apply Hni. left. now symmetry.
    + apply IH. intros Hc. apply Hni. now right.
Qed.

Lemma find_add_pos_le :
  forall (l : list A) dom_id, (find_add_pos hdr_of l dom_id <= List.length l)%nat.
Proof.
  induction l as [|x l IH]; intros dom_id; simpl; [lia|].
  destruct (dom_id <? id (hdr_of x)); [lia|]. specialize (IH dom_id). lia.
Qed.

Lemma list_store_middle :
  forall (l1 l2 : list A) d d1, list_store (List.length l1) d1 (l1 ++ d :: l2) = l1 ++ d1 :: l2.
Proof.
  induction l1 as [|x l1 IH]; intros; simpl; [reflexivity|]. now rewrite IH.
Qed.

Lemma list_del_rcu_middle :
  forall (l1 l2 : list A) d, list_del_rcu (List.length l1) (l1 ++ d :: l2) = l1 ++ l2.
Proof.
  intros l1 l2 d. unfold list_del_rcu.
  induction l1 as [|x l1 IH]; simpl; [reflexivity|]. f_equal. exact IH.
Qed.

Lemma list_add_tail_rcu_split :
  forall (l : list A) d pos,
    (pos <= List.length l)%nat ->
    exists l1 l2, l = l1 ++ l2 /\ List.length l1 = pos /\
                  list_add_tail_rcu d pos l = l1 ++ d :: l2.
Proof.
  intros l d pos Hle. exists (firstn pos l), (skipn pos l).
  split; [now rewrite firstn_skipn|]. split; [|reflexivity].
  rewrite length_firstn. lia.
Qed.

(** Unlinking the node that was just linked gives the list back. *)
Lemma list_del_rcu_add_tail :
  forall (l : list A) d pos,
    (pos <= List.length l)%nat ->
    list_del_rcu pos (list_add_tail_rcu d pos l) = l.
Proof.
  intros l d pos Hle.
  destruct (list_add_tail_rcu_split l d pos Hle) as (l1 & l2 & Hl & Hlen & Hadd).
  rewrite Hadd, <- Hlen, list_del_rcu_middle. now symmetry.
Qed.

Lemma domain_ids_app :
  forall l1 l2 : list A, domain_ids hdr_of (l1 ++ l2) = domain_ids hdr_of l1 ++ domain_ids hdr_of l2.
Proof. intros. unfold domain_ids. apply map_app. Qed.

Lemma domains_ok_insert :
  forall t (l1 l2 : list A) d,
    domains_ok hdr_of t (l1 ++ l2) ->
    ~ In (id (hdr_of d)) (domain_ids hdr_of (l1 ++ l2)) ->
    type (hdr_of d) = t -> cpu_mask (hdr_of d) <> 0%N ->
    domains_ok hdr_of t (l1 ++ d :: l2).
Proof.
  intros t l1 l2 d [Hnd Hall] Hni Ht Hm. split.
  - rewrite domain_ids_app in *. simpl.
    apply NoDup_Add with (a := id (hdr_of d)) (l := domain_ids hdr_of l1 ++ domain_ids hdr_of l2).
    + apply Add_app.
    + split; assumption.
  - apply Forall_app in Hall. destruct Hall as [H1 H2].
    apply Forall_app. split; [exact H1|]. constructor; [split|]; assumption.
Qed.

Lemma domains_ok_remove :
  forall t (l1 l2 : list A) d,
    domains_ok hdr_of t (l1 ++ d :: l2) ->
    domains_ok hdr_of t (l1 ++ l2) /\ ~ In (id (hdr_of d)) (domain_ids hdr_of (l1 ++ l2)).
Proof.
  intros t l1 l2 d [Hnd Hall].
  rewrite domain_ids_app in Hnd. simpl in Hnd.
  apply NoDup_remove in Hnd. destruct Hnd as [Hnd Hni].
  rewrite <- domain_ids_app in Hnd, Hni.
  split; [split; [exact Hnd|] | exact Hni].
  apply Forall_app in Hall. destruct Hall as [H1 H2]. inversion H2; subst.
  apply Forall_app. now split.
Qed.

Lemma domains_ok_store :
  forall t (l1 l2 : list A) d d1,
    domains_ok hdr_of t (l1 ++ d :: l2) ->
    id (hdr_of d1) = id (hdr_of d) ->
    type (hdr_of d1) = t -> cpu_mask (hdr_of d1) <> 0%N ->
    domains_ok hdr_of t (l1 ++ d1 :: l2).
Proof.
  intros t l1 l2 d d1 Hok Hid Ht Hm.
  destruct (domains_ok_remove _ _ _ _ Hok) as [Hok' Hni].
  apply domains_ok_insert; try assumption. now rewrite Hid.
Qed.

End DomainLists.

Lemma cpumask_set_cpu_nonempty : forall cpu m, cpumask_set_cpu cpu m <> 0%N.
Proof.
  intros cpu m H. unfold cpumask_set_cpu in H.
  assert (Hb : N.testbit (N.setbit m cpu) cpu = true) by apply N.setbit_eq.
  rewrite H in Hb. now rewrite N.bits_0 in Hb.
Qed.

Lemma cpumask_set_cpu_member :
  forall cpu m, N.testbit m cpu = true -> cpumask_set_cpu cpu m = m.
Proof.
  intros cpu m Hb. unfold cpumask_set_cpu. apply N.bits_inj. intros n.
  rewrite N.setbit_eqb. destruct (N.eqb_spec cpu n) as [->|Hne]; simpl; [now rewrite Hb | reflexivity].
Qed.

Lemma hw_set_ctrl_domains_same :
  forall h, hw_set_resctrl h (set_ctrl_domains (r_resctrl h) (ctrl_domains (r_resctrl h))) = h.
Proof. intros [[] ? ? ? ?]. reflexivity. Qed.

Lemma hw_set_mon_domains_same :
  forall h, hw_set_resctrl h (set_mon_domains (r_resctrl h) (mon_domains (r_resctrl h))) = h.
Proof. intros [[] ? ? ? ?]. reflexivity. Qed.

(** ** Quota arrays *)

Lemma array_set_length : forall a i v, List.length (array_set a i v) = List.length a.
Proof.
  induction a as [|x a IH]; intros [|i] v; simpl; auto.
Qed.

Lemma array_set_firstn :
  forall a i v, (i < List.length a)%nat -> firstn (S i) (array_set a i v) = firstn i a ++ [v].
Proof.
  induction a as [|x a IH]; intros i v Hlt; simpl in Hlt; [lia|].
  destruct i as [|i]; [reflexivity|].
  change (firstn (S (S i)) (array_set (x :: a) (S i) v))
    with (x :: firstn (S i) (array_set a i v)).
  rewrite IH by lia. reflexivity.
Qed.

Lemma setup_default_ctrlval_loop_fill :
  forall n i v dc,
    List.length dc = (i + n)%nat ->
    setup_default_ctrlval_loop n i v dc = firstn i dc ++ repeat v n.
Proof.
  induction n as [|n IH]; intros i v dc Hlen; simpl.
  - rewrite app_nil_r. rewrite firstn_all2; [reflexivity | lia].
  - rewrite IH by (rewrite array_set_length; lia).
    rewrite array_set_firstn by lia.
    rewrite <- app_assoc. reflexivity.
Qed.

(** [setup_default_ctrlval] fills a block of [num_closid] entries with the
    default of the resource, whatever the block held. *)
Lemma setup_default_ctrlval_fill :
  forall h dc,
    List.length dc = Z.to_nat (num_closid h) ->
    setup_default_ctrlval h dc =
    repeat (resctrl_get_default_ctrl (r_resctrl h)) (Z.to_nat (num_closid h)).
Proof.
  intros h dc Hlen. unfold setup_default_ctrlval.
  now rewrite setup_default_ctrlval_loop_fill by (simpl; exact Hlen).
Qed.

Lemma nth_repeat_in :
  forall (v d : Z) n i, (i < n)%nat -> nth i (repeat v n) d = v.
Proof.
  intros v d n i Hlt. rewrite (nth_indep _ d v) by (rewrite repeat_length; exact Hlt).
  apply nth_repeat.
Qed.

Lemma for_loop_wrmsrq_trace :
  forall E (msr_of val_of : Z -> Z) n i s,
    trace (snd (for_loop n i (fun j => wrmsrq E (msr_of j) (val_of j)) s)) =
    trace s ++ map (fun k => EvWrmsr (msr_of (i + Z.of_nat k)) (val_of (i + Z.of_nat k)))
                 (seq 0 n).
Proof.
  intros E msr_of val_of n. induction n as [|n IH]; intros i s.
  - simpl. now rewrite app_nil_r.
  - cbn [for_loop]. unfold bind at 1.
    destruct (wrmsrq E (msr_of i) (val_of i) s) as [u s1] eqn:Hw.
    assert (Ht : trace s1 = trace s ++ [EvWrmsr (msr_of i) (val_of i)]).
    { unfold wrmsrq, bind, wrmsrq_safe, ret in Hw.
      destruct (msr_gp_fault E (msr_of i)); injection Hw as _ <-; reflexivity. }
    rewrite IH, Ht, <- app_assoc. f_equal. cbn [seq map app]. rewrite Z.add_0_r. f_equal.
    rewrite <- seq_shift, map_map. apply map_ext. intros k.
    replace (i + 1 + Z.of_nat k) with (i + Z.of_nat (S k)) by lia. reflexivity.
Qed.

(** The cache writer sends entry [i] of the quota array to register
    [msr_base + i], for [i] from [low] up to [high]. *)
Lemma cat_wrmsr_trace :
  forall E m s,
    trace (snd (cat_wrmsr E m s)) =
    trace s ++ map (fun k => EvWrmsr (u32 (msr_base (res m) + (low m + Z.of_nat k)))
                               (ctrl_val_at (dom m) (low m + Z.of_nat k)))
                 (seq 0 (Z.to_nat (high m - low m))).
Proof.
  intros E m s. unfold cat_wrmsr, for_range.
  apply (for_loop_wrmsrq_trace E (fun i => u32 (msr_base (res m) + i))
           (fun i => ctrl_val_at (dom m) i)).
Qed.

Lemma kmalloc_array_ok :
  forall E n o s,
    kmalloc_ok E o = true ->
    kmalloc_array E n o s =
    (Some (map (uninit E) (seq 0 (Z.to_nat n))), with_trace s (trace s ++ [EvKmalloc o])).
Proof. intros E n o s H. unfold kmalloc_array. now rewrite H. Qed.

Lemma kmalloc_array_fail :
  forall E n o s, kmalloc_ok E o = false -> kmalloc_array E n o s = (None, s).
Proof. intros E n o s H. unfold kmalloc_array. now rewrite H. Qed.

(** With memory at hand [domain_setup_ctrlval] succeeds: the domain gets a
    quota array of [num_closid] defaults and the writer of the resource is
    called once, for the indices from 0 up to [num_closid]. *)
Lemma domain_setup_ctrlval_ok :
  forall E h d s,
    kmalloc_ok E (ObjCtrlVal (rid (r_resctrl h)) (id (hdr (d_resctrl d)))) = true ->
    let dflt := resctrl_get_default_ctrl (r_resctrl h) in
    let n := Z.to_nat (num_closid h) in
    let d1 := ctrl_set_ctrl_val d (Some (repeat dflt n)) in
    exists w,
      fst (domain_setup_ctrlval E h d s) = (0, d1) /\
      trace (snd (domain_setup_ctrlval E h d s)) =
        trace s ++ EvKmalloc (ObjCtrlVal (rid (r_resctrl h)) (id (hdr (d_resctrl d))))
                :: EvMsrUpdate (rid (r_resctrl h)) (id (hdr (d_resctrl d))) 0 (num_closid h)
                :: w /\
      forallb is_write_event w = true /\
      (msr_update h = cat_wrmsr_fn ->
       w = map (fun k => EvWrmsr (u32 (msr_base h + Z.of_nat k)) dflt) (seq 0 n)).
Proof.
  intros E h d s Hok dflt n d1.
  unfold domain_setup_ctrlval, bind. rewrite (kmalloc_array_ok _ _ _ _ Hok).
  rewrite setup_default_ctrlval_fill by (rewrite length_map, length_seq; reflexivity).
  fold dflt n d1.
  set (m := {| res := h; dom := d1; low := 0; high := num_closid h |}).
  set (s1 := with_trace s _).
  assert (Hs1 : trace s1 = trace s ++ [EvKmalloc (ObjCtrlVal (rid (r_resctrl h))
                                                   (id (hdr (d_resctrl d))))])
    by reflexivity.
  clearbody s1.
  destruct (call_msr_update_trace E m s1) as (w & Ht & Hw).
  destruct (call_msr_update E m s1) as [u s2] eqn:Hc.
  unfold ret. cbn [fst snd] in Ht |- *.
  exists w. split; [reflexivity|]. split; [|split; [exact Hw|]].
  - rewrite Ht, Hs1, <- app_assoc. reflexivity.
  - intros Hcat.
    assert (Ht2 : trace s2 = trace (snd (call_msr_update E m s1))) by now rewrite Hc.
    unfold call_msr_update in Ht2. rewrite bind_emit in Ht2.
    change (msr_update (res m)) with (msr_update h) in Ht2. rewrite Hcat in Ht2.
    rewrite cat_wrmsr_trace in Ht2. rewrite Ht in Ht2.
    cbn [trace with_trace] in Ht2.
    rewrite <- !app_assoc in Ht2. apply app_inv_head in Ht2.
    cbn [app] in Ht2. injection Ht2 as Ht2. rewrite Ht2.
    cbn [low high res dom m].
    rewrite Z.sub_0_r. fold n. apply map_ext_in. intros k Hk. apply in_seq in Hk.
    cbn [Z.add]. f_equal. unfold ctrl_val_at, d1. cbn [ctrl_val ctrl_set_ctrl_val].
    rewrite Nat2Z.id. apply nth_repeat_in. lia.
Qed.

(** ** Domain registry: a core joins *)

Lemma filter_msr_update_writes :
  forall w, forallb is_write_event w = true -> filter is_msr_update w = [].
Proof.
  induction w as [|e w IH]; intros Hw; [reflexivity|].
  simpl in Hw. apply andb_prop in Hw. destruct Hw as [He Hw].
  destruct e; try discriminate; simpl; now apply IH.
Qed.

(** The run of [domain_add_cpu_ctrl] that creates a domain, up to the call
    of the online hook. *)
Lemma domain_add_cpu_ctrl_create :
  forall (E : kernel_env) (cpu : N) (h : rdt_hw_resource) (s : kstate),
    let r := r_resctrl h in
    let dom_id := get_domain_id_from_scope E cpu (ctrl_scope r) in
    let d := ctrl_domain_created h dom_id cpu in
    let pos := find_add_pos ctrl_hdr (ctrl_domains r) dom_id in
    0 <= dom_id ->
    domain_of_id ctrl_hdr (ctrl_domains r) dom_id = None ->
    kmalloc_ok E (ObjHwCtrlDom (rid r) dom_id) = true ->
    kmalloc_ok E (ObjCtrlVal (rid r) dom_id) = true ->
    exists w s',
      domain_add_cpu_ctrl E cpu h s =
        (hw_set_resctrl h
           (set_ctrl_domains r
              (if resctrl_online_ctrl_domain E (rid r) dom_id =? 0
               then list_add_tail_rcu d pos (ctrl_domains r)
               else list_del_rcu pos (list_add_tail_rcu d pos (ctrl_domains r)))), s') /\
      trace s' =
        trace s ++ [EvKmalloc (ObjHwCtrlDom (rid r) dom_id); EvReconfigureCdp (rid r);
                    EvKmalloc (ObjCtrlVal (rid r) dom_id);
                    EvMsrUpdate (rid r) dom_id 0 (num_closid h)]
                ++ w
                ++ [EvListAddTailRcu (rid r) RESCTRL_CTRL_DOMAIN dom_id;
                    EvOnlineCtrlDomain (rid r) dom_id]
                ++ (if resctrl_online_ctrl_domain E (rid r) dom_id =? 0 then []
                    else [EvListDelRcu (rid r) RESCTRL_CTRL_DOMAIN dom_id; EvSynchronizeRcu;
                          EvKfree (ObjCtrlVal (rid r) dom_id);
                          EvKfree (ObjHwCtrlDom (rid r) dom_id)]) /\
      forallb is_write_event w = true /\
      (msr_update h = cat_wrmsr_fn ->
       w = map (fun k => EvWrmsr (u32 (msr_base h + Z.of_nat k))
                           (resctrl_get_default_ctrl r))
             (seq 0 (Z.to_nat (num_closid h)))).
Proof.
  intros E cpu h s r dom_id d pos Hid Hnone Hk1 Hk2.
  assert (Hfind : find_domain_from ctrl_hdr (ctrl_domains r) dom_id 0 = None).
  { apply find_domain_from_none. now apply domain_of_id_none. }
  unfold domain_add_cpu_ctrl. fold r. fold dom_id.
  cbv zeta. apply Z.ltb_ge in Hid. rewrite Hid.
  unfold resctrl_find_domain. rewrite Hfind, Hk1. cbn [negb].
  rewrite bind_emit. unfold rdt_domain_reconfigure_cdp. rewrite bind_emit.
  set (s2 := with_trace (with_trace s _) _).
  assert (Hs2 : trace s2 = trace s ++ [EvKmalloc (ObjHwCtrlDom (rid r) dom_id);
                                       EvReconfigureCdp (rid r)]).
  { subst s2. cbn [trace with_trace]. now rewrite <- app_assoc. }
  clearbody s2.
  destruct (domain_setup_ctrlval_ok E h (ctrl_domain_new dom_id cpu) s2 Hk2)
    as (w & Hfst & Htr & Hw & Hcat).
  unfold bind at 1.
  destruct (domain_setup_ctrlval E h (ctrl_domain_new dom_id cpu) s2) as [[err d1] s3].
  cbn [fst snd] in Hfst, Htr. injection Hfst as -> ->.
  cbn [Z.eqb negb]. rewrite !bind_emit. fold r.
  fold (ctrl_domain_created h dom_id cpu). fold d. fold pos.
  exists w.
  destruct (resctrl_online_ctrl_domain E (rid r) dom_id =? 0); cbn [negb].
  - eexists. split; [reflexivity|]. split; [|split; [exact Hw | exact Hcat]].
    cbn [trace with_trace]. rewrite Htr, Hs2. cbn [ctrl_domain_new hdr d_resctrl id].
    rewrite <- !app_assoc. reflexivity.
  - eexists. split.
    { rewrite !bind_emit. unfold ctrl_domain_free, kfree.
      cbn [ctrl_val ctrl_set_ctrl_val].
      rewrite bind_assoc, !bind_emit. unfold ret. reflexivity. }
    split; [|split; [exact Hw | exact Hcat]].
    cbn [trace with_trace]. rewrite Htr, Hs2.
    cbn [ctrl_domain_new hdr d_resctrl id].
    rewrite <- !app_assoc. reflexivity.
Qed.

(** C3. When the first core of an identity joins a resource with N
    allocation classes (and memory and the online hook do not fail), the
    domain that is linked has a quota array of exactly N entries, each the
    default of the resource, and the writer of the resource is called once,
    for the index range from 0 up to N; for a cache resource the writes go
    to registers [msr_base + 0 .. msr_base + N - 1], and a bitmask length
    of 20 makes the default 0xFFFFF. *)
Theorem domain_add_cpu_ctrl_first_core :
  forall (E : kernel_env) (cpu : N) (h : rdt_hw_resource) (s : kstate),
    let r := r_resctrl h in
    let dom_id := get_domain_id_from_scope E cpu (ctrl_scope r) in
    let dflt := resctrl_get_default_ctrl r in
    let d := ctrl_domain_created h dom_id cpu in
    0 <= dom_id ->
    0 <= num_closid h ->
    domain_of_id ctrl_hdr (ctrl_domains r) dom_id = None ->
    kmalloc_ok E (ObjHwCtrlDom (rid r) dom_id) = true ->
    kmalloc_ok E (ObjCtrlVal (rid r) dom_id) = true ->
    resctrl_online_ctrl_domain E (rid r) dom_id = 0 ->
    exists w,
      fst (domain_add_cpu_ctrl E cpu h s) =
        hw_set_resctrl h
          (set_ctrl_domains r
             (list_add_tail_rcu d (find_add_pos ctrl_hdr (ctrl_domains r) dom_id)
                (ctrl_domains r))) /\
      domain_of_id ctrl_hdr (ctrl_domains (r_resctrl (fst (domain_add_cpu_ctrl E cpu h s))))
        dom_id = Some d /\
      ctrl_val d = Some (repeat dflt (Z.to_nat (num_closid h))) /\
      Z.of_nat (List.length (repeat dflt (Z.to_nat (num_closid h)))) = num_closid h /\
      trace (snd (domain_add_cpu_ctrl E cpu h s)) =
        trace s ++ [EvKmalloc (ObjHwCtrlDom (rid r) dom_id); EvReconfigureCdp (rid r);
                    EvKmalloc (ObjCtrlVal (rid r) dom_id);
                    EvMsrUpdate (rid r) dom_id 0 (num_closid h)]
                ++ w
                ++ [EvListAddTailRcu (rid r) RESCTRL_CTRL_DOMAIN dom_id;
                    EvOnlineCtrlDomain (rid r) dom_id] /\
      forallb is_write_event w = true /\
      filter is_msr_update
        ([EvKmalloc (ObjHwCtrlDom (rid r) dom_id); EvReconfigureCdp (rid r);
          EvKmalloc (ObjCtrlVal (rid r) dom_id);
          EvMsrUpdate (rid r) dom_id 0 (num_closid h)]
         ++ w
         ++ [EvListAddTailRcu (rid r) RESCTRL_CTRL_DOMAIN dom_id;
             EvOnlineCtrlDomain (rid r) dom_id])
      = [EvMsrUpdate (rid r) dom_id 0 (num_closid h)] /\
      (msr_update h = cat_wrmsr_fn ->
       w = map (fun k => EvWrmsr (u32 (msr_base h + Z.of_nat k)) dflt)
             (seq 0 (Z.to_nat (num_closid h)))) /\
      (schema_fmt r = RESCTRL_SCHEMA_BITMAP -> cbm_len (cache r) = 20 -> dflt = 0xFFFFF).
Proof.
  intros E cpu h s r dom_id dflt d Hid Hn Hnone Hk1 Hk2 Hhook.
  destruct (domain_add_cpu_ctrl_create E cpu h s Hid Hnone Hk1 Hk2)
    as (w & s' & Hrun & Htr & Hw & Hcat).
  fold r dom_id d in Hrun, Htr. rewrite Hhook in Hrun, Htr. cbn [Z.eqb] in Hrun, Htr.
  rewrite Hrun. cbn [fst snd].
  exists w. split; [reflexivity|].
  split; [|split; [reflexivity|split; [|split; [|split; [exact Hw|split; [|split]]]]]].
  4:{ cbn [app filter is_msr_update]. rewrite filter_app.
      now rewrite (filter_msr_update_writes w Hw). }
  - cbn [r_resctrl hw_set_resctrl ctrl_domains set_ctrl_domains].
    destruct (list_add_tail_rcu_split (ctrl_domains r) d
                (find_add_pos ctrl_hdr (ctrl_domains r) dom_id)
                (find_add_pos_le ctrl_hdr _ _)) as (l1 & l2 & Hl & _ & Hadd).
    rewrite Hadd. replace dom_id with (id (ctrl_hdr d)) at 2 by reflexivity.
    apply domain_of_id_middle. change (id (ctrl_hdr d)) with dom_id.
    apply domain_of_id_none in Hnone. rewrite Hl, domain_ids_app in Hnone.
    intros Hc. apply Hnone. apply in_or_app. now left.
  - rewrite repeat_length. apply Z2Nat.id. exact Hn.
  - rewrite Htr, app_nil_r. reflexivity.
  - exact Hcat.
  - intros Hfmt Hlen. subst dflt. unfold resctrl_get_default_ctrl. fold r.
    rewrite Hfmt, Hlen. reflexivity.
Qed.

Lemma domain_add_cpu_ctrl_first_core_witness :
  let E := sample_env (fun _ => true) in
  let s := kstate_init sample_features in
  ctrl_domains (r_resctrl (fst (domain_add_cpu_ctrl E 0 sample_l3 s))) =
    [ {| d_resctrl := {| hdr := {| id := 0; type := RESCTRL_CTRL_DOMAIN; cpu_mask := 1 |};
                         plr := None |};
         ctrl_val := Some [0xFFFFF; 0xFFFFF; 0xFFFFF; 0xFFFFF] |} ] /\
  trace (snd (domain_add_cpu_ctrl E 0 sample_l3 s)) =
    [ EvKmalloc (ObjHwCtrlDom 0 0); EvReconfigureCdp 0; EvKmalloc (ObjCtrlVal 0 0);
      EvMsrUpdate 0 0 0 4;
      EvWrmsr 0xc90 0xFFFFF; EvWrmsr 0xc91 0xFFFFF; EvWrmsr 0xc92 0xFFFFF;
      EvWrmsr 0xc93 0xFFFFF;
      EvListAddTailRcu 0 RESCTRL_CTRL_DOMAIN 0; EvOnlineCtrlDomain 0 0 ].
Proof.
  intros E s.
  destruct (domain_add_cpu_ctrl_first_core E 0%N sample_l3 s)
    as (w & Hfst & _ & _ & _ & Htr & _ & _ & Hcat & _);
    try reflexivity; try (vm_compute; discriminate).
  rewrite Hfst, Htr, (Hcat eq_refl). split; reflexivity.
Defined.

Lemma fst_bind_const :
  forall A B (m : M A) (f : A -> M B) (x : B) s,
    (forall a s1, fst (f a s1) = x) -> fst (bind m f s) = x.
Proof. intros A B m f x s H. unfold bind. destruct (m s) as [a s1]. apply H. Qed.

(** The run of [domain_add_cpu_ctrl] on a core whose identity has a domain. *)
Lemma domain_add_cpu_ctrl_found :
  forall (E : kernel_env) (cpu : N) (h : rdt_hw_resource) (s : kstate) k d,
    let r := r_resctrl h in
    let dom_id := get_domain_id_from_scope E cpu (ctrl_scope r) in
    0 <= dom_id ->
    find_domain_from ctrl_hdr (ctrl_domains r) dom_id 0 = Some (k, d) ->
    fst (domain_add_cpu_ctrl E cpu h s) =
    if domain_type_eqb (type (ctrl_hdr d)) RESCTRL_CTRL_DOMAIN
    then hw_set_resctrl h
           (set_ctrl_domains r
              (list_store k (ctrl_set_cpu_mask d (cpumask_set_cpu cpu (cpu_mask (ctrl_hdr d))))
                 (ctrl_domains r)))
    else h.
Proof.
  intros E cpu h s k d r dom_id Hid Hfind.
  unfold domain_add_cpu_ctrl. fold r. fold dom_id. cbv zeta.
  apply Z.ltb_ge in Hid. rewrite Hid. unfold resctrl_find_domain. rewrite Hfind.
  unfold WARN_ON_ONCE.
  destruct (domain_type_eqb (type (ctrl_hdr d)) RESCTRL_CTRL_DOMAIN); cbn [negb].
  - rewrite bind_ret. apply fst_bind_const. reflexivity.
  - rewrite bind_assoc. apply fst_bind_const. reflexivity.
Qed.

(** C7. Adding a core whose identity already has a control domain leaves
    every other domain and every other field of the resource as it was; the
    domain keeps its identity, type, quota array and back-reference, only
    the bit of the core is set in its member set, and when that bit was set
    already the resource is unchanged. *)
Theorem domain_add_cpu_ctrl_existing_frame :
  forall (E : kernel_env) (cpu : N) (h : rdt_hw_resource) (s : kstate)
         (d : rdt_hw_ctrl_domain),
    let r := r_resctrl h in
    let dom_id := get_domain_id_from_scope E cpu (ctrl_scope r) in
    let h' := fst (domain_add_cpu_ctrl E cpu h s) in
    0 <= dom_id ->
    domain_of_id ctrl_hdr (ctrl_domains r) dom_id = Some d ->
    exists l1 l2 d',
      ctrl_domains r = l1 ++ d :: l2 /\
      h' = hw_set_resctrl h (set_ctrl_domains r (l1 ++ d' :: l2)) /\
      domain_of_id ctrl_hdr (ctrl_domains (r_resctrl h')) dom_id = Some d' /\
      id (ctrl_hdr d') = id (ctrl_hdr d) /\
      type (ctrl_hdr d') = type (ctrl_hdr d) /\
      ctrl_val d' = ctrl_val d /\
      plr (d_resctrl d') = plr (d_resctrl d) /\
      (cpu_mask (ctrl_hdr d') = cpu_mask (ctrl_hdr d) \/
       cpu_mask (ctrl_hdr d') = cpumask_set_cpu cpu (cpu_mask (ctrl_hdr d))) /\
      (type (ctrl_hdr d) = RESCTRL_CTRL_DOMAIN ->
       cpu_mask (ctrl_hdr d') = cpumask_set_cpu cpu (cpu_mask (ctrl_hdr d))) /\
      (N.testbit (cpu_mask (ctrl_hdr d)) cpu = true -> d' = d /\ h' = h).
Proof.
  intros E cpu h s d r dom_id h' Hid Hof.
  pose proof (find_domain_from_of_id ctrl_hdr (ctrl_domains r) dom_id 0) as Hf.
  rewrite Hof in Hf.
  destruct (find_domain_from ctrl_hdr (ctrl_domains r) dom_id 0) as [[k d0]|] eqn:Hfind;
    [|discriminate].
  cbn [option_map snd] in Hf. injection Hf as ->.
  pose proof (domain_add_cpu_ctrl_found E cpu h s k d Hid Hfind) as Hrun.
  fold h' r in Hrun.
  destruct (find_domain_from_found ctrl_hdr _ _ _ _ _ Hfind) as (l1 & l2 & Hl & Hk & Hidd & Hni).
  cbn [Nat.add] in Hk. subst k. rewrite Hl, list_store_middle in Hrun.
  assert (Heta : h = hw_set_resctrl h (set_ctrl_domains r (l1 ++ d :: l2))).
  { rewrite <- Hl. symmetry. apply hw_set_ctrl_domains_same. }
  exists l1, l2.
  destruct (domain_type_eqb (type (ctrl_hdr d)) RESCTRL_CTRL_DOMAIN) eqn:Hty.
  - exists (ctrl_set_cpu_mask d (cpumask_set_cpu cpu (cpu_mask (ctrl_hdr d)))).
    split; [exact Hl|]. split; [exact Hrun|]. split.
    { rewrite Hrun. cbn [r_resctrl hw_set_resctrl ctrl_domains set_ctrl_domains].
      rewrite <- Hidd. apply (domain_of_id_middle ctrl_hdr l1 l2
                                (ctrl_set_cpu_mask d (cpumask_set_cpu cpu (cpu_mask (ctrl_hdr d))))).
      cbn. fold (ctrl_hdr d). now rewrite Hidd. }
    repeat (split; [reflexivity|]). split; [now right|]. split; [reflexivity|].
    intros Hb. rewrite (cpumask_set_cpu_member _ _ Hb) in *.
    assert (Hd : ctrl_set_cpu_mask d (cpu_mask (ctrl_hdr d)) = d)
      by (destruct d as [[[] ?] ?]; reflexivity).
    rewrite Hd in *. split; [reflexivity|]. now rewrite Hrun, Heta at 1.
  - exists d. split; [exact Hl|]. split; [now rewrite Hrun, Heta at 1|]. split.
    { rewrite Hrun. fold r. rewrite Hl, <- Hidd. now apply domain_of_id_middle; rewrite Hidd. }
    repeat (split; [reflexivity|]). split; [now left|]. split.
    + intros Ht. rewrite Ht in Hty. discriminate.
    + intros _. split; [reflexivity | exact Hrun].
Qed.

Lemma domain_add_cpu_ctrl_existing_frame_witness :
  let E := sample_env (fun _ => true) in
  let s := kstate_init sample_features in
  let h1 := fst (domain_add_cpu_ctrl E 0 sample_l3 s) in
  let d := ctrl_domain_created sample_l3 0 0 in
  exists l1 l2 d',
    ctrl_domains (r_resctrl h1) = l1 ++ d :: l2 /\
    fst (domain_add_cpu_ctrl E 1 h1 s) =
      hw_set_resctrl h1 (set_ctrl_domains (r_resctrl h1) (l1 ++ d' :: l2)) /\
    ctrl_val d' = Some [0xFFFFF; 0xFFFFF; 0xFFFFF; 0xFFFFF] /\
    cpu_mask (ctrl_hdr d') = 3%N.
Proof.
  intros E s h1 d.
  destruct (domain_add_cpu_ctrl_existing_frame E 1%N h1 s d)
    as (l1 & l2 & d' & Hl & Hh' & _ & _ & _ & Hcv & _ & _ & Hmask & _).
  - vm_compute. discriminate.
  - reflexivity.
  - exists l1, l2, d'. split; [exact Hl|]. split; [exact Hh'|].
    split; [rewrite Hcv; reflexivity|]. rewrite (Hmask eq_refl). reflexivity.
Defined.

Lemma bind_run :
  forall A B (m : M A) (f : A -> M B) s a s1,
    m s = (a, s1) -> bind m f s = f a s1.
Proof. intros A B m f s a s1 H. unfold bind. now rewrite H. Qed.

Lemma bind_pr_warn_once :
  forall A site (f : unit -> M A) s,
    bind (pr_warn_once site) f s = f tt (warn_once_state site s).
Proof.
  intros. unfold bind, warn_once_state. destruct (pr_warn_once site s) as [[] s1]. reflexivity.
Qed.

Lemma warn_once_state_trace :
  forall site s,
    trace (warn_once_state site s) =
    trace s ++ if fired site s then [] else [EvWarnOnce site].
Proof.
  intros. unfold warn_once_state, pr_warn_once.
  destruct (fired site s); simpl; [now rewrite app_nil_r | reflexivity].
Qed.

Create Rewrite HintDb kmonad.
#[local] Hint Rewrite bind_emit bind_ret bind_assoc bind_pr_warn_once : kmonad.

Lemma domain_type_eqb_eq :
  forall a b, domain_type_eqb a b = true <-> a = b.
Proof. intros [] []; simpl; split; congruence. Qed.

Lemma kobj_eqb_refl : forall o, kobj_eqb o o = true.
Proof. intros []; simpl; now rewrite N.eqb_refl, Z.eqb_refl. Qed.

Lemma fst_pr_warn_once :
  forall A site (x : A) s, fst (bind (pr_warn_once site) (fun _ => ret x) s) = x.
Proof. intros. apply fst_bind_const. reflexivity. Qed.

(** The run of [domain_add_cpu_ctrl] when the quota array cannot be had. *)
Lemma domain_add_cpu_ctrl_nomem :
  forall (E : kernel_env) (cpu : N) (h : rdt_hw_resource) (s : kstate),
    let r := r_resctrl h in
    let dom_id := get_domain_id_from_scope E cpu (ctrl_scope r) in
    0 <= dom_id ->
    domain_of_id ctrl_hdr (ctrl_domains r) dom_id = None ->
    kmalloc_ok E (ObjHwCtrlDom (rid r) dom_id) = true ->
    kmalloc_ok E (ObjCtrlVal (rid r) dom_id) = false ->
    exists s',
      domain_add_cpu_ctrl E cpu h s = (h, s') /\
      trace s' = trace s ++ [EvKmalloc (ObjHwCtrlDom (rid r) dom_id); EvReconfigureCdp (rid r);
                             EvKfree (ObjHwCtrlDom (rid r) dom_id)].
Proof.
  intros E cpu h s r dom_id Hid Hnone Hk1 Hk2.
  assert (Hfind : find_domain_from ctrl_hdr (ctrl_domains r) dom_id 0 = None).
  { apply find_domain_from_none. now apply domain_of_id_none. }
  unfold domain_add_cpu_ctrl. fold r. fold dom_id.
  cbv zeta. apply Z.ltb_ge in Hid. rewrite Hid.
  unfold resctrl_find_domain. rewrite Hfind, Hk1. cbn [negb].
  unfold rdt_domain_reconfigure_cdp, domain_setup_ctrlval.
  eexists. split.
  - autorewrite with kmonad.
    erewrite bind_run by (apply kmalloc_array_fail; exact Hk2).
    autorewrite with kmonad.
    cbn [Z.eqb negb ENOMEM Z.opp]. unfold ctrl_domain_free, kfree.
    cbn [ctrl_val ctrl_domain_new ctrl_domain_zero].
    autorewrite with kmonad. reflexivity.
  - cbn [trace with_trace ctrl_domain_new d_resctrl hdr id]. rewrite <- !app_assoc. reflexivity.
Qed.

Lemma domain_add_cpu_ctrl_nomem_hw :
  forall (E : kernel_env) (cpu : N) (h : rdt_hw_resource) (s : kstate),
    let r := r_resctrl h in
    let dom_id := get_domain_id_from_scope E cpu (ctrl_scope r) in
    0 <= dom_id ->
    domain_of_id ctrl_hdr (ctrl_domains r) dom_id = None ->
    kmalloc_ok E (ObjHwCtrlDom (rid r) dom_id) = false ->
    domain_add_cpu_ctrl E cpu h s = (h, s).
Proof.
  intros E cpu h s r dom_id Hid Hnone Hk1.
  assert (Hfind : find_domain_from ctrl_hdr (ctrl_domains r) dom_id 0 = None).
  { apply find_domain_from_none. now apply domain_of_id_none. }
  unfold domain_add_cpu_ctrl. fold r. fold dom_id.
  cbv zeta. apply Z.ltb_ge in Hid. rewrite Hid.
  unfold resctrl_find_domain. rewrite Hfind, Hk1. reflexivity.
Qed.

(** Every run of [domain_add_cpu_ctrl] ends in one of three ways: the
    resource is as before, the core was added to the domain of its identity,
    or a new domain for the identity was linked. *)
Lemma domain_add_cpu_ctrl_cases :
  forall (E : kernel_env) (cpu : N) (h : rdt_hw_resource) (s : kstate),
    let r := r_resctrl h in
    let dom_id := get_domain_id_from_scope E cpu (ctrl_scope r) in
    let h' := fst (domain_add_cpu_ctrl E cpu h s) in
    h' = h \/
    (exists l1 l2 d,
        ctrl_domains r = l1 ++ d :: l2 /\ type (ctrl_hdr d) = RESCTRL_CTRL_DOMAIN /\
        h' = hw_set_resctrl h
               (set_ctrl_domains r
                  (l1 ++ ctrl_set_cpu_mask d (cpumask_set_cpu cpu (cpu_mask (ctrl_hdr d))) :: l2))) \/
    (exists l1 l2,
        ctrl_domains r = l1 ++ l2 /\
        ~ In dom_id (domain_ids ctrl_hdr (ctrl_domains r)) /\
        h' = hw_set_resctrl h
               (set_ctrl_domains r (l1 ++ ctrl_domain_created h dom_id cpu :: l2))).
Proof.
  intros E cpu h s r dom_id h'.
  destruct (Z.ltb_spec dom_id 0) as [Hneg|Hid].
  { left. subst h'. unfold domain_add_cpu_ctrl. fold r. fold dom_id. cbv zeta.
    apply Z.ltb_lt in Hneg. rewrite Hneg. apply fst_pr_warn_once. }
  destruct (find_domain_from ctrl_hdr (ctrl_domains r) dom_id 0) as [[k d]|] eqn:Hfind.
  - pose proof (domain_add_cpu_ctrl_found E cpu h s k d Hid Hfind) as Hrun.
    fold h' r in Hrun.
    destruct (find_domain_from_found ctrl_hdr _ _ _ _ _ Hfind) as (l1 & l2 & Hl & Hk & _ & _).
    cbn [Nat.add] in Hk. subst k.
    destruct (domain_type_eqb (type (ctrl_hdr d)) RESCTRL_CTRL_DOMAIN) eqn:Hty;
      [|now left].
    right. left. exists l1, l2, d. apply domain_type_eqb_eq in Hty.
    split; [exact Hl|]. split; [exact Hty|].
    now rewrite Hrun, Hl, list_store_middle.
  - assert (Hnone : domain_of_id ctrl_hdr (ctrl_domains r) dom_id = None).
    { apply domain_of_id_none. now apply (find_domain_from_none ctrl_hdr _ _ 0%nat). }
    destruct (kmalloc_ok E (ObjHwCtrlDom (rid r) dom_id)) eqn:Hk1.
    2:{ left. subst h'. now rewrite (domain_add_cpu_ctrl_nomem_hw E cpu h s Hid Hnone Hk1). }
    destruct (kmalloc_ok E (ObjCtrlVal (rid r) dom_id)) eqn:Hk2.
    2:{ left. subst h'.
        destruct (domain_add_cpu_ctrl_nomem E cpu h s Hid Hnone Hk1 Hk2) as (s' & Hrun & _).
        now rewrite Hrun. }
    destruct (domain_add_cpu_ctrl_create E cpu h s Hid Hnone Hk1 Hk2)
      as (w & s' & Hrun & _).
    fold r dom_id in Hrun.
    pose proof (find_add_pos_le ctrl_hdr (ctrl_domains r) dom_id) as Hle.
    destruct (resctrl_online_ctrl_domain E (rid r) dom_id =? 0).
    + right. right.
      destruct (list_add_tail_rcu_split (ctrl_domains r) (ctrl_domain_created h dom_id cpu)
                  _ Hle) as (l1 & l2 & Hl & _ & Hadd).
      exists l1, l2. split; [exact Hl|]. split; [now apply domain_of_id_none|].
      subst h'. now rewrite Hrun, Hadd.
    + left. subst h'. rewrite Hrun. cbn [fst].
      rewrite list_del_rcu_add_tail by exact Hle. apply hw_set_ctrl_domains_same.
Qed.

(** ** Domain registry: a core leaves *)

(** The run of [domain_remove_cpu_ctrl] on a core whose identity has a
    control domain. *)
Lemma domain_remove_cpu_ctrl_found :
  forall (E : kernel_env) (cpu : N) (h : rdt_hw_resource) (s : kstate) l1 l2 d,
    let r := r_resctrl h in
    let dom_id := get_domain_id_from_scope E cpu (ctrl_scope r) in
    let m1 := cpumask_clear_cpu cpu (cpu_mask (ctrl_hdr d)) in
    0 <= dom_id ->
    ctrl_domains r = l1 ++ d :: l2 ->
    find_domain_from ctrl_hdr (ctrl_domains r) dom_id 0 = Some (List.length l1, d) ->
    type (ctrl_hdr d) = RESCTRL_CTRL_DOMAIN ->
    exists s',
      domain_remove_cpu_ctrl E cpu h s =
        (hw_set_resctrl h
           (set_ctrl_domains r
              (if cpumask_empty m1 then l1 ++ l2 else l1 ++ ctrl_set_cpu_mask d m1 :: l2)), s') /\
      trace s' =
        trace s ++
        if cpumask_empty m1
        then [EvOfflineCtrlDomain (rid r) dom_id;
              EvListDelRcu (rid r) RESCTRL_CTRL_DOMAIN dom_id; EvSynchronizeRcu]
             ++ ctrl_teardown_frees (rid r) d
        else [].
Proof.
  intros E cpu h s l1 l2 d r dom_id m1 Hid Hl Hfind Hty.
  unfold domain_remove_cpu_ctrl. fold r. fold dom_id. cbv zeta.
  apply Z.ltb_ge in Hid. rewrite Hid. unfold resctrl_find_domain. cbn [fst].
  rewrite Hfind. unfold WARN_ON_ONCE. rewrite Hty. cbn [domain_type_eqb negb].
  rewrite bind_ret. fold m1. rewrite Hl, list_store_middle.
  replace (cpu_mask (ctrl_hdr (ctrl_set_cpu_mask d m1))) with m1 by reflexivity.
  destruct (cpumask_empty m1).
  - rewrite list_del_rcu_middle. unfold ctrl_domain_free, kfree, ctrl_teardown_frees.
    replace (plr (d_resctrl (ctrl_set_cpu_mask d m1))) with (plr (d_resctrl d)) by reflexivity.
    replace (ctrl_val (ctrl_set_cpu_mask d m1)) with (ctrl_val d) by reflexivity.
    replace (id (hdr (d_resctrl (ctrl_set_cpu_mask d m1)))) with (id (ctrl_hdr d))
      by reflexivity.
    assert (Hdid : id (ctrl_hdr d) = dom_id).
    { destruct (find_domain_from_found ctrl_hdr _ _ _ _ _ Hfind) as (_ & _ & _ & _ & H & _).
      exact H. }
    rewrite Hdid.
    destruct (plr (d_resctrl d)), (ctrl_val d);
      (eexists; split;
       [ autorewrite with kmonad; reflexivity
       | cbn [trace with_trace app]; rewrite <- ?app_assoc; reflexivity ]).
  - eexists. split; [reflexivity|]. now rewrite app_nil_r.
Qed.

(** ** Monitor domains *)

Ltac mon_norm H :=
  autorewrite with kmonad in H;
  cbn [mon_domain_hdr_new mon_set_ci_id mon_set_cpu_mask mon_set_mbm mon_hw_hdr mon_hdr
       mon_d_resctrl mon_domain_zero id arch_mbm_total arch_mbm_local cpu_mask set_cpu_mask
       ci_id type Z.eqb negb ENOMEM Z.opp andb orb] in H.

Lemma domain_add_cpu_mon_found :
  forall (E : kernel_env) (cpu : N) (h : rdt_hw_resource) (s : kstate) k d,
    let r := r_resctrl h in
    let dom_id := get_domain_id_from_scope E cpu (mon_scope r) in
    0 <= dom_id ->
    find_domain_from mon_hw_hdr (mon_domains r) dom_id 0 = Some (k, d) ->
    fst (domain_add_cpu_mon E cpu h s) =
    if domain_type_eqb (type (mon_hw_hdr d)) RESCTRL_MON_DOMAIN
    then hw_set_resctrl h
           (set_mon_domains r
              (list_store k (mon_set_cpu_mask d (cpumask_set_cpu cpu (cpu_mask (mon_hw_hdr d))))
                 (mon_domains r)))
    else h.
Proof.
  intros E cpu h s k d r dom_id Hid Hfind.
  unfold domain_add_cpu_mon. fold r. fold dom_id. cbv zeta.
  apply Z.ltb_ge in Hid. rewrite Hid. unfold resctrl_find_domain. rewrite Hfind.
  unfold WARN_ON_ONCE.
  destruct (domain_type_eqb (type (mon_hw_hdr d)) RESCTRL_MON_DOMAIN); cbn [negb].
  - rewrite bind_ret. reflexivity.
  - rewrite bind_assoc. apply fst_bind_const. reflexivity.
Qed.

(** The run of [domain_add_cpu_mon] for the first core of an identity: the
    domain is linked when everything succeeds, and otherwise the list is the
    one before and no block stays allocated. *)
Lemma domain_add_cpu_mon_new :
  forall (E : kernel_env) (cpu : N) (h : rdt_hw_resource) (s : kstate),
    let r := r_resctrl h in
    let dom_id := get_domain_id_from_scope E cpu (mon_scope r) in
    let pos := find_add_pos mon_hw_hdr (mon_domains r) dom_id in
    0 <= dom_id ->
    domain_of_id mon_hw_hdr (mon_domains r) dom_id = None ->
    exists t,
      trace (snd (domain_add_cpu_mon E cpu h s)) = trace s ++ t /\
      rcu_safe NotLinked t = true /\
      if mon_create_succeeds E r dom_id cpu
      then exists ci,
             get_cpu_cacheinfo_level E cpu RESCTRL_L3_CACHE = Some ci /\
             fst (domain_add_cpu_mon E cpu h s) =
             hw_set_resctrl h
               (set_mon_domains r
                  (list_add_tail_rcu (mon_domain_created E r dom_id cpu ci) pos (mon_domains r)))
      else fst (domain_add_cpu_mon E cpu h s) = h /\ live_objects t [] = [].
Proof.
  intros E cpu h s r dom_id pos Hid Hnone.
  assert (Hfind : find_domain_from mon_hw_hdr (mon_domains r) dom_id 0 = None).
  { apply find_domain_from_none. now apply domain_of_id_none. }
  pose proof (find_add_pos_le mon_hw_hdr (mon_domains r) dom_id) as Hle. fold pos in Hle.
  destruct (domain_add_cpu_mon E cpu h s) as [h' s'] eqn:Hrun. cbn [fst snd].
  unfold mon_create_succeeds, mon_domain_created.
  unfold domain_add_cpu_mon in Hrun. fold r in Hrun. fold dom_id in Hrun. cbv zeta in Hrun.
  apply Z.ltb_ge in Hid. rewrite Hid in Hrun. unfold resctrl_find_domain in Hrun.
  rewrite Hfind in Hrun. fold pos in Hrun.
  destruct (kmalloc_ok E (ObjHwMonDom (rid r) dom_id)) eqn:Hk; cbn [negb andb] in Hrun |- *.
  2:{ injection Hrun as <- <-. exists []. rewrite app_nil_r. repeat split. }
  rewrite bind_emit in Hrun.
  unfold arch_mon_domain_online, arch_domain_mbm_alloc, arch_domain_mbm_alloc_local,
    kcalloc, mon_domain_free, kfree in Hrun.
  cbn [mon_domain_hdr_new mon_set_ci_id mon_set_cpu_mask mon_hw_hdr mon_hdr mon_d_resctrl
       mon_domain_zero id arch_mbm_total arch_mbm_local cpu_mask set_cpu_mask ci_id type]
    in Hrun.
  destruct (get_cpu_cacheinfo_level E cpu RESCTRL_L3_CACHE) as [ci|] eqn:Hci.
  2:{ cbn [andb]. autorewrite with kmonad in Hrun. injection Hrun as <- <-.
      eexists. split.
      { cbn [trace with_trace]. rewrite warn_once_state_trace. cbn [trace with_trace].
        rewrite <- !app_assoc. reflexivity. }
      split; [destruct (fired ONCE_mon_no_l3 _); reflexivity|].
      split; [reflexivity|].
      destruct (fired ONCE_mon_no_l3 _); cbn [app live_objects remove_obj];
        now rewrite kobj_eqb_refl. }
  cbn [andb].
  destruct (resctrl_arch_is_mbm_total_enabled E) eqn:Hte;
    [destruct (kmalloc_ok E (ObjMbmTotal (rid r) dom_id)) eqn:Hkt|];
    mon_norm Hrun;
    try (destruct (resctrl_arch_is_mbm_local_enabled E) eqn:Hle';
         [destruct (kmalloc_ok E (ObjMbmLocal (rid r) dom_id)) eqn:Hkl|];
         mon_norm Hrun);
    try (destruct (resctrl_online_mon_domain E (rid r) dom_id =? 0) eqn:Hhook;
         mon_norm Hrun);
    injection Hrun as <- <-;
    (eexists; split;
     [ cbn [trace with_trace]; rewrite <- ?app_assoc; reflexivity
     | split; [reflexivity|]; cbn [andb orb negb];
       first
         [ exists ci; split; reflexivity
         | split;
           [ try reflexivity;
             rewrite list_del_rcu_add_tail by exact Hle; apply hw_set_mon_domains_same
           | repeat (progress (cbn [app live_objects remove_obj kobj_eqb andb];
                               rewrite ?N.eqb_refl, ?Z.eqb_refl));
             reflexivity ] ] ]).
Qed.

Lemma live_objects_writes :
  forall w t l, forallb is_write_event w = true -> live_objects (w ++ t) l = live_objects t l.
Proof.
  induction w as [|e w IH]; intros t l Hw; [reflexivity|].
  simpl in Hw. apply andb_prop in Hw. destruct Hw as [He Hw].
  destruct e; try discriminate; simpl; now apply IH.
Qed.

Lemma rcu_safe_writes :
  forall w t st, forallb is_write_event w = true -> rcu_safe st (w ++ t) = rcu_safe st t.
Proof.
  induction w as [|e w IH]; intros t st Hw; [reflexivity|].
  simpl in Hw. apply andb_prop in Hw. destruct Hw as [He Hw].
  destruct e; try discriminate; simpl; now apply IH.
Qed.

(** The run of [domain_add_cpu_ctrl] for the first core of an identity: the
    domain is linked when everything succeeds, and otherwise the list is the
    one before and no block stays allocated. *)
Lemma domain_add_cpu_ctrl_new :
  forall (E : kernel_env) (cpu : N) (h : rdt_hw_resource) (s : kstate),
    let r := r_resctrl h in
    let dom_id := get_domain_id_from_scope E cpu (ctrl_scope r) in
    let pos := find_add_pos ctrl_hdr (ctrl_domains r) dom_id in
    0 <= dom_id ->
    domain_of_id ctrl_hdr (ctrl_domains r) dom_id = None ->
    exists t,
      trace (snd (domain_add_cpu_ctrl E cpu h s)) = trace s ++ t /\
      rcu_safe NotLinked t = true /\
      if ctrl_create_succeeds E r dom_id
      then fst (domain_add_cpu_ctrl E cpu h s) =
           hw_set_resctrl h
             (set_ctrl_domains r
                (list_add_tail_rcu (ctrl_domain_created h dom_id cpu) pos (ctrl_domains r)))
      else fst (domain_add_cpu_ctrl E cpu h s) = h /\ live_objects t [] = [].
Proof.
  intros E cpu h s r dom_id pos Hid Hnone. unfold ctrl_create_succeeds.
  destruct (kmalloc_ok E (ObjHwCtrlDom (rid r) dom_id)) eqn:Hk1.
  2:{ rewrite (domain_add_cpu_ctrl_nomem_hw E cpu h s Hid Hnone Hk1).
      exists []. rewrite app_nil_r. repeat split. }
  destruct (kmalloc_ok E (ObjCtrlVal (rid r) dom_id)) eqn:Hk2.
  2:{ destruct (domain_add_cpu_ctrl_nomem E cpu h s Hid Hnone Hk1 Hk2) as (s' & Hrun & Ht).
      rewrite Hrun. eexists. split; [exact Ht|]. split; [reflexivity|].
      split; [reflexivity|]. cbn [live_objects remove_obj]. now rewrite kobj_eqb_refl. }
  destruct (domain_add_cpu_ctrl_create E cpu h s Hid Hnone Hk1 Hk2)
    as (w & s' & Hrun & Ht & Hw & _).
  fold r dom_id pos in Hrun, Ht. rewrite Hrun. cbn [fst snd andb].
  eexists. split; [exact Ht|].
  destruct (resctrl_online_ctrl_domain E (rid r) dom_id =? 0).
  - split; [|reflexivity]. cbn [app rcu_safe]. now rewrite rcu_safe_writes.
  - split; [cbn [app rcu_safe]; now rewrite rcu_safe_writes|].
    split.
    + rewrite list_del_rcu_add_tail by apply find_add_pos_le.
      apply hw_set_ctrl_domains_same.
    + cbn [app live_objects]. rewrite live_objects_writes by exact Hw.
      repeat (progress (cbn [app live_objects remove_obj kobj_eqb andb];
                        rewrite ?N.eqb_refl, ?Z.eqb_refl)).
      reflexivity.
Qed.

(** C5. When the quota array or a counter array of a new domain cannot be
    set up, or the online hook of the filesystem layer reports an error, the
    resource is left as it was: its list has no domain of that identity, every
    block that was allocated has been freed, and none was freed while the
    domain was linked or before the grace period after its unlinking. *)
Theorem domain_add_cpu_rollback :
  forall (E : kernel_env) (cpu : N) (h : rdt_hw_resource) (s : kstate),
    let r := r_resctrl h in
    let cid := get_domain_id_from_scope E cpu (ctrl_scope r) in
    let mid := get_domain_id_from_scope E cpu (mon_scope r) in
    (0 <= cid ->
     domain_of_id ctrl_hdr (ctrl_domains r) cid = None ->
     kmalloc_ok E (ObjCtrlVal (rid r) cid) = false \/
     resctrl_online_ctrl_domain E (rid r) cid <> 0 ->
     exists t,
       trace (snd (domain_add_cpu_ctrl E cpu h s)) = trace s ++ t /\
       fst (domain_add_cpu_ctrl E cpu h s) = h /\
       domain_of_id ctrl_hdr (ctrl_domains (r_resctrl (fst (domain_add_cpu_ctrl E cpu h s)))) cid
       = None /\
       live_objects t [] = [] /\
       rcu_safe NotLinked t = true) /\
    (0 <= mid ->
     domain_of_id mon_hw_hdr (mon_domains r) mid = None ->
     (resctrl_arch_is_mbm_total_enabled E = true /\
      kmalloc_ok E (ObjMbmTotal (rid r) mid) = false) \/
     (resctrl_arch_is_mbm_local_enabled E = true /\
      kmalloc_ok E (ObjMbmLocal (rid r) mid) = false) \/
     resctrl_online_mon_domain E (rid r) mid <> 0 ->
     exists t,
       trace (snd (domain_add_cpu_mon E cpu h s)) = trace s ++ t /\
       fst (domain_add_cpu_mon E cpu h s) = h /\
       domain_of_id mon_hw_hdr (mon_domains (r_resctrl (fst (domain_add_cpu_mon E cpu h s)))) mid
       = None /\
       live_objects t [] = [] /\
       rcu_safe NotLinked t = true).
Proof.
  intros E cpu h s r cid mid. split.
  - intros Hid Hnone Hfail.
    destruct (domain_add_cpu_ctrl_new E cpu h s Hid Hnone) as (t & Ht & Hsafe & Hres).
    fold r cid in Hres.
    assert (Hno : ctrl_create_succeeds E r cid = false).
    { unfold ctrl_create_succeeds. destruct Hfail as [Hk|Hh].
      - rewrite Hk. now rewrite andb_false_r.
      - apply Z.eqb_neq in Hh. rewrite Hh. now rewrite andb_false_r. }
    rewrite Hno in Hres. destruct Hres as [Hh Hlive].
    exists t. rewrite Hh. repeat split; assumption.
  - intros Hid Hnone Hfail.
    destruct (domain_add_cpu_mon_new E cpu h s Hid Hnone) as (t & Ht & Hsafe & Hres).
    fold r mid in Hres.
    assert (Hno : mon_create_succeeds E r mid cpu = false).
    { unfold mon_create_succeeds. destruct Hfail as [[He Hk]|[[He Hk]|Hh]].
      - rewrite He, Hk. cbn [negb orb]. now rewrite andb_false_r.
      - rewrite He, Hk. cbn [negb orb]. now rewrite !andb_false_r.
      - apply Z.eqb_neq in Hh. rewrite Hh. now rewrite andb_false_r. }
    rewrite Hno in Hres. destruct Hres as [Hh Hlive].
    exists t. rewrite Hh. repeat split; assumption.
Qed.

Lemma domain_add_cpu_rollback_witness :
  let s := kstate_init sample_features in
  (exists t,
      trace (snd (domain_add_cpu_ctrl failing_env 0 sample_l3 s)) = trace s ++ t /\
      fst (domain_add_cpu_ctrl failing_env 0 sample_l3 s) = sample_l3 /\
      live_objects t [] = []) /\
  (exists t,
      trace (snd (domain_add_cpu_mon failing_env 0 sample_l3 s)) = trace s ++ t /\
      fst (domain_add_cpu_mon failing_env 0 sample_l3 s) = sample_l3 /\
      live_objects t [] = []).
Proof.
  intros s.
  destruct (domain_add_cpu_rollback failing_env 0%N sample_l3 s) as [Hc Hm].
  split.
  - destruct Hc as (t & Ht & Hh & _ & Hl & _).
    + vm_compute. discriminate.
    + reflexivity.
    + right. vm_compute. discriminate.
    + exists t. repeat split; assumption.
  - destruct Hm as (t & Ht & Hh & _ & Hl & _).
    + vm_compute. discriminate.
    + reflexivity.
    + right. left. split; reflexivity.
    + exists t. repeat split; assumption.
Defined.

(** The run of [domain_remove_cpu_mon] on a core whose identity has a
    monitor domain. *)
Lemma domain_remove_cpu_mon_found :
  forall (E : kernel_env) (cpu : N) (h : rdt_hw_resource) (s : kstate) l1 l2 d,
    let r := r_resctrl h in
    let dom_id := get_domain_id_from_scope E cpu (mon_scope r) in
    let m1 := cpumask_clear_cpu cpu (cpu_mask (mon_hw_hdr d)) in
    0 <= dom_id ->
    mon_domains r = l1 ++ d :: l2 ->
    find_domain_from mon_hw_hdr (mon_domains r) dom_id 0 = Some (List.length l1, d) ->
    type (mon_hw_hdr d) = RESCTRL_MON_DOMAIN ->
    exists s',
      domain_remove_cpu_mon E cpu h s =
        (hw_set_resctrl h
           (set_mon_domains r
              (if cpumask_empty m1 then l1 ++ l2 else l1 ++ mon_set_cpu_mask d m1 :: l2)), s') /\
      trace s' =
        trace s ++
        if cpumask_empty m1
        then [EvOfflineMonDomain (rid r) dom_id;
              EvListDelRcu (rid r) RESCTRL_MON_DOMAIN dom_id; EvSynchronizeRcu]
             ++ mon_teardown_frees (rid r) d
        else [].
Proof.
  intros E cpu h s l1 l2 d r dom_id m1 Hid Hl Hfind Hty.
  unfold domain_remove_cpu_mon. fold r. fold dom_id. cbv zeta.
  apply Z.ltb_ge in Hid. rewrite Hid. unfold resctrl_find_domain. cbn [fst].
  rewrite Hfind. unfold WARN_ON_ONCE. rewrite Hty. cbn [domain_type_eqb negb].
  rewrite bind_ret. fold m1. rewrite Hl, list_store_middle.
  replace (cpu_mask (mon_hw_hdr (mon_set_cpu_mask d m1))) with m1 by reflexivity.
  destruct (cpumask_empty m1).
  - rewrite list_del_rcu_middle. unfold mon_domain_free, kfree, mon_teardown_frees.
    replace (arch_mbm_total (mon_set_cpu_mask d m1)) with (arch_mbm_total d) by reflexivity.
    replace (arch_mbm_local (mon_set_cpu_mask d m1)) with (arch_mbm_local d) by reflexivity.
    replace (id (mon_hdr (mon_d_resctrl (mon_set_cpu_mask d m1)))) with (id (mon_hw_hdr d))
      by reflexivity.
    assert (Hdid : id (mon_hw_hdr d) = dom_id).
    { destruct (find_domain_from_found mon_hw_hdr _ _ _ _ _ Hfind) as (_ & _ & _ & _ & H & _).
      exact H. }
    rewrite Hdid.
    destruct (arch_mbm_total d), (arch_mbm_local d);
      (eexists; split;
       [ autorewrite with kmonad; reflexivity
       | cbn [trace with_trace app]; rewrite <- ?app_assoc; reflexivity ]).
  - eexists. split; [reflexivity|]. now rewrite app_nil_r.
Qed.

(** How the lookup by identity and the lookup of the code agree on a list
    whose domain of that identity is [d]. *)
Lemma domain_of_id_found :
  forall A (hdr_of : A -> rdt_domain_hdr) (l : list A) dom_id d,
    domain_of_id hdr_of l dom_id = Some d ->
    exists l1 l2,
      l = l1 ++ d :: l2 /\
      find_domain_from hdr_of l dom_id 0 = Some (List.length l1, d) /\
      id (hdr_of d) = dom_id /\
      ~ In dom_id (domain_ids hdr_of l1).
Proof.
  intros A hdr_of l dom_id d Hof.
  pose proof (find_domain_from_of_id hdr_of l dom_id 0) as Hf. rewrite Hof in Hf.
  destruct (find_domain_from hdr_of l dom_id 0) as [[k d0]|] eqn:Hfind; [|discriminate].
  cbn [option_map snd] in Hf. injection Hf as ->.
  destruct (find_domain_from_found hdr_of _ _ _ _ _ Hfind) as (l1 & l2 & Hl & Hk & Hid & Hni).
  cbn [Nat.add] in Hk. subst k. exists l1, l2. repeat split; assumption.
Qed.

Lemma domains_ok_type :
  forall A (hdr_of : A -> rdt_domain_hdr) t (l1 l2 : list A) d,
    domains_ok hdr_of t (l1 ++ d :: l2) ->
    type (hdr_of d) = t /\ cpu_mask (hdr_of d) <> 0%N.
Proof.
  intros A hdr_of t l1 l2 d [_ Hall]. rewrite Forall_forall in Hall.
  apply Hall. apply in_or_app. right. now left.
Qed.

(** Taking a core out of a control domain: with a member left the domain
    stays linked, with its other fields as they were, and nothing is emitted;
    without, the offline hook is called, the domain unlinked, the grace
    period waited for, and then its blocks are freed. *)
Lemma domain_remove_cpu_ctrl_spec :
  forall (E : kernel_env) (cpu : N) (h : rdt_hw_resource) (s : kstate) d,
    let r := r_resctrl h in
    let dom_id := get_domain_id_from_scope E cpu (ctrl_scope r) in
    let m1 := cpumask_clear_cpu cpu (cpu_mask (ctrl_hdr d)) in
    let h' := fst (domain_remove_cpu_ctrl E cpu h s) in
    let s' := snd (domain_remove_cpu_ctrl E cpu h s) in
    domains_ok ctrl_hdr RESCTRL_CTRL_DOMAIN (ctrl_domains r) ->
    0 <= dom_id ->
    domain_of_id ctrl_hdr (ctrl_domains r) dom_id = Some d ->
    (m1 <> 0%N ->
       domain_of_id ctrl_hdr (ctrl_domains (r_resctrl h')) dom_id
       = Some (ctrl_set_cpu_mask d m1) /\
       trace s' = trace s) /\
    (m1 = 0%N ->
       domain_of_id ctrl_hdr (ctrl_domains (r_resctrl h')) dom_id = None /\
       trace s' =
         trace s ++ [EvOfflineCtrlDomain (rid r) dom_id;
                     EvListDelRcu (rid r) RESCTRL_CTRL_DOMAIN dom_id; EvSynchronizeRcu]
                 ++ ctrl_teardown_frees (rid r) d).
Proof.
  intros E cpu h s d r dom_id m1 h' s' Hok Hid Hof.
  destruct (domain_of_id_found _ ctrl_hdr _ _ _ Hof) as (l1 & l2 & Hl & Hfind & Hdid & Hni).
  rewrite Hl in Hok. destruct (domains_ok_type _ _ _ _ _ _ Hok) as [Hty _].
  destruct (domain_remove_cpu_ctrl_found E cpu h s l1 l2 d Hid Hl Hfind Hty)
    as (s1 & Hrun & Htr).
  fold r dom_id m1 in Hrun, Htr. subst h' s'. rewrite Hrun. cbn [fst snd].
  cbn [r_resctrl hw_set_resctrl ctrl_domains set_ctrl_domains].
  unfold cpumask_empty in *. split; intros Hm.
  - apply N.eqb_neq in Hm. rewrite Hm in Htr |- *. split.
    + rewrite <- Hdid. apply (domain_of_id_middle ctrl_hdr l1 l2 (ctrl_set_cpu_mask d m1)).
      cbn. fold (ctrl_hdr d). now rewrite Hdid.
    + now rewrite Htr, app_nil_r.
  - apply N.eqb_eq in Hm. rewrite Hm in Htr |- *. split; [|exact Htr].
    apply domain_of_id_none. rewrite <- Hdid. now apply (domains_ok_remove ctrl_hdr _ _ _ _ Hok).
Qed.

Lemma domain_remove_cpu_mon_spec :
  forall (E : kernel_env) (cpu : N) (h : rdt_hw_resource) (s : kstate) d,
    let r := r_resctrl h in
    let dom_id := get_domain_id_from_scope E cpu (mon_scope r) in
    let m1 := cpumask_clear_cpu cpu (cpu_mask (mon_hw_hdr d)) in
    let h' := fst (domain_remove_cpu_mon E cpu h s) in
    let s' := snd (domain_remove_cpu_mon E cpu h s) in
    domains_ok mon_hw_hdr RESCTRL_MON_DOMAIN (mon_domains r) ->
    0 <= dom_id ->
    domain_of_id mon_hw_hdr (mon_domains r) dom_id = Some d ->
    (m1 <> 0%N ->
       domain_of_id mon_hw_hdr (mon_domains (r_resctrl h')) dom_id
       = Some (mon_set_cpu_mask d m1) /\
       trace s' = trace s) /\
    (m1 = 0%N ->
       domain_of_id mon_hw_hdr (mon_domains (r_resctrl h')) dom_id = None /\
       trace s' =
         trace s ++ [EvOfflineMonDomain (rid r) dom_id;
                     EvListDelRcu (rid r) RESCTRL_MON_DOMAIN dom_id; EvSynchronizeRcu]
                 ++ mon_teardown_frees (rid r) d).
Proof.
  intros E cpu h s d r dom_id m1 h' s' Hok Hid Hof.
  destruct (domain_of_id_found _ mon_hw_hdr _ _ _ Hof) as (l1 & l2 & Hl & Hfind & Hdid & Hni).
  rewrite Hl in Hok. destruct (domains_ok_type _ _ _ _ _ _ Hok) as [Hty _].
  destruct (domain_remove_cpu_mon_found E cpu h s l1 l2 d Hid Hl Hfind Hty)
    as (s1 & Hrun & Htr).
  fold r dom_id m1 in Hrun, Htr. subst h' s'. rewrite Hrun. cbn [fst snd].
  cbn [r_resctrl hw_set_resctrl mon_domains set_mon_domains].
  unfold cpumask_empty in *. split; intros Hm.
  - apply N.eqb_neq in Hm. rewrite Hm in Htr |- *. split.
    + rewrite <- Hdid. apply (domain_of_id_middle mon_hw_hdr l1 l2 (mon_set_cpu_mask d m1)).
      cbn. fold (mon_hw_hdr d). now rewrite Hdid.
    + now rewrite Htr, app_nil_r.
  - apply N.eqb_eq in Hm. rewrite Hm in Htr |- *. split; [|exact Htr].
    apply domain_of_id_none. rewrite <- Hdid. now apply (domains_ok_remove mon_hw_hdr _ _ _ _ Hok).
Qed.

(** ** The invariant of the domain lists *)

Lemma cpumask_empty_false : forall m, cpumask_empty m = false -> m <> 0%N.
Proof. intros m H. now apply N.eqb_neq. Qed.

Lemma domain_add_cpu_ctrl_ok :
  forall (E : kernel_env) (cpu : N) (h : rdt_hw_resource) (s : kstate),
    domains_ok ctrl_hdr RESCTRL_CTRL_DOMAIN (ctrl_domains (r_resctrl h)) ->
    exists l',
      fst (domain_add_cpu_ctrl E cpu h s) =
        hw_set_resctrl h (set_ctrl_domains (r_resctrl h) l') /\
      domains_ok ctrl_hdr RESCTRL_CTRL_DOMAIN l'.
Proof.
  intros E cpu h s Hok.
  destruct (domain_add_cpu_ctrl_cases E cpu h s)
    as [Hh | [(l1 & l2 & d & Hl & Hty & Hh) | (l1 & l2 & Hl & Hni & Hh)]].
  - exists (ctrl_domains (r_resctrl h)). split; [|exact Hok].
    now rewrite Hh, hw_set_ctrl_domains_same.
  - eexists. split; [exact Hh|]. rewrite Hl in Hok.
    apply (domains_ok_store ctrl_hdr _ l1 l2 d); try assumption; try reflexivity.
    apply cpumask_set_cpu_nonempty.
  - eexists. split; [exact Hh|]. rewrite Hl in Hok, Hni.
    apply domains_ok_insert; try assumption; try reflexivity.
    apply cpumask_set_cpu_nonempty.
Qed.

Lemma domain_add_cpu_mon_ok :
  forall (E : kernel_env) (cpu : N) (h : rdt_hw_resource) (s : kstate),
    domains_ok mon_hw_hdr RESCTRL_MON_DOMAIN (mon_domains (r_resctrl h)) ->
    exists l',
      fst (domain_add_cpu_mon E cpu h s) =
        hw_set_resctrl h (set_mon_domains (r_resctrl h) l') /\
      domains_ok mon_hw_hdr RESCTRL_MON_DOMAIN l'.
Proof.
  intros E cpu h s Hok.
  set (r := r_resctrl h) in *.
  set (dom_id := get_domain_id_from_scope E cpu (mon_scope r)).
  assert (Hsame : forall h', h' = h ->
            exists l', h' = hw_set_resctrl h (set_mon_domains r l') /\
                       domains_ok mon_hw_hdr RESCTRL_MON_DOMAIN l').
  { intros h' ->. exists (mon_domains r). split; [|exact Hok].
    symmetry. apply hw_set_mon_domains_same. }
  destruct (Z.ltb_spec dom_id 0) as [Hneg|Hid].
  { apply Hsame. unfold domain_add_cpu_mon. fold r. fold dom_id. cbv zeta.
    apply Z.ltb_lt in Hneg. rewrite Hneg. apply fst_pr_warn_once. }
  destruct (find_domain_from mon_hw_hdr (mon_domains r) dom_id 0) as [[k d]|] eqn:Hfind.
  - pose proof (domain_add_cpu_mon_found E cpu h s k d Hid Hfind) as Hrun. fold r in Hrun.
    destruct (find_domain_from_found mon_hw_hdr _ _ _ _ _ Hfind) as (l1 & l2 & Hl & Hk & _ & _).
    cbn [Nat.add] in Hk. subst k.
    destruct (domain_type_eqb (type (mon_hw_hdr d)) RESCTRL_MON_DOMAIN) eqn:Hty;
      [|now apply Hsame].
    eexists. split; [exact Hrun|]. rewrite Hl, list_store_middle. rewrite Hl in Hok.
    apply (domains_ok_store mon_hw_hdr _ l1 l2 d); try assumption; try reflexivity.
    + now apply domain_type_eqb_eq.
    + apply cpumask_set_cpu_nonempty.
  - assert (Hnone : domain_of_id mon_hw_hdr (mon_domains r) dom_id = None).
    { apply domain_of_id_none. now apply (find_domain_from_none mon_hw_hdr _ _ 0%nat). }
    destruct (domain_add_cpu_mon_new E cpu h s Hid Hnone) as (t & _ & _ & Hres).
    fold r dom_id in Hres.
    destruct (mon_create_succeeds E r dom_id cpu).
    + destruct Hres as (ci & _ & Hrun). eexists. split; [exact Hrun|].
      destruct (list_add_tail_rcu_split (mon_domains r) (mon_domain_created E r dom_id cpu ci)
                  _ (find_add_pos_le mon_hw_hdr (mon_domains r) dom_id))
        as (l1 & l2 & Hl & _ & Hadd).
      rewrite Hadd. rewrite Hl in Hok.
      apply domains_ok_insert; try assumption; try reflexivity.
      * rewrite <- Hl. now apply domain_of_id_none.
      * apply cpumask_set_cpu_nonempty.
    + apply Hsame. apply Hres.
Qed.

Lemma domain_remove_cpu_ctrl_ok :
  forall (E : kernel_env) (cpu : N) (h : rdt_hw_resource) (s : kstate),
    domains_ok ctrl_hdr RESCTRL_CTRL_DOMAIN (ctrl_domains (r_resctrl h)) ->
    exists l',
      fst (domain_remove_cpu_ctrl E cpu h s) =
        hw_set_resctrl h (set_ctrl_domains (r_resctrl h) l') /\
      domains_ok ctrl_hdr RESCTRL_CTRL_DOMAIN l'.
Proof.
  intros E cpu h s Hok.
  set (r := r_resctrl h) in *.
  set (dom_id := get_domain_id_from_scope E cpu (ctrl_scope r)).
  assert (Hsame : forall h', h' = h ->
            exists l', h' = hw_set_resctrl h (set_ctrl_domains r l') /\
                       domains_ok ctrl_hdr RESCTRL_CTRL_DOMAIN l').
  { intros h' ->. exists (ctrl_domains r). split; [|exact Hok].
    symmetry. apply hw_set_ctrl_domains_same. }
  destruct (Z.ltb_spec dom_id 0) as [Hneg|Hid].
  { apply Hsame. unfold domain_remove_cpu_ctrl. fold r. fold dom_id. cbv zeta.
    apply Z.ltb_lt in Hneg. rewrite Hneg. apply fst_pr_warn_once. }
  destruct (find_domain_from ctrl_hdr (ctrl_domains r) dom_id 0) as [[k d]|] eqn:Hfind.
  - destruct (find_domain_from_found ctrl_hdr _ _ _ _ _ Hfind) as (l1 & l2 & Hl & Hk & _ & _).
    cbn [Nat.add] in Hk. subst k.
    rewrite Hl in Hok. destruct (domains_ok_type _ _ _ _ _ _ Hok) as [Hty _].
    destruct (domain_remove_cpu_ctrl_found E cpu h s l1 l2 d Hid Hl Hfind Hty)
      as (s1 & Hrun & _).
    fold r in Hrun. rewrite Hrun. cbn [fst]. eexists. split; [reflexivity|].
    destruct (cpumask_empty _) eqn:Hm.
    + now apply (domains_ok_remove ctrl_hdr _ _ _ _ Hok).
    + apply (domains_ok_store ctrl_hdr _ l1 l2 d); try assumption; try reflexivity.
      now apply cpumask_empty_false.
  - apply Hsame. unfold domain_remove_cpu_ctrl. fold r. fold dom_id. cbv zeta.
    apply Z.ltb_ge in Hid. rewrite Hid. unfold resctrl_find_domain. cbn [fst].
    rewrite Hfind. reflexivity.
Qed.

Lemma domain_remove_cpu_mon_ok :
  forall (E : kernel_env) (cpu : N) (h : rdt_hw_resource) (s : kstate),
    domains_ok mon_hw_hdr RESCTRL_MON_DOMAIN (mon_domains (r_resctrl h)) ->
    exists l',
      fst (domain_remove_cpu_mon E cpu h s) =
        hw_set_resctrl h (set_mon_domains (r_resctrl h) l') /\
      domains_ok mon_hw_hdr RESCTRL_MON_DOMAIN l'.
Proof.
  intros E cpu h s Hok.
  set (r := r_resctrl h) in *.
  set (dom_id := get_domain_id_from_scope E cpu (mon_scope r)).
  assert (Hsame : forall h', h' = h ->
            exists l', h' = hw_set_resctrl h (set_mon_domains r l') /\
                       domains_ok mon_hw_hdr RESCTRL_MON_DOMAIN l').
  { intros h' ->. exists (mon_domains r). split; [|exact Hok].
    symmetry. apply hw_set_mon_domains_same. }
  destruct (Z.ltb_spec dom_id 0) as [Hneg|Hid].
  { apply Hsame. unfold domain_remove_cpu_mon. fold r. fold dom_id. cbv zeta.
    apply Z.ltb_lt in Hneg. rewrite Hneg. apply fst_pr_warn_once. }
  destruct (find_domain_from mon_hw_hdr (mon_domains r) dom_id 0) as [[k d]|] eqn:Hfind.
  - destruct (find_domain_from_found mon_hw_hdr _ _ _ _ _ Hfind) as (l1 & l2 & Hl & Hk & _ & _).
    cbn [Nat.add] in Hk. subst k.
    rewrite Hl in Hok. destruct (domains_ok_type _ _ _ _ _ _ Hok) as [Hty _].
    destruct (domain_remove_cpu_mon_found E cpu h s l1 l2 d Hid Hl Hfind Hty)
      as (s1 & Hrun & _).
    fold r in Hrun. rewrite Hrun. cbn [fst]. eexists. split; [reflexivity|].
    destruct (cpumask_empty _) eqn:Hm.
    + now apply (domains_ok_remove mon_hw_hdr _ _ _ _ Hok).
    + apply (domains_ok_store mon_hw_hdr _ l1 l2 d); try assumption; try reflexivity.
      now apply cpumask_empty_false.
  - apply Hsame. unfold domain_remove_cpu_mon. fold r. fold dom_id. cbv zeta.
    apply Z.ltb_ge in Hid. rewrite Hid. unfold resctrl_find_domain. cbn [fst].
    rewrite Hfind. reflexivity.
Qed.

(** Both lists of a resource stay well formed when a core joins or leaves:
    no linked domain is ever without a member core. *)
Lemma resource_ok_preserved :
  forall (E : kernel_env) (cpu : N) (h : rdt_hw_resource) (s : kstate),
    resource_ok h ->
    resource_ok (fst (domain_add_cpu E cpu h s)) /\
    resource_ok (fst (domain_remove_cpu E cpu h s)).
Proof.
  intros E cpu h s [Hc Hm]. split.
  - unfold domain_add_cpu, bind.
    destruct (alloc_capable (r_resctrl h)).
    + destruct (domain_add_cpu_ctrl_ok E cpu h s Hc) as (l1 & H1 & Hok1).
      destruct (domain_add_cpu_ctrl E cpu h s) as [h1 s1]. cbn [fst] in H1. subst h1.
      cbn [r_resctrl hw_set_resctrl mon_capable set_ctrl_domains].
      destruct (mon_capable (r_resctrl h)).
      * destruct (domain_add_cpu_mon_ok E cpu
                    (hw_set_resctrl h (set_ctrl_domains (r_resctrl h) l1)) s1 Hm)
          as (l2 & H2 & Hok2).
        rewrite H2. split; assumption.
      * split; assumption.
    + unfold ret. destruct (mon_capable (r_resctrl h)).
      * destruct (domain_add_cpu_mon_ok E cpu h s Hm) as (l2 & H2 & Hok2).
        rewrite H2. split; assumption.
      * split; assumption.
  - unfold domain_remove_cpu, bind.
    destruct (alloc_capable (r_resctrl h)).
    + destruct (domain_remove_cpu_ctrl_ok E cpu h s Hc) as (l1 & H1 & Hok1).
      destruct (domain_remove_cpu_ctrl E cpu h s) as [h1 s1]. cbn [fst] in H1. subst h1.
      cbn [r_resctrl hw_set_resctrl mon_capable set_ctrl_domains].
      destruct (mon_capable (r_resctrl h)).
      * destruct (domain_remove_cpu_mon_ok E cpu
                    (hw_set_resctrl h (set_ctrl_domains (r_resctrl h) l1)) s1 Hm)
          as (l2 & H2 & Hok2).
        rewrite H2. split; assumption.
      * split; assumption.
    + unfold ret. destruct (mon_capable (r_resctrl h)).
      * destruct (domain_remove_cpu_mon_ok E cpu h s Hm) as (l2 & H2 & Hok2).
        rewrite H2. split; assumption.
      * split; assumption.
Qed.

Lemma cpumask_two_clear_first :
  forall cpu1 cpu2,
    cpu1 <> cpu2 ->
    cpumask_clear_cpu cpu1 (cpumask_set_cpu cpu2 (cpumask_set_cpu cpu1 0)) = cpumask_set_cpu cpu2 0.
Proof.
  intros cpu1 cpu2 Hne. unfold cpumask_clear_cpu, cpumask_set_cpu.
  apply N.bits_inj. intros n.
  rewrite N.clearbit_eqb, !N.setbit_eqb, N.bits_0.
  destruct (N.eqb_spec cpu1 n) as [->|H1], (N.eqb_spec cpu2 n) as [->|H2]; simpl;
    try reflexivity. now elim Hne.
Qed.

Lemma cpumask_clear_last :
  forall cpu, cpumask_clear_cpu cpu (cpumask_set_cpu cpu 0) = 0%N.
Proof.
  intros cpu. unfold cpumask_clear_cpu, cpumask_set_cpu.
  apply N.bits_inj. intros n.
  rewrite N.clearbit_eqb, N.setbit_eqb, N.bits_0.
  destruct (N.eqb_spec cpu n); reflexivity.
Qed.

(** Two cores of one control domain leave one after the other. *)
Lemma two_cores_leave_ctrl :
  forall (E : kernel_env) (cpu1 cpu2 : N) (h : rdt_hw_resource) (s1 s2 : kstate) d,
    let r := r_resctrl h in
    let dom_id := get_domain_id_from_scope E cpu1 (ctrl_scope r) in
    let h1 := fst (domain_remove_cpu_ctrl E cpu1 h s1) in
    let h2 := fst (domain_remove_cpu_ctrl E cpu2 h1 s2) in
    domains_ok ctrl_hdr RESCTRL_CTRL_DOMAIN (ctrl_domains r) ->
    0 <= dom_id ->
    get_domain_id_from_scope E cpu2 (ctrl_scope r) = dom_id ->
    cpu1 <> cpu2 ->
    domain_of_id ctrl_hdr (ctrl_domains r) dom_id = Some d ->
    cpu_mask (ctrl_hdr d) = cpumask_set_cpu cpu2 (cpumask_set_cpu cpu1 0) ->
    domain_of_id ctrl_hdr (ctrl_domains (r_resctrl h1)) dom_id
    = Some (ctrl_set_cpu_mask d (cpumask_set_cpu cpu2 0)) /\
    trace (snd (domain_remove_cpu_ctrl E cpu1 h s1)) = trace s1 /\
    domain_of_id ctrl_hdr (ctrl_domains (r_resctrl h2)) dom_id = None /\
    trace (snd (domain_remove_cpu_ctrl E cpu2 h1 s2)) =
      trace s2 ++ [EvOfflineCtrlDomain (rid r) dom_id;
                   EvListDelRcu (rid r) RESCTRL_CTRL_DOMAIN dom_id; EvSynchronizeRcu]
               ++ ctrl_teardown_frees (rid r) d.
Proof.
  intros E cpu1 cpu2 h s1 s2 d r dom_id h1 h2 Hok Hid Hid2 Hne Hof Hmask.
  destruct (domain_remove_cpu_ctrl_spec E cpu1 h s1 d Hok Hid Hof) as [Hkeep _].
  rewrite Hmask, (cpumask_two_clear_first _ _ Hne) in Hkeep.
  destruct (Hkeep (cpumask_set_cpu_nonempty cpu2 0%N)) as [Hof1 Ht1].
  fold h1 in Hof1. split; [exact Hof1|]. split; [exact Ht1|].
  destruct (domain_remove_cpu_ctrl_ok E cpu1 h s1 Hok) as (l' & Hh1 & Hok1).
  fold h1 in Hh1.
  assert (Hl1 : ctrl_domains (r_resctrl h1) = l') by now rewrite Hh1.
  assert (Hsc : ctrl_scope (r_resctrl h1) = ctrl_scope r) by now rewrite Hh1.
  assert (Hrid : rid (r_resctrl h1) = rid r) by now rewrite Hh1.
  rewrite <- Hl1 in Hok1.
  assert (Hid2' : get_domain_id_from_scope E cpu2 (ctrl_scope (r_resctrl h1)) = dom_id)
    by now rewrite Hsc.
  pose proof (domain_remove_cpu_ctrl_spec E cpu2 h1 s2
                (ctrl_set_cpu_mask d (cpumask_set_cpu cpu2 0)) Hok1) as Hsp.
  cbv zeta in Hsp. rewrite Hid2', Hrid in Hsp.
  destruct (Hsp Hid Hof1) as [_ Hdown].
  destruct Hdown as [Hof2 Ht2]; [apply cpumask_clear_last|].
  split; [exact Hof2 | exact Ht2].
Qed.

(** Two cores of one monitor domain leave one after the other. *)
Lemma two_cores_leave_mon :
  forall (E : kernel_env) (cpu1 cpu2 : N) (h : rdt_hw_resource) (s1 s2 : kstate) d,
    let r := r_resctrl h in
    let dom_id := get_domain_id_from_scope E cpu1 (mon_scope r) in
    let h1 := fst (domain_remove_cpu_mon E cpu1 h s1) in
    let h2 := fst (domain_remove_cpu_mon E cpu2 h1 s2) in
    domains_ok mon_hw_hdr RESCTRL_MON_DOMAIN (mon_domains r) ->
    0 <= dom_id ->
    get_domain_id_from_scope E cpu2 (mon_scope r) = dom_id ->
    cpu1 <> cpu2 ->
    domain_of_id mon_hw_hdr (mon_domains r) dom_id = Some d ->
    cpu_mask (mon_hw_hdr d) = cpumask_set_cpu cpu2 (cpumask_set_cpu cpu1 0) ->
    domain_of_id mon_hw_hdr (mon_domains (r_resctrl h1)) dom_id
    = Some (mon_set_cpu_mask d (cpumask_set_cpu cpu2 0)) /\
    trace (snd (domain_remove_cpu_mon E cpu1 h s1)) = trace s1 /\
    domain_of_id mon_hw_hdr (mon_domains (r_resctrl h2)) dom_id = None /\
    trace (snd (domain_remove_cpu_mon E cpu2 h1 s2)) =
      trace s2 ++ [EvOfflineMonDomain (rid r) dom_id;
                   EvListDelRcu (rid r) RESCTRL_MON_DOMAIN dom_id; EvSynchronizeRcu]
               ++ mon_teardown_frees (rid r) d.
Proof.
  intros E cpu1 cpu2 h s1 s2 d r dom_id h1 h2 Hok Hid Hid2 Hne Hof Hmask.
  destruct (domain_remove_cpu_mon_spec E cpu1 h s1 d Hok Hid Hof) as [Hkeep _].
  rewrite Hmask, (cpumask_two_clear_first _ _ Hne) in Hkeep.
  destruct (Hkeep (cpumask_set_cpu_nonempty cpu2 0%N)) as [Hof1 Ht1].
  fold h1 in Hof1. split; [exact Hof1|]. split; [exact Ht1|].
  destruct (domain_remove_cpu_mon_ok E cpu1 h s1 Hok) as (l' & Hh1 & Hok1).
  fold h1 in Hh1.
  assert (Hl1 : mon_domains (r_resctrl h1) = l') by now rewrite Hh1.
  assert (Hsc : mon_scope (r_resctrl h1) = mon_scope r) by now rewrite Hh1.
  assert (Hrid : rid (r_resctrl h1) = rid r) by now rewrite Hh1.
  rewrite <- Hl1 in Hok1.
  assert (Hid2' : get_domain_id_from_scope E cpu2 (mon_scope (r_resctrl h1)) = dom_id)
    by now rewrite Hsc.
  pose proof (domain_remove_cpu_mon_spec E cpu2 h1 s2
                (mon_set_cpu_mask d (cpumask_set_cpu cpu2 0)) Hok1) as Hsp.
  cbv zeta in Hsp. rewrite Hid2', Hrid in Hsp.
  destruct (Hsp Hid Hof1) as [_ Hdown].
  destruct Hdown as [Hof2 Ht2]; [apply cpumask_clear_last|].
  split; [exact Hof2 | exact Ht2].
Qed.

(** ** Hotplug coordinator *)

Ltac emits_auto :=
  repeat lazymatch goal with
    | |- emits _ (ret _) => apply emits_ret
    | |- emits _ (emit _) => apply emits_emit; reflexivity
    | |- emits _ (pr_warn_once _) => apply emits_pr_warn_once; reflexivity
    | |- emits _ (WARN_ON_ONCE _ _) => apply emits_WARN_ON_ONCE; reflexivity
    | |- emits _ (kfree _ _) => apply emits_kfree; reflexivity
    | |- emits _ (bind _ _) => apply emits_bind; [|intro]
    | |- emits _ (if ?b then _ else _) => destruct b
    | |- emits _ (match ?x with _ => _ end) => destruct x
    end.

Lemma emits_call_msr_update :
  forall E m, emits is_domain_event (call_msr_update E m).
Proof.
  intros E m. unfold call_msr_update. apply emits_bind; [now apply emits_emit|].
  intros _. destruct (emits_writers E m) as (H1 & H2 & H3).
  assert (Hsub : forall e, is_write_event e = true -> is_domain_event e = true)
    by (intros []; simpl; congruence).
  destruct (msr_update (res m)).
  - now apply emits_emit.
  - now apply (emits_weaken _ is_write_event).
  - now apply (emits_weaken _ is_write_event).
  - now apply (emits_weaken _ is_write_event).
Qed.

Lemma emits_domain_setup_ctrlval :
  forall E h d, emits is_domain_event (domain_setup_ctrlval E h d).
Proof.
  intros E h d. unfold domain_setup_ctrlval, kmalloc_array.
  apply emits_bind; [emits_auto|]. intros [dc|]; [|apply emits_ret].
  apply emits_bind; [apply emits_call_msr_update | intros; apply emits_ret].
Qed.

Lemma emits_arch_domain_mbm_alloc :
  forall E n r d, emits is_domain_event (arch_domain_mbm_alloc E n r d).
Proof.
  intros E n r d. unfold arch_domain_mbm_alloc, arch_domain_mbm_alloc_local, kcalloc.
  emits_auto.
Qed.

Lemma emits_domain_add_cpu_ctrl :
  forall E cpu h, emits is_domain_event (domain_add_cpu_ctrl E cpu h).
Proof.
  intros E cpu h. unfold domain_add_cpu_ctrl, resctrl_find_domain, when,
    rdt_domain_reconfigure_cdp, ctrl_domain_free.
  cbv zeta. emits_auto. apply emits_domain_setup_ctrlval.
Qed.

Lemma emits_domain_add_cpu_mon :
  forall E cpu h, emits is_domain_event (domain_add_cpu_mon E cpu h).
Proof.
  intros E cpu h. unfold domain_add_cpu_mon, resctrl_find_domain, arch_mon_domain_online,
    mon_domain_free.
  cbv zeta. emits_auto. apply emits_arch_domain_mbm_alloc.
Qed.

Lemma emits_domain_remove_cpu_ctrl :
  forall E cpu h, emits is_domain_event (domain_remove_cpu_ctrl E cpu h).
Proof.
  intros E cpu h. unfold domain_remove_cpu_ctrl, resctrl_find_domain, ctrl_domain_free.
  cbv zeta. cbn [fst]. emits_auto.
Qed.

Lemma emits_domain_remove_cpu_mon :
  forall E cpu h, emits is_domain_event (domain_remove_cpu_mon E cpu h).
Proof.
  intros E cpu h. unfold domain_remove_cpu_mon, resctrl_find_domain, mon_domain_free.
  cbv zeta. cbn [fst]. emits_auto.
Qed.

Lemma emits_domain_add_cpu :
  forall E cpu h, emits is_domain_event (domain_add_cpu E cpu h).
Proof.
  intros E cpu h. unfold domain_add_cpu. apply emits_bind.
  - destruct (alloc_capable (r_resctrl h));
      [apply emits_domain_add_cpu_ctrl | apply emits_ret].
  - intros h1. destruct (mon_capable (r_resctrl h1));
      [apply emits_domain_add_cpu_mon | apply emits_ret].
Qed.

Lemma emits_domain_remove_cpu :
  forall E cpu h, emits is_domain_event (domain_remove_cpu E cpu h).
Proof.
  intros E cpu h. unfold domain_remove_cpu. apply emits_bind.
  - destruct (alloc_capable (r_resctrl h));
      [apply emits_domain_remove_cpu_ctrl | apply emits_ret].
  - intros h1. destruct (mon_capable (r_resctrl h1));
      [apply emits_domain_remove_cpu_mon | apply emits_ret].
Qed.

Lemma emits_for_each_capable :
  forall P body tbl,
    (forall h, emits P (body h)) -> emits P (for_each_capable_rdt_resource body tbl).
Proof.
  intros P body tbl Hb. induction tbl as [|h t IH]; simpl.
  - apply emits_ret.
  - apply emits_bind.
    + destruct (alloc_capable (r_resctrl h) || mon_capable (r_resctrl h));
        [apply Hb | apply emits_ret].
    + intros h1. apply emits_bind; [exact IH | intros; apply emits_ret].
Qed.

(** The walk runs the body on every capable resource, in table order, and
    leaves the others alone. *)
Lemma for_each_capable_all :
  forall body tbl s,
    Forall2 (fun h h' => if capable h then exists si, h' = fst (body h si) else h' = h)
      tbl (fst (for_each_capable_rdt_resource body tbl s)).
Proof.
  intros body tbl. induction tbl as [|h t IH]; intros s; [constructor|].
  cbn [for_each_capable_rdt_resource]. unfold bind, capable.
  destruct (alloc_capable (r_resctrl h) || mon_capable (r_resctrl h)) eqn:Hc.
  - destruct (body h s) as [h1 s1] eqn:Hb. specialize (IH s1).
    destruct (for_each_capable_rdt_resource body t s1) as [t1 s2]. cbn [fst ret] in *.
    constructor; [|exact IH]. rewrite Hc. exists s. now rewrite Hb.
  - unfold ret at 1. specialize (IH s).
    destruct (for_each_capable_rdt_resource body t s) as [t1 s2]. cbn [fst ret] in *.
    constructor; [|exact IH]. now rewrite Hc.
Qed.

Lemma resctrl_arch_online_cpu_run :
  forall (E : kernel_env) (cpu : N) (s : kstate),
    exists t_dom,
      fst (resctrl_arch_online_cpu E cpu s) = 0 /\
      trace (snd (resctrl_arch_online_cpu E cpu s)) =
        trace s ++ [EvMutexLock] ++ t_dom
                ++ [EvMutexUnlock; EvPqrStateStore (smp_processor_id E) pqr_reserved;
                    EvWrmsr MSR_IA32_PQR_ASSOC pqr_assoc_reserved;
                    EvOnlineCpu cpu] /\
      forallb is_domain_event t_dom = true /\
      Forall2 (fun h h' => if capable h
                           then exists si, h' = fst (domain_add_cpu E cpu h si)
                           else h' = h)
        (rdt_resources_all s) (rdt_resources_all (snd (resctrl_arch_online_cpu E cpu s))) /\
      pqr_state (snd (resctrl_arch_online_cpu E cpu s)) (smp_processor_id E) = pqr_reserved.
Proof.
  intros E cpu s.
  set (s1 := with_trace s (trace s ++ [EvMutexLock])).
  destruct (emits_for_each_capable is_domain_event (domain_add_cpu E cpu)
              (rdt_resources_all s) (emits_domain_add_cpu E cpu) s1) as (t & Ht & Hp).
  pose proof (for_each_capable_all (domain_add_cpu E cpu) (rdt_resources_all s) s1) as Hall.
  exists t.
  unfold resctrl_arch_online_cpu, get_resources, put_resources, clear_closid_rmid,
    pqr_state_store, wrmsr, wrmsrq, wrmsrq_safe, bind, emit, ret.
  fold s1. change (rdt_resources_all s1) with (rdt_resources_all s).
  destruct (for_each_capable_rdt_resource (domain_add_cpu E cpu) (rdt_resources_all s) s1)
    as [tbl1 s2].
  cbn [fst snd] in Ht, Hall.
  fold pqr_assoc_reserved.
  destruct (msr_gp_fault E MSR_IA32_PQR_ASSOC);
    cbn [fst snd trace with_trace with_resources with_pqr_state with_msrs rdt_resources_all
         pqr_state];
    (split; [reflexivity|]); (split; [rewrite Ht; subst s1; cbn [trace with_trace];
                                       rewrite <- !app_assoc; reflexivity|]);
    (split; [exact Hp|]); (split; [exact Hall|]); now rewrite N.eqb_refl.
Qed.

Lemma resctrl_arch_offline_cpu_run :
  forall (E : kernel_env) (cpu : N) (s : kstate),
    exists t_dom,
      fst (resctrl_arch_offline_cpu E cpu s) = 0 /\
      trace (snd (resctrl_arch_offline_cpu E cpu s)) =
        trace s ++ [EvOfflineCpu cpu; EvMutexLock] ++ t_dom
                ++ [EvMutexUnlock; EvPqrStateStore (smp_processor_id E) pqr_reserved;
                    EvWrmsr MSR_IA32_PQR_ASSOC pqr_assoc_reserved] /\
      forallb is_domain_event t_dom = true /\
      Forall2 (fun h h' => if capable h
                           then exists si, h' = fst (domain_remove_cpu E cpu h si)
                           else h' = h)
        (rdt_resources_all s) (rdt_resources_all (snd (resctrl_arch_offline_cpu E cpu s))) /\
      pqr_state (snd (resctrl_arch_offline_cpu E cpu s)) (smp_processor_id E) = pqr_reserved.
Proof.
  intros E cpu s.
  set (s1 := with_trace (with_trace s (trace s ++ [EvOfflineCpu cpu]))
               (trace (with_trace s (trace s ++ [EvOfflineCpu cpu])) ++ [EvMutexLock])).
  destruct (emits_for_each_capable is_domain_event (domain_remove_cpu E cpu)
              (rdt_resources_all s) (emits_domain_remove_cpu E cpu) s1) as (t & Ht & Hp).
  pose proof (for_each_capable_all (domain_remove_cpu E cpu) (rdt_resources_all s) s1) as Hall.
  exists t.
  unfold resctrl_arch_offline_cpu, get_resources, put_resources, clear_closid_rmid,
    pqr_state_store, wrmsr, wrmsrq, wrmsrq_safe, bind, emit, ret.
  fold s1. change (rdt_resources_all s1) with (rdt_resources_all s).
  destruct (for_each_capable_rdt_resource (domain_remove_cpu E cpu) (rdt_resources_all s) s1)
    as [tbl1 s2].
  cbn [fst snd] in Ht, Hall.
  fold pqr_assoc_reserved.
  destruct (msr_gp_fault E MSR_IA32_PQR_ASSOC);
    cbn [fst snd trace with_trace with_resources with_pqr_state with_msrs rdt_resources_all
         pqr_state];
    (split; [reflexivity|]); (split; [rewrite Ht; subst s1; cbn [trace with_trace];
                                       rewrite <- !app_assoc; reflexivity|]);
    (split; [exact Hp|]); (split; [exact Hall|]); now rewrite N.eqb_refl.
Qed.

(** C6. A core coming online: the lock is taken, the domain additions of
    every capable resource run (events of the domain registry only, so
    neither the reset nor a hook falls among them), the lock is released,
    then the tracking state of the core is stored with the reserved values,
    then these are written to its association register, and the per-core
    online hook is called last.  A core going offline: the per-core offline
    hook is called first, then the domain removals run under the lock, then
    the same store of the tracking state and the same write of the
    register.  The trace holds each step at its place, the store of the
    tracking state included. *)
Theorem hotplug_order :
  forall (E : kernel_env) (cpu : N) (s : kstate),
    (exists t_dom,
        trace (snd (resctrl_arch_online_cpu E cpu s)) =
          trace s ++ [EvMutexLock] ++ t_dom
                  ++ [EvMutexUnlock; EvPqrStateStore (smp_processor_id E) pqr_reserved;
                      EvWrmsr MSR_IA32_PQR_ASSOC pqr_assoc_reserved;
                      EvOnlineCpu cpu] /\
        forallb is_domain_event t_dom = true /\
        Forall2 (fun h h' => if capable h
                             then exists si, h' = fst (domain_add_cpu E cpu h si)
                             else h' = h)
          (rdt_resources_all s) (rdt_resources_all (snd (resctrl_arch_online_cpu E cpu s))) /\
        pqr_state (snd (resctrl_arch_online_cpu E cpu s)) (smp_processor_id E) = pqr_reserved) /\
    (exists t_dom,
        trace (snd (resctrl_arch_offline_cpu E cpu s)) =
          trace s ++ [EvOfflineCpu cpu; EvMutexLock] ++ t_dom
                  ++ [EvMutexUnlock; EvPqrStateStore (smp_processor_id E) pqr_reserved;
                      EvWrmsr MSR_IA32_PQR_ASSOC pqr_assoc_reserved] /\
        forallb is_domain_event t_dom = true /\
        Forall2 (fun h h' => if capable h
                             then exists si, h' = fst (domain_remove_cpu E cpu h si)
                             else h' = h)
          (rdt_resources_all s) (rdt_resources_all (snd (resctrl_arch_offline_cpu E cpu s))) /\
        pqr_state (snd (resctrl_arch_offline_cpu E cpu s)) (smp_processor_id E) = pqr_reserved).
Proof.
  intros E cpu s. split.
  - destruct (resctrl_arch_online_cpu_run E cpu s) as (t & _ & H). now exists t.
  - destruct (resctrl_arch_offline_cpu_run E cpu s) as (t & _ & H). now exists t.
Qed.

Lemma hotplug_order_witness :
  let E := sample_env (fun _ => true) in
  let s := snd (cache_alloc_hsw_probe E (kstate_init sample_features)) in
  (exists t_dom,
      trace (snd (resctrl_arch_online_cpu E 1 s)) =
        trace s ++ [EvMutexLock] ++ t_dom
                ++ [EvMutexUnlock; EvPqrStateStore 0 pqr_reserved;
                    EvWrmsr MSR_IA32_PQR_ASSOC pqr_assoc_reserved; EvOnlineCpu 1] /\
      forallb is_domain_event t_dom = true) /\
  (exists t_dom,
      trace (snd (resctrl_arch_offline_cpu E 1 s)) =
        trace s ++ [EvOfflineCpu 1; EvMutexLock] ++ t_dom
                ++ [EvMutexUnlock; EvPqrStateStore 0 pqr_reserved;
                    EvWrmsr MSR_IA32_PQR_ASSOC pqr_assoc_reserved] /\
      forallb is_domain_event t_dom = true).
Proof.
  intros E s.
  destruct (hotplug_order E 1 s) as [(t1 & Ht1 & Hp1 & _) (t2 & Ht2 & Hp2 & _)].
  split; [exists t1 | exists t2]; split; assumption.
Defined.

(** The hotplug callbacks on a machine whose L3 resource was found by the
    Haswell probe: core 0 comes online and goes offline again. *)
Example hotplug_order_haswell :
  let E := sample_env (fun _ => true) in
  let s0 := snd (cache_alloc_hsw_probe E (kstate_init sample_features)) in
  let s1 := snd (resctrl_arch_online_cpu E 0 s0) in
  let s2 := snd (resctrl_arch_offline_cpu E 0 s1) in
  skipn 1 (trace s1) =
    [ EvMutexLock;
      EvKmalloc (ObjHwCtrlDom 0 0); EvReconfigureCdp 0; EvKmalloc (ObjCtrlVal 0 0);
      EvMsrUpdate 0 0 0 4;
      EvWrmsr 0xc90 0xFFFFF; EvWrmsr 0xc91 0xFFFFF; EvWrmsr 0xc92 0xFFFFF;
      EvWrmsr 0xc93 0xFFFFF;
      EvListAddTailRcu 0 RESCTRL_CTRL_DOMAIN 0; EvOnlineCtrlDomain 0 0;
      EvMutexUnlock; EvPqrStateStore 0 pqr_reserved; EvWrmsr 0xc8f 0; EvOnlineCpu 0 ] /\
  skipn 16 (trace s2) =
    [ EvOfflineCpu 0; EvMutexLock;
      EvOfflineCtrlDomain 0 0; EvListDelRcu 0 RESCTRL_CTRL_DOMAIN 0; EvSynchronizeRcu;
      EvKfree (ObjCtrlVal 0 0); EvKfree (ObjHwCtrlDom 0 0);
      EvMutexUnlock; EvPqrStateStore 0 pqr_reserved; EvWrmsr 0xc8f 0 ] /\
  map (fun h => ctrl_domains (r_resctrl h)) (rdt_resources_all s2) = [[]; []; []; []].
Proof. vm_compute. repeat split. Qed.

(** ** The invariant in every state the callbacks reach *)

(** The domain lists start empty, hence well formed, and the hotplug
    callbacks keep those of every resource well formed. *)
Lemma resources_ok_init : Forall resource_ok rdt_resources_all_init.
Proof. repeat constructor. Qed.

Lemma resources_ok_hotplug :
  forall (E : kernel_env) (cpu : N) (s : kstate),
    Forall resource_ok (rdt_resources_all s) ->
    Forall resource_ok (rdt_resources_all (snd (resctrl_arch_online_cpu E cpu s))) /\
    Forall resource_ok (rdt_resources_all (snd (resctrl_arch_offline_cpu E cpu s))).
Proof.
  intros E cpu s Hok. split.
  - destruct (resctrl_arch_online_cpu_run E cpu s) as (t & _ & _ & _ & Hall & _).
    revert Hok Hall.
    generalize (rdt_resources_all (snd (resctrl_arch_online_cpu E cpu s))) as tbl'.
    generalize (rdt_resources_all s) as tbl.
    intros tbl tbl' Hok Hall. induction Hall as [|h h' tbl tbl' Hh Hall IH]; [constructor|].
    inversion Hok; subst. constructor; [|now apply IH].
    destruct (capable h); [|now subst].
    destruct Hh as (si & ->). now apply resource_ok_preserved.
  - destruct (resctrl_arch_offline_cpu_run E cpu s) as (t & _ & _ & _ & Hall & _).
    revert Hok Hall.
    generalize (rdt_resources_all (snd (resctrl_arch_offline_cpu E cpu s))) as tbl'.
    generalize (rdt_resources_all s) as tbl.
    intros tbl tbl' Hok Hall. induction Hall as [|h h' tbl tbl' Hh Hall IH]; [constructor|].
    inversion Hok; subst. constructor; [|now apply IH].
    destruct (capable h); [|now subst].
    destruct Hh as (si & ->). now apply resource_ok_preserved.
Qed.

(** * More of the register programmer *)

(** An empty index range: none of the three writers does anything. *)
Theorem writers_empty_range :
  forall (E : kernel_env) (m : msr_param) (s : kstate),
    high m <= low m ->
    cat_wrmsr E m s = (tt, s) /\
    mba_wrmsr_amd E m s = (tt, s) /\
    mba_wrmsr_intel E m s = (tt, s).
Proof.
  intros E m s Hle. unfold cat_wrmsr, mba_wrmsr_amd, mba_wrmsr_intel, for_range.
  replace (Z.to_nat (high m - low m)) with O by lia. repeat split.
Qed.

Lemma writers_empty_range_witness :
  let m := {| res := sample_l3; dom := ctrl_domain_created sample_l3 0 0; low := 3; high := 3 |} in
  let s := kstate_init sample_features in
  cat_wrmsr (sample_env (fun _ => true)) m s = (tt, s) /\
  mba_wrmsr_intel (sample_env (fun _ => true)) m s = (tt, s).
Proof.
  intros m s.
  destruct (writers_empty_range (sample_env (fun _ => true)) m s) as (H1 & _ & H3).
  - simpl. lia.
  - split; assumption.
Defined.

(** What a run of register writes leaves in the registers of a machine that
    takes every write as it is. *)
Lemma for_loop_wrmsrq_msrs :
  forall E (msr_of val_of : Z -> Z),
    (forall msr, msr_gp_fault E msr = false) ->
    (forall msr v, msr_stick E msr v = v) ->
    forall n i s,
      let s' := snd (for_loop n i (fun j => wrmsrq E (msr_of j) (val_of j)) s) in
      (forall m, (forall k, (k < n)%nat -> msr_of (i + Z.of_nat k) <> m) -> msrs s' m = msrs s m) /\
      (forall k, (k < n)%nat ->
                 (forall k', (k < k' < n)%nat -> msr_of (i + Z.of_nat k') <> msr_of (i + Z.of_nat k)) ->
                 msrs s' (msr_of (i + Z.of_nat k)) = val_of (i + Z.of_nat k)).
Proof.
  intros E msr_of val_of Hgp Hst n. induction n as [|n IH]; intros i s.
  - simpl. split; [reflexivity | intros k Hk; lia].
  - cbn [for_loop].
    destruct (wrmsrq E (msr_of i) (val_of i) s) as [u s1] eqn:Hw.
    rewrite (bind_run _ _ _ _ s u s1 Hw).
    assert (Hm : forall m, msrs s1 m = if m =? msr_of i then val_of i else msrs s m).
    { intros m. unfold wrmsrq, bind, wrmsrq_safe, ret in Hw. rewrite Hgp in Hw.
      injection Hw as _ <-. cbn [msrs with_msrs with_trace]. now rewrite Hst. }
    specialize (IH (i + 1) s1). cbv zeta in IH. destruct IH as [IHo IHi].
    cbv beta iota zeta. split.
    + intros m Hne. rewrite IHo.
      * rewrite Hm. specialize (Hne O ltac:(lia)). rewrite Z.add_0_r in Hne.
        destruct (Z.eqb_spec m (msr_of i)); [congruence | reflexivity].
      * intros k Hk. replace (i + 1 + Z.of_nat k) with (i + Z.of_nat (S k)) by lia.
        apply Hne. lia.
    + intros [|k] Hk Hlater.
      * rewrite Z.add_0_r in *. rewrite IHo.
        -- rewrite Hm. now rewrite Z.eqb_refl.
        -- intros k Hk'. replace (i + 1 + Z.of_nat k) with (i + Z.of_nat (S k)) by lia.
           apply Hlater. lia.
      * replace (i + Z.of_nat (S k)) with (i + 1 + Z.of_nat k) by lia.
        apply IHi; [lia|]. intros k' Hk'.
        replace (i + 1 + Z.of_nat k') with (i + Z.of_nat (S k')) by lia.
        replace (i + 1 + Z.of_nat k) with (i + Z.of_nat (S k)) by lia.
        apply Hlater. lia.
Qed.

(** Round trip of the cache writer and of the AMD bandwidth writer: on a
    machine whose registers take every write, register [msr_base + j] reads
    back entry [j] of the quota array for every index of the range, and the
    registers outside the range are as before. *)
Theorem wrmsr_read_back :
  forall (E : kernel_env) (m : msr_param) (s : kstate),
    (forall msr, msr_gp_fault E msr = false) ->
    (forall msr v, msr_stick E msr v = v) ->
    0 <= msr_base (res m) + low m ->
    msr_base (res m) + high m <= 2 ^ 32 ->
    (forall j, low m <= j < high m ->
       fst (rdmsrq (msr_base (res m) + j) (snd (cat_wrmsr E m s))) = ctrl_val_at (dom m) j /\
       fst (rdmsrq (msr_base (res m) + j) (snd (mba_wrmsr_amd E m s))) = ctrl_val_at (dom m) j) /\
    (forall msr, ~ (msr_base (res m) + low m <= msr < msr_base (res m) + high m) ->
       msrs (snd (cat_wrmsr E m s)) msr = msrs s msr /\
       msrs (snd (mba_wrmsr_amd E m s)) msr = msrs s msr).
Proof.
  intros E m s Hgp Hst Hlo Hhi.
  pose proof (for_loop_wrmsrq_msrs E (fun i => u32 (msr_base (res m) + i))
                (fun i => ctrl_val_at (dom m) i) Hgp Hst
                (Z.to_nat (high m - low m)) (low m) s) as H.
  cbv zeta in H. destruct H as [Hout Hin].
  assert (Hu : forall j, low m <= j < high m ->
                         u32 (msr_base (res m) + j) = msr_base (res m) + j).
  { intros j Hj. unfold u32. apply Z.mod_small. lia. }
  assert (Hread : forall j, low m <= j < high m ->
            msrs (snd (for_loop (Z.to_nat (high m - low m)) (low m)
                         (fun j => wrmsrq E (u32 (msr_base (res m) + j)) (ctrl_val_at (dom m) j)) s))
              (msr_base (res m) + j) = ctrl_val_at (dom m) j).
  { intros j Hj. specialize (Hin (Z.to_nat (j - low m)) ltac:(lia)).
    replace (low m + Z.of_nat (Z.to_nat (j - low m))) with j in Hin by lia.
    rewrite (Hu j Hj) in Hin. apply Hin. intros k' Hk'.
    rewrite Hu by lia. lia. }
  assert (Hkeep : forall msr, ~ (msr_base (res m) + low m <= msr < msr_base (res m) + high m) ->
            msrs (snd (for_loop (Z.to_nat (high m - low m)) (low m)
                         (fun j => wrmsrq E (u32 (msr_base (res m) + j)) (ctrl_val_at (dom m) j)) s))
              msr = msrs s msr).
  { intros msr Hmsr. apply Hout. intros k Hk. rewrite Hu by lia. lia. }
  unfold cat_wrmsr, mba_wrmsr_amd, for_range, rdmsrq. cbn [fst].
  split; [intros j Hj; split; now apply Hread | intros msr Hmsr; split; now apply Hkeep].
Qed.

Lemma wrmsr_read_back_witness :
  let E := sample_env (fun _ => true) in
  let d := ctrl_domain_created sample_l3 0 0 in
  let m := {| res := sample_l3; dom := d; low := 0; high := 4 |} in
  let s := kstate_init sample_features in
  fst (rdmsrq (MSR_IA32_L3_CBM_BASE + 2) (snd (cat_wrmsr E m s))) = 0xFFFFF /\
  msrs (snd (cat_wrmsr E m s)) (MSR_IA32_L3_CBM_BASE + 4) = 0.
Proof.
  intros E d m s.
  destruct (wrmsr_read_back E m s) as [Hin Hout]; try reflexivity;
    try (vm_compute; discriminate).
  split.
  - apply (Hin 2). simpl. lia.
  - apply (Hout (MSR_IA32_L3_CBM_BASE + 4)). vm_compute. intros [_ H]. discriminate.
Defined.

Lemma for_loop_ext :
  forall (b1 b2 : Z -> M unit) n i s,
    (forall j s0, b1 j s0 = b2 j s0) -> for_loop n i b1 s = for_loop n i b2 s.
Proof.
  intros b1 b2 n. induction n as [|n IH]; intros i s Hb; [reflexivity|].
  cbn [for_loop]. unfold bind. rewrite Hb. destruct (b2 i s) as [u s1]. now apply IH.
Qed.

Lemma wrmsrq_once_fired :
  forall E msr v s, once_fired (snd (wrmsrq E msr v s)) = once_fired s.
Proof.
  intros. unfold wrmsrq, bind, wrmsrq_safe, ret. destruct (msr_gp_fault E msr); reflexivity.
Qed.

Lemma for_loop_wrmsrq_once_fired :
  forall E (msr_of val_of : Z -> Z) n i s,
    once_fired (snd (for_loop n i (fun j => wrmsrq E (msr_of j) (val_of j)) s)) = once_fired s.
Proof.
  intros E msr_of val_of n. induction n as [|n IH]; intros i s; [reflexivity|].
  cbn [for_loop]. unfold bind.
  pose proof (wrmsrq_once_fired E (msr_of i) (val_of i) s) as Hw.
  destruct (wrmsrq E (msr_of i) (val_of i) s) as [u s1]. cbn [snd] in Hw.
  now rewrite IH.
Qed.

(** The Intel bandwidth writer on a resource with linear delay: register
    [msr_base + j] gets MAX - quota[j] (in the arithmetic of the C types) for
    every index of the range, in order, nothing is logged, and for a quota
    that is a percentage the value written gives the quota back. *)
Theorem mba_wrmsr_intel_linear :
  forall (E : kernel_env) (m : msr_param) (s : kstate),
    delay_linear (membw (r_resctrl (res m))) = true ->
    trace (snd (mba_wrmsr_intel E m s)) =
      trace s ++ map (fun k => EvWrmsr (u32 (msr_base (res m) + (low m + Z.of_nat k)))
                                 (u32 (u64 (MAX_MBA_BW - ctrl_val_at (dom m) (low m + Z.of_nat k)))))
                   (seq 0 (Z.to_nat (high m - low m))) /\
    once_fired (snd (mba_wrmsr_intel E m s)) = once_fired s /\
    (forall v, 0 <= v <= MAX_MBA_BW -> MAX_MBA_BW - u32 (u64 (MAX_MBA_BW - v)) = v).
Proof.
  intros E m s Hlin.
  assert (Heq : mba_wrmsr_intel E m s =
                for_loop (Z.to_nat (high m - low m)) (low m)
                  (fun j => wrmsrq E (u32 (msr_base (res m) + j))
                              (u32 (u64 (MAX_MBA_BW - ctrl_val_at (dom m) j)))) s).
  { unfold mba_wrmsr_intel, for_range. apply for_loop_ext. intros j s0.
    unfold delay_bw_map. rewrite Hlin. reflexivity. }
  rewrite Heq. split; [|split].
  - apply (for_loop_wrmsrq_trace E (fun j => u32 (msr_base (res m) + j))
             (fun j => u32 (u64 (MAX_MBA_BW - ctrl_val_at (dom m) j)))).
  - apply (for_loop_wrmsrq_once_fired E (fun j => u32 (msr_base (res m) + j))
             (fun j => u32 (u64 (MAX_MBA_BW - ctrl_val_at (dom m) j)))).
  - intros v Hv. unfold MAX_MBA_BW, u32, u64 in *.
    rewrite (Z.mod_small (100 - v)) by lia. rewrite Z.mod_small by lia. lia.
Qed.

Lemma mba_wrmsr_intel_linear_witness :
  let E := sample_env (fun _ => true) in
  let r := {| rid := RDT_RESOURCE_MBA; alloc_capable := true; mon_capable := false;
              num_rmid := 0; ctrl_scope := RESCTRL_L3_CACHE; mon_scope := RESCTRL_SCOPE_ZERO;
              cache := cache_zero;
              membw := {| min_bw := 10; max_bw := 100; bw_gran := 10; delay_linear := true;
                          arch_needs_linear := true; throttle_mode := THREAD_THROTTLE_MAX |};
              ctrl_domains := []; mon_domains := []; res_name := "MB";
              schema_fmt := RESCTRL_SCHEMA_RANGE; cdp_capable := false |} in
  let h := {| r_resctrl := r; num_closid := 3; msr_base := MSR_IA32_MBA_THRTL_BASE;
              msr_update := mba_wrmsr_intel_fn; cdp_enabled := false |} in
  let d := ctrl_set_ctrl_val (ctrl_domain_new 0 0) (Some [100; 10; 50]) in
  let m := {| res := h; dom := d; low := 0; high := 3 |} in
  trace (snd (mba_wrmsr_intel E m (kstate_init sample_features))) =
    [EvWrmsr 0xd50 0; EvWrmsr 0xd51 90; EvWrmsr 0xd52 50].
Proof.
  intros E r h d m.
  destruct (mba_wrmsr_intel_linear E m (kstate_init sample_features) eq_refl) as (Ht & _).
  rewrite Ht. reflexivity.
Defined.

Lemma for_loop_nonlinear_fired :
  forall E (msr_of val_of : Z -> Z) (r : rdt_resource),
    delay_linear (membw r) = false ->
    forall n i s,
      fired ONCE_nonlinear_delay s = true ->
      for_loop n i (fun j => v <- delay_bw_map (val_of j) r ;; wrmsrq E (msr_of j) v) s =
      for_loop n i (fun j => wrmsrq E (msr_of j) MAX_MBA_BW) s.
Proof.
  intros E msr_of val_of r Hnl n. induction n as [|n IH]; intros i s Hf; [reflexivity|].
  cbn [for_loop].
  assert (Hb : (v <- delay_bw_map (val_of i) r ;; wrmsrq E (msr_of i) v) s
               = wrmsrq E (msr_of i) MAX_MBA_BW s).
  { unfold delay_bw_map. rewrite Hnl. rewrite bind_assoc.
    unfold bind at 1, pr_warn_once. rewrite Hf. reflexivity. }
  unfold bind at 1. rewrite Hb. unfold bind at 2.
  pose proof (wrmsrq_once_fired E (msr_of i) MAX_MBA_BW s) as Ho.
  destruct (wrmsrq E (msr_of i) MAX_MBA_BW s) as [u s1]. cbn [snd] in Ho.
  apply IH. unfold fired in *. now rewrite Ho.
Qed.

(** The Intel bandwidth writer on a resource without linear delay: every
    register of the range gets MAX, the maximum throttling, whatever the
    quota says, and the warning is logged once, in front of the first write,
    unless it was logged before. *)
Theorem mba_wrmsr_intel_nonlinear :
  forall (E : kernel_env) (m : msr_param) (s : kstate),
    delay_linear (membw (r_resctrl (res m))) = false ->
    trace (snd (mba_wrmsr_intel E m s)) =
      trace s
      ++ (if fired ONCE_nonlinear_delay s || (high m <=? low m) then []
          else [EvWarnOnce ONCE_nonlinear_delay])
      ++ map (fun k => EvWrmsr (u32 (msr_base (res m) + (low m + Z.of_nat k))) MAX_MBA_BW)
           (seq 0 (Z.to_nat (high m - low m))).
Proof.
  intros E m s Hnl. unfold mba_wrmsr_intel, for_range.
  destruct (Z.leb_spec (high m) (low m)) as [Hle|Hlt].
  - replace (Z.to_nat (high m - low m)) with O by lia.
    rewrite orb_true_r. simpl. now rewrite app_nil_r.
  - rewrite orb_false_r.
    destruct (Z.to_nat (high m - low m)) as [|n] eqn:Hn; [lia|].
    cbn [for_loop]. unfold delay_bw_map at 1. rewrite Hnl.
    rewrite !bind_assoc, bind_pr_warn_once, bind_ret.
    set (sw := warn_once_state ONCE_nonlinear_delay s).
    assert (Hsw : fired ONCE_nonlinear_delay
                    (snd (wrmsrq E (u32 (msr_base (res m) + low m)) MAX_MBA_BW sw)) = true).
    { unfold fired. rewrite wrmsrq_once_fired. subst sw.
      unfold warn_once_state, pr_warn_once.
      destruct (fired ONCE_nonlinear_delay s) eqn:Hf; [exact Hf | reflexivity]. }
    assert (Htw : trace (snd (wrmsrq E (u32 (msr_base (res m) + low m)) MAX_MBA_BW sw))
                  = trace sw ++ [EvWrmsr (u32 (msr_base (res m) + low m)) MAX_MBA_BW]).
    { unfold wrmsrq, bind, wrmsrq_safe, ret. destruct (msr_gp_fault E _); reflexivity. }
    destruct (wrmsrq E (u32 (msr_base (res m) + low m)) MAX_MBA_BW sw) as [u s1] eqn:Hw.
    rewrite (bind_run _ _ _ _ sw u s1 Hw).
    cbn [snd] in Hsw, Htw.
    rewrite (for_loop_nonlinear_fired E (fun j => u32 (msr_base (res m) + j))
               (fun j => ctrl_val_at (dom m) j) _ Hnl n (low m + 1) s1 Hsw).
    rewrite (for_loop_wrmsrq_trace E (fun j => u32 (msr_base (res m) + j))
               (fun _ => MAX_MBA_BW)).
    rewrite Htw. subst sw. rewrite warn_once_state_trace.
    rewrite <- !app_assoc. f_equal.
    assert (Hmap : [EvWrmsr (u32 (msr_base (res m) + low m)) MAX_MBA_BW] ++
                   map (fun k => EvWrmsr (u32 (msr_base (res m) + (low m + 1 + Z.of_nat k)))
                                   MAX_MBA_BW) (seq 0 n)
                   = map (fun k => EvWrmsr (u32 (msr_base (res m) + (low m + Z.of_nat k)))
                                     MAX_MBA_BW) (seq 0 (S n))).
    { cbn [seq map app]. rewrite Z.add_0_r. f_equal.
      rewrite <- seq_shift, map_map. apply map_ext. intros k.
      replace (low m + 1 + Z.of_nat k) with (low m + Z.of_nat (S k)) by lia. reflexivity. }
    rewrite Hmap. destruct (fired ONCE_nonlinear_delay s); reflexivity.
Qed.

Lemma mba_wrmsr_intel_nonlinear_witness :
  let E := sample_env (fun _ => true) in
  let h := {| r_resctrl := resource_init "MB" RESCTRL_L3_CACHE RESCTRL_SCOPE_ZERO
                             RESCTRL_SCHEMA_RANGE;
              num_closid := 2; msr_base := MSR_IA32_MBA_THRTL_BASE;
              msr_update := mba_wrmsr_intel_fn; cdp_enabled := false |} in
  let d := ctrl_set_ctrl_val (ctrl_domain_new 0 0) (Some [30; 70]) in
  let m := {| res := h; dom := d; low := 0; high := 2 |} in
  trace (snd (mba_wrmsr_intel E m (kstate_init sample_features))) =
    [EvWarnOnce ONCE_nonlinear_delay; EvWrmsr 0xd50 100; EvWrmsr 0xd51 100].
Proof.
  intros E h d m.
  rewrite (mba_wrmsr_intel_nonlinear E m (kstate_init sample_features) eq_refl).
  reflexivity.
Defined.

(** * More of the option override *)

Lemma set_rdt_option_grown :
  forall tok off o, Forall2 option_grown o (set_rdt_option tok off o).
Proof.
  intros tok off o. induction o as [|e o IH]; simpl; [constructor|].
  assert (Hrefl : forall l, Forall2 option_grown l l).
  { induction l; constructor; [repeat split; auto | assumption]. }
  destruct (String.eqb tok (name e)).
  - constructor; [|apply Hrefl]. destruct off; repeat split; auto.
  - constructor; [repeat split; auto | exact IH].
Qed.

Lemma option_grown_trans :
  forall l1 l2 l3,
    Forall2 option_grown l1 l2 -> Forall2 option_grown l2 l3 -> Forall2 option_grown l1 l3.
Proof.
  intros l1 l2 l3 H12. revert l3. induction H12 as [|a b l1 l2 Hab H12 IH]; intros l3 H23.
  - inversion H23. constructor.
  - inversion H23 as [|b' c l2' l3' Hbc H23']; subst. constructor; [|now apply IH].
    destruct Hab as (N1 & F1 & O1 & P1), Hbc as (N2 & F2 & O2 & P2).
    repeat split; try congruence; auto.
Qed.

(** Parsing an option string only ever sets overrides: the table keeps its
    length, every entry keeps its name and its feature flag, and no override
    that was set is cleared; nothing else of the state changes and the
    result is 1, whatever the string. *)
Theorem set_rdt_options_only_sets :
  forall (str : string) (s : kstate),
    let s' := snd (set_rdt_options str s) in
    fst (set_rdt_options str s) = 1 /\
    Forall2 option_grown (rdt_options_table s) (rdt_options_table s') /\
    rdt_resources_all s' = rdt_resources_all s /\
    rdt_alloc_capable s' = rdt_alloc_capable s /\
    trace s' = trace s /\ msrs s' = msrs s /\ pqr_state s' = pqr_state s.
Proof.
  intros str s s'. split; [reflexivity|]. split; [|repeat split].
  subst s'. rewrite set_rdt_options_table.
  generalize (tokens (skip_equals str)) as toks. generalize (rdt_options_table s) as o.
  intros o toks. revert o. induction toks as [|tok toks IH]; intros o; simpl.
  - induction o; constructor; [repeat split; auto | assumption].
  - eapply option_grown_trans; [apply set_rdt_option_grown | apply IH].
Qed.

Lemma set_rdt_token_idem :
  forall tok o, set_rdt_token (set_rdt_token o tok) tok = set_rdt_token o tok.
Proof.
  intros tok o. unfold set_rdt_token. induction o as [|e o IH]; simpl; [reflexivity|].
  destruct (String.eqb (tok_name tok) (name e)) eqn:He.
  - destruct (tok_force_off tok); simpl; rewrite He; reflexivity.
  - simpl. rewrite He. now rewrite IH.
Qed.

Lemma set_rdt_token_comm :
  forall a b o, set_rdt_token (set_rdt_token o a) b = set_rdt_token (set_rdt_token o b) a.
Proof.
  intros a b o. unfold set_rdt_token. induction o as [|e o IH]; simpl; [reflexivity|].
  destruct (String.eqb (tok_name a) (name e)) eqn:Ha,
           (String.eqb (tok_name b) (name e)) eqn:Hb.
  - destruct (tok_force_off a), (tok_force_off b); simpl; rewrite Ha, Hb; reflexivity.
  - destruct (tok_force_off a); simpl; rewrite Ha, Hb; reflexivity.
  - destruct (tok_force_off b); simpl; rewrite Ha, Hb; reflexivity.
  - simpl. rewrite Ha, Hb. now rewrite IH.
Qed.

Lemma fold_set_rdt_token_comm :
  forall toks a o,
    fold_left set_rdt_token toks (set_rdt_token o a) =
    set_rdt_token (fold_left set_rdt_token toks o) a.
Proof.
  induction toks as [|t toks IH]; intros a o; simpl; [reflexivity|].
  rewrite <- IH. f_equal. apply set_rdt_token_comm.
Qed.

Lemma set_rdt_options_fold :
  forall str s,
    rdt_options_table (snd (set_rdt_options str s)) =
    fold_left set_rdt_token (tokens (skip_equals str)) (rdt_options_table s).
Proof. intros. apply set_rdt_options_table. Qed.

(** The order of the names in an option string does not matter: two strings
    with the same tokens, in whatever order, give the same table. *)
Theorem set_rdt_options_order :
  forall (str1 str2 : string) (s : kstate),
    Permutation (tokens (skip_equals str1)) (tokens (skip_equals str2)) ->
    rdt_options_table (snd (set_rdt_options str1 s)) =
    rdt_options_table (snd (set_rdt_options str2 s)).
Proof.
  intros str1 str2 s Hp. rewrite !set_rdt_options_fold.
  generalize (rdt_options_table s) as o. induction Hp; intros o; simpl.
  - reflexivity.
  - apply IHHp.
  - f_equal. apply set_rdt_token_comm.
  - now rewrite IHHp1.
Qed.

Lemma set_rdt_options_order_witness :
  rdt_options_table (snd (set_rdt_options "!l3cat,mba,cmt" (kstate_init sample_features))) =
  rdt_options_table (snd (set_rdt_options "cmt,!l3cat,mba" (kstate_init sample_features))).
Proof.
  apply set_rdt_options_order. simpl.
  apply Permutation_sym, (Permutation_cons_app ["!l3cat"; "mba"] []). simpl.
  apply Permutation_refl.
Defined.

(** Parsing the same option string a second time changes nothing. *)
Theorem set_rdt_options_idempotent :
  forall (str : string) (s : kstate),
    rdt_options_table (snd (set_rdt_options str (snd (set_rdt_options str s)))) =
    rdt_options_table (snd (set_rdt_options str s)).
Proof.
  intros str s. rewrite (set_rdt_options_fold str (snd _)), !set_rdt_options_fold.
  generalize (tokens (skip_equals str)) as toks. generalize (rdt_options_table s) as o.
  intros o toks. revert o. induction toks as [|t toks IH]; intros o; simpl; [reflexivity|].
  rewrite (fold_set_rdt_token_comm toks t (fold_left set_rdt_token toks (set_rdt_token o t))).
  rewrite IH. rewrite (fold_set_rdt_token_comm toks t o). apply set_rdt_token_idem.
Qed.

(** * Capability discovery *)

Lemma bitfield_range :
  forall v pos w, 0 <= w -> 0 <= bitfield v pos w < 2 ^ w.
Proof.
  intros v pos w Hw. unfold bitfield. rewrite Z.land_ones by exact Hw.
  apply Z.mod_pos_bound. apply Z.pow_pos_nonneg; lia.
Qed.

Lemma BIT_MASK_ones :
  forall n, 0 <= n < 64 -> BIT_MASK n - 1 = Z.ones n.
Proof.
  intros n Hn. unfold BIT_MASK. rewrite Z.mod_small by lia.
  rewrite Z.shiftl_1_l, Z.ones_equiv. lia.
Qed.

(** What CPUID leaf 0x10 makes of a cache resource: it becomes allocation
    capable with at least one class and at least one mask bit, the bits it
    shares are a subset of the full mask, which is the default quota of the
    resource, and register writer, register base, identity and domain lists
    are as before. *)
Theorem rdt_get_cache_alloc_cfg_bounds :
  forall (P : probe_env) (idx : Z) (h : rdt_hw_resource),
    let h' := rdt_get_cache_alloc_cfg P idx h in
    let c' := cache (r_resctrl h') in
    0 <= cbm_len_width P <= 5 ->
    0 <= cos_max_width P < 32 ->
    schema_fmt (r_resctrl h) = RESCTRL_SCHEMA_BITMAP ->
    alloc_capable (r_resctrl h') = true /\
    1 <= num_closid h' <= 2 ^ cos_max_width P /\
    1 <= cbm_len c' <= 32 /\
    resctrl_get_default_ctrl (r_resctrl h') = Z.ones (cbm_len c') /\
    Z.land (shareable_bits c') (resctrl_get_default_ctrl (r_resctrl h')) = shareable_bits c' /\
    0 <= shareable_bits c' <= resctrl_get_default_ctrl (r_resctrl h') /\
    msr_update h' = msr_update h /\ msr_base h' = msr_base h /\
    rid (r_resctrl h') = rid (r_resctrl h) /\
    ctrl_domains (r_resctrl h') = ctrl_domains (r_resctrl h) /\
    mon_domains (r_resctrl h') = mon_domains (r_resctrl h).
Proof.
  intros P idx h h' c' Hw Hc Hfmt.
  set (cbm := bitfield (eax (cpuid_count P 0x10 idx)) 0 (cbm_len_width P)).
  set (cos := bitfield (edx (cpuid_count P 0x10 idx)) 0 (cos_max_width P)).
  assert (Hcbm : 0 <= cbm < 32).
  { pose proof (bitfield_range (eax (cpuid_count P 0x10 idx)) 0 (cbm_len_width P)
                  ltac:(lia)) as H. fold cbm in H.
    assert (2 ^ cbm_len_width P <= 2 ^ 5) by (apply Z.pow_le_mono_r; lia). lia. }
  assert (Hcos : 0 <= cos < 2 ^ cos_max_width P).
  { apply bitfield_range. lia. }
  assert (Hpow : 2 ^ cos_max_width P < 2 ^ 32) by (apply Z.pow_lt_mono_r; lia).
  assert (Hlen : cbm_len c' = cbm + 1).
  { subst c' h'. cbn. fold cbm. unfold u32. apply Z.mod_small. lia. }
  assert (Hones : 0 <= Z.ones (cbm + 1) < 2 ^ 32).
  { rewrite Z.ones_equiv. split.
    - pose proof (Z.pow_pos_nonneg 2 (cbm + 1)). lia.
    - assert (2 ^ (cbm + 1) <= 2 ^ 32) by (apply Z.pow_le_mono_r; lia). lia. }
  assert (Hdef : resctrl_get_default_ctrl (r_resctrl h') = Z.ones (cbm + 1)).
  { unfold resctrl_get_default_ctrl.
    replace (schema_fmt (r_resctrl h')) with (schema_fmt (r_resctrl h)) by reflexivity.
    rewrite Hfmt. fold c'. rewrite Hlen, BIT_MASK_ones by lia.
    unfold u32. apply Z.mod_small. exact Hones. }
  assert (Hsh : shareable_bits c' = Z.land (ebx (cpuid_count P 0x10 idx)) (Z.ones (cbm + 1))).
  { subst c' h'. cbn. fold cbm. rewrite BIT_MASK_ones by lia.
    unfold u32. rewrite (Z.mod_small (Z.ones (cbm + 1))) by exact Hones. reflexivity. }
  split; [reflexivity|]. split.
  { subst h'. cbn. fold cos. unfold u32. rewrite Z.mod_small by lia. lia. }
  split; [lia|]. split; [now rewrite Hdef, Hlen|]. split.
  { rewrite Hdef, Hsh, <- Z.land_assoc, Z.land_diag. reflexivity. }
  split.
  { rewrite Hdef, Hsh. rewrite Z.land_ones by lia. rewrite Z.ones_equiv.
    pose proof (Z.mod_pos_bound (ebx (cpuid_count P 0x10 idx)) (2 ^ (cbm + 1))
                  ltac:(apply Z.pow_pos_nonneg; lia)). lia. }
  repeat split.
Qed.

Lemma rdt_get_cache_alloc_cfg_bounds_witness :
  let h := hw_resource_init
             (resource_init "L3" RESCTRL_L3_CACHE RESCTRL_L3_CACHE RESCTRL_SCHEMA_BITMAP)
             MSR_IA32_L3_CBM_BASE cat_wrmsr_fn in
  let h' := rdt_get_cache_alloc_cfg sample_probe 1 h in
  num_closid h' = 16 /\ cbm_len (cache (r_resctrl h')) = 11 /\
  resctrl_get_default_ctrl (r_resctrl h') = 0x7ff /\
  shareable_bits (cache (r_resctrl h')) = 0x600 /\
  Z.land (shareable_bits (cache (r_resctrl h'))) (resctrl_get_default_ctrl (r_resctrl h'))
  = shareable_bits (cache (r_resctrl h')).
Proof.
  intros h h'.
  pose proof (rdt_get_cache_alloc_cfg_bounds sample_probe 1 h
                ltac:(simpl; lia) ltac:(simpl; lia) eq_refl) as (_ & _ & _ & _ & Hsub & _).
  split; [reflexivity|]. split; [reflexivity|]. split; [reflexivity|].
  split; [reflexivity|]. exact Hsub.
Defined.




Lemma rdt_cpu_has_run :
  forall E fl s, rdt_cpu_has E fl s = (rdt_cpu_has_val E fl (rdt_options_table s), s).
Proof.
  intros E fl s. unfold rdt_cpu_has, rdt_cpu_has_val.
  destruct (boot_cpu_has E fl); reflexivity.
Qed.

Lemma bind_rdt_cpu_has :
  forall {B} E fl (f : bool -> M B) s,
    bind (rdt_cpu_has E fl) f s = f (rdt_cpu_has_val E fl (rdt_options_table s)) s.
Proof.
  intros B E fl f s. unfold bind. rewrite rdt_cpu_has_run. reflexivity.
Qed.

Lemma get_mem_config_intel_flag :
  forall E P h s,
    msr_update (snd (fst (__get_mem_config_intel E P h s))) = msr_update h /\
    alloc_capable (r_resctrl (snd (fst (__get_mem_config_intel E P h s))))
    = (fst (fst (__get_mem_config_intel E P h s)) || alloc_capable (r_resctrl h))%bool.
Proof.
  intros E P h s. unfold __get_mem_config_intel, rdt_get_mb_table, bind, emit, ret.
  destruct (Z.land _ _ =? 0); cbn [negb fst snd]; split; reflexivity.
Qed.

(** What the Intel bandwidth probe leaves of the state: everything but the
    trace, which grows by the line it logs when CPUID has no linear bit. *)
Lemma get_mem_config_intel_state :
  forall E P h s,
    snd (__get_mem_config_intel E P h s) =
      if Z.land (ecx (cpuid_count P 0x10 3)) (MBA_IS_LINEAR P) =? 0
      then with_trace s (trace s ++ [EvInfo "MBA b/w map not implemented"])
      else s.
Proof.
  intros E P h s. unfold __get_mem_config_intel, rdt_get_mb_table, bind, emit, ret.
  destruct (Z.land _ _ =? 0); reflexivity.
Qed.

(** Without allocation support in CPUID ([X86_FEATURE_RDT_A]) discovery
    probes nothing: it answers what [rdt_alloc_capable] already held, true
    after the Haswell probe and false otherwise, and the state is as before,
    whatever the command line forced on. *)
Theorem get_rdt_alloc_resources_without_rdt_a :
  forall (E : kernel_env) (F : cpufeatures) (P : probe_env) (s : kstate),
    boot_cpu_has E (X86_FEATURE_RDT_A P) = false ->
    get_rdt_alloc_resources E F P s = (rdt_alloc_capable s, s).
Proof.
  intros E F P s Hno. unfold get_rdt_alloc_resources. rewrite Hno.
  destruct (rdt_alloc_capable s); reflexivity.
Qed.

Lemma get_rdt_alloc_resources_without_rdt_a_witness :
  let E := sample_env (fun fl => negb (fl =? X86_FEATURE_RDT_A sample_probe)) in
  let s := snd (set_rdt_options "l3cat,mba" (kstate_init sample_features)) in
  rdt_cpu_has_val E (X86_FEATURE_CAT_L3 sample_features) (rdt_options_table s) = true /\
  get_rdt_alloc_resources E sample_features sample_probe s = (false, s).
Proof.
  intros E s. split; [reflexivity|].
  apply (get_rdt_alloc_resources_without_rdt_a E sample_features sample_probe s).
  reflexivity.
Defined.

Ltac probe_case :=
  match goal with
  | |- context [rdt_cpu_has_val ?E ?fl ?o] => destruct (rdt_cpu_has_val E fl o)
  | |- context [x86_vendor ?P] => destruct (x86_vendor P)
  end.

(** Discovery on a machine not yet marked capable, with the four resources
    in the table: when it answers true, a resource of the table is
    allocation capable; when it answers false, it has marked none.  It
    writes no register and leaves the option table alone, and the one line
    it can log is that of the Intel bandwidth probe without the linear
    bit. *)
Theorem get_rdt_alloc_resources_answer :
  forall (E : kernel_env) (F : cpufeatures) (P : probe_env) (s : kstate),
    rdt_alloc_capable s = false ->
    List.length (rdt_resources_all s) = 4%nat ->
    let a := fst (get_rdt_alloc_resources E F P s) in
    let s' := snd (get_rdt_alloc_resources E F P s) in
    (a = true -> existsb (fun h => alloc_capable (r_resctrl h)) (rdt_resources_all s') = true) /\
    (a = false -> alloc_flags (rdt_resources_all s') = alloc_flags (rdt_resources_all s)) /\
    List.length (rdt_resources_all s') = 4%nat /\
    rdt_options_table s' = rdt_options_table s /\
    rdt_alloc_capable s' = false /\
    msrs s' = msrs s /\
    trace s' = trace s ++ (if mb_table_logged E F P s
                           then [EvInfo "MBA b/w map not implemented"] else []).
Proof.
  intros E F P s Hcap Hlen.
  destruct s as [tbl cap opts pq ms once tr]. cbn [rdt_alloc_capable rdt_resources_all] in *.
  subst cap.
  destruct tbl as [|l3 [|l2 [|mba [|smba [|]]]]]; try discriminate Hlen. clear Hlen.
  cbv zeta. unfold get_rdt_alloc_resources, mb_table_logged.
  cbn [rdt_alloc_capable rdt_options_table].
  destruct (boot_cpu_has E (X86_FEATURE_RDT_A P)); cbn [negb fst snd andb];
    [|rewrite app_nil_r; repeat split; intros; discriminate].
  unfold get_mem_config, get_slow_mem_config, rdt_get_cdp_l3_config, rdt_get_cdp_l2_config,
    rdt_get_cdp_config, __get_mem_config_intel, rdt_get_mb_table, bind, when, ret, emit,
    modify_resource, probe_resource.
  change (N.to_nat RDT_RESOURCE_L3) with 0%nat.
  change (N.to_nat RDT_RESOURCE_L2) with 1%nat.
  change (N.to_nat RDT_RESOURCE_MBA) with 2%nat.
  change (N.to_nat RDT_RESOURCE_SMBA) with 3%nat.
  destruct (Z.land (ecx (cpuid_count P 16 3)) (MBA_IS_LINEAR P) =? 0).
  all: repeat first
    [ rewrite rdt_cpu_has_run
    | progress cbn [negb andb table_set nth_error rdt_resources_all with_resources with_trace
                    rdt_options_table fst snd orb]
    | probe_case ].
  all: cbn [fst snd rdt_resources_all with_resources with_trace rdt_options_table
            rdt_alloc_capable msrs trace alloc_flags map existsb orb andb].
  all: rewrite ?app_nil_r.
  all: (split; [intros Ha | split; [intros Ha | repeat split]]);
    try discriminate Ha; try reflexivity.
  all: try (cbn; rewrite ?Bool.orb_true_r; reflexivity).
  all: try (rewrite ?Bool.orb_false_r in Ha; cbn in Ha |- *; rewrite ?Ha;
            rewrite ?Bool.orb_true_r; reflexivity).
Qed.

Lemma get_rdt_alloc_resources_answer_witness :
  let E := sample_env (fun _ => true) in
  let s := kstate_init sample_features in
  fst (get_rdt_alloc_resources E sample_features sample_probe s) = true /\
  existsb (fun h => alloc_capable (r_resctrl h))
    (rdt_resources_all (snd (get_rdt_alloc_resources E sample_features sample_probe s))) = true /\
  trace (snd (get_rdt_alloc_resources E sample_features sample_probe s)) = [] /\
  trace (snd (get_rdt_alloc_resources E sample_features sample_probe_nonlinear s))
  = [EvInfo "MBA b/w map not implemented"] /\
  option_map (fun h => alloc_capable (r_resctrl h))
    (nth_error
       (rdt_resources_all (snd (get_rdt_alloc_resources E sample_features
                                  sample_probe_nonlinear s))) 2) = Some false.
Proof.
  intros E s.
  pose proof (get_rdt_alloc_resources_answer E sample_features sample_probe s
                eq_refl eq_refl) as (Hyes & _ & _ & _ & _ & _ & Hlog).
  pose proof (get_rdt_alloc_resources_answer E sample_features sample_probe_nonlinear s
                eq_refl eq_refl) as (_ & _ & _ & _ & _ & _ & Hlog').
  split; [reflexivity|]. split; [apply Hyes; reflexivity|].
  split; [exact Hlog|]. split; [exact Hlog' | reflexivity].
Defined.

(** The AMD bandwidth maximum is two to the power of the shift count that
    the processor uses, the low five bits of EAX: a count of 5 gives 32 and
    a count of 32 gives 1. *)
Lemma rdt_get_mem_config_amd_max_bw :
  forall (P : probe_env) (h : rdt_hw_resource),
    let regs := cpuid_count P 0x80000020
                  (if (rid (r_resctrl h) =? RDT_RESOURCE_SMBA)%N then 2 else 1) in
    max_bw (membw (r_resctrl (snd (__rdt_get_mem_config_amd P h))))
    = 2 ^ (u32 (eax regs) mod 32) /\
    (eax regs = 5 -> max_bw (membw (r_resctrl (snd (__rdt_get_mem_config_amd P h)))) = 32) /\
    (eax regs = 32 -> max_bw (membw (r_resctrl (snd (__rdt_get_mem_config_amd P h)))) = 1).
Proof.
  intros P h regs. unfold __rdt_get_mem_config_amd. fold regs.
  cbn [snd r_resctrl hw_set_resctrl set_alloc_capable set_membw membw max_bw].
  split; [|split; intros ->; reflexivity].
  assert (Hk : 0 <= u32 (eax regs) mod 32 < 32) by (apply Z.mod_pos_bound; lia).
  rewrite Z.shiftl_1_l. unfold u32 at 1. apply Z.mod_small.
  split; [apply Z.pow_nonneg; lia|].
  change (2 ^ 32) with (2 ^ 32). apply Z.pow_lt_mono_r; lia.
Qed.


(** ** What discovery keeps of the resource table *)

Lemma bind_eq :
  forall {A B} (m : M A) (f : A -> M B) s, bind m f s = f (fst (m s)) (snd (m s)).
Proof. intros A B m f s. unfold bind. destruct (m s); reflexivity. Qed.

Lemma table_set_at :
  forall tbl i h (g : rdt_hw_resource -> rdt_hw_resource),
    nth_error tbl i = Some h ->
    table_set tbl i (fun _ => g h) = table_set tbl i g.
Proof.
  induction tbl as [|x t IH]; intros i h g Hn; [reflexivity|].
  destruct i as [|i]; cbn [table_set nth_error] in *.
  - now injection Hn as ->.
  - f_equal. now apply IH.
Qed.

Lemma probe_resource_run :
  forall i f s h,
    nth_error (rdt_resources_all s) (N.to_nat i) = Some h ->
    probe_resource i f s =
      (fst (fst (f h s)),
       with_resources (snd (f h s))
         (table_set (rdt_resources_all (snd (f h s))) (N.to_nat i)
            (fun _ => snd (fst (f h s))))).
Proof.
  intros i f s h Hn. unfold probe_resource. rewrite Hn.
  destruct (f h s) as [res s1]. reflexivity.
Qed.

Section KeepsTable.

Variable I : list rdt_hw_resource -> Prop.

Lemma keeps_ret : forall {A} (a : A), keeps_table I (ret a).
Proof. intros A a s HI. exact HI. Qed.

Lemma keeps_bind :
  forall {A B} (m : M A) (f : A -> M B),
    keeps_table I m -> (forall a, keeps_table I (f a)) -> keeps_table I (bind m f).
Proof.
  intros A B m f Hm Hf s HI. rewrite bind_eq. apply Hf, Hm, HI.
Qed.

Lemma keeps_same_table :
  forall {A} (m : M A),
    (forall s, rdt_resources_all (snd (m s)) = rdt_resources_all s) -> keeps_table I m.
Proof. intros A m Hm s HI. rewrite Hm. exact HI. Qed.

Lemma keeps_rdt_cpu_has : forall E fl, keeps_table I (rdt_cpu_has E fl).
Proof. intros E fl. apply keeps_same_table. intros s. rewrite rdt_cpu_has_run. reflexivity. Qed.

Lemma keeps_modify_resource :
  forall i f,
    (forall tbl, I tbl -> I (table_set tbl (N.to_nat i) f)) ->
    keeps_table I (modify_resource i f).
Proof. intros i f Hf s HI. apply Hf, HI. Qed.

Lemma keeps_probe_resource :
  forall i f,
    (forall h s, rdt_resources_all (snd (f h s)) = rdt_resources_all s) ->
    (forall s tbl, I tbl -> I (table_set tbl (N.to_nat i) (fun h => snd (fst (f h s))))) ->
    keeps_table I (probe_resource i f).
Proof.
  intros i f Hs Hf s HI.
  destruct (nth_error (rdt_resources_all s) (N.to_nat i)) as [h|] eqn:Hn.
  - rewrite (probe_resource_run i f s h Hn). cbn [snd rdt_resources_all with_resources].
    rewrite Hs.
    rewrite (table_set_at (rdt_resources_all s) (N.to_nat i) h
               (fun h0 => snd (fst (f h0 s))) Hn).
    apply Hf, HI.
  - unfold probe_resource. rewrite Hn. exact HI.
Qed.

Lemma keeps_cache_alloc_hsw_probe :
  forall E,
    (forall tbl, I tbl -> I (table_set tbl 0 hsw_hw_resource)) ->
    keeps_table I (cache_alloc_hsw_probe E).
Proof.
  intros E Hf s HI. rewrite cache_alloc_hsw_probe_run.
  destruct (msr_gp_fault E MSR_IA32_L3_CBM_BASE); [exact HI|].
  destruct (msr_stick E MSR_IA32_L3_CBM_BASE 0xFFFFF =? 0xFFFFF); [apply Hf|]; exact HI.
Qed.

Lemma keeps_check_quirks_intel :
  forall E,
    (forall tbl, I tbl -> I (table_set tbl 0 hsw_hw_resource)) ->
    keeps_table I (__check_quirks_intel E).
Proof.
  intros E Hf. unfold __check_quirks_intel, intel_rdt_mbm_apply_quirk.
  destruct (x86_vfm E).
  - apply keeps_bind; [apply keeps_same_table; reflexivity|].
    intros off. destruct off; cbn [negb];
      [apply keeps_ret | apply keeps_cache_alloc_hsw_probe, Hf].
  - apply keeps_bind; [|intros _; apply keeps_same_table; reflexivity].
    destruct (x86_stepping E <=? 4); apply keeps_same_table; reflexivity.
  - apply keeps_same_table; reflexivity.
  - apply keeps_ret.
Qed.

End KeepsTable.

Lemma vendor_defaults_table_set :
  forall v i f tbl,
    (forall h, msr_update (f h) = msr_update h) ->
    (i = 2%nat -> v <> X86_VENDOR_OTHER) ->
    (i = 3%nat -> v = X86_VENDOR_AMD) ->
    vendor_defaults_ok v tbl -> vendor_defaults_ok v (table_set tbl i f).
Proof.
  intros v i f tbl Hf H2 H3 (l3 & l2 & mba & smba & -> & Hl3 & Hl2 & Hv).
  destruct i as [|[|[|[|i]]]]; cbn [table_set].
  - exists (f l3), l2, mba, smba. rewrite Hf. auto.
  - exists l3, (f l2), mba, smba. rewrite Hf. auto.
  - exists l3, l2, (f mba), smba. repeat split; auto.
    destruct v; try rewrite Hf; try exact Hv. now destruct (H2 eq_refl).
  - exists l3, l2, mba, (f smba). repeat split; auto.
    rewrite (H3 eq_refl) in *. rewrite Hf. exact Hv.
  - exists l3, l2, mba, smba. auto.
Qed.

Lemma vendor_defaults_writer_present :
  forall v tbl, vendor_defaults_ok v tbl -> Forall writer_present tbl.
Proof.
  intros v tbl (l3 & l2 & mba & smba & -> & Hl3 & Hl2 & Hv).
  unfold writer_present.
  repeat constructor; intros Hcap.
  - rewrite Hl3. discriminate.
  - rewrite Hl2. discriminate.
  - destruct v; destruct Hv as [Hm Hs]; try (rewrite Hm; discriminate). congruence.
  - destruct v; destruct Hv as [Hm Hs]; try (rewrite Hs; discriminate); congruence.
Qed.

Lemma keeps_get_rdt_resources :
  forall E F P feat,
    keeps_table (vendor_defaults_ok (x86_vendor P)) (get_rdt_resources E F P feat).
Proof.
  intros E F P feat. set (I := vendor_defaults_ok (x86_vendor P)).
  assert (Hcache : forall i idx tbl,
             (i < 2)%nat -> I tbl -> I (table_set tbl i (rdt_get_cache_alloc_cfg P idx))).
  { intros i idx tbl Hi. apply vendor_defaults_table_set; [reflexivity | lia | lia]. }
  assert (Hcdp : forall i tbl,
             (i < 2)%nat -> I tbl ->
             I (table_set tbl i
                  (fun h => hw_set_resctrl (hw_set_cdp_enabled h false)
                              (set_cdp_capable (r_resctrl h) true)))).
  { intros i tbl Hi. apply vendor_defaults_table_set; [reflexivity | lia | lia]. }
  assert (Hmem : keeps_table I (get_mem_config E F P)).
  { unfold get_mem_config. apply keeps_bind; [apply keeps_rdt_cpu_has|].
    intros b. destruct b; cbn [negb]; [|apply keeps_ret].
    subst I. destruct (x86_vendor P); [| |apply keeps_ret];
      (apply keeps_probe_resource;
       [intros h s; rewrite ?get_mem_config_intel_state;
        try destruct (Z.land _ _ =? 0); reflexivity|]);
      intros s tbl;
      apply vendor_defaults_table_set; try discriminate; try reflexivity.
    intros h. apply get_mem_config_intel_flag. }
  assert (Hslow : keeps_table I (get_slow_mem_config E F P)).
  { unfold get_slow_mem_config. apply keeps_bind; [apply keeps_rdt_cpu_has|].
    intros b. destruct b; cbn [negb]; [|apply keeps_ret].
    subst I. destruct (x86_vendor P); try apply keeps_ret.
    apply keeps_probe_resource; [intros h s; reflexivity|]. intros s tbl.
    apply vendor_defaults_table_set; try discriminate; reflexivity. }
  assert (Halloc : keeps_table I (get_rdt_alloc_resources E F P)).
  { intros s HI. unfold get_rdt_alloc_resources.
    destruct (rdt_alloc_capable s); [exact HI|].
    destruct (negb (boot_cpu_has E (X86_FEATURE_RDT_A P))); [exact HI|].
    revert s HI. refine (_ : keeps_table I _).
    apply keeps_bind; [apply keeps_rdt_cpu_has|]. intros l3.
    apply keeps_bind.
    { destruct l3; [|apply keeps_ret].
      apply keeps_bind; [apply keeps_modify_resource; intros tbl; apply Hcache; cbn; lia|].
      intros _. apply keeps_bind; [apply keeps_rdt_cpu_has|]. intros cdp.
      destruct cdp; [|apply keeps_ret].
      apply keeps_modify_resource; intros tbl; apply Hcdp; cbn; lia. }
    intros _. apply keeps_bind; [apply keeps_rdt_cpu_has|]. intros l2.
    apply keeps_bind.
    { destruct l2; [|apply keeps_ret].
      apply keeps_bind; [apply keeps_modify_resource; intros tbl; apply Hcache; cbn; lia|].
      intros _. apply keeps_bind; [apply keeps_rdt_cpu_has|]. intros cdp.
      destruct cdp; [|apply keeps_ret].
      apply keeps_modify_resource; intros tbl; apply Hcdp; cbn; lia. }
    intros _. apply keeps_bind; [exact Hmem|]. intros mb.
    apply keeps_bind; [exact Hslow|]. intros smb. apply keeps_ret. }
  unfold get_rdt_resources.
  apply keeps_bind; [exact Halloc|]. intros a.
  apply keeps_bind; [apply keeps_same_table; reflexivity|]. intros _.
  apply keeps_bind; [|intros mf; apply keeps_ret].
  unfold get_rdt_mon_resources.
  apply keeps_bind; [apply keeps_rdt_cpu_has|]. intros b1.
  apply keeps_bind; [apply keeps_rdt_cpu_has|]. intros b2.
  apply keeps_bind; [apply keeps_rdt_cpu_has|]. intros b3.
  match goal with |- context [if ?c then _ else _] => destruct c end; [apply keeps_ret|].
  apply keeps_bind; [|intros err; apply keeps_ret].
  intros s HI.
  destruct (nth_error (rdt_resources_all s) (N.to_nat RDT_RESOURCE_L3)); [|exact HI].
  cbn [snd rdt_resources_all with_resources].
  apply vendor_defaults_table_set; [reflexivity | discriminate | discriminate | exact HI].
Qed.

(** Boot, from the table as it is initialised to the end of discovery
    (identities, vendor defaults, quirks, CPUID probes), on any vendor and
    with any command line.  The table keeps its four entries; L3 and L2
    write with [cat_wrmsr]; bandwidth allocation has the writer of its
    vendor on Intel and AMD and is never capable elsewhere, the slow-memory
    one only ever on AMD.  So a resource that ends up allocation capable has
    a register writer: setting up one of its domains never calls through a
    NULL pointer. *)
Theorem late_init_writer_present :
  forall (E : kernel_env) (F : cpufeatures) (P : probe_env) (feat : Z) (s : kstate),
    rdt_resources_all s = rdt_resources_all_init ->
    let s' := snd (resctrl_arch_late_init_probe E F P feat s) in
    vendor_defaults_ok (x86_vendor P) (rdt_resources_all s') /\
    Forall writer_present (rdt_resources_all s') /\
    List.length (rdt_resources_all s') = 4%nat.
Proof.
  intros E F P feat s Hinit s'.
  assert (Hok : vendor_defaults_ok (x86_vendor P) (rdt_resources_all s')).
  { subst s'. unfold resctrl_arch_late_init_probe.
    rewrite bind_eq. cbn [fst snd]. rewrite bind_eq.
    assert (Hk : keeps_table (vendor_defaults_ok (x86_vendor P))
                   (bind (check_quirks E P) (fun _ => get_rdt_resources E F P feat))).
    { apply keeps_bind; [|intros _; apply keeps_get_rdt_resources].
      unfold check_quirks. destruct (x86_vendor P); try apply keeps_ret.
      apply keeps_check_quirks_intel. intros tbl.
      apply vendor_defaults_table_set; [reflexivity | discriminate | discriminate]. }
    apply Hk. rewrite Hinit. unfold rdt_init_res_defs.
    destruct (x86_vendor P); cbn; do 4 eexists; (split; [reflexivity|]); cbn; auto. }
  split; [exact Hok|].
  split; [exact (vendor_defaults_writer_present _ _ Hok)|].
  destruct Hok as (l3 & l2 & mba & smba & -> & _). reflexivity.
Qed.

Lemma late_init_writer_present_witness :
  let s' := snd (resctrl_arch_late_init_probe (sample_env (fun _ => true)) sample_features
                   sample_probe 0 (kstate_init sample_features)) in
  alloc_flags (rdt_resources_all s') = [true; false; false; false] /\
  Forall writer_present (rdt_resources_all s').
Proof.
  intros s'. split; [reflexivity|].
  apply (proj1 (proj2 (late_init_writer_present (sample_env (fun _ => true)) sample_features
                         sample_probe 0 (kstate_init sample_features) eq_refl))).
Defined.


Lemma resctrl_arch_is_evt_configurable_run :
  forall (E : kernel_env) (F : cpufeatures) (evt : resctrl_event_id) (s : kstate),
    let has fl := rdt_cpu_has_val E fl (rdt_options_table s) in
    resctrl_arch_is_evt_configurable E F evt s =
    (match evt with
     | QOS_L3_MBM_TOTAL_EVENT_ID =>
         has (X86_FEATURE_BMEC F) && has (X86_FEATURE_CQM_MBM_TOTAL F)
     | QOS_L3_MBM_LOCAL_EVENT_ID =>
         has (X86_FEATURE_BMEC F) && has (X86_FEATURE_CQM_MBM_LOCAL F)
     | _ => false
     end, s).
Proof.
  intros E F evt s has. subst has. unfold resctrl_arch_is_evt_configurable.
  rewrite bind_rdt_cpu_has.
  destruct (rdt_cpu_has_val E (X86_FEATURE_BMEC F) (rdt_options_table s));
    destruct evt; cbn [negb andb]; rewrite ?rdt_cpu_has_run; reflexivity.
Qed.

Lemma rdt_cpu_has_val_hw :
  forall E fl o, rdt_cpu_has_val E fl o = true -> boot_cpu_has E fl = true.
Proof.
  intros E fl o. unfold rdt_cpu_has_val. destruct (boot_cpu_has E fl); [reflexivity|].
  intros H; discriminate H.
Qed.

(** Asking whether an event is configurable leaves the state as it was,
    whatever the answer.  The answer is true only if the event is the total
    or the local bandwidth event and CPUID itself reports both BMEC and the
    counter of that event: occupancy and every other event never are, and no
    command line makes up for hardware that lacks either feature. *)
Theorem resctrl_arch_is_evt_configurable_sound :
  forall (E : kernel_env) (F : cpufeatures) (evt : resctrl_event_id) (s : kstate),
    snd (resctrl_arch_is_evt_configurable E F evt s) = s /\
    (fst (resctrl_arch_is_evt_configurable E F evt s) = true ->
     boot_cpu_has E (X86_FEATURE_BMEC F) = true /\
     ((evt = QOS_L3_MBM_TOTAL_EVENT_ID /\
       boot_cpu_has E (X86_FEATURE_CQM_MBM_TOTAL F) = true) \/
      (evt = QOS_L3_MBM_LOCAL_EVENT_ID /\
       boot_cpu_has E (X86_FEATURE_CQM_MBM_LOCAL F) = true))).
Proof.
  intros E F evt s. rewrite resctrl_arch_is_evt_configurable_run. cbn [fst snd].
  split; [reflexivity|].
  destruct evt; intros H; try discriminate H;
    apply Bool.andb_true_iff in H; destruct H as [Hb He];
    apply rdt_cpu_has_val_hw in Hb; apply rdt_cpu_has_val_hw in He; auto.
Qed.

Lemma resctrl_arch_is_evt_configurable_sound_witness :
  let E := sample_env (fun _ => true) in
  let s := snd (set_rdt_options "!bmec" (kstate_init sample_features)) in
  fst (resctrl_arch_is_evt_configurable E sample_features QOS_L3_MBM_LOCAL_EVENT_ID
         (kstate_init sample_features)) = true /\
  boot_cpu_has E (X86_FEATURE_BMEC sample_features) = true /\
  fst (resctrl_arch_is_evt_configurable E sample_features QOS_L3_MBM_LOCAL_EVENT_ID s) = false /\
  snd (resctrl_arch_is_evt_configurable E sample_features QOS_L3_MBM_LOCAL_EVENT_ID s) = s.
Proof.
  intros E s.
  pose proof (resctrl_arch_is_evt_configurable_sound E sample_features
                QOS_L3_MBM_LOCAL_EVENT_ID (kstate_init sample_features)) as [_ Hyes].
  pose proof (resctrl_arch_is_evt_configurable_sound E sample_features
                QOS_L3_MBM_LOCAL_EVENT_ID s) as [Hs _].
  split; [reflexivity|]. split; [exact (proj1 (Hyes eq_refl))|].
  split; [reflexivity | exact Hs].
Defined.


(** On an Intel Haswell server part whose L3 mask register takes the probe
    pattern, and with L3 allocation not switched off on the command line,
    quirks followed by allocation discovery answer true without looking at
    CPUID: the table is the boot table with the Haswell values in the L3
    entry, whatever leaf 0x10 would have said about L3, L2 or bandwidth. *)
Theorem haswell_probe_settles_allocation :
  forall (E : kernel_env) (F : cpufeatures) (P : probe_env) (s : kstate),
    x86_vendor P = X86_VENDOR_INTEL ->
    x86_vfm E = INTEL_HASWELL_X ->
    option_map force_off (nth_error (rdt_options_table s) RDT_FLAG_L3_CAT) <> Some true ->
    msr_gp_fault E MSR_IA32_L3_CBM_BASE = false ->
    msr_stick E MSR_IA32_L3_CBM_BASE 0xFFFFF = 0xFFFFF ->
    let r := bind (check_quirks E P) (fun _ => get_rdt_alloc_resources E F P) s in
    fst r = true /\
    rdt_alloc_capable (snd r) = true /\
    rdt_resources_all (snd r) = table_set (rdt_resources_all s) 0 hsw_hw_resource.
Proof.
  intros E F P s Hvendor Hvfm Hoff Hfault Hstick r. subst r.
  rewrite bind_eq.
  assert (Hq : snd (check_quirks E P s) = snd (cache_alloc_hsw_probe E s)).
  { unfold check_quirks. rewrite Hvendor, check_quirks_intel_haswell by exact Hvfm.
    destruct (nth_error (rdt_options_table s) RDT_FLAG_L3_CAT) as [e|]; [|reflexivity].
    cbn [option_map] in Hoff. destruct (force_off e); [|reflexivity]. now elim Hoff. }
  rewrite Hq, cache_alloc_hsw_probe_run, Hfault, Hstick. cbn [Z.eqb Pos.eqb].
  unfold get_rdt_alloc_resources. cbn. repeat split.
Qed.

Lemma haswell_probe_settles_allocation_witness :
  let E := sample_env (fun _ => true) in
  let s := kstate_init sample_features in
  let r := bind (check_quirks E sample_probe)
             (fun _ => get_rdt_alloc_resources E sample_features sample_probe) s in
  fst r = true /\ alloc_flags (rdt_resources_all (snd r)) = [true; false; false; false].
Proof.
  intros E s r.
  destruct (haswell_probe_settles_allocation E sample_features sample_probe s)
    as (Ha & _ & Ht); try reflexivity.
  - discriminate.
  - split; [exact Ha|]. fold r in Ht. rewrite Ht. reflexivity.
Defined.

(** What [resctrl_cpu_detect] leaves in the CPU description.  Without
    CQM_LLC the three members are -1.  With it and one of the three
    monitoring events, the counter width offset is the low byte of EAX of
    leaf 0xF.1, except that an AMD part reporting 0 gets the AMD default; the
    RMID limit is ECX of that leaf, not EBX of leaf 0xF.0.  With CQM_LLC but
    none of the events only the RMID limit is written, from EBX of leaf
    0xF.0.  The vendor is not touched. *)
Theorem resctrl_cpu_detect_fields :
  forall (F : cpufeatures) (P : probe_env) (c : cpuinfo_x86),
    let c' := resctrl_cpu_detect F P c in
    let events := x86_capability c (X86_FEATURE_CQM_OCCUP_LLC F)
                  || x86_capability c (X86_FEATURE_CQM_MBM_TOTAL F)
                  || x86_capability c (X86_FEATURE_CQM_MBM_LOCAL F) in
    let off := Z.land (eax (cpuid_count P 0xf 1)) 0xff in
    (x86_capability c (X86_FEATURE_CQM_LLC P) = false ->
       x86_cache_max_rmid c' = -1 /\ x86_cache_occ_scale c' = -1 /\
       x86_cache_mbm_width_offset c' = -1) /\
    (x86_capability c (X86_FEATURE_CQM_LLC P) = true -> events = true ->
       x86_cache_max_rmid c' = s32 (ecx (cpuid_count P 0xf 1)) /\
       x86_cache_occ_scale c' = s32 (ebx (cpuid_count P 0xf 1)) /\
       0 <= off <= 255 /\
       (c_x86_vendor c <> X86_VENDOR_AMD -> x86_cache_mbm_width_offset c' = off) /\
       (c_x86_vendor c = X86_VENDOR_AMD ->
          x86_cache_mbm_width_offset c' = (if off =? 0 then MBM_CNTR_WIDTH_OFFSET_AMD P else off) /\
          (MBM_CNTR_WIDTH_OFFSET_AMD P <> 0 -> x86_cache_mbm_width_offset c' <> 0))) /\
    (x86_capability c (X86_FEATURE_CQM_LLC P) = true -> events = false ->
       x86_cache_max_rmid c' = s32 (ebx (cpuid_count P 0xf 0)) /\
       x86_cache_occ_scale c' = x86_cache_occ_scale c /\
       x86_cache_mbm_width_offset c' = x86_cache_mbm_width_offset c) /\
    c_x86_vendor c' = c_x86_vendor c.
Proof.
  intros F P c c' events off. subst c'. unfold resctrl_cpu_detect. fold events. fold off.
  assert (Hoff : 0 <= off <= 255).
  { subst off.
    replace (Z.land (eax (cpuid_count P 0xf 1)) 0xff)
      with (eax (cpuid_count P 0xf 1) mod 256)
      by (symmetry; apply (Z.land_ones _ 8); lia).
    pose proof (Z.mod_pos_bound (eax (cpuid_count P 0xf 1)) 256 ltac:(lia)). lia. }
  destruct (x86_capability c (X86_FEATURE_CQM_LLC P)); cbn [negb].
  - split; [intros H; discriminate H|].
    destruct events.
    + split; [|split; [intros _ H; discriminate H|]].
      * intros _ _. cbn [x86_cache_max_rmid x86_cache_occ_scale x86_cache_mbm_width_offset].
        split; [reflexivity|]. split; [reflexivity|]. split; [exact Hoff|].
        destruct (c_x86_vendor c); cbn [andb]; split; intros Hv; try reflexivity;
          try (now elim Hv); try discriminate Hv.
        split; [reflexivity|]. intros Hc.
        destruct (Z.eqb_spec off 0); [exact Hc | assumption].
      * destruct (c_x86_vendor c); reflexivity.
    + split; [intros _ H; discriminate H|]. split; [|reflexivity].
      intros _ _. repeat split.
  - split; [intros _; repeat split|]. split; [intros H; discriminate H|].
    split; [intros H; discriminate H|reflexivity].
Qed.

Lemma resctrl_cpu_detect_fields_witness :
  let c := {| c_x86_vendor := X86_VENDOR_AMD; x86_capability := fun _ => true;
              x86_cache_max_rmid := 0; x86_cache_occ_scale := 0;
              x86_cache_mbm_width_offset := 0 |} in
  let P := {| x86_vendor := X86_VENDOR_AMD;
              cpuid_count := fun _ _ => {| eax := 0x100; ebx := 64; ecx := 255; edx := 0 |};
              cbm_len_width := 5; max_delay_width := 12; cos_max_width := 16;
              noncont_pos := 3; MBA_IS_LINEAR := 4;
              X86_FEATURE_RDT_A := 7 * 32 + 3; X86_FEATURE_PER_THREAD_MBA := 11 * 32 + 7;
              X86_FEATURE_CQM_LLC := 11 * 32 + 0; MBM_CNTR_WIDTH_OFFSET_AMD := 20;
              qos_event_id := fun _ => 0; rdt_get_mon_l3_config := fun r => (0, r) |} in
  x86_cache_mbm_width_offset (resctrl_cpu_detect sample_features P c) = 20 /\
  x86_cache_max_rmid (resctrl_cpu_detect sample_features P c) = 255.
Proof.
  intros c P.
  destruct (resctrl_cpu_detect_fields sample_features P c) as (_ & Hev & _).
  destruct (Hev eq_refl eq_refl) as (Hr & _ & _ & _ & Hamd).
  destruct (Hamd eq_refl) as [Ho _].
  split; [exact Ho | exact Hr].
Defined.


(** ** A core that comes and goes *)

Lemma find_domain_from_app :
  forall A (hdr_of : A -> rdt_domain_hdr) (l1 l2 : list A) d k0,
    ~ In (id (hdr_of d)) (domain_ids hdr_of l1) ->
    find_domain_from hdr_of (l1 ++ d :: l2) (id (hdr_of d)) k0
    = Some ((k0 + List.length l1)%nat, d).
Proof.
  intros A hdr_of l1 l2 d. induction l1 as [|x l1 IH]; intros k0 Hni; simpl.
  - rewrite Z.eqb_refl. now rewrite Nat.add_0_r.
  - destruct (Z.eqb_spec (id (hdr_of d)) (id (hdr_of x))) as [He|Hne].
    + exfalso. apply Hni. left. now symmetry.
    + rewrite IH by (intros Hc; apply Hni; now right). f_equal. f_equal. lia.
Qed.

Lemma cpumask_clear_set :
  forall cpu m,
    N.testbit m cpu = false -> cpumask_clear_cpu cpu (cpumask_set_cpu cpu m) = m.
Proof.
  intros cpu m Hm. unfold cpumask_clear_cpu, cpumask_set_cpu.
  apply N.bits_inj. intros n. rewrite N.clearbit_eqb, N.setbit_eqb.
  destruct (N.eqb_spec cpu n) as [->|Hne]; simpl; [now rewrite Hm|].
  now rewrite Bool.andb_true_r.
Qed.

Lemma ctrl_set_cpu_mask_back :
  forall d m, ctrl_set_cpu_mask (ctrl_set_cpu_mask d m) (cpu_mask (ctrl_hdr d)) = d.
Proof. intros [[[] ?] ?] m. reflexivity. Qed.

Lemma mon_set_cpu_mask_back :
  forall d m, mon_set_cpu_mask (mon_set_cpu_mask d m) (cpu_mask (mon_hw_hdr d)) = d.
Proof. intros [[[] ?] ? ?] m. reflexivity. Qed.

Lemma domain_remove_cpu_ctrl_absent :
  forall (E : kernel_env) (cpu : N) (h : rdt_hw_resource) (s : kstate),
    let dom_id := get_domain_id_from_scope E cpu (ctrl_scope (r_resctrl h)) in
    dom_id < 0 \/ domain_of_id ctrl_hdr (ctrl_domains (r_resctrl h)) dom_id = None ->
    fst (domain_remove_cpu_ctrl E cpu h s) = h.
Proof.
  intros E cpu h s dom_id Hc. unfold domain_remove_cpu_ctrl. fold dom_id. cbv zeta.
  destruct (Z.ltb_spec dom_id 0) as [Hneg|Hpos].
  - rewrite bind_pr_warn_once. reflexivity.
  - destruct Hc as [Hc|Hc]; [lia|].
    unfold resctrl_find_domain. cbn [fst].
    pose proof (find_domain_from_of_id ctrl_hdr (ctrl_domains (r_resctrl h)) dom_id 0) as Hf.
    rewrite Hc in Hf.
    destruct (find_domain_from ctrl_hdr (ctrl_domains (r_resctrl h)) dom_id 0); [discriminate|].
    rewrite bind_emit. reflexivity.
Qed.

Lemma domain_add_cpu_ctrl_negative :
  forall (E : kernel_env) (cpu : N) (h : rdt_hw_resource) (s : kstate),
    get_domain_id_from_scope E cpu (ctrl_scope (r_resctrl h)) < 0 ->
    fst (domain_add_cpu_ctrl E cpu h s) = h.
Proof.
  intros E cpu h s Hneg. unfold domain_add_cpu_ctrl. cbv zeta.
  apply Z.ltb_lt in Hneg. rewrite Hneg, bind_pr_warn_once. reflexivity.
Qed.

(** Taking out of any resource [h'] that has the control list [h] got from
    the core coming in gives [h'] the control list [h] had. *)
Lemma ctrl_round_trip :
  forall (E : kernel_env) (cpu : N) (h h' : rdt_hw_resource) (s s2 : kstate),
    let r := r_resctrl h in
    let dom_id := get_domain_id_from_scope E cpu (ctrl_scope r) in
    domains_ok ctrl_hdr RESCTRL_CTRL_DOMAIN (ctrl_domains r) ->
    (forall d, domain_of_id ctrl_hdr (ctrl_domains r) dom_id = Some d ->
               N.testbit (cpu_mask (ctrl_hdr d)) cpu = false) ->
    ctrl_scope (r_resctrl h') = ctrl_scope r ->
    ctrl_domains (r_resctrl h') = ctrl_domains (r_resctrl (fst (domain_add_cpu_ctrl E cpu h s))) ->
    fst (domain_remove_cpu_ctrl E cpu h' s2)
    = hw_set_resctrl h' (set_ctrl_domains (r_resctrl h') (ctrl_domains r)).
Proof.
  intros E cpu h h' s s2 r dom_id Hok Hnew Hsc Hdoms.
  assert (Hsame : ctrl_domains (r_resctrl h') = ctrl_domains r ->
                  hw_set_resctrl h' (set_ctrl_domains (r_resctrl h') (ctrl_domains r)) = h').
  { intros <-. apply hw_set_ctrl_domains_same. }
  destruct (Z.ltb_spec dom_id 0) as [Hneg|Hpos].
  { rewrite domain_add_cpu_ctrl_negative in Hdoms by exact Hneg.
    rewrite Hsame by exact Hdoms.
    apply domain_remove_cpu_ctrl_absent. left. now rewrite Hsc. }
  destruct (domain_of_id ctrl_hdr (ctrl_domains r) dom_id) as [d|] eqn:Hof.
  - destruct (domain_of_id_found _ _ _ _ _ Hof) as (l1 & l2 & Hl & Hfind & Hid & Hni).
    pose proof Hok as Hok'. rewrite Hl in Hok'.
    destruct (domains_ok_type _ _ _ _ _ _ Hok') as [Hty Hmask].
    rewrite (domain_add_cpu_ctrl_found E cpu h s _ _ Hpos Hfind), Hty in Hdoms.
    cbn [domain_type_eqb] in Hdoms. fold r in Hdoms.
    replace (ctrl_domains (r_resctrl (hw_set_resctrl h (set_ctrl_domains r
               (list_store (List.length l1)
                  (ctrl_set_cpu_mask d (cpumask_set_cpu cpu (cpu_mask (ctrl_hdr d))))
                  (ctrl_domains r))))))
      with (list_store (List.length l1)
              (ctrl_set_cpu_mask d (cpumask_set_cpu cpu (cpu_mask (ctrl_hdr d))))
              (ctrl_domains r)) in Hdoms by reflexivity.
    rewrite Hl, list_store_middle in Hdoms.
    set (d1 := ctrl_set_cpu_mask d (cpumask_set_cpu cpu (cpu_mask (ctrl_hdr d)))) in *.
    pose proof (domain_remove_cpu_ctrl_found E cpu h' s2 l1 l2 d1) as Hrm.
    cbv zeta in Hrm. rewrite Hsc in Hrm. fold dom_id in Hrm.
    destruct (Hrm Hpos Hdoms) as (s' & Hrun & _).
    + rewrite Hdoms. rewrite <- Hid.
      apply (find_domain_from_app _ ctrl_hdr l1 l2 d1 0%nat).
      intros Hc. apply Hni. rewrite <- Hid. exact Hc.
    + exact Hty.
    + rewrite Hrun. cbn [fst]. f_equal. f_equal.
      replace (cpu_mask (ctrl_hdr d1)) with (cpumask_set_cpu cpu (cpu_mask (ctrl_hdr d)))
        by reflexivity.
      rewrite cpumask_clear_set by (apply Hnew; reflexivity).
      unfold cpumask_empty. apply N.eqb_neq in Hmask. rewrite Hmask.
      subst d1. rewrite ctrl_set_cpu_mask_back. now rewrite Hl.
  - destruct (domain_add_cpu_ctrl_new E cpu h s Hpos Hof) as (t & _ & _ & Hres).
    fold r in Hres. fold dom_id in Hres.
    destruct (ctrl_create_succeeds E r dom_id).
    + rewrite Hres in Hdoms.
      destruct (list_add_tail_rcu_split (ctrl_domains r) (ctrl_domain_created h dom_id cpu)
                  (find_add_pos ctrl_hdr (ctrl_domains r) dom_id)
                  (find_add_pos_le ctrl_hdr _ _)) as (l1 & l2 & Hl & Hlen & Hadd).
      replace (ctrl_domains (r_resctrl (hw_set_resctrl h (set_ctrl_domains r
                 (list_add_tail_rcu (ctrl_domain_created h dom_id cpu)
                    (find_add_pos ctrl_hdr (ctrl_domains r) dom_id) (ctrl_domains r))))))
        with (list_add_tail_rcu (ctrl_domain_created h dom_id cpu)
                (find_add_pos ctrl_hdr (ctrl_domains r) dom_id) (ctrl_domains r))
        in Hdoms by reflexivity.
      rewrite Hadd in Hdoms.
      set (d1 := ctrl_domain_created h dom_id cpu) in *.
      assert (Hni : ~ In dom_id (domain_ids ctrl_hdr l1)).
      { apply domain_of_id_none in Hof. rewrite Hl, domain_ids_app in Hof.
        intros Hc. apply Hof. apply in_or_app. now left. }
      pose proof (domain_remove_cpu_ctrl_found E cpu h' s2 l1 l2 d1) as Hrm.
      cbv zeta in Hrm. rewrite Hsc in Hrm. fold dom_id in Hrm.
      destruct (Hrm Hpos Hdoms) as (s' & Hrun & _).
      * rewrite Hdoms.
        apply (find_domain_from_app _ ctrl_hdr l1 l2 d1 0%nat). exact Hni.
      * reflexivity.
      * rewrite Hrun. cbn [fst]. f_equal. f_equal.
        replace (cpu_mask (ctrl_hdr d1)) with (cpumask_set_cpu cpu 0) by reflexivity.
        rewrite cpumask_clear_last. cbn [cpumask_empty N.eqb]. now rewrite Hl.
    + destruct Hres as [Hres _]. rewrite Hres in Hdoms. rewrite Hsame by exact Hdoms.
      apply domain_remove_cpu_ctrl_absent. right. rewrite Hsc, Hdoms. exact Hof.
Qed.

Lemma domain_remove_cpu_mon_absent :
  forall (E : kernel_env) (cpu : N) (h : rdt_hw_resource) (s : kstate),
    let dom_id := get_domain_id_from_scope E cpu (mon_scope (r_resctrl h)) in
    dom_id < 0 \/ domain_of_id mon_hw_hdr (mon_domains (r_resctrl h)) dom_id = None ->
    fst (domain_remove_cpu_mon E cpu h s) = h.
Proof.
  intros E cpu h s dom_id Hc. unfold domain_remove_cpu_mon. fold dom_id. cbv zeta.
  destruct (Z.ltb_spec dom_id 0) as [Hneg|Hpos].
  - rewrite bind_pr_warn_once. reflexivity.
  - destruct Hc as [Hc|Hc]; [lia|].
    unfold resctrl_find_domain. cbn [fst].
    pose proof (find_domain_from_of_id mon_hw_hdr (mon_domains (r_resctrl h)) dom_id 0) as Hf.
    rewrite Hc in Hf.
    destruct (find_domain_from mon_hw_hdr (mon_domains (r_resctrl h)) dom_id 0); [discriminate|].
    rewrite bind_emit. reflexivity.
Qed.

Lemma domain_add_cpu_mon_negative :
  forall (E : kernel_env) (cpu : N) (h : rdt_hw_resource) (s : kstate),
    get_domain_id_from_scope E cpu (mon_scope (r_resctrl h)) < 0 ->
    fst (domain_add_cpu_mon E cpu h s) = h.
Proof.
  intros E cpu h s Hneg. unfold domain_add_cpu_mon. cbv zeta.
  apply Z.ltb_lt in Hneg. rewrite Hneg, bind_pr_warn_once. reflexivity.
Qed.

(** The same for the monitor list. *)
Lemma mon_round_trip :
  forall (E : kernel_env) (cpu : N) (h h' : rdt_hw_resource) (s s2 : kstate),
    let r := r_resctrl h in
    let dom_id := get_domain_id_from_scope E cpu (mon_scope r) in
    domains_ok mon_hw_hdr RESCTRL_MON_DOMAIN (mon_domains r) ->
    (forall d, domain_of_id mon_hw_hdr (mon_domains r) dom_id = Some d ->
               N.testbit (cpu_mask (mon_hw_hdr d)) cpu = false) ->
    mon_scope (r_resctrl h') = mon_scope r ->
    mon_domains (r_resctrl h') = mon_domains (r_resctrl (fst (domain_add_cpu_mon E cpu h s))) ->
    fst (domain_remove_cpu_mon E cpu h' s2)
    = hw_set_resctrl h' (set_mon_domains (r_resctrl h') (mon_domains r)).
Proof.
  intros E cpu h h' s s2 r dom_id Hok Hnew Hsc Hdoms.
  assert (Hsame : mon_domains (r_resctrl h') = mon_domains r ->
                  hw_set_resctrl h' (set_mon_domains (r_resctrl h') (mon_domains r)) = h').
  { intros <-. apply hw_set_mon_domains_same. }
  destruct (Z.ltb_spec dom_id 0) as [Hneg|Hpos].
  { rewrite domain_add_cpu_mon_negative in Hdoms by exact Hneg.
    rewrite Hsame by exact Hdoms.
    apply domain_remove_cpu_mon_absent. left. now rewrite Hsc. }
  destruct (domain_of_id mon_hw_hdr (mon_domains r) dom_id) as [d|] eqn:Hof.
  - destruct (domain_of_id_found _ _ _ _ _ Hof) as (l1 & l2 & Hl & Hfind & Hid & Hni).
    pose proof Hok as Hok'. rewrite Hl in Hok'.
    destruct (domains_ok_type _ _ _ _ _ _ Hok') as [Hty Hmask].
    rewrite (domain_add_cpu_mon_found E cpu h s _ _ Hpos Hfind), Hty in Hdoms.
    cbn [domain_type_eqb] in Hdoms. fold r in Hdoms.
    replace (mon_domains (r_resctrl (hw_set_resctrl h (set_mon_domains r
               (list_store (List.length l1)
                  (mon_set_cpu_mask d (cpumask_set_cpu cpu (cpu_mask (mon_hw_hdr d))))
                  (mon_domains r))))))
      with (list_store (List.length l1)
              (mon_set_cpu_mask d (cpumask_set_cpu cpu (cpu_mask (mon_hw_hdr d))))
              (mon_domains r)) in Hdoms by reflexivity.
    rewrite Hl, list_store_middle in Hdoms.
    set (d1 := mon_set_cpu_mask d (cpumask_set_cpu cpu (cpu_mask (mon_hw_hdr d)))) in *.
    pose proof (domain_remove_cpu_mon_found E cpu h' s2 l1 l2 d1) as Hrm.
    cbv zeta in Hrm. rewrite Hsc in Hrm. fold dom_id in Hrm.
    destruct (Hrm Hpos Hdoms) as (s' & Hrun & _).
    + rewrite Hdoms. rewrite <- Hid.
      apply (find_domain_from_app _ mon_hw_hdr l1 l2 d1 0%nat).
      intros Hc. apply Hni. rewrite <- Hid. exact Hc.
    + exact Hty.
    + rewrite Hrun. cbn [fst]. f_equal. f_equal.
      replace (cpu_mask (mon_hw_hdr d1)) with (cpumask_set_cpu cpu (cpu_mask (mon_hw_hdr d)))
        by reflexivity.
      rewrite cpumask_clear_set by (apply Hnew; reflexivity).
      unfold cpumask_empty. apply N.eqb_neq in Hmask. rewrite Hmask.
      subst d1. rewrite mon_set_cpu_mask_back. now rewrite Hl.
  - destruct (domain_add_cpu_mon_new E cpu h s Hpos Hof) as (t & _ & _ & Hres).
    fold r in Hres. fold dom_id in Hres.
    destruct (mon_create_succeeds E r dom_id cpu).
    + destruct Hres as (ci & _ & Hres). rewrite Hres in Hdoms.
      destruct (list_add_tail_rcu_split (mon_domains r) (mon_domain_created E r dom_id cpu ci)
                  (find_add_pos mon_hw_hdr (mon_domains r) dom_id)
                  (find_add_pos_le mon_hw_hdr _ _)) as (l1 & l2 & Hl & Hlen & Hadd).
      replace (mon_domains (r_resctrl (hw_set_resctrl h (set_mon_domains r
                 (list_add_tail_rcu (mon_domain_created E r dom_id cpu ci)
                    (find_add_pos mon_hw_hdr (mon_domains r) dom_id) (mon_domains r))))))
        with (list_add_tail_rcu (mon_domain_created E r dom_id cpu ci)
                (find_add_pos mon_hw_hdr (mon_domains r) dom_id) (mon_domains r))
        in Hdoms by reflexivity.
      rewrite Hadd in Hdoms.
      set (d1 := mon_domain_created E r dom_id cpu ci) in *.
      assert (Hni : ~ In dom_id (domain_ids mon_hw_hdr l1)).
      { apply domain_of_id_none in Hof. rewrite Hl, domain_ids_app in Hof.
        intros Hc. apply Hof. apply in_or_app. now left. }
      pose proof (domain_remove_cpu_mon_found E cpu h' s2 l1 l2 d1) as Hrm.
      cbv zeta in Hrm. rewrite Hsc in Hrm. fold dom_id in Hrm.
      destruct (Hrm Hpos Hdoms) as (s' & Hrun & _).
      * rewrite Hdoms.
        apply (find_domain_from_app _ mon_hw_hdr l1 l2 d1 0%nat). exact Hni.
      * reflexivity.
      * rewrite Hrun. cbn [fst]. f_equal. f_equal.
        replace (cpu_mask (mon_hw_hdr d1)) with (cpumask_set_cpu cpu 0) by reflexivity.
        rewrite cpumask_clear_last. cbn [cpumask_empty N.eqb]. now rewrite Hl.
    + destruct Hres as [Hres _]. rewrite Hres in Hdoms. rewrite Hsame by exact Hdoms.
      apply domain_remove_cpu_mon_absent. right. rewrite Hsc, Hdoms. exact Hof.
Qed.

Lemma domain_add_cpu_ctrl_form :
  forall (E : kernel_env) (cpu : N) (h : rdt_hw_resource) (s : kstate),
    exists L,
      fst (domain_add_cpu_ctrl E cpu h s)
      = hw_set_resctrl h (set_ctrl_domains (r_resctrl h) L).
Proof.
  intros E cpu h s.
  destruct (domain_add_cpu_ctrl_cases E cpu h s)
    as [H | [(l1 & l2 & d & _ & _ & H) | (l1 & l2 & _ & _ & H)]].
  - exists (ctrl_domains (r_resctrl h)). now rewrite hw_set_ctrl_domains_same.
  - eexists. exact H.
  - eexists. exact H.
Qed.

Lemma domain_add_cpu_mon_form :
  forall (E : kernel_env) (cpu : N) (h : rdt_hw_resource) (s : kstate),
    exists L,
      fst (domain_add_cpu_mon E cpu h s)
      = hw_set_resctrl h (set_mon_domains (r_resctrl h) L).
Proof.
  intros E cpu h s.
  assert (Hsame : exists L, h = hw_set_resctrl h (set_mon_domains (r_resctrl h) L)).
  { exists (mon_domains (r_resctrl h)). now rewrite hw_set_mon_domains_same. }
  set (dom_id := get_domain_id_from_scope E cpu (mon_scope (r_resctrl h))).
  destruct (Z.ltb_spec dom_id 0) as [Hneg|Hpos].
  { rewrite domain_add_cpu_mon_negative by exact Hneg. exact Hsame. }
  destruct (find_domain_from mon_hw_hdr (mon_domains (r_resctrl h)) dom_id 0) as [[k d]|] eqn:Hf.
  - rewrite (domain_add_cpu_mon_found E cpu h s k d Hpos Hf).
    destruct (domain_type_eqb _ _); [eexists; reflexivity | exact Hsame].
  - assert (Hof : domain_of_id mon_hw_hdr (mon_domains (r_resctrl h)) dom_id = None).
    { rewrite <- (find_domain_from_of_id mon_hw_hdr _ dom_id 0), Hf. reflexivity. }
    destruct (domain_add_cpu_mon_new E cpu h s Hpos Hof) as (t & _ & _ & Hres).
    destruct (mon_create_succeeds _ _ _ _).
    + destruct Hres as (ci & _ & Hres). eexists. exact Hres.
    + destruct Hres as [Hres _]. rewrite Hres. exact Hsame.
Qed.

Lemma domain_add_cpu_undone :
  forall (E : kernel_env) (cpu : N) (h : rdt_hw_resource) (s s2 : kstate),
    resource_ok h ->
    not_member E cpu h ->
    fst (domain_remove_cpu E cpu (fst (domain_add_cpu E cpu h s)) s2) = h.
Proof.
  intros E cpu h s s2 [Hokc Hokm] [Hnc Hnm]. set (r := r_resctrl h).
  unfold domain_add_cpu, domain_remove_cpu. rewrite !bind_eq.
  set (m1 := if alloc_capable (r_resctrl h) then domain_add_cpu_ctrl E cpu h else ret h).
  set (h1 := fst (m1 s)). set (s1 := snd (m1 s)).
  assert (Hh1 : exists L, h1 = hw_set_resctrl h (set_ctrl_domains r L) /\
                (alloc_capable r = true -> h1 = fst (domain_add_cpu_ctrl E cpu h s)) /\
                (alloc_capable r = false -> h1 = h)).
  { subst h1 m1. fold r. destruct (alloc_capable r).
    - destruct (domain_add_cpu_ctrl_form E cpu h s) as [L HL].
      exists L. split; [exact HL|]. split; [reflexivity | discriminate].
    - exists (ctrl_domains r). cbn [ret fst]. rewrite hw_set_ctrl_domains_same.
      split; [reflexivity|]. split; [discriminate | reflexivity]. }
  destruct Hh1 as (L1 & Hh1 & Hh1a & Hh1b).
  set (m2 := if mon_capable (r_resctrl h1) then domain_add_cpu_mon E cpu h1 else ret h1).
  set (h2 := fst (m2 s1)).
  assert (Hh2 : exists L, h2 = hw_set_resctrl h1 (set_mon_domains (r_resctrl h1) L) /\
                (mon_capable r = true -> h2 = fst (domain_add_cpu_mon E cpu h1 s1)) /\
                (mon_capable r = false -> h2 = h1)).
  { subst h2 m2. replace (mon_capable (r_resctrl h1)) with (mon_capable r)
      by (rewrite Hh1; reflexivity).
    destruct (mon_capable r).
    - destruct (domain_add_cpu_mon_form E cpu h1 s1) as [L HL].
      exists L. split; [exact HL|]. split; [reflexivity | discriminate].
    - exists (mon_domains (r_resctrl h1)). cbn [ret fst].
      rewrite hw_set_mon_domains_same.
      split; [reflexivity|]. split; [discriminate | reflexivity]. }
  destruct Hh2 as (L2 & Hh2 & Hh2a & Hh2b).
  set (m3 := if alloc_capable (r_resctrl h2) then domain_remove_cpu_ctrl E cpu h2 else ret h2).
  set (h3 := fst (m3 s2)). set (s3 := snd (m3 s2)).
  assert (Hh3 : h3 = hw_set_resctrl h2 (set_ctrl_domains (r_resctrl h2) (ctrl_domains r))).
  { subst h3 m3. replace (alloc_capable (r_resctrl h2)) with (alloc_capable r)
      by (rewrite Hh2, Hh1; reflexivity).
    destruct (alloc_capable r) eqn:Hcap.
    - apply (ctrl_round_trip E cpu h h2 s s2 Hokc Hnc).
      + rewrite Hh2, Hh1. reflexivity.
      + rewrite <- (Hh1a eq_refl). rewrite Hh2. reflexivity.
    - cbn [ret fst]. rewrite Hh2, (Hh1b eq_refl).
      destruct h as [[] ? ? ? ?]. reflexivity. }
  assert (Hmon1 : mon_domains (r_resctrl h1) = mon_domains r) by (rewrite Hh1; reflexivity).
  assert (Hsc1 : mon_scope (r_resctrl h1) = mon_scope r) by (rewrite Hh1; reflexivity).
  replace (mon_capable (r_resctrl h3)) with (mon_capable r)
    by (rewrite Hh3, Hh2, Hh1; reflexivity).
  destruct (mon_capable r) eqn:Hcap.
  - rewrite (mon_round_trip E cpu h1 h3 s1 s3).
    + rewrite Hmon1, Hh3, Hh2, Hh1. destruct h as [[] ? ? ? ?]. reflexivity.
    + rewrite Hmon1. exact Hokm.
    + rewrite Hmon1, Hsc1. exact Hnm.
    + rewrite Hh3, Hh2. reflexivity.
    + rewrite <- (Hh2a eq_refl), Hh3. reflexivity.
  - cbn [ret fst]. rewrite Hh3, (Hh2b eq_refl), Hh1.
    destruct h as [[] ? ? ? ?]. reflexivity.
Qed.

(** A core that comes online and goes offline again leaves a well-formed
    resource exactly as it was, control and monitor lists alike, provided it
    was not already a member of its domains: whether its domain existed
    before or was created for it (and is torn down again), whether creation
    succeeded or failed, and whatever the identity lookup answered. *)
Theorem domain_add_remove_round_trip :
  forall (E : kernel_env) (cpu : N) (h : rdt_hw_resource) (s s2 : kstate),
    resource_ok h ->
    not_member E cpu h ->
    fst (domain_remove_cpu E cpu (fst (domain_add_cpu E cpu h s)) s2) = h.
Proof.
  intros E cpu h s s2 Hok Hnew. apply domain_add_cpu_undone; assumption.
Qed.

Lemma domain_add_remove_round_trip_witness :
  let E := sample_env (fun _ => true) in
  let s := kstate_init sample_features in
  let up := fst (domain_add_cpu E 0 sample_l3 s) in
  List.length (ctrl_domains (r_resctrl up)) = 1%nat /\
  fst (domain_remove_cpu E 0 up s) = sample_l3.
Proof.
  intros E s up. split; [reflexivity|].
  apply (domain_add_remove_round_trip E 0%N sample_l3 s s).
  - split; split; constructor.
  - split; intros d Hd; discriminate Hd.
Defined.


Lemma domain_add_cpu_capable :
  forall (E : kernel_env) (cpu : N) (h : rdt_hw_resource) (s : kstate),
    capable (fst (domain_add_cpu E cpu h s)) = capable h.
Proof.
  intros E cpu h s. unfold domain_add_cpu. rewrite bind_eq.
  set (m1 := if alloc_capable (r_resctrl h) then domain_add_cpu_ctrl E cpu h else ret h).
  assert (H1 : exists L, fst (m1 s) = hw_set_resctrl h (set_ctrl_domains (r_resctrl h) L)).
  { subst m1. destruct (alloc_capable (r_resctrl h)).
    - apply domain_add_cpu_ctrl_form.
    - exists (ctrl_domains (r_resctrl h)). now rewrite hw_set_ctrl_domains_same. }
  destruct H1 as [L1 H1]. set (h1 := fst (m1 s)) in *.
  assert (H2 : exists L,
             fst ((if mon_capable (r_resctrl h1) then domain_add_cpu_mon E cpu h1 else ret h1)
                    (snd (m1 s)))
             = hw_set_resctrl h1 (set_mon_domains (r_resctrl h1) L)).
  { destruct (mon_capable (r_resctrl h1)).
    - apply domain_add_cpu_mon_form.
    - exists (mon_domains (r_resctrl h1)). now rewrite hw_set_mon_domains_same. }
  destruct H2 as [L2 H2]. rewrite H2, H1. reflexivity.
Qed.

Lemma Forall2_undone :
  forall {A} (R1 R2 : A -> A -> Prop) (P : A -> Prop) (l l1 l2 : list A),
    (forall a a1 a2, P a -> R1 a a1 -> R2 a1 a2 -> a2 = a) ->
    Forall P l -> Forall2 R1 l l1 -> Forall2 R2 l1 l2 -> l2 = l.
Proof.
  intros A R1 R2 P l l1 l2 Hpt HP H1. revert l2 HP.
  induction H1 as [|a a1 l l1 Ha _ IH]; intros l2 HP H2.
  - inversion H2. reflexivity.
  - inversion H2 as [|? a2 ? l2' Ha2 Hl2]; subst. inversion HP; subst.
    f_equal; [eapply Hpt; eassumption | apply IH; assumption].
Qed.

(** Hotplug round trip: when a core that is in none of its domains comes
    online and then goes offline, the resource table is exactly what it was
    before, for every resource of a well-formed table; every domain created
    for the core is gone again and every domain it joined has its old member
    set. *)
Theorem hotplug_round_trip :
  forall (E : kernel_env) (cpu : N) (s : kstate),
    Forall (fun h => resource_ok h /\ not_member E cpu h) (rdt_resources_all s) ->
    rdt_resources_all
      (snd (resctrl_arch_offline_cpu E cpu (snd (resctrl_arch_online_cpu E cpu s))))
    = rdt_resources_all s.
Proof.
  intros E cpu s Hall.
  destruct (resctrl_arch_online_cpu_run E cpu s) as (t1 & _ & _ & _ & Hup & _).
  destruct (resctrl_arch_offline_cpu_run E cpu (snd (resctrl_arch_online_cpu E cpu s)))
    as (t2 & _ & _ & _ & Hdown & _).
  refine (Forall2_undone _ _ _ _ _ _ _ Hall Hup Hdown).
  intros h h1 h2 [Hok Hnew] Hadd Hrem. cbv beta in Hadd, Hrem.
  destruct (capable h) eqn:Hcap.
  - destruct Hadd as [si ->]. rewrite domain_add_cpu_capable, Hcap in Hrem.
    destruct Hrem as [si' ->]. apply domain_add_cpu_undone; assumption.
  - subst h1. rewrite Hcap in Hrem. exact Hrem.
Qed.

Lemma hotplug_round_trip_witness :
  let E := sample_env (fun _ => true) in
  let s := with_resources (kstate_init sample_features) [sample_l3] in
  let up := snd (resctrl_arch_online_cpu E 0 s) in
  map (fun h => List.length (ctrl_domains (r_resctrl h))) (rdt_resources_all up) = [1%nat] /\
  rdt_resources_all (snd (resctrl_arch_offline_cpu E 0 up)) = [sample_l3].
Proof.
  intros E s up. split; [reflexivity|].
  apply (hotplug_round_trip E 0%N s).
  constructor; [|constructor].
  split; [split; split; constructor | split; intros d Hd; discriminate Hd].
Defined.


(** ** What hotplug leaves alone *)

Lemma keeps_config_ret : forall A (a : A), keeps_config (ret a).
Proof. intros A a s. repeat split. Qed.

Lemma keeps_config_bind :
  forall A B (m : M A) (f : A -> M B),
    keeps_config m -> (forall a, keeps_config (f a)) -> keeps_config (bind m f).
Proof.
  intros A B m f Hm Hf s. rewrite bind_eq.
  destruct (Hm s) as (H1 & H2 & H3 & H4).
  destruct (Hf (fst (m s)) (snd (m s))) as (G1 & G2 & G3 & G4).
  repeat split; congruence.
Qed.

Lemma keeps_config_emit : forall e, keeps_config (emit e).
Proof. intros e s. repeat split. Qed.

Lemma keeps_config_pr_warn_once : forall site, keeps_config (pr_warn_once site).
Proof. intros site s. unfold pr_warn_once. destruct (fired site s); repeat split. Qed.

Lemma keeps_config_wrmsrq : forall E msr v, keeps_config (wrmsrq E msr v).
Proof.
  intros E msr v s. unfold wrmsrq, wrmsrq_safe, bind, ret.
  destruct (msr_gp_fault E msr); repeat split.
Qed.

Lemma keeps_config_for_loop :
  forall n i body, (forall j, keeps_config (body j)) -> keeps_config (for_loop n i body).
Proof.
  induction n as [|n IH]; intros i body Hb; simpl.
  - apply keeps_config_ret.
  - apply keeps_config_bind; [apply Hb | intros _; apply IH, Hb].
Qed.

Ltac keeps_config_auto :=
  repeat lazymatch goal with
    | |- keeps_config (ret _) => apply keeps_config_ret
    | |- keeps_config (emit _) => apply keeps_config_emit
    | |- keeps_config (pr_warn_once _) => apply keeps_config_pr_warn_once
    | |- keeps_config (wrmsrq _ _ _) => apply keeps_config_wrmsrq
    | |- keeps_config (for_loop _ _ _) => apply keeps_config_for_loop; intro
    | |- keeps_config (bind _ _) => apply keeps_config_bind; [|intro]
    | |- keeps_config (if ?b then _ else _) => destruct b
    | |- keeps_config (match ?x with _ => _ end) => destruct x
    end.

Lemma keeps_config_call_msr_update :
  forall E m, keeps_config (call_msr_update E m).
Proof.
  intros E m. unfold call_msr_update, cat_wrmsr, mba_wrmsr_amd, mba_wrmsr_intel, for_range,
    delay_bw_map.
  keeps_config_auto.
Qed.

Lemma keeps_config_domain_add_cpu :
  forall E cpu h, keeps_config (domain_add_cpu E cpu h).
Proof.
  intros E cpu h.
  assert (Hsetup : forall h0 d, keeps_config (domain_setup_ctrlval E h0 d)).
  { intros h0 d. unfold domain_setup_ctrlval, kmalloc_array.
    apply keeps_config_bind; [keeps_config_auto|]. intros [dc|]; [|apply keeps_config_ret].
    apply keeps_config_bind; [apply keeps_config_call_msr_update|].
    intros _. apply keeps_config_ret. }
  assert (Hmbm : forall n r d, keeps_config (arch_domain_mbm_alloc E n r d)).
  { intros n r d.
    unfold arch_domain_mbm_alloc, arch_domain_mbm_alloc_local, kcalloc, kfree.
    keeps_config_auto. }
  unfold domain_add_cpu. apply keeps_config_bind.
  - destruct (alloc_capable (r_resctrl h)); [|apply keeps_config_ret].
    unfold domain_add_cpu_ctrl, resctrl_find_domain, when, rdt_domain_reconfigure_cdp,
      ctrl_domain_free, kfree, WARN_ON_ONCE.
    cbv zeta. keeps_config_auto. apply Hsetup.
  - intros h1. destruct (mon_capable (r_resctrl h1)); [|apply keeps_config_ret].
    unfold domain_add_cpu_mon, resctrl_find_domain, arch_mon_domain_online,
      mon_domain_free, kfree, WARN_ON_ONCE.
    cbv zeta. keeps_config_auto. apply Hmbm.
Qed.

Lemma keeps_config_domain_remove_cpu :
  forall E cpu h, keeps_config (domain_remove_cpu E cpu h).
Proof.
  intros E cpu h. unfold domain_remove_cpu. apply keeps_config_bind.
  - destruct (alloc_capable (r_resctrl h)); [|apply keeps_config_ret].
    unfold domain_remove_cpu_ctrl, resctrl_find_domain, ctrl_domain_free, kfree, WARN_ON_ONCE.
    cbv zeta. cbn [fst]. keeps_config_auto.
  - intros h1. destruct (mon_capable (r_resctrl h1)); [|apply keeps_config_ret].
    unfold domain_remove_cpu_mon, resctrl_find_domain, mon_domain_free, kfree, WARN_ON_ONCE.
    cbv zeta. cbn [fst]. keeps_config_auto.
Qed.

Lemma keeps_config_for_each_capable :
  forall body tbl,
    (forall h, keeps_config (body h)) ->
    keeps_config (for_each_capable_rdt_resource body tbl).
Proof.
  intros body tbl Hb. induction tbl as [|h t IH]; simpl.
  - apply keeps_config_ret.
  - apply keeps_config_bind.
    + destruct (alloc_capable (r_resctrl h) || mon_capable (r_resctrl h));
        [apply Hb | apply keeps_config_ret].
    + intros h1. apply keeps_config_bind; [exact IH | intros; apply keeps_config_ret].
Qed.

Lemma hotplug_tail_frame :
  forall E cpu (tail : M Z) (s : kstate),
    tail = (emit (EvOnlineCpu cpu) ;; ret 0)%kmonad \/ tail = ret 0 ->
    let s' := snd ((clear_closid_rmid E cpu ;; tail)%kmonad s) in
    rdt_resources_all s' = rdt_resources_all s /\
    rdt_alloc_capable s' = rdt_alloc_capable s /\
    rdt_options_table s' = rdt_options_table s /\
    pqr_state s' (smp_processor_id E) = pqr_reserved /\
    (forall c, c <> smp_processor_id E -> pqr_state s' c = pqr_state s c).
Proof.
  intros E cpu tail s Ht s'. subst s'.
  unfold clear_closid_rmid, wrmsr, wrmsrq, wrmsrq_safe, bind, ret, emit.
  destruct Ht as [-> | ->]; unfold bind, ret, emit;
    destruct (msr_gp_fault E MSR_IA32_PQR_ASSOC); cbn;
    rewrite N.eqb_refl; repeat split;
    intros c Hc; apply N.eqb_neq in Hc; rewrite Hc; reflexivity.
Qed.

Lemma hotplug_walk_frame :
  forall E cpu (body : rdt_hw_resource -> M rdt_hw_resource) (tail : M Z) (s : kstate),
    (forall h, keeps_config (body h)) ->
    tail = (emit (EvOnlineCpu cpu) ;; ret 0)%kmonad \/ tail = ret 0 ->
    let s' :=
      snd ((tbl <- get_resources ;;
            tbl1 <- for_each_capable_rdt_resource body tbl ;;
            put_resources tbl1 ;;
            emit EvMutexUnlock ;;
            clear_closid_rmid E cpu ;;
            tail)%kmonad s) in
    rdt_alloc_capable s' = rdt_alloc_capable s /\
    rdt_options_table s' = rdt_options_table s /\
    (forall c, c <> smp_processor_id E -> pqr_state s' c = pqr_state s c).
Proof.
  intros E cpu body tail s Hb Ht s'. subst s'. set (s1 := s).
  do 4 rewrite bind_eq. unfold get_resources, put_resources. cbn [fst snd].
  destruct (keeps_config_for_each_capable body (rdt_resources_all s1) Hb s1)
    as (_ & Hc & Ho & Hp).
  match goal with
  | |- context [snd (bind (clear_closid_rmid E cpu) ?f ?s0)] =>
      destruct (hotplug_tail_frame E cpu tail s0 Ht) as (_ & Gc & Go & _ & Gp)
  end.
  split; [|split].
  - rewrite Gc. unfold emit. cbn [snd with_trace with_resources rdt_alloc_capable].
    rewrite Hc. reflexivity.
  - rewrite Go. unfold emit. cbn [snd with_trace with_resources rdt_options_table].
    rewrite Ho. reflexivity.
  - intros c Hne. rewrite (Gp c Hne). unfold emit.
    cbn [snd with_trace with_resources pqr_state]. rewrite Hp. reflexivity.
Qed.

(** Hotplug leaves the configuration alone: a core coming online or going
    offline changes neither the option table nor [rdt_alloc_capable], keeps
    the number of resources, and of the per-CPU association state it
    rewrites only the entry of the CPU the callback runs on. *)
Theorem hotplug_leaves_configuration :
  forall (E : kernel_env) (cpu : N) (s : kstate),
    let frame s' :=
      rdt_alloc_capable s' = rdt_alloc_capable s /\
      rdt_options_table s' = rdt_options_table s /\
      (forall c, c <> smp_processor_id E -> pqr_state s' c = pqr_state s c) /\
      List.length (rdt_resources_all s') = List.length (rdt_resources_all s) in
    frame (snd (resctrl_arch_online_cpu E cpu s)) /\
    frame (snd (resctrl_arch_offline_cpu E cpu s)).
Proof.
  intros E cpu s frame. subst frame. cbv beta. split.
  - destruct (resctrl_arch_online_cpu_run E cpu s) as (t & _ & _ & _ & Hall & _).
    apply Forall2_length in Hall.
    destruct (hotplug_walk_frame E cpu (domain_add_cpu E cpu)
                (emit (EvOnlineCpu cpu) ;; ret 0)%kmonad (snd (emit EvMutexLock s))
                (keeps_config_domain_add_cpu E cpu) (or_introl eq_refl)) as (Hc & Ho & Hp).
    repeat split; [exact Hc | exact Ho | exact Hp | now symmetry].
  - destruct (resctrl_arch_offline_cpu_run E cpu s) as (t & _ & _ & _ & Hall & _).
    apply Forall2_length in Hall.
    destruct (hotplug_walk_frame E cpu (domain_remove_cpu E cpu) (ret 0)
                (snd (emit EvMutexLock (snd (emit (EvOfflineCpu cpu) s))))
                (keeps_config_domain_remove_cpu E cpu) (or_intror eq_refl)) as (Hc & Ho & Hp).
    repeat split; [exact Hc | exact Ho | exact Hp | now symmetry].
Qed.

Lemma hotplug_leaves_configuration_witness :
  let E := sample_env (fun _ => true) in
  let s := with_resources (kstate_init sample_features) [sample_l3] in
  pqr_state (snd (resctrl_arch_online_cpu E 1 s)) 5%N = pqr_zero /\
  rdt_options_table (snd (resctrl_arch_online_cpu E 1 s)) = rdt_options_init sample_features.
Proof.
  intros E s.
  destruct (hotplug_leaves_configuration E 1%N s) as [(_ & Ho & Hp & _) _].
  split; [apply (Hp 5%N); discriminate | exact Ho].
Defined.


(** ** Quirks against the command line *)

Lemma features_eqb_index :
  forall F i j a b,
    NoDup (feature_list F) ->
    nth_error (feature_list F) i = Some a ->
    nth_error (feature_list F) j = Some b ->
    (a =? b) = Nat.eqb i j.
Proof.
  intros F i j a b Hnd Hi Hj. destruct (Nat.eqb_spec i j) as [->|Hne].
  - rewrite Hi in Hj. injection Hj as ->. apply Z.eqb_refl.
  - eapply features_distinct; eauto.
Qed.

Ltac feature_index F a :=
  lazymatch a with
  | X86_FEATURE_CQM_OCCUP_LLC F => constr:(0%nat)
  | X86_FEATURE_CQM_MBM_TOTAL F => constr:(1%nat)
  | X86_FEATURE_CQM_MBM_LOCAL F => constr:(2%nat)
  | X86_FEATURE_CAT_L3 F => constr:(3%nat)
  | X86_FEATURE_CDP_L3 F => constr:(4%nat)
  | X86_FEATURE_CAT_L2 F => constr:(5%nat)
  | X86_FEATURE_CDP_L2 F => constr:(6%nat)
  | X86_FEATURE_MBA F => constr:(7%nat)
  | X86_FEATURE_SMBA F => constr:(8%nat)
  | X86_FEATURE_BMEC F => constr:(9%nat)
  end.

Ltac feature_eqb F Hnd :=
  repeat match goal with
    | |- context [?a =? ?b] =>
        let i := feature_index F a in
        let j := feature_index F b in
        rewrite (features_eqb_index F i j a b Hnd eq_refl eq_refl); cbn [Nat.eqb]
    end.

(** The Skylake quirk against the command line.  On a Skylake server part,
    after the quirks L3 allocation counts as present only if the hardware
    reports it and the command line forced it on; up to stepping 4 the same
    holds for occupancy and both bandwidth counters, beyond it they are as
    before.  The other six features are as before, and the counter
    correction quirk is applied once. *)
Theorem skylake_quirk_override :
  forall (E : kernel_env) (F : cpufeatures) (s : kstate),
    NoDup (feature_list F) ->
    Forall2 option_grown (rdt_options_init F) (rdt_options_table s) ->
    x86_vfm E = INTEL_SKYLAKE_X ->
    let s' := snd (__check_quirks_intel E s) in
    let quirked fl :=
      rdt_cpu_has_val E fl (rdt_options_table s')
      = boot_cpu_has E fl && forced_on fl (rdt_options_table s) in
    let kept fl :=
      rdt_cpu_has_val E fl (rdt_options_table s')
      = rdt_cpu_has_val E fl (rdt_options_table s) in
    quirked (X86_FEATURE_CAT_L3 F) /\
    (if x86_stepping E <=? 4
     then quirked (X86_FEATURE_CQM_OCCUP_LLC F) /\ quirked (X86_FEATURE_CQM_MBM_TOTAL F) /\
          quirked (X86_FEATURE_CQM_MBM_LOCAL F)
     else kept (X86_FEATURE_CQM_OCCUP_LLC F) /\ kept (X86_FEATURE_CQM_MBM_TOTAL F) /\
          kept (X86_FEATURE_CQM_MBM_LOCAL F)) /\
    kept (X86_FEATURE_CDP_L3 F) /\ kept (X86_FEATURE_CAT_L2 F) /\
    kept (X86_FEATURE_CDP_L2 F) /\ kept (X86_FEATURE_MBA F) /\
    kept (X86_FEATURE_SMBA F) /\ kept (X86_FEATURE_BMEC F) /\
    trace s' = trace s ++ [EvMbmApplyQuirk].
Proof.
  intros E F s Hnd Hgrown Hvfm s' quirked kept.
  assert (Htr : trace s' = trace s ++ [EvMbmApplyQuirk]).
  { subst s'. unfold __check_quirks_intel, intel_rdt_mbm_apply_quirk. rewrite Hvfm, bind_eq.
    destruct (x86_stepping E <=? 4); reflexivity. }
  assert (Htab : rdt_options_table s' =
                 rdt_options_table
                   (snd (set_rdt_options
                           (if x86_stepping E <=? 4 then "!cmt,!mbmtotal,!mbmlocal,!l3cat"
                            else "!l3cat") s))).
  { subst s'. unfold __check_quirks_intel, intel_rdt_mbm_apply_quirk. rewrite Hvfm, bind_eq.
    destruct (x86_stepping E <=? 4); reflexivity. }
  subst quirked kept. cbv beta. rewrite Htab, set_rdt_options_table. clear Htab.
  unfold rdt_options_init in Hgrown.
  repeat match goal with
         | H : Forall2 _ (_ :: _) _ |- _ => inversion H; clear H; subst
         | H : Forall2 _ [] _ |- _ => inversion H; clear H; subst
         end.
  repeat match goal with
         | H : option_grown _ ?e |- _ =>
             destruct e as [? ? ? ?]; destruct H as (? & ? & _ & _);
             cbn [name flag RDT_OPT] in *; subst
         end.
  try match goal with H : _ = rdt_options_table s |- _ => rewrite <- H end.
  destruct (x86_stepping E <=? 4);
    cbn [tokens skip_equals fold_left set_rdt_option tok_name tok_force_off String.eqb
         Ascii.eqb Bool.eqb andb name];
    (repeat split; [..|exact Htr]);
    unfold rdt_cpu_has_val, forced_on, option_of_flag;
    cbn [rdt_cpu_has_loop find flag force_on force_off];
    feature_eqb F Hnd;
    match goal with
    | |- context [boot_cpu_has E ?fl] => destruct (boot_cpu_has E fl)
    end;
    cbn [negb andb];
    repeat match goal with
      | |- context [if ?b then _ else _] => is_var b; destruct b
      end;
    reflexivity.
Qed.

Lemma skylake_quirk_override_witness :
  let E := {| smp_processor_id := 0; boot_cpu_has := fun _ => true;
              get_cpu_cacheinfo_id := fun cpu _ => Z.of_N (cpu / 2);
              cpu_to_node := fun _ => 0;
              get_cpu_cacheinfo_level := fun cpu _ => Some (Z.of_N (cpu / 2));
              kmalloc_ok := fun _ => true; uninit := fun _ => 0;
              resctrl_arch_is_mbm_total_enabled := true;
              resctrl_arch_is_mbm_local_enabled := true;
              resctrl_online_ctrl_domain := fun _ _ => 0;
              resctrl_online_mon_domain := fun _ _ => 0;
              msr_gp_fault := fun _ => false; msr_stick := fun _ v => v;
              x86_vfm := INTEL_SKYLAKE_X; x86_stepping := 4 |} in
  let s := snd (set_rdt_options "l3cat" (kstate_init sample_features)) in
  let s' := snd (__check_quirks_intel E s) in
  rdt_cpu_has_val E (X86_FEATURE_CAT_L3 sample_features) (rdt_options_table s') = true /\
  rdt_cpu_has_val E (X86_FEATURE_CQM_OCCUP_LLC sample_features) (rdt_options_table s') = false.
Proof.
  intros E s s'.
  assert (Hnd : NoDup (feature_list sample_features)).
  { repeat (constructor; [simpl; intuition discriminate|]). constructor. }
  assert (Hg : Forall2 option_grown (rdt_options_init sample_features) (rdt_options_table s)).
  { repeat (constructor; [repeat split; intros H; try exact H; reflexivity|]). constructor. }
  destruct (skylake_quirk_override E sample_features s Hnd Hg eq_refl) as (Hl3 & Hmon & _).
  destruct Hmon as (Hocc & _).
  split; [exact Hl3 | exact Hocc].
Defined.


(** ** The life of a control domain *)

(** From the first core to the last: when a core creates its control domain
    and later leaves it as the only member, the two blocks allocated at
    creation are both live while the domain is linked and both freed at
    teardown, nothing else is allocated or freed, no block is freed before
    the domain is unlinked and the grace period is over, and the resource is
    back to what it was. *)
Theorem ctrl_domain_life_cycle :
  forall (E : kernel_env) (cpu : N) (h : rdt_hw_resource) (s s2 : kstate),
    let r := r_resctrl h in
    let dom_id := get_domain_id_from_scope E cpu (ctrl_scope r) in
    let up := domain_add_cpu_ctrl E cpu h s in
    let down := domain_remove_cpu_ctrl E cpu (fst up) s2 in
    0 <= dom_id ->
    domain_of_id ctrl_hdr (ctrl_domains r) dom_id = None ->
    ctrl_create_succeeds E r dom_id = true ->
    exists t1 t2,
      trace (snd up) = trace s ++ t1 /\
      trace (snd down) = trace s2 ++ t2 /\
      live_objects t1 [] = [ObjCtrlVal (rid r) dom_id; ObjHwCtrlDom (rid r) dom_id] /\
      live_objects (t1 ++ t2) [] = [] /\
      rcu_safe NotLinked (t1 ++ t2) = true /\
      fst down = h.
Proof.
  intros E cpu h s s2 r dom_id up down Hpos Hof Hok.
  unfold ctrl_create_succeeds in Hok.
  apply andb_prop in Hok. destruct Hok as [Hok Honline].
  apply andb_prop in Hok. destruct Hok as [Hk1 Hk2].
  destruct (domain_add_cpu_ctrl_create E cpu h s Hpos Hof Hk1 Hk2)
    as (w & s1 & Hrun & Htr & Hw & _).
  fold r in Hrun, Htr. fold dom_id in Hrun, Htr. rewrite Honline in Hrun, Htr.
  set (d := ctrl_domain_created h dom_id cpu) in *.
  destruct (list_add_tail_rcu_split (ctrl_domains r) d
              (find_add_pos ctrl_hdr (ctrl_domains r) dom_id)
              (find_add_pos_le ctrl_hdr _ _)) as (l1 & l2 & Hl & Hlen & Hadd).
  rewrite Hadd in Hrun.
  assert (Hni : ~ In dom_id (domain_ids ctrl_hdr l1)).
  { apply domain_of_id_none in Hof. rewrite Hl, domain_ids_app in Hof.
    intros Hc. apply Hof. apply in_or_app. now left. }
  subst down up. rewrite Hrun. cbn [fst snd].
  set (h1 := hw_set_resctrl h (set_ctrl_domains r (l1 ++ d :: l2))).
  pose proof (domain_remove_cpu_ctrl_found E cpu h1 s2 l1 l2 d) as Hrm.
  cbv zeta in Hrm.
  change (ctrl_scope (r_resctrl h1)) with (ctrl_scope r) in Hrm.
  change (ctrl_domains (r_resctrl h1)) with (l1 ++ d :: l2) in Hrm.
  change (rid (r_resctrl h1)) with (rid r) in Hrm.
  fold dom_id in Hrm.
  destruct (Hrm Hpos eq_refl) as (s3 & Hdown & Htr2).
  { apply (find_domain_from_app _ ctrl_hdr l1 l2 d 0%nat). exact Hni. }
  { reflexivity. }
  replace (cpumask_clear_cpu cpu (cpu_mask (ctrl_hdr d))) with 0%N in Hdown, Htr2
    by (symmetry; apply cpumask_clear_last).
  cbn [cpumask_empty N.eqb] in Hdown, Htr2.
  rewrite Hdown. cbn [fst snd].
  eexists. eexists. split; [exact Htr|]. split; [exact Htr2|].
  unfold ctrl_teardown_frees.
  change (plr (d_resctrl d)) with (@None Z).
  change (id (ctrl_hdr d)) with dom_id.
  replace (ctrl_val d) with (Some (repeat (resctrl_get_default_ctrl r) (Z.to_nat (num_closid h))))
    by reflexivity.
  cbn [app].
  split; [|split; [|split]].
  - cbn [live_objects]. rewrite live_objects_writes by exact Hw. reflexivity.
  - cbn [live_objects app]. rewrite <- app_assoc, live_objects_writes by exact Hw.
    cbn [live_objects app remove_obj]. rewrite kobj_eqb_refl.
    cbn [remove_obj]. rewrite kobj_eqb_refl. reflexivity.
  - cbn [rcu_safe app]. rewrite <- app_assoc, rcu_safe_writes by exact Hw. reflexivity.
  - rewrite <- Hl. subst h1 r.
    assert (Hback : forall h0 L,
               hw_set_resctrl (hw_set_resctrl h0 (set_ctrl_domains (r_resctrl h0) L))
                 (set_ctrl_domains
                    (r_resctrl (hw_set_resctrl h0 (set_ctrl_domains (r_resctrl h0) L)))
                    (ctrl_domains (r_resctrl h0))) = h0)
      by (intros [[] ? ? ? ?] L; reflexivity).
    apply Hback.
Qed.

Lemma ctrl_domain_life_cycle_witness :
  let E := sample_env (fun _ => true) in
  let s := kstate_init sample_features in
  let up := domain_add_cpu_ctrl E 0 sample_l3 s in
  live_objects (trace (snd up)) [] = [ObjCtrlVal 0 0; ObjHwCtrlDom 0 0] /\
  fst (domain_remove_cpu_ctrl E 0 (fst up) s) = sample_l3.
Proof.
  intros E s up. split; [reflexivity|].
  destruct (ctrl_domain_life_cycle E 0%N sample_l3 s s)
    as (t1 & t2 & _ & _ & _ & _ & _ & Hback).
  - vm_compute. discriminate.
  - reflexivity.
  - reflexivity.
  - exact Hback.
Defined.


(** ** A core without a domain identity *)

(** When the identity of a core's domain cannot be determined (a negative
    answer of the cache or node lookup, or a scope that is none of the three
    known ones, which gives -EINVAL), the core is ignored: each of the four
    domain functions returns the resource as it is and does nothing but warn,
    once per call site however often it is reached. *)
Theorem negative_domain_id_ignored :
  forall (E : kernel_env) (cpu : N) (h : rdt_hw_resource) (s : kstate),
    let r := r_resctrl h in
    (get_domain_id_from_scope E cpu (ctrl_scope r) < 0 ->
       domain_add_cpu_ctrl E cpu h s = (h, warn_once_state ONCE_ctrl_id_add s) /\
       domain_remove_cpu_ctrl E cpu h s = (h, warn_once_state ONCE_ctrl_id_remove s)) /\
    (get_domain_id_from_scope E cpu (mon_scope r) < 0 ->
       domain_add_cpu_mon E cpu h s = (h, warn_once_state ONCE_mon_id_add s) /\
       domain_remove_cpu_mon E cpu h s = (h, warn_once_state ONCE_mon_id_remove s)) /\
    get_domain_id_from_scope E cpu RESCTRL_SCOPE_ZERO = - EINVAL /\
    (forall site,
        trace (warn_once_state site s)
        = trace s ++ (if fired site s then [] else [EvWarnOnce site]) /\
        warn_once_state site (warn_once_state site s) = warn_once_state site s).
Proof.
  intros E cpu h s r. split; [|split; [|split]].
  - intros Hneg. apply Z.ltb_lt in Hneg.
    unfold domain_add_cpu_ctrl, domain_remove_cpu_ctrl. fold r. cbv zeta.
    rewrite Hneg, !bind_pr_warn_once. split; reflexivity.
  - intros Hneg. apply Z.ltb_lt in Hneg.
    unfold domain_add_cpu_mon, domain_remove_cpu_mon. fold r. cbv zeta.
    rewrite Hneg, !bind_pr_warn_once. split; reflexivity.
  - reflexivity.
  - intros site. split; [apply warn_once_state_trace|].
    unfold warn_once_state, pr_warn_once.
    destruct (fired site s) eqn:Hf; cbn [snd].
    + rewrite Hf. reflexivity.
    + unfold fired. cbn [once_fired with_once existsb].
      replace (once_site_eqb site site) with true by (destruct site; reflexivity).
      reflexivity.
Qed.

Lemma negative_domain_id_ignored_witness :
  let E := sample_env (fun _ => true) in
  let h := hw_resource_init
             (resource_init "MB" RESCTRL_SCOPE_ZERO RESCTRL_SCOPE_ZERO RESCTRL_SCHEMA_RANGE)
             0 msr_update_NULL in
  let s := kstate_init sample_features in
  fst (domain_add_cpu_ctrl E 0 h s) = h /\
  trace (snd (domain_add_cpu_ctrl E 0 h s)) = [EvWarnOnce ONCE_ctrl_id_add] /\
  trace (snd (domain_add_cpu_ctrl E 1 h (snd (domain_add_cpu_ctrl E 0 h s))))
  = [EvWarnOnce ONCE_ctrl_id_add].
Proof.
  intros E h s.
  destruct (negative_domain_id_ignored E 0%N h s) as ([Hadd _] & _); [reflexivity|].
  rewrite Hadd. repeat split.
Defined.

(** ** Monitoring features *)

Ltac bit_set :=
  cbv iota;
  lazymatch goal with
  | Hset : forall a n : Z, 0 <= n -> Z.testbit (Z.lor a (Z.shiftl 1 n)) n = true,
    Hkeep : forall a c n : Z, Z.testbit a n = true -> Z.testbit (Z.lor a c) n = true,
    Hid : forall e, 0 <= qos_event_id _ e |- _ =>
      first [ apply Hset, Hid
            | apply Hkeep; first [ apply Hset, Hid | apply Hkeep; apply Hset, Hid ] ]
  end.

(** What [get_rdt_mon_resources] makes of the feature mask: bits are only
    added, the bit of each of the three events is set when [rdt_cpu_has]
    reports its feature, and the answer is true only with a non-zero mask.
    When the mask ends up zero the L3 monitoring setup is not called and the
    state is untouched; in any case only the L3 entry of the table can
    change, and the option table and [rdt_alloc_capable] do not. *)
Theorem get_rdt_mon_resources_mask :
  forall (E : kernel_env) (F : cpufeatures) (P : probe_env) (feat : Z) (s : kstate),
    (forall e, 0 <= qos_event_id P e) ->
    let ok := fst (fst (get_rdt_mon_resources E F P feat s)) in
    let feat' := snd (fst (get_rdt_mon_resources E F P feat s)) in
    let s' := snd (get_rdt_mon_resources E F P feat s) in
    let has fl := rdt_cpu_has_val E fl (rdt_options_table s) in
    Z.land feat' feat = feat /\
    (has (X86_FEATURE_CQM_OCCUP_LLC F) = true ->
       Z.testbit feat' (qos_event_id P QOS_L3_OCCUP_EVENT_ID) = true) /\
    (has (X86_FEATURE_CQM_MBM_TOTAL F) = true ->
       Z.testbit feat' (qos_event_id P QOS_L3_MBM_TOTAL_EVENT_ID) = true) /\
    (has (X86_FEATURE_CQM_MBM_LOCAL F) = true ->
       Z.testbit feat' (qos_event_id P QOS_L3_MBM_LOCAL_EVENT_ID) = true) /\
    (ok = true -> feat' <> 0) /\
    (feat' = 0 -> ok = false /\ s' = s) /\
    (forall i, i <> 0%nat ->
       nth_error (rdt_resources_all s') i = nth_error (rdt_resources_all s) i) /\
    rdt_options_table s' = rdt_options_table s /\
    rdt_alloc_capable s' = rdt_alloc_capable s.
Proof.
  intros E F P feat s Hid ok feat' s' has. subst ok feat' s' has. cbv beta.
  unfold get_rdt_mon_resources.
  rewrite !bind_rdt_cpu_has.
  generalize (rdt_cpu_has_val E (X86_FEATURE_CQM_OCCUP_LLC F) (rdt_options_table s)) as b1.
  generalize (rdt_cpu_has_val E (X86_FEATURE_CQM_MBM_TOTAL F) (rdt_options_table s)) as b2.
  generalize (rdt_cpu_has_val E (X86_FEATURE_CQM_MBM_LOCAL F) (rdt_options_table s)) as b3.
  intros b3 b2 b1.
  set (f1 := if b1 then Z.lor feat (Z.shiftl 1 (qos_event_id P QOS_L3_OCCUP_EVENT_ID)) else feat).
  set (f2 := if b2 then Z.lor f1 (Z.shiftl 1 (qos_event_id P QOS_L3_MBM_TOTAL_EVENT_ID)) else f1).
  set (f3 := if b3 then Z.lor f2 (Z.shiftl 1 (qos_event_id P QOS_L3_MBM_LOCAL_EVENT_ID)) else f2).
  assert (Hbit : forall n, 0 <= n -> Z.testbit (Z.shiftl 1 n) n = true).
  { intros n Hn. rewrite Z.shiftl_spec by exact Hn. now rewrite Z.sub_diag. }
  assert (Hsub : forall a b, Z.land (Z.lor a b) a = a).
  { intros a b. apply Z.bits_inj'. intros n Hn.
    rewrite Z.land_spec, Z.lor_spec. destruct (Z.testbit a n), (Z.testbit b n); reflexivity. }
  assert (Hmono : forall a b c, Z.land b a = a -> Z.land (Z.lor b c) a = a).
  { intros a b c Hab. apply Z.bits_inj'. intros n Hn.
    rewrite Z.land_spec, Z.lor_spec.
    assert (Hn' := f_equal (fun z => Z.testbit z n) Hab). cbv beta in Hn'.
    rewrite Z.land_spec in Hn'.
    destruct (Z.testbit a n), (Z.testbit b n), (Z.testbit c n); try reflexivity;
      discriminate. }
  assert (H1 : Z.land f1 feat = feat).
  { subst f1. destruct b1; [apply Hsub | apply Z.land_diag]. }
  assert (H2 : Z.land f2 feat = feat).
  { subst f2. destruct b2; [apply Hmono|]; exact H1. }
  assert (H3 : Z.land f3 feat = feat).
  { subst f3. destruct b3; [apply Hmono|]; exact H2. }
  assert (Hkeep : forall a c n, Z.testbit a n = true -> Z.testbit (Z.lor a c) n = true).
  { intros a c n Ha. now rewrite Z.lor_spec, Ha. }
  assert (Hset : forall a n, 0 <= n -> Z.testbit (Z.lor a (Z.shiftl 1 n)) n = true).
  { intros a n Hn. rewrite Z.lor_spec, Hbit by exact Hn. apply Bool.orb_true_r. }
  destruct (Z.eqb_spec f3 0) as [H0|H0].
  - cbn [ret fst snd]. split; [exact H3|].
    split; [intros Hb; subst f3 f2 f1; rewrite Hb; destruct b3, b2; bit_set|].
    split; [intros Hb; subst f3 f2; rewrite Hb; destruct b3; bit_set|].
    split; [intros Hb; subst f3; rewrite Hb; bit_set|].
    split; [intros Hc; discriminate Hc|].
    repeat split.
  - rewrite bind_eq. cbn [ret fst snd].
    split; [exact H3|].
    split; [intros Hb; subst f3 f2 f1; rewrite Hb; destruct b3, b2; bit_set|].
    split; [intros Hb; subst f3 f2; rewrite Hb; destruct b3; bit_set|].
    split; [intros Hb; subst f3; rewrite Hb; bit_set|].
    split; [intros _; exact H0|].
    split; [intros Hc; contradiction|].
    destruct (nth_error (rdt_resources_all s) (N.to_nat RDT_RESOURCE_L3)) as [h0|] eqn:Hn;
      cbn [snd rdt_resources_all with_resources rdt_options_table rdt_alloc_capable];
      [|repeat split].
    split; [|split; reflexivity].
    intros i Hi. change (N.to_nat RDT_RESOURCE_L3) with 0%nat.
    destruct (rdt_resources_all s) as [|x l]; [reflexivity|].
    destruct i as [|i]; [contradiction|reflexivity].
Qed.

Lemma get_rdt_mon_resources_mask_witness :
  let r := get_rdt_mon_resources (sample_env (fun _ => true)) sample_features sample_probe 16
             (kstate_init sample_features) in
  fst r = (true, 30) /\ Z.land (snd (fst r)) 16 = 16.
Proof.
  intros r.
  destruct (get_rdt_mon_resources_mask (sample_env (fun _ => true)) sample_features
              sample_probe 16 (kstate_init sample_features)) as (Hl & _).
  - intros []; simpl; lia.
  - split; [reflexivity | exact Hl].
Defined.


(** ** The life of a monitor domain *)

Lemma domain_add_cpu_mon_create_trace :
  forall (E : kernel_env) (cpu : N) (h : rdt_hw_resource) (s : kstate),
    let r := r_resctrl h in
    let dom_id := get_domain_id_from_scope E cpu (mon_scope r) in
    0 <= dom_id ->
    domain_of_id mon_hw_hdr (mon_domains r) dom_id = None ->
    mon_create_succeeds E r dom_id cpu = true ->
    trace (snd (domain_add_cpu_mon E cpu h s)) =
      trace s ++ [EvKmalloc (ObjHwMonDom (rid r) dom_id); EvArchMonDomainOnline (rid r) dom_id]
              ++ (if resctrl_arch_is_mbm_total_enabled E
                  then [EvKmalloc (ObjMbmTotal (rid r) dom_id)] else [])
              ++ (if resctrl_arch_is_mbm_local_enabled E
                  then [EvKmalloc (ObjMbmLocal (rid r) dom_id)] else [])
              ++ [EvListAddTailRcu (rid r) RESCTRL_MON_DOMAIN dom_id;
                  EvOnlineMonDomain (rid r) dom_id].
Proof.
  intros E cpu h s r dom_id Hid Hnone Hok.
  assert (Hfind : find_domain_from mon_hw_hdr (mon_domains r) dom_id 0 = None).
  { apply find_domain_from_none. now apply domain_of_id_none. }
  unfold mon_create_succeeds in Hok.
  apply andb_prop in Hok. destruct Hok as [Hok Hhook].
  apply andb_prop in Hok. destruct Hok as [Hok Hkl].
  apply andb_prop in Hok. destruct Hok as [Hok Hkt].
  apply andb_prop in Hok. destruct Hok as [Hk Hci].
  destruct (domain_add_cpu_mon E cpu h s) as [h' s'] eqn:Hrun. cbn [fst snd].
  unfold domain_add_cpu_mon in Hrun. fold r in Hrun. fold dom_id in Hrun. cbv zeta in Hrun.
  apply Z.ltb_ge in Hid. rewrite Hid in Hrun. unfold resctrl_find_domain in Hrun.
  rewrite Hfind, Hk in Hrun. cbn [negb] in Hrun.
  rewrite bind_emit in Hrun.
  unfold arch_mon_domain_online, arch_domain_mbm_alloc, arch_domain_mbm_alloc_local,
    kcalloc, mon_domain_free, kfree in Hrun.
  cbn [mon_domain_hdr_new mon_set_ci_id mon_set_cpu_mask mon_hw_hdr mon_hdr mon_d_resctrl
       mon_domain_zero id arch_mbm_total arch_mbm_local cpu_mask set_cpu_mask ci_id type]
    in Hrun.
  destruct (get_cpu_cacheinfo_level E cpu RESCTRL_L3_CACHE) as [ci|]; [|discriminate Hci].
  destruct (resctrl_arch_is_mbm_total_enabled E);
    destruct (resctrl_arch_is_mbm_local_enabled E);
    cbn [negb orb] in Hkt, Hkl; rewrite ?Hkt, ?Hkl in Hrun;
    mon_norm Hrun; rewrite ?Hkl in Hrun; mon_norm Hrun;
    rewrite Hhook in Hrun; mon_norm Hrun;
    injection Hrun as <- <-;
    cbn [trace with_trace app]; rewrite <- ?app_assoc; reflexivity.
Qed.

(** The same for a monitor domain: from the first core to the last, the
    header block and one counter array per enabled counter kind are
    allocated at creation and all freed at teardown, after the domain is
    unlinked and the grace period is over; the resource is back to what it
    was. *)
Theorem mon_domain_life_cycle :
  forall (E : kernel_env) (cpu : N) (h : rdt_hw_resource) (s s2 : kstate),
    let r := r_resctrl h in
    let dom_id := get_domain_id_from_scope E cpu (mon_scope r) in
    let up := domain_add_cpu_mon E cpu h s in
    let down := domain_remove_cpu_mon E cpu (fst up) s2 in
    0 <= dom_id ->
    domain_of_id mon_hw_hdr (mon_domains r) dom_id = None ->
    mon_create_succeeds E r dom_id cpu = true ->
    exists t1 t2,
      trace (snd up) = trace s ++ t1 /\
      trace (snd down) = trace s2 ++ t2 /\
      live_objects t1 [] =
        (if resctrl_arch_is_mbm_local_enabled E then [ObjMbmLocal (rid r) dom_id] else [])
        ++ (if resctrl_arch_is_mbm_total_enabled E then [ObjMbmTotal (rid r) dom_id] else [])
        ++ [ObjHwMonDom (rid r) dom_id] /\
      live_objects (t1 ++ t2) [] = [] /\
      rcu_safe NotLinked (t1 ++ t2) = true /\
      fst down = h.
Proof.
  intros E cpu h s s2 r dom_id up down Hpos Hof Hok.
  pose proof (domain_add_cpu_mon_create_trace E cpu h s Hpos Hof Hok) as Htr.
  fold r in Htr. fold dom_id in Htr.
  destruct (domain_add_cpu_mon_new E cpu h s Hpos Hof) as (t & _ & _ & Hres).
  fold r in Hres. fold dom_id in Hres. rewrite Hok in Hres.
  destruct Hres as (ci & _ & Hfst).
  set (d := mon_domain_created E r dom_id cpu ci) in *.
  destruct (list_add_tail_rcu_split (mon_domains r) d
              (find_add_pos mon_hw_hdr (mon_domains r) dom_id)
              (find_add_pos_le mon_hw_hdr _ _)) as (l1 & l2 & Hl & Hlen & Hadd).
  rewrite Hadd in Hfst.
  assert (Hni : ~ In dom_id (domain_ids mon_hw_hdr l1)).
  { apply domain_of_id_none in Hof. rewrite Hl, domain_ids_app in Hof.
    intros Hc. apply Hof. apply in_or_app. now left. }
  subst down. fold up in Hfst, Htr. rewrite Hfst.
  set (h1 := hw_set_resctrl h (set_mon_domains r (l1 ++ d :: l2))).
  pose proof (domain_remove_cpu_mon_found E cpu h1 s2 l1 l2 d) as Hrm.
  cbv zeta in Hrm.
  change (mon_scope (r_resctrl h1)) with (mon_scope r) in Hrm.
  change (mon_domains (r_resctrl h1)) with (l1 ++ d :: l2) in Hrm.
  change (rid (r_resctrl h1)) with (rid r) in Hrm.
  fold dom_id in Hrm.
  destruct (Hrm Hpos eq_refl) as (s3 & Hdown & Htr2).
  { apply (find_domain_from_app _ mon_hw_hdr l1 l2 d 0%nat). exact Hni. }
  { reflexivity. }
  replace (cpumask_clear_cpu cpu (cpu_mask (mon_hw_hdr d))) with 0%N in Hdown, Htr2
    by (symmetry; apply cpumask_clear_last).
  cbn [cpumask_empty N.eqb] in Hdown, Htr2.
  rewrite Hdown. cbn [fst snd].
  eexists. eexists. split; [exact Htr|]. split; [exact Htr2|].
  unfold mon_teardown_frees.
  change (id (mon_hw_hdr d)) with dom_id.
  subst d. cbn [arch_mbm_total arch_mbm_local mon_domain_created].
  split; [|split; [|split]].
  - destruct (resctrl_arch_is_mbm_total_enabled E), (resctrl_arch_is_mbm_local_enabled E);
      reflexivity.
  - destruct (resctrl_arch_is_mbm_total_enabled E), (resctrl_arch_is_mbm_local_enabled E);
      repeat (progress (cbn [app live_objects remove_obj kobj_eqb andb];
                        rewrite ?N.eqb_refl, ?Z.eqb_refl));
      reflexivity.
  - destruct (resctrl_arch_is_mbm_total_enabled E), (resctrl_arch_is_mbm_local_enabled E);
      reflexivity.
  - rewrite <- Hl. subst h1 r.
    assert (Hback : forall h0 L,
               hw_set_resctrl (hw_set_resctrl h0 (set_mon_domains (r_resctrl h0) L))
                 (set_mon_domains
                    (r_resctrl (hw_set_resctrl h0 (set_mon_domains (r_resctrl h0) L)))
                    (mon_domains (r_resctrl h0))) = h0)
      by (intros [[] ? ? ? ?] L; reflexivity).
    apply Hback.
Qed.

Lemma mon_domain_life_cycle_witness :
  let E := sample_env (fun _ => true) in
  let s := kstate_init sample_features in
  let up := domain_add_cpu_mon E 0 sample_l3 s in
  live_objects (trace (snd up)) [] = [ObjMbmLocal 0 0; ObjMbmTotal 0 0; ObjHwMonDom 0 0] /\
  fst (domain_remove_cpu_mon E 0 (fst up) s) = sample_l3.
Proof.
  intros E s up. split; [reflexivity|].
  destruct (mon_domain_life_cycle E 0%N sample_l3 s s)
    as (t1 & t2 & _ & _ & _ & _ & _ & Hback).
  - vm_compute. discriminate.
  - reflexivity.
  - reflexivity.
  - exact Hback.
Defined.


(** ** A feature that is switched off stays off *)

Lemma nth_error_table_set :
  forall tbl j f i,
    nth_error (table_set tbl j f) i
    = if Nat.eqb i j then option_map f (nth_error tbl i) else nth_error tbl i.
Proof.
  induction tbl as [|h t IH]; intros j f i.
  - destruct i, j; simpl; try reflexivity; now destruct (Nat.eqb i j).
  - destruct j as [|j], i as [|i]; simpl; try reflexivity. apply IH.
Qed.

Lemma set_rdt_option_off_mono :
  forall fl n o,
    rdt_cpu_has_loop fl true o = false ->
    rdt_cpu_has_loop fl true (set_rdt_option n true o) = false.
Proof.
  intros fl n o. induction o as [|e o IH]; intros H; simpl in *; [exact H|].
  destruct (String.eqb n (name e)); simpl.
  - destruct (fl =? flag e); [|exact H].
    destruct (force_on e); [exact H | reflexivity].
  - destruct (fl =? flag e); [exact H | apply IH, H].
Qed.

Lemma set_rdt_option_force_off_kept :
  forall n off o k,
    option_map force_off (nth_error o k) = Some true ->
    option_map force_off (nth_error (set_rdt_option n off o) k) = Some true.
Proof.
  intros n off o. induction o as [|e o IH]; intros k H; simpl in *; [exact H|].
  destruct (String.eqb n (name e)).
  - destruct k as [|k]; [|exact H]. simpl in *. destruct off; [reflexivity | exact H].
  - destruct k as [|k]; [exact H | apply IH, H].
Qed.

Section AllocDenied.

Variable E : kernel_env.
Variable fl : Z.
Variable i : nat.

Lemma keeps_inv_bind :
  forall {A B} (J : kstate -> Prop) (m : M A) (f : A -> M B),
    keeps_inv J m -> (forall a, keeps_inv J (f a)) -> keeps_inv J (bind m f).
Proof. intros A B J m f Hm Hf s HJ. rewrite bind_eq. apply Hf, Hm, HJ. Qed.

Lemma alloc_denied_same :
  forall s s',
    rdt_options_table s' = rdt_options_table s ->
    (forall h, nth_error (rdt_resources_all s) i = Some h ->
               exists h', nth_error (rdt_resources_all s') i = Some h' /\
                          alloc_capable (r_resctrl h') = alloc_capable (r_resctrl h)) ->
    alloc_denied E fl i s -> alloc_denied E fl i s'.
Proof.
  intros s s' Ho Ht (Hv & Hc & Hi). unfold alloc_denied. rewrite Ho.
  split; [exact Hv|]. split; [|exact Hi].
  destruct (nth_error (rdt_resources_all s) i) as [h|] eqn:Hn; [|discriminate Hc].
  destruct (Ht h eq_refl) as (h' & Hn' & Ha). rewrite Hn'. cbn [option_map] in *.
  now rewrite Ha.
Qed.

Lemma alloc_denied_table_set :
  forall s s' j f,
    rdt_options_table s' = rdt_options_table s ->
    rdt_resources_all s' = table_set (rdt_resources_all s) j f ->
    (j = i -> forall h, alloc_capable (r_resctrl (f h)) = alloc_capable (r_resctrl h)) ->
    alloc_denied E fl i s -> alloc_denied E fl i s'.
Proof.
  intros s s' j f Ho Ht Hf. apply alloc_denied_same; [exact Ho|].
  intros h Hn. rewrite Ht, nth_error_table_set, Hn.
  destruct (Nat.eqb_spec i j) as [Heq|Hne]; cbn [option_map].
  - exists (f h). split; [reflexivity | apply Hf; now symmetry].
  - exists h. split; reflexivity.
Qed.

Lemma keeps_alloc_denied_check_quirks :
  forall P, keeps_inv (alloc_denied E fl i) (check_quirks E P).
Proof.
  intros P s HJ. unfold check_quirks.
  destruct (x86_vendor P); try exact HJ.
  unfold __check_quirks_intel, intel_rdt_mbm_apply_quirk.
  destruct (x86_vfm E) eqn:Hvfm.
  - unfold bind, option_force_off.
    destruct (nth_error (rdt_options_table s) RDT_FLAG_L3_CAT) as [e|] eqn:Hn.
    + destruct (force_off e) eqn:Hoff; cbn [negb]; [exact HJ|].
      assert (Hi : i <> 0%nat).
      { intros ->. destruct HJ as (_ & _ & H0). specialize (H0 eq_refl).
        rewrite Hn in H0. cbn [option_map] in H0. congruence. }
      rewrite cache_alloc_hsw_probe_run.
      destruct (msr_gp_fault E MSR_IA32_L3_CBM_BASE);
        [revert HJ; apply alloc_denied_same; [reflexivity | intros h Hh; now exists h]|].
      destruct (msr_stick E MSR_IA32_L3_CBM_BASE 0xFFFFF =? 0xFFFFF);
        [|revert HJ; apply alloc_denied_same; [reflexivity | intros h Hh; now exists h]].
      revert HJ. apply (alloc_denied_table_set _ _ 0%nat hsw_hw_resource);
        [reflexivity | reflexivity | intros Hc; now elim Hi].
    + cbn [negb].
      assert (Hi : i <> 0%nat).
      { intros ->. destruct HJ as (_ & _ & H0). specialize (H0 eq_refl).
        rewrite Hn in H0. discriminate H0. }
      rewrite cache_alloc_hsw_probe_run.
      destruct (msr_gp_fault E MSR_IA32_L3_CBM_BASE);
        [revert HJ; apply alloc_denied_same; [reflexivity | intros h Hh; now exists h]|].
      destruct (msr_stick E MSR_IA32_L3_CBM_BASE 0xFFFFF =? 0xFFFFF);
        [|revert HJ; apply alloc_denied_same; [reflexivity | intros h Hh; now exists h]].
      revert HJ. apply (alloc_denied_table_set _ _ 0%nat hsw_hw_resource);
        [reflexivity | reflexivity | intros Hc; now elim Hi].
  - rewrite bind_eq. destruct HJ as (Hv & Hc & Hi).
    unfold alloc_denied, emit. cbn [snd rdt_options_table rdt_resources_all with_trace].
    assert (Ht : forall str,
               rdt_resources_all (snd (set_rdt_options str s)) = rdt_resources_all s)
      by reflexivity.
    unfold rdt_cpu_has_val in *.
    destruct (x86_stepping E <=? 4); rewrite Ht, set_rdt_options_table;
      cbn [tokens skip_equals fold_left tok_name tok_force_off String.eqb Ascii.eqb Bool.eqb
           andb];
      (split; [destruct (negb (boot_cpu_has E fl)); [reflexivity|];
               repeat apply set_rdt_option_off_mono; exact Hv|]);
      (split; [exact Hc|]); intros H0; repeat apply set_rdt_option_force_off_kept;
      exact (Hi H0).
  - revert HJ. apply alloc_denied_same; [reflexivity | intros h Hh; now exists h].
  - exact HJ.
Qed.

End AllocDenied.

Section AllocDeniedDiscovery.

Variable E : kernel_env.
Variable fl : Z.
Variable i : nat.

Let J := alloc_denied E fl i.

Lemma keeps_inv_ret : forall {A} (a : A), keeps_inv J (ret a).
Proof. intros A a s HJ. exact HJ. Qed.

Lemma keeps_inv_cpu_has :
  forall {B} fl' (f : bool -> M B),
    (forall b, (fl' = fl -> b = false) -> keeps_inv J (f b)) ->
    keeps_inv J (bind (rdt_cpu_has E fl') f).
Proof.
  intros B fl' f Hf s HJ. rewrite bind_rdt_cpu_has.
  apply Hf; [|exact HJ]. intros ->. exact (proj1 HJ).
Qed.

Lemma keeps_inv_modify :
  forall j f,
    (N.to_nat j = i -> forall h, alloc_capable (r_resctrl (f h)) = alloc_capable (r_resctrl h)) ->
    keeps_inv J (modify_resource j f).
Proof.
  intros j f Hf s HJ. revert HJ.
  apply (alloc_denied_table_set E fl i _ _ (N.to_nat j) f); [reflexivity | reflexivity | exact Hf].
Qed.

Lemma keeps_inv_probe :
  forall j f,
    (forall h s, rdt_options_table (snd (f h s)) = rdt_options_table s /\
                 rdt_resources_all (snd (f h s)) = rdt_resources_all s) ->
    (N.to_nat j = i ->
     forall h s, alloc_capable (r_resctrl (snd (fst (f h s)))) = alloc_capable (r_resctrl h)) ->
    keeps_inv J (probe_resource j f).
Proof.
  intros j f Hs Hf s HJ.
  destruct (nth_error (rdt_resources_all s) (N.to_nat j)) as [h|] eqn:Hn.
  - rewrite (probe_resource_run j f s h Hn). destruct (Hs h s) as [Ho Ht].
    revert HJ.
    apply (alloc_denied_table_set E fl i _ _ (N.to_nat j) (fun h0 => snd (fst (f h0 s)))).
    + cbn [snd rdt_options_table with_resources]. exact Ho.
    + cbn [snd rdt_resources_all with_resources]. rewrite Ht.
      apply (table_set_at (rdt_resources_all s) (N.to_nat j) h
               (fun h0 => snd (fst (f h0 s))) Hn).
    + intros Hj h0. apply Hf, Hj.
  - unfold probe_resource. rewrite Hn. exact HJ.
Qed.

Lemma keeps_inv_mon :
  forall F P feat,
    (forall r, alloc_capable (snd (rdt_get_mon_l3_config P r)) = alloc_capable r) ->
    keeps_inv J (get_rdt_mon_resources E F P feat).
Proof.
  intros F P feat Hcfg. unfold get_rdt_mon_resources.
  apply keeps_inv_cpu_has. intros b1 _. cbv zeta.
  apply keeps_inv_cpu_has. intros b2 _.
  apply keeps_inv_cpu_has. intros b3 _.
  match goal with |- context [if ?c =? 0 then _ else _] => destruct (c =? 0) end;
    [apply keeps_inv_ret|].
  apply keeps_inv_bind; [|intros err; apply keeps_inv_ret].
  intros s HJ.
  destruct (nth_error (rdt_resources_all s) (N.to_nat RDT_RESOURCE_L3)); [|exact HJ].
  revert HJ.
  apply (alloc_denied_table_set E fl i _ _ (N.to_nat RDT_RESOURCE_L3)
           (fun h0 => hw_set_resctrl h0 (snd (rdt_get_mon_l3_config P (r_resctrl h0)))));
    [reflexivity | reflexivity |].
  intros _ h. apply Hcfg.
Qed.

End AllocDeniedDiscovery.

Ltac keeps_denied :=
  repeat (cbn [negb];
          lazymatch goal with
          | |- keeps_inv _ (bind (rdt_cpu_has _ _) _) =>
              apply keeps_inv_cpu_has;
              let b := fresh "b" in
              let Hb := fresh "Hb" in
              intros b Hb; first [rewrite (Hb eq_refl) | destruct b]
          | |- keeps_inv _ (bind _ _) => apply keeps_inv_bind; [|intro]
          | |- keeps_inv _ (ret _) => apply keeps_inv_ret
          | |- keeps_inv _ (when _ _) => unfold when
          | |- keeps_inv _ (modify_resource _ _) =>
              apply keeps_inv_modify;
              first [ intros Hc; vm_compute in Hc; discriminate Hc
                    | intros _ h; reflexivity ]
          | |- keeps_inv _ (probe_resource _ _) =>
              apply keeps_inv_probe;
              [ intros ? ?; rewrite ?get_mem_config_intel_state;
                try destruct (Z.land _ _ =? 0); split; reflexivity
              | intros Hc; vm_compute in Hc; discriminate Hc ]
          | |- keeps_inv _ (match x86_vendor ?P with _ => _ end) => destruct (x86_vendor P)
          end).

Lemma keeps_alloc_denied_alloc_resources :
  forall E F P i fl,
    In (i, fl) (alloc_features F) ->
    keeps_inv (alloc_denied E fl i) (get_rdt_alloc_resources E F P).
Proof.
  intros E F P i fl Hin s HJ. unfold get_rdt_alloc_resources.
  destruct (rdt_alloc_capable s); [exact HJ|].
  destruct (negb (boot_cpu_has E (X86_FEATURE_RDT_A P))); [exact HJ|].
  revert s HJ. refine (_ : keeps_inv (alloc_denied E fl i) _).
  unfold get_mem_config, get_slow_mem_config, rdt_get_cdp_l3_config, rdt_get_cdp_l2_config,
    rdt_get_cdp_config.
  destruct Hin as [Heq | [Heq | [Heq | [Heq | []]]]]; injection Heq as <- <-; keeps_denied.
Qed.

(** A feature that is switched off stays off through boot.  Take one of
    the four allocation features (L3, L2, MBA, SMBA) that [rdt_cpu_has]
    denies when boot starts, because the hardware lacks it or the command
    line forced it off; for L3, which the Haswell probe enables without
    asking CPUID, let the option entry be forced off as well.  Then, from
    the statically initialised table, the probing part of late init leaves
    that resource not allocation capable, on every vendor and CPU model, as
    long as the L3 monitoring setup does not touch the flag. *)
Theorem denied_feature_stays_off :
  forall (E : kernel_env) (F : cpufeatures) (P : probe_env) (feat : Z) (s : kstate)
         (i : nat) (fl : Z),
    In (i, fl) (alloc_features F) ->
    rdt_resources_all s = rdt_resources_all_init ->
    rdt_cpu_has_val E fl (rdt_options_table s) = false ->
    (i = 0%nat ->
     option_map force_off (nth_error (rdt_options_table s) RDT_FLAG_L3_CAT) = Some true) ->
    (forall r, alloc_capable (snd (rdt_get_mon_l3_config P r)) = alloc_capable r) ->
    let s' := snd (resctrl_arch_late_init_probe E F P feat s) in
    option_map (fun h => alloc_capable (r_resctrl h)) (nth_error (rdt_resources_all s') i)
    = Some false.
Proof.
  intros E F P feat s i fl Hin Hinit Hv Hi Hcfg s'.
  assert (HJ : alloc_denied E fl i s').
  { subst s'. unfold resctrl_arch_late_init_probe.
    rewrite bind_eq. cbn [fst snd]. rewrite bind_eq.
    assert (Hk : keeps_inv (alloc_denied E fl i)
                   (bind (check_quirks E P) (fun _ => get_rdt_resources E F P feat))).
    { apply keeps_inv_bind; [apply keeps_alloc_denied_check_quirks|]. intros _.
      unfold get_rdt_resources.
      apply keeps_inv_bind; [apply keeps_alloc_denied_alloc_resources, Hin|]. intros a.
      apply keeps_inv_bind.
      { intros s0 HJ. revert HJ. apply alloc_denied_same; [reflexivity|].
        intros h Hh. now exists h. }
      intros _. apply keeps_inv_bind; [apply keeps_inv_mon, Hcfg|].
      intros mf. apply keeps_inv_ret. }
    apply Hk. unfold alloc_denied.
    assert (Ho : forall s0, rdt_options_table (snd (rdt_init_res_defs P s0))
                            = rdt_options_table s0).
    { intros s0. unfold rdt_init_res_defs. destruct (x86_vendor P); reflexivity. }
    rewrite Ho. cbn [rdt_options_table with_resources].
    split; [exact Hv|]. split; [|exact Hi].
    unfold rdt_init_res_defs.
    destruct Hin as [Heq | [Heq | [Heq | [Heq | []]]]]; injection Heq as <- <-;
      destruct (x86_vendor P); cbn [snd rdt_resources_all with_resources];
      rewrite Hinit; reflexivity. }
  exact (proj1 (proj2 HJ)).
Qed.

Lemma denied_feature_stays_off_witness :
  let E := {| smp_processor_id := 0; boot_cpu_has := fun _ => true;
              get_cpu_cacheinfo_id := fun cpu _ => Z.of_N (cpu / 2);
              cpu_to_node := fun _ => 0;
              get_cpu_cacheinfo_level := fun cpu _ => Some (Z.of_N (cpu / 2));
              kmalloc_ok := fun _ => true; uninit := fun _ => 0;
              resctrl_arch_is_mbm_total_enabled := true;
              resctrl_arch_is_mbm_local_enabled := true;
              resctrl_online_ctrl_domain := fun _ _ => 0;
              resctrl_online_mon_domain := fun _ _ => 0;
              msr_gp_fault := fun _ => false; msr_stick := fun _ v => v;
              x86_vfm := INTEL_OTHER_VFM; x86_stepping := 0 |} in
  let s := snd (set_rdt_options "!l2cat" (kstate_init sample_features)) in
  let s' := snd (resctrl_arch_late_init_probe E sample_features sample_probe 0 s) in
  option_map (fun h => alloc_capable (r_resctrl h)) (nth_error (rdt_resources_all s') 1)
  = Some false /\
  alloc_flags (rdt_resources_all s') = [true; false; true; false].
Proof.
  intros E s s'.
  pose proof (denied_feature_stays_off E sample_features sample_probe 0 s 1%nat
                (X86_FEATURE_CAT_L2 sample_features)
                (or_intror (or_introl eq_refl)) eq_refl eq_refl
                (fun H => match Nat.neq_succ_0 0 H with end)
                (fun r => eq_refl)) as Hoff.
  split; [exact Hoff | reflexivity].
Defined.


(** ** The table after allocation discovery *)

(** Allocation discovery in closed form.  On a machine with RDT_A whose
    table holds the four resources and is not yet marked capable, each entry
    is probed on its own: a cache entry gets the CPUID values of its
    sub-leaf when [rdt_cpu_has] reports its CAT feature, and is marked CDP
    capable (with CDP disabled) only if its CDP feature is reported as well;
    CDP is never looked at without CAT.  MBA is probed by the vendor's
    routine on Intel and AMD, SMBA on AMD only; every other entry is left as
    it was.  The answer is whether one of the probes succeeded.  Next to the
    table the one thing that changes is the trace, by the line the Intel
    bandwidth probe logs when CPUID has no linear bit. *)
Theorem get_rdt_alloc_resources_table :
  forall (E : kernel_env) (F : cpufeatures) (P : probe_env) (s : kstate)
         (l3 l2 mba smba : rdt_hw_resource),
    rdt_alloc_capable s = false ->
    boot_cpu_has E (X86_FEATURE_RDT_A P) = true ->
    rdt_resources_all s = [l3; l2; mba; smba] ->
    let has fl := rdt_cpu_has_val E fl (rdt_options_table s) in
    let cdp h :=
      hw_set_resctrl (hw_set_cdp_enabled h false) (set_cdp_capable (r_resctrl h) true) in
    let cache_entry idx fcat fcdp h :=
      if has fcat
      then (if has fcdp then cdp (rdt_get_cache_alloc_cfg P idx h)
            else rdt_get_cache_alloc_cfg P idx h)
      else h in
    let mba_probe :=
      match x86_vendor P with
      | X86_VENDOR_INTEL => if has (X86_FEATURE_MBA F)
                            then fst (__get_mem_config_intel E P mba s) else (false, mba)
      | X86_VENDOR_AMD => if has (X86_FEATURE_MBA F)
                          then __rdt_get_mem_config_amd P mba else (false, mba)
      | X86_VENDOR_OTHER => (false, mba)
      end in
    let smba_probe :=
      match x86_vendor P with
      | X86_VENDOR_AMD => if has (X86_FEATURE_SMBA F)
                          then __rdt_get_mem_config_amd P smba else (false, smba)
      | _ => (false, smba)
      end in
    get_rdt_alloc_resources E F P s =
    (has (X86_FEATURE_CAT_L3 F) || has (X86_FEATURE_CAT_L2 F) || fst mba_probe || fst smba_probe,
     with_trace
       (with_resources s
          [ cache_entry 1 (X86_FEATURE_CAT_L3 F) (X86_FEATURE_CDP_L3 F) l3;
            cache_entry 2 (X86_FEATURE_CAT_L2 F) (X86_FEATURE_CDP_L2 F) l2;
            snd mba_probe; snd smba_probe ])
       (trace s ++ (if mb_table_logged E F P s
                    then [EvInfo "MBA b/w map not implemented"] else []))).
Proof.
  intros E F P s l3 l2 mba smba Hcap Hrdt Htbl has cdp cache_entry mba_probe smba_probe.
  subst has cdp cache_entry mba_probe smba_probe. cbv beta.
  destruct s as [tbl cap opts pq ms once tr].
  cbn [rdt_alloc_capable rdt_resources_all rdt_options_table] in *. subst cap tbl.
  unfold get_rdt_alloc_resources, mb_table_logged.
  cbn [rdt_alloc_capable rdt_options_table]. rewrite Hrdt. cbn [negb andb].
  unfold get_mem_config, get_slow_mem_config, rdt_get_cdp_l3_config, rdt_get_cdp_l2_config,
    rdt_get_cdp_config, __get_mem_config_intel, rdt_get_mb_table, bind, when, ret, emit,
    modify_resource, probe_resource.
  change (N.to_nat RDT_RESOURCE_L3) with 0%nat.
  change (N.to_nat RDT_RESOURCE_L2) with 1%nat.
  change (N.to_nat RDT_RESOURCE_MBA) with 2%nat.
  change (N.to_nat RDT_RESOURCE_SMBA) with 3%nat.
  destruct (Z.land (ecx (cpuid_count P 16 3)) (MBA_IS_LINEAR P) =? 0);
  destruct (x86_vendor P);
    repeat first
      [ rewrite rdt_cpu_has_run
      | progress cbn [negb andb table_set nth_error rdt_resources_all with_resources with_trace
                      trace rdt_options_table fst snd orb]
      | match goal with
        | |- context [rdt_cpu_has_val E ?fl opts] => destruct (rdt_cpu_has_val E fl opts)
        end ];
    cbn [fst snd orb]; rewrite ?Bool.orb_false_r, ?app_nil_r; reflexivity.
Qed.

Lemma get_rdt_alloc_resources_table_witness :
  let E := sample_env (fun _ => true) in
  let s := kstate_init sample_features in
  fst (get_rdt_alloc_resources E sample_features sample_probe s) = true /\
  alloc_flags (rdt_resources_all (snd (get_rdt_alloc_resources E sample_features sample_probe s)))
  = [true; true; true; false].
Proof.
  intros E s.
  rewrite (get_rdt_alloc_resources_table E sample_features sample_probe s _ _ _ _
             eq_refl eq_refl eq_refl).
  split; reflexivity.
Defined.


(** * The registry, identity by identity *)

Section Lookup.

Context {A : Type} (hdr_of : A -> rdt_domain_hdr).

Lemma domain_of_id_cons :
  forall (d : A) l j,
    domain_of_id hdr_of (d :: l) j
    = if j =? id (hdr_of d) then Some d else domain_of_id hdr_of l j.
Proof. reflexivity. Qed.

Lemma domain_of_id_app :
  forall (l1 l2 : list A) j,
    domain_of_id hdr_of (l1 ++ l2) j =
    match domain_of_id hdr_of l1 j with
    | Some d => Some d
    | None => domain_of_id hdr_of l2 j
    end.
Proof.
  intros l1 l2 j. induction l1 as [|d l1 IH]; [reflexivity|].
  cbn [app]. rewrite !domain_of_id_cons. destruct (j =? id (hdr_of d)); [reflexivity | exact IH].
Qed.

(** A store into one domain, or unlinking it, or linking a new one, is not
    seen from any other identity. *)
Lemma domain_of_id_store_other :
  forall (l1 l2 : list A) d d1 j,
    j <> id (hdr_of d) -> id (hdr_of d1) = id (hdr_of d) ->
    domain_of_id hdr_of (l1 ++ d1 :: l2) j = domain_of_id hdr_of (l1 ++ d :: l2) j.
Proof.
  intros l1 l2 d d1 j Hj Hid. rewrite !domain_of_id_app, !domain_of_id_cons, Hid.
  destruct (Z.eqb_spec j (id (hdr_of d))); [contradiction | reflexivity].
Qed.

Lemma domain_of_id_unlink_other :
  forall (l1 l2 : list A) d j,
    j <> id (hdr_of d) ->
    domain_of_id hdr_of (l1 ++ l2) j = domain_of_id hdr_of (l1 ++ d :: l2) j.
Proof.
  intros l1 l2 d j Hj. rewrite !domain_of_id_app, domain_of_id_cons.
  destruct (Z.eqb_spec j (id (hdr_of d))); [contradiction | reflexivity].
Qed.

Lemma domain_of_id_self :
  forall (l1 l2 : list A) d j,
    id (hdr_of d) = j ->
    ~ In j (domain_ids hdr_of l1) ->
    domain_of_id hdr_of (l1 ++ d :: l2) j = Some d.
Proof.
  intros l1 l2 d j <- Hn. rewrite domain_of_id_app, domain_of_id_cons, Z.eqb_refl.
  apply (domain_of_id_none hdr_of) in Hn. now rewrite Hn.
Qed.

Lemma domain_of_id_unlinked :
  forall (l1 l2 : list A) d j,
    id (hdr_of d) = j ->
    NoDup (domain_ids hdr_of (l1 ++ d :: l2)) ->
    domain_of_id hdr_of (l1 ++ l2) j = None.
Proof.
  intros l1 l2 d j <- Hnd. apply (domain_of_id_none hdr_of).
  unfold domain_ids in *. rewrite map_app in *. cbn [map] in Hnd.
  apply NoDup_remove_2 in Hnd. exact Hnd.
Qed.

(** On a well-formed list a domain is linked exactly when its identity has
    a member core. *)
Lemma linked_iff_members :
  forall t (l : list A) j,
    domains_ok hdr_of t l ->
    (domain_of_id hdr_of l j <> None <-> members hdr_of l j <> 0%N).
Proof.
  intros t l j [_ Hall]. unfold members.
  destruct (domain_of_id hdr_of l j) as [d|] eqn:Hof.
  - split; [intros _|intros _; discriminate].
    unfold domain_of_id in Hof. apply find_some in Hof. destruct Hof as [Hin _].
    rewrite Forall_forall in Hall. now apply Hall.
  - split; intros H; now elim H.
Qed.

End Lookup.

Lemma cpumask_clear_cpu_0 : forall cpu, cpumask_clear_cpu cpu 0 = 0%N.
Proof.
  intros cpu. unfold cpumask_clear_cpu. apply N.bits_inj. intros n.
  rewrite N.clearbit_eqb, N.bits_0. reflexivity.
Qed.

Lemma found_of_id :
  forall A (hdr_of : A -> rdt_domain_hdr) (l : list A) j d,
    domain_of_id hdr_of l j = Some d ->
    exists l1 l2,
      l = l1 ++ d :: l2 /\ id (hdr_of d) = j /\ ~ In j (domain_ids hdr_of l1) /\
      find_domain_from hdr_of l j 0 = Some (List.length l1, d).
Proof.
  intros A hdr_of l j d Hof.
  pose proof (find_domain_from_of_id hdr_of l j 0) as Hf. rewrite Hof in Hf.
  destruct (find_domain_from hdr_of l j 0) as [[k d']|] eqn:Hfind; [|discriminate Hf].
  cbn [option_map snd] in Hf. injection Hf as ->.
  destruct (find_domain_from_found hdr_of _ _ _ _ _ Hfind) as (l1 & l2 & Hl & Hk & Hid & Hn).
  cbn [Nat.add] in Hk. subst k. exists l1, l2. auto.
Qed.

Lemma domain_remove_cpu_ctrl_lookup :
  forall (E : kernel_env) (cpu : N) (h : rdt_hw_resource) (s : kstate),
    let r := r_resctrl h in
    let cid := get_domain_id_from_scope E cpu (ctrl_scope r) in
    let h' := fst (domain_remove_cpu_ctrl E cpu h s) in
    domains_ok ctrl_hdr RESCTRL_CTRL_DOMAIN (ctrl_domains r) ->
    (forall j, j <> cid ->
               domain_of_id ctrl_hdr (ctrl_domains (r_resctrl h')) j
               = domain_of_id ctrl_hdr (ctrl_domains r) j) /\
    ctrl_members h' cid =
      (if 0 <=? cid then cpumask_clear_cpu cpu (ctrl_members h cid) else ctrl_members h cid) /\
    ((cid <? 0) = true -> h' = h).
Proof.
  intros E cpu h s r cid h' Hok. subst h'. unfold ctrl_members. fold r.
  destruct (Z.ltb_spec cid 0) as [Hneg|Hid].
  { rewrite (domain_remove_cpu_ctrl_absent E cpu h s) by (left; exact Hneg).
    replace (0 <=? cid) with false by (symmetry; apply Z.leb_gt; exact Hneg).
    repeat split; intros; reflexivity. }
  replace (0 <=? cid) with true by (symmetry; apply Z.leb_le; exact Hid).
  match goal with |- ?P /\ ?Q /\ _ => cut (P /\ Q) end.
  { intros [H1 H2]. split; [exact H1|]. split; [exact H2|]. discriminate. }
  destruct (domain_of_id ctrl_hdr (ctrl_domains r) cid) as [d|] eqn:Hof.
  - destruct (found_of_id _ ctrl_hdr _ _ _ Hof) as (l1 & l2 & Hl & Hidd & Hn & Hfind).
    pose proof Hok as Hok'. rewrite Hl in Hok'.
    destruct (domains_ok_type _ _ _ _ _ _ Hok') as [Hty _].
    destruct (domain_remove_cpu_ctrl_found E cpu h s l1 l2 d Hid Hl Hfind Hty)
      as (s1 & Hrun & _).
    fold r in Hrun. rewrite Hrun. cbn [fst r_resctrl hw_set_resctrl ctrl_domains set_ctrl_domains].
    split.
    + intros j Hj. rewrite Hl. destruct (cpumask_empty _).
      * apply domain_of_id_unlink_other. now rewrite Hidd.
      * apply domain_of_id_store_other; [now rewrite Hidd | reflexivity].
    + unfold members. rewrite Hof.
      destruct (cpumask_empty (cpumask_clear_cpu cpu (cpu_mask (ctrl_hdr d)))) eqn:Hm.
      * rewrite (domain_of_id_unlinked ctrl_hdr l1 l2 d cid Hidd (proj1 Hok')).
        symmetry. now apply N.eqb_eq.
      * rewrite (domain_of_id_self ctrl_hdr l1 l2 (ctrl_set_cpu_mask d _) cid Hidd Hn).
        reflexivity.
  - rewrite (domain_remove_cpu_ctrl_absent E cpu h s) by (right; exact Hof).
    split; [reflexivity|]. unfold members. fold r. rewrite Hof.
    symmetry. apply cpumask_clear_cpu_0.
Qed.

Lemma domain_remove_cpu_mon_lookup :
  forall (E : kernel_env) (cpu : N) (h : rdt_hw_resource) (s : kstate),
    let r := r_resctrl h in
    let mid := get_domain_id_from_scope E cpu (mon_scope r) in
    let h' := fst (domain_remove_cpu_mon E cpu h s) in
    domains_ok mon_hw_hdr RESCTRL_MON_DOMAIN (mon_domains r) ->
    (forall j, j <> mid ->
               domain_of_id mon_hw_hdr (mon_domains (r_resctrl h')) j
               = domain_of_id mon_hw_hdr (mon_domains r) j) /\
    mon_members h' mid =
      (if 0 <=? mid then cpumask_clear_cpu cpu (mon_members h mid) else mon_members h mid) /\
    ((mid <? 0) = true -> h' = h).
Proof.
  intros E cpu h s r mid h' Hok. subst h'. unfold mon_members. fold r.
  destruct (Z.ltb_spec mid 0) as [Hneg|Hid].
  { rewrite (domain_remove_cpu_mon_absent E cpu h s) by (left; exact Hneg).
    replace (0 <=? mid) with false by (symmetry; apply Z.leb_gt; exact Hneg).
    repeat split; intros; reflexivity. }
  replace (0 <=? mid) with true by (symmetry; apply Z.leb_le; exact Hid).
  match goal with |- ?P /\ ?Q /\ _ => cut (P /\ Q) end.
  { intros [H1 H2]. split; [exact H1|]. split; [exact H2|]. discriminate. }
  destruct (domain_of_id mon_hw_hdr (mon_domains r) mid) as [d|] eqn:Hof.
  - destruct (found_of_id _ mon_hw_hdr _ _ _ Hof) as (l1 & l2 & Hl & Hidd & Hn & Hfind).
    pose proof Hok as Hok'. rewrite Hl in Hok'.
    destruct (domains_ok_type _ _ _ _ _ _ Hok') as [Hty _].
    destruct (domain_remove_cpu_mon_found E cpu h s l1 l2 d Hid Hl Hfind Hty)
      as (s1 & Hrun & _).
    fold r in Hrun. rewrite Hrun. cbn [fst r_resctrl hw_set_resctrl mon_domains set_mon_domains].
    split.
    + intros j Hj. rewrite Hl. destruct (cpumask_empty _).
      * apply domain_of_id_unlink_other. now rewrite Hidd.
      * apply domain_of_id_store_other; [now rewrite Hidd | reflexivity].
    + unfold members. rewrite Hof.
      destruct (cpumask_empty (cpumask_clear_cpu cpu (cpu_mask (mon_hw_hdr d)))) eqn:Hm.
      * rewrite (domain_of_id_unlinked mon_hw_hdr l1 l2 d mid Hidd (proj1 Hok')).
        symmetry. now apply N.eqb_eq.
      * rewrite (domain_of_id_self mon_hw_hdr l1 l2 (mon_set_cpu_mask d _) mid Hidd Hn).
        reflexivity.
  - rewrite (domain_remove_cpu_mon_absent E cpu h s) by (right; exact Hof).
    split; [reflexivity|]. unfold members. fold r. rewrite Hof.
    symmetry. apply cpumask_clear_cpu_0.
Qed.

Lemma not_in_ids_app :
  forall A (hdr_of : A -> rdt_domain_hdr) (l1 l2 : list A) j,
    ~ In j (domain_ids hdr_of (l1 ++ l2)) -> ~ In j (domain_ids hdr_of l1).
Proof.
  intros A hdr_of l1 l2 j Hn Hin. apply Hn. unfold domain_ids in *.
  rewrite map_app. apply in_or_app. now left.
Qed.

Lemma domain_add_cpu_ctrl_lookup :
  forall (E : kernel_env) (cpu : N) (h : rdt_hw_resource) (s : kstate),
    let r := r_resctrl h in
    let cid := get_domain_id_from_scope E cpu (ctrl_scope r) in
    let h' := fst (domain_add_cpu_ctrl E cpu h s) in
    domains_ok ctrl_hdr RESCTRL_CTRL_DOMAIN (ctrl_domains r) ->
    (forall j, j <> cid ->
               domain_of_id ctrl_hdr (ctrl_domains (r_resctrl h')) j
               = domain_of_id ctrl_hdr (ctrl_domains r) j) /\
    ctrl_members h' cid =
      (if (0 <=? cid)
          && match domain_of_id ctrl_hdr (ctrl_domains r) cid with
             | Some _ => true
             | None => ctrl_create_succeeds E r cid
             end
       then cpumask_set_cpu cpu (ctrl_members h cid) else ctrl_members h cid) /\
    ((0 <=? cid)
     && match domain_of_id ctrl_hdr (ctrl_domains r) cid with
        | Some _ => true
        | None => ctrl_create_succeeds E r cid
        end = false -> h' = h).
Proof.
  intros E cpu h s r cid h' Hok. subst h'. unfold ctrl_members. fold r.
  destruct (Z.ltb_spec cid 0) as [Hneg|Hid].
  { rewrite (domain_add_cpu_ctrl_negative E cpu h s) by exact Hneg.
    replace (0 <=? cid) with false by (symmetry; apply Z.leb_gt; exact Hneg).
    repeat split; intros; reflexivity. }
  replace (0 <=? cid) with true by (symmetry; apply Z.leb_le; exact Hid).
  cbn [andb].
  destruct (domain_of_id ctrl_hdr (ctrl_domains r) cid) as [d|] eqn:Hof.
  - destruct (found_of_id _ ctrl_hdr _ _ _ Hof) as (l1 & l2 & Hl & Hidd & Hn & Hfind).
    pose proof Hok as Hok'. rewrite Hl in Hok'.
    destruct (domains_ok_type _ _ _ _ _ _ Hok') as [Hty _].
    rewrite (domain_add_cpu_ctrl_found E cpu h s _ d Hid Hfind). fold r.
    rewrite Hty. cbn [domain_type_eqb].
    cbn [fst r_resctrl hw_set_resctrl ctrl_domains set_ctrl_domains].
    rewrite Hl, list_store_middle. split; [|split; [|discriminate]].
    + intros j Hj. apply domain_of_id_store_other; [now rewrite Hidd | reflexivity].
    + unfold members.
      rewrite (domain_of_id_self ctrl_hdr l1 l2 (ctrl_set_cpu_mask d _) cid Hidd Hn).
      rewrite (domain_of_id_self ctrl_hdr l1 l2 d cid Hidd Hn).
      reflexivity.
  - destruct (domain_add_cpu_ctrl_new E cpu h s Hid Hof) as (t & _ & _ & Hres).
    fold r cid in Hres. unfold members at 2 3. rewrite Hof.
    destruct (ctrl_create_succeeds E r cid).
    + rewrite Hres. cbn [fst r_resctrl hw_set_resctrl ctrl_domains set_ctrl_domains].
      destruct (list_add_tail_rcu_split (ctrl_domains r) (ctrl_domain_created h cid cpu)
                  _ (find_add_pos_le ctrl_hdr (ctrl_domains r) cid))
        as (l1 & l2 & Hl & _ & Hadd).
      rewrite Hadd. split; [|split; [|discriminate]].
      * intros j Hj. rewrite Hl. symmetry. apply domain_of_id_unlink_other. exact Hj.
      * unfold members.
        rewrite (domain_of_id_self ctrl_hdr l1 l2 (ctrl_domain_created h cid cpu) cid eq_refl);
          [reflexivity|].
        apply (not_in_ids_app _ ctrl_hdr l1 l2). rewrite <- Hl.
        now apply (domain_of_id_none ctrl_hdr).
    + destruct Hres as [Hres _]. rewrite Hres. split; [reflexivity|].
      split; [|reflexivity]. unfold members. fold r. now rewrite Hof.
Qed.

Lemma domain_add_cpu_mon_lookup :
  forall (E : kernel_env) (cpu : N) (h : rdt_hw_resource) (s : kstate),
    let r := r_resctrl h in
    let mid := get_domain_id_from_scope E cpu (mon_scope r) in
    let h' := fst (domain_add_cpu_mon E cpu h s) in
    domains_ok mon_hw_hdr RESCTRL_MON_DOMAIN (mon_domains r) ->
    (forall j, j <> mid ->
               domain_of_id mon_hw_hdr (mon_domains (r_resctrl h')) j
               = domain_of_id mon_hw_hdr (mon_domains r) j) /\
    mon_members h' mid =
      (if (0 <=? mid)
          && match domain_of_id mon_hw_hdr (mon_domains r) mid with
             | Some _ => true
             | None => mon_create_succeeds E r mid cpu
             end
       then cpumask_set_cpu cpu (mon_members h mid) else mon_members h mid) /\
    ((0 <=? mid)
     && match domain_of_id mon_hw_hdr (mon_domains r) mid with
        | Some _ => true
        | None => mon_create_succeeds E r mid cpu
        end = false -> h' = h).
Proof.
  intros E cpu h s r mid h' Hok. subst h'. unfold mon_members. fold r.
  destruct (Z.ltb_spec mid 0) as [Hneg|Hid].
  { rewrite (domain_add_cpu_mon_negative E cpu h s) by exact Hneg.
    replace (0 <=? mid) with false by (symmetry; apply Z.leb_gt; exact Hneg).
    repeat split; intros; reflexivity. }
  replace (0 <=? mid) with true by (symmetry; apply Z.leb_le; exact Hid).
  cbn [andb].
  destruct (domain_of_id mon_hw_hdr (mon_domains r) mid) as [d|] eqn:Hof.
  - destruct (found_of_id _ mon_hw_hdr _ _ _ Hof) as (l1 & l2 & Hl & Hidd & Hn & Hfind).
    pose proof Hok as Hok'. rewrite Hl in Hok'.
    destruct (domains_ok_type _ _ _ _ _ _ Hok') as [Hty _].
    rewrite (domain_add_cpu_mon_found E cpu h s _ d Hid Hfind). fold r.
    rewrite Hty. cbn [domain_type_eqb].
    cbn [fst r_resctrl hw_set_resctrl mon_domains set_mon_domains].
    rewrite Hl, list_store_middle. split; [|split; [|discriminate]].
    + intros j Hj. apply domain_of_id_store_other; [now rewrite Hidd | reflexivity].
    + unfold members.
      rewrite (domain_of_id_self mon_hw_hdr l1 l2 (mon_set_cpu_mask d _) mid Hidd Hn).
      rewrite (domain_of_id_self mon_hw_hdr l1 l2 d mid Hidd Hn).
      reflexivity.
  - destruct (domain_add_cpu_mon_new E cpu h s Hid Hof) as (t & _ & _ & Hres).
    fold r mid in Hres. unfold members at 2 3. rewrite Hof.
    destruct (mon_create_succeeds E r mid cpu).
    + destruct Hres as (ci & _ & Hres).
      rewrite Hres. cbn [fst r_resctrl hw_set_resctrl mon_domains set_mon_domains].
      destruct (list_add_tail_rcu_split (mon_domains r) (mon_domain_created E r mid cpu ci)
                  _ (find_add_pos_le mon_hw_hdr (mon_domains r) mid))
        as (l1 & l2 & Hl & _ & Hadd).
      rewrite Hadd. split; [|split; [|discriminate]].
      * intros j Hj. rewrite Hl. symmetry. apply domain_of_id_unlink_other. exact Hj.
      * unfold members.
        rewrite (domain_of_id_self mon_hw_hdr l1 l2 (mon_domain_created E r mid cpu ci) mid
                   eq_refl);
          [reflexivity|].
        apply (not_in_ids_app _ mon_hw_hdr l1 l2). rewrite <- Hl.
        now apply (domain_of_id_none mon_hw_hdr).
    + destruct Hres as [Hres _]. rewrite Hres. split; [reflexivity|].
      split; [|reflexivity]. unfold members. fold r. now rewrite Hof.
Qed.

Lemma members_cases :
  forall A (hdr_of : A -> rdt_domain_hdr) (l l' : list A) (b : bool) (c : Z) (f : N -> N),
    (forall j, b && (j =? c) = false ->
               domain_of_id hdr_of l' j = domain_of_id hdr_of l j) ->
    (b = true -> members hdr_of l' c = f (members hdr_of l c)) ->
    forall j, members hdr_of l' j
              = if b && (j =? c) then f (members hdr_of l j) else members hdr_of l j.
Proof.
  intros A hdr_of l l' b c f Ho Hc j.
  destruct (b && (j =? c)) eqn:Hb.
  - apply andb_true_iff in Hb. destruct Hb as [Hb Hj]. apply Z.eqb_eq in Hj. subst j.
    now apply Hc.
  - unfold members. now rewrite Ho.
Qed.

(** The dispatchers, seen from every identity: a core going offline is
    cleared from the member set of its own identity and nothing else
    changes in either list. *)
Lemma domain_remove_cpu_lookup :
  forall (E : kernel_env) (cpu : N) (h : rdt_hw_resource) (s : kstate),
    let r := r_resctrl h in
    let cid := get_domain_id_from_scope E cpu (ctrl_scope r) in
    let mid := get_domain_id_from_scope E cpu (mon_scope r) in
    let h' := fst (domain_remove_cpu E cpu h s) in
    resource_ok h ->
    ((forall j, ctrl_leaves E cpu h && (j =? cid) = false ->
                domain_of_id ctrl_hdr (ctrl_domains (r_resctrl h')) j
                = domain_of_id ctrl_hdr (ctrl_domains r) j) /\
     (ctrl_leaves E cpu h = true ->
      ctrl_members h' cid = cpumask_clear_cpu cpu (ctrl_members h cid))) /\
    ((forall j, mon_leaves E cpu h && (j =? mid) = false ->
                domain_of_id mon_hw_hdr (mon_domains (r_resctrl h')) j
                = domain_of_id mon_hw_hdr (mon_domains r) j) /\
     (mon_leaves E cpu h = true ->
      mon_members h' mid = cpumask_clear_cpu cpu (mon_members h mid))).
Proof.
  intros E cpu h s r cid mid h' [Hc Hm]. subst h'.
  unfold domain_remove_cpu. rewrite bind_eq.
  set (m1 := if alloc_capable (r_resctrl h) then domain_remove_cpu_ctrl E cpu h else ret h).
  set (h1 := fst (m1 s)). set (s1 := snd (m1 s)).
  assert (Hh1 : exists L, h1 = hw_set_resctrl h (set_ctrl_domains r L)).
  { subst h1 m1. fold r. destruct (alloc_capable r).
    - destruct (domain_remove_cpu_ctrl_ok E cpu h s Hc) as (L & HL & _). now exists L.
    - exists (ctrl_domains r). cbn [ret fst]. now rewrite hw_set_ctrl_domains_same. }
  assert (Hc1 : (forall j, ctrl_leaves E cpu h && (j =? cid) = false ->
                           domain_of_id ctrl_hdr (ctrl_domains (r_resctrl h1)) j
                           = domain_of_id ctrl_hdr (ctrl_domains r) j) /\
                (ctrl_leaves E cpu h = true ->
                 ctrl_members h1 cid = cpumask_clear_cpu cpu (ctrl_members h cid))).
  { subst h1 m1. unfold ctrl_leaves. fold r cid. destruct (alloc_capable r); cbn [andb].
    - destruct (domain_remove_cpu_ctrl_lookup E cpu h s Hc) as (Ho & Hmem & Hsame).
      fold r cid in Ho, Hmem, Hsame. split.
      + intros j Hj. destruct (Z.leb_spec 0 cid) as [Hid|Hneg]; cbn [andb] in Hj.
        * apply Ho. now apply Z.eqb_neq.
        * rewrite Hsame by (now apply Z.ltb_lt). reflexivity.
      + intros Hid. rewrite Hid in Hmem. exact Hmem.
    - split; [reflexivity | discriminate]. }
  destruct Hh1 as [L1 Hh1].
  assert (Hm1 : domains_ok mon_hw_hdr RESCTRL_MON_DOMAIN (mon_domains (r_resctrl h1)))
    by (rewrite Hh1; exact Hm).
  set (m2 := if mon_capable (r_resctrl h1) then domain_remove_cpu_mon E cpu h1 else ret h1).
  assert (Hh2 : exists L, fst (m2 s1) = hw_set_resctrl h1 (set_mon_domains (r_resctrl h1) L)).
  { subst m2. destruct (mon_capable (r_resctrl h1)).
    - destruct (domain_remove_cpu_mon_ok E cpu h1 s1 Hm1) as (L & HL & _). now exists L.
    - exists (mon_domains (r_resctrl h1)). cbn [ret fst]. now rewrite hw_set_mon_domains_same. }
  assert (Hm2 : (forall j, mon_leaves E cpu h1 && (j =? mid) = false ->
                           domain_of_id mon_hw_hdr (mon_domains (r_resctrl (fst (m2 s1)))) j
                           = domain_of_id mon_hw_hdr (mon_domains (r_resctrl h1)) j) /\
                (mon_leaves E cpu h1 = true ->
                 mon_members (fst (m2 s1)) mid = cpumask_clear_cpu cpu (mon_members h1 mid))).
  { assert (Hmid : get_domain_id_from_scope E cpu (mon_scope (r_resctrl h1)) = mid)
      by (rewrite Hh1; reflexivity).
    subst m2. unfold mon_leaves. rewrite Hmid.
    destruct (mon_capable (r_resctrl h1)); cbn [andb].
    - destruct (domain_remove_cpu_mon_lookup E cpu h1 s1 Hm1) as (Ho & Hmem & Hsame).
      rewrite Hmid in Ho, Hmem, Hsame. split.
      + intros j Hj. destruct (Z.leb_spec 0 mid) as [Hid|Hneg]; cbn [andb] in Hj.
        * apply Ho. now apply Z.eqb_neq.
        * rewrite Hsame by (now apply Z.ltb_lt). reflexivity.
      + intros Hid. rewrite Hid in Hmem. exact Hmem.
    - split; [reflexivity | discriminate]. }
  destruct Hh2 as [L2 Hh2].
  assert (Hl1 : mon_leaves E cpu h1 = mon_leaves E cpu h) by (rewrite Hh1; reflexivity).
  assert (Hmm : forall j, mon_members h1 j = mon_members h j) by (rewrite Hh1; reflexivity).
  assert (Hcc : ctrl_domains (r_resctrl (fst (m2 s1))) = ctrl_domains (r_resctrl h1))
    by (rewrite Hh2; reflexivity).
  split.
  - unfold ctrl_members in *. rewrite Hcc. exact Hc1.
  - rewrite Hl1 in Hm2. rewrite Hmm in Hm2. destruct Hm2 as [Ho Hmem]. split; [|exact Hmem].
    intros j Hj. rewrite (Ho j Hj). rewrite Hh1. reflexivity.
Qed.

(** A core coming online is added to the member set of its own identity,
    when it joins at all, and nothing else changes in either list. *)
Lemma domain_add_cpu_lookup :
  forall (E : kernel_env) (cpu : N) (h : rdt_hw_resource) (s : kstate),
    let r := r_resctrl h in
    let cid := get_domain_id_from_scope E cpu (ctrl_scope r) in
    let mid := get_domain_id_from_scope E cpu (mon_scope r) in
    let h' := fst (domain_add_cpu E cpu h s) in
    resource_ok h ->
    ((forall j, ctrl_joins E cpu h && (j =? cid) = false ->
                domain_of_id ctrl_hdr (ctrl_domains (r_resctrl h')) j
                = domain_of_id ctrl_hdr (ctrl_domains r) j) /\
     (ctrl_joins E cpu h = true ->
      ctrl_members h' cid = cpumask_set_cpu cpu (ctrl_members h cid))) /\
    ((forall j, mon_joins E cpu h && (j =? mid) = false ->
                domain_of_id mon_hw_hdr (mon_domains (r_resctrl h')) j
                = domain_of_id mon_hw_hdr (mon_domains r) j) /\
     (mon_joins E cpu h = true ->
      mon_members h' mid = cpumask_set_cpu cpu (mon_members h mid))).
Proof.
  intros E cpu h s r cid mid h' [Hc Hm]. subst h'.
  unfold domain_add_cpu. rewrite bind_eq.
  set (m1 := if alloc_capable (r_resctrl h) then domain_add_cpu_ctrl E cpu h else ret h).
  set (h1 := fst (m1 s)). set (s1 := snd (m1 s)).
  assert (Hh1 : exists L, h1 = hw_set_resctrl h (set_ctrl_domains r L)).
  { subst h1 m1. fold r. destruct (alloc_capable r).
    - destruct (domain_add_cpu_ctrl_ok E cpu h s Hc) as (L & HL & _). now exists L.
    - exists (ctrl_domains r). cbn [ret fst]. now rewrite hw_set_ctrl_domains_same. }
  assert (Hc1 : (forall j, ctrl_joins E cpu h && (j =? cid) = false ->
                           domain_of_id ctrl_hdr (ctrl_domains (r_resctrl h1)) j
                           = domain_of_id ctrl_hdr (ctrl_domains r) j) /\
                (ctrl_joins E cpu h = true ->
                 ctrl_members h1 cid = cpumask_set_cpu cpu (ctrl_members h cid))).
  { subst h1 m1. unfold ctrl_joins. fold r cid. destruct (alloc_capable r); cbn [andb].
    - destruct (domain_add_cpu_ctrl_lookup E cpu h s Hc) as (Ho & Hmem & Hsame).
      fold r cid in Ho, Hmem, Hsame. split.
      + intros j Hj. apply andb_false_iff in Hj. destruct Hj as [Hj|Hj].
        * rewrite Hsame by exact Hj. reflexivity.
        * apply Ho. now apply Z.eqb_neq.
      + intros Hid. rewrite Hid in Hmem. exact Hmem.
    - split; [reflexivity | discriminate]. }
  destruct Hh1 as [L1 Hh1].
  assert (Hm1 : domains_ok mon_hw_hdr RESCTRL_MON_DOMAIN (mon_domains (r_resctrl h1)))
    by (rewrite Hh1; exact Hm).
  set (m2 := if mon_capable (r_resctrl h1) then domain_add_cpu_mon E cpu h1 else ret h1).
  assert (Hh2 : exists L, fst (m2 s1) = hw_set_resctrl h1 (set_mon_domains (r_resctrl h1) L)).
  { subst m2. destruct (mon_capable (r_resctrl h1)).
    - destruct (domain_add_cpu_mon_ok E cpu h1 s1 Hm1) as (L & HL & _). now exists L.
    - exists (mon_domains (r_resctrl h1)). cbn [ret fst]. now rewrite hw_set_mon_domains_same. }
  assert (Hm2 : (forall j, mon_joins E cpu h1 && (j =? mid) = false ->
                           domain_of_id mon_hw_hdr (mon_domains (r_resctrl (fst (m2 s1)))) j
                           = domain_of_id mon_hw_hdr (mon_domains (r_resctrl h1)) j) /\
                (mon_joins E cpu h1 = true ->
                 mon_members (fst (m2 s1)) mid = cpumask_set_cpu cpu (mon_members h1 mid))).
  { assert (Hmid : get_domain_id_from_scope E cpu (mon_scope (r_resctrl h1)) = mid)
      by (rewrite Hh1; reflexivity).
    subst m2. unfold mon_joins. rewrite Hmid.
    destruct (mon_capable (r_resctrl h1)); cbn [andb].
    - destruct (domain_add_cpu_mon_lookup E cpu h1 s1 Hm1) as (Ho & Hmem & Hsame).
      rewrite Hmid in Ho, Hmem, Hsame. split.
      + intros j Hj. apply andb_false_iff in Hj. destruct Hj as [Hj|Hj].
        * rewrite Hsame by exact Hj. reflexivity.
        * apply Ho. now apply Z.eqb_neq.
      + intros Hid. rewrite Hid in Hmem. exact Hmem.
    - split; [reflexivity | discriminate]. }
  destruct Hh2 as [L2 Hh2].
  assert (Hl1 : mon_joins E cpu h1 = mon_joins E cpu h) by (rewrite Hh1; reflexivity).
  assert (Hmm : forall j, mon_members h1 j = mon_members h j) by (rewrite Hh1; reflexivity).
  assert (Hcc : ctrl_domains (r_resctrl (fst (m2 s1))) = ctrl_domains (r_resctrl h1))
    by (rewrite Hh2; reflexivity).
  split.
  - unfold ctrl_members in *. rewrite Hcc. exact Hc1.
  - rewrite Hl1 in Hm2. rewrite Hmm in Hm2. destruct Hm2 as [Ho Hmem]. split; [|exact Hmem].
    intros j Hj. rewrite (Ho j Hj). rewrite Hh1. reflexivity.
Qed.

(** C2. On well-formed lists (unique identities, right types, no domain
    without a member core) a core joining or leaving keeps the lists well
    formed, so a linked control or monitor domain always has a member core.
    Taking a core out of a domain that keeps a member leaves the domain
    linked, with only that bit of its member set cleared, and emits nothing;
    taking out the last member calls the offline hook, unlinks the domain,
    waits for the grace period and then frees its blocks, after which the
    list has no domain of that identity.  So when the two cores of a domain
    leave one after the other, the domain is still linked after the first
    and torn down by the second.

    For every identity of either list, a domain is linked exactly when the
    identity has a member core.  Through [domain_remove_cpu] the member set
    of the identity of the leaving core loses that core, when the resource
    is capable and the core has an identity, and the domain of every other
    identity is the one it was; through [domain_add_cpu] the member set of
    the identity of the joining core gains that core, when its domain is
    linked or can be created, and again every other domain is the one it
    was.  So a domain is never unlinked while it has a member core other
    than the one leaving, and no core coming online unlinks a domain. *)
Theorem domain_linked_iff_member_cores :
  forall (E : kernel_env) (cpu : N) (h : rdt_hw_resource) (s : kstate),
    let r := r_resctrl h in
    let cid := get_domain_id_from_scope E cpu (ctrl_scope r) in
    let mid := get_domain_id_from_scope E cpu (mon_scope r) in
    resource_ok h ->
    (resource_ok (fst (domain_add_cpu E cpu h s)) /\
     resource_ok (fst (domain_remove_cpu E cpu h s))) /\
    (forall d, In d (ctrl_domains r) -> cpu_mask (ctrl_hdr d) <> 0%N) /\
    (forall d, In d (mon_domains r) -> cpu_mask (mon_hw_hdr d) <> 0%N) /\
    (forall d,
        let m1 := cpumask_clear_cpu cpu (cpu_mask (ctrl_hdr d)) in
        let h' := fst (domain_remove_cpu_ctrl E cpu h s) in
        let s' := snd (domain_remove_cpu_ctrl E cpu h s) in
        0 <= cid ->
        domain_of_id ctrl_hdr (ctrl_domains r) cid = Some d ->
        (m1 <> 0%N ->
           domain_of_id ctrl_hdr (ctrl_domains (r_resctrl h')) cid
           = Some (ctrl_set_cpu_mask d m1) /\
           trace s' = trace s) /\
        (m1 = 0%N ->
           domain_of_id ctrl_hdr (ctrl_domains (r_resctrl h')) cid = None /\
           trace s' =
             trace s ++ [EvOfflineCtrlDomain (rid r) cid;
                         EvListDelRcu (rid r) RESCTRL_CTRL_DOMAIN cid; EvSynchronizeRcu]
                     ++ ctrl_teardown_frees (rid r) d)) /\
    (forall d,
        let m1 := cpumask_clear_cpu cpu (cpu_mask (mon_hw_hdr d)) in
        let h' := fst (domain_remove_cpu_mon E cpu h s) in
        let s' := snd (domain_remove_cpu_mon E cpu h s) in
        0 <= mid ->
        domain_of_id mon_hw_hdr (mon_domains r) mid = Some d ->
        (m1 <> 0%N ->
           domain_of_id mon_hw_hdr (mon_domains (r_resctrl h')) mid
           = Some (mon_set_cpu_mask d m1) /\
           trace s' = trace s) /\
        (m1 = 0%N ->
           domain_of_id mon_hw_hdr (mon_domains (r_resctrl h')) mid = None /\
           trace s' =
             trace s ++ [EvOfflineMonDomain (rid r) mid;
                         EvListDelRcu (rid r) RESCTRL_MON_DOMAIN mid; EvSynchronizeRcu]
                     ++ mon_teardown_frees (rid r) d)) /\
    (forall cpu2 s2 d,
        let h1 := fst (domain_remove_cpu_ctrl E cpu h s) in
        let h2 := fst (domain_remove_cpu_ctrl E cpu2 h1 s2) in
        0 <= cid ->
        get_domain_id_from_scope E cpu2 (ctrl_scope r) = cid ->
        cpu <> cpu2 ->
        domain_of_id ctrl_hdr (ctrl_domains r) cid = Some d ->
        cpu_mask (ctrl_hdr d) = cpumask_set_cpu cpu2 (cpumask_set_cpu cpu 0) ->
        domain_of_id ctrl_hdr (ctrl_domains (r_resctrl h1)) cid
        = Some (ctrl_set_cpu_mask d (cpumask_set_cpu cpu2 0)) /\
        domain_of_id ctrl_hdr (ctrl_domains (r_resctrl h2)) cid = None) /\
    (forall cpu2 s2 d,
        let h1 := fst (domain_remove_cpu_mon E cpu h s) in
        let h2 := fst (domain_remove_cpu_mon E cpu2 h1 s2) in
        0 <= mid ->
        get_domain_id_from_scope E cpu2 (mon_scope r) = mid ->
        cpu <> cpu2 ->
        domain_of_id mon_hw_hdr (mon_domains r) mid = Some d ->
        cpu_mask (mon_hw_hdr d) = cpumask_set_cpu cpu2 (cpumask_set_cpu cpu 0) ->
        domain_of_id mon_hw_hdr (mon_domains (r_resctrl h1)) mid
        = Some (mon_set_cpu_mask d (cpumask_set_cpu cpu2 0)) /\
        domain_of_id mon_hw_hdr (mon_domains (r_resctrl h2)) mid = None) /\
    (forall j,
        (domain_of_id ctrl_hdr (ctrl_domains r) j <> None <-> ctrl_members h j <> 0%N) /\
        (domain_of_id mon_hw_hdr (mon_domains r) j <> None <-> mon_members h j <> 0%N)) /\
    (forall j,
        let down := fst (domain_remove_cpu E cpu h s) in
        ctrl_members down j =
          (if ctrl_leaves E cpu h && (j =? cid)
           then cpumask_clear_cpu cpu (ctrl_members h j) else ctrl_members h j) /\
        mon_members down j =
          (if mon_leaves E cpu h && (j =? mid)
           then cpumask_clear_cpu cpu (mon_members h j) else mon_members h j) /\
        (ctrl_leaves E cpu h && (j =? cid) = false ->
           domain_of_id ctrl_hdr (ctrl_domains (r_resctrl down)) j
           = domain_of_id ctrl_hdr (ctrl_domains r) j) /\
        (mon_leaves E cpu h && (j =? mid) = false ->
           domain_of_id mon_hw_hdr (mon_domains (r_resctrl down)) j
           = domain_of_id mon_hw_hdr (mon_domains r) j)) /\
    (forall j,
        let up := fst (domain_add_cpu E cpu h s) in
        ctrl_members up j =
          (if ctrl_joins E cpu h && (j =? cid)
           then cpumask_set_cpu cpu (ctrl_members h j) else ctrl_members h j) /\
        mon_members up j =
          (if mon_joins E cpu h && (j =? mid)
           then cpumask_set_cpu cpu (mon_members h j) else mon_members h j) /\
        (ctrl_joins E cpu h && (j =? cid) = false ->
           domain_of_id ctrl_hdr (ctrl_domains (r_resctrl up)) j
           = domain_of_id ctrl_hdr (ctrl_domains r) j) /\
        (mon_joins E cpu h && (j =? mid) = false ->
           domain_of_id mon_hw_hdr (mon_domains (r_resctrl up)) j
           = domain_of_id mon_hw_hdr (mon_domains r) j)) /\
    (forall j c,
        let down := fst (domain_remove_cpu E cpu h s) in
        let up := fst (domain_add_cpu E cpu h s) in
        (N.testbit (ctrl_members h j) c = true ->
           (c <> cpu ->
              N.testbit (ctrl_members down j) c = true /\
              domain_of_id ctrl_hdr (ctrl_domains (r_resctrl down)) j <> None) /\
           N.testbit (ctrl_members up j) c = true /\
           domain_of_id ctrl_hdr (ctrl_domains (r_resctrl up)) j <> None) /\
        (N.testbit (mon_members h j) c = true ->
           (c <> cpu ->
              N.testbit (mon_members down j) c = true /\
              domain_of_id mon_hw_hdr (mon_domains (r_resctrl down)) j <> None) /\
           N.testbit (mon_members up j) c = true /\
           domain_of_id mon_hw_hdr (mon_domains (r_resctrl up)) j <> None)).
Proof.
  intros E cpu h s r cid mid Hok.
  split; [now apply resource_ok_preserved|].
  pose proof (resource_ok_preserved E cpu h s Hok) as [Hok_up Hok_down].
  pose proof (domain_remove_cpu_lookup E cpu h s Hok) as [[Hdco Hdcm] [Hdmo Hdmm]].
  pose proof (domain_add_cpu_lookup E cpu h s Hok) as [[Huco Hucm] [Humo Humm]].
  fold r cid mid in Hdco, Hdcm, Hdmo, Hdmm, Huco, Hucm, Humo, Humm.
  assert (Hdown : forall j,
             ctrl_members (fst (domain_remove_cpu E cpu h s)) j =
               (if ctrl_leaves E cpu h && (j =? cid)
                then cpumask_clear_cpu cpu (ctrl_members h j) else ctrl_members h j) /\
             mon_members (fst (domain_remove_cpu E cpu h s)) j =
               (if mon_leaves E cpu h && (j =? mid)
                then cpumask_clear_cpu cpu (mon_members h j) else mon_members h j)).
  { intros j. split.
    - apply (members_cases _ ctrl_hdr (ctrl_domains r)); assumption.
    - apply (members_cases _ mon_hw_hdr (mon_domains r)); assumption. }
  assert (Hup : forall j,
             ctrl_members (fst (domain_add_cpu E cpu h s)) j =
               (if ctrl_joins E cpu h && (j =? cid)
                then cpumask_set_cpu cpu (ctrl_members h j) else ctrl_members h j) /\
             mon_members (fst (domain_add_cpu E cpu h s)) j =
               (if mon_joins E cpu h && (j =? mid)
                then cpumask_set_cpu cpu (mon_members h j) else mon_members h j)).
  { intros j. split.
    - apply (members_cases _ ctrl_hdr (ctrl_domains r)); assumption.
    - apply (members_cases _ mon_hw_hdr (mon_domains r)); assumption. }
  assert (Hclear : forall b m c, c <> cpu -> N.testbit m c = true ->
             N.testbit (if b : bool then cpumask_clear_cpu cpu m else m) c = true).
  { intros b m c Hc Hbit. destruct b; [|exact Hbit].
    unfold cpumask_clear_cpu. rewrite N.clearbit_eqb, Hbit.
    destruct (N.eqb_spec cpu c); [now elim Hc; symmetry | reflexivity]. }
  assert (Hset : forall b m c, N.testbit m c = true ->
             N.testbit (if b : bool then cpumask_set_cpu cpu m else m) c = true).
  { intros b m c Hbit. destruct b; [|exact Hbit].
    unfold cpumask_set_cpu. rewrite N.setbit_eqb, Hbit. apply orb_true_r. }
  assert (Hbit0 : forall m c, N.testbit m c = true -> m <> 0%N).
  { intros m c Hbit ->. rewrite N.bits_0 in Hbit. discriminate Hbit. }
  destruct Hok as [Hc Hm].
  split.
  { intros d Hd. destruct Hc as [_ Hall]. rewrite Forall_forall in Hall.
    now apply Hall. }
  split.
  { intros d Hd. destruct Hm as [_ Hall]. rewrite Forall_forall in Hall.
    now apply Hall. }
  split; [intros d; now apply domain_remove_cpu_ctrl_spec|].
  split; [intros d; now apply domain_remove_cpu_mon_spec|].
  split.
  { intros cpu2 s2 d h1 h2 Hid Hid2 Hne Hof Hmask.
    destruct (two_cores_leave_ctrl E cpu cpu2 h s s2 d Hc Hid Hid2 Hne Hof Hmask)
      as (H1 & _ & H2 & _).
    split; assumption. }
  split.
  { intros cpu2 s2 d h1 h2 Hid Hid2 Hne Hof Hmask.
    destruct (two_cores_leave_mon E cpu cpu2 h s s2 d Hm Hid Hid2 Hne Hof Hmask)
      as (H1 & _ & H2 & _).
    split; assumption. }
  split.
  { intros j. split.
    - exact (linked_iff_members ctrl_hdr _ _ j Hc).
    - exact (linked_iff_members mon_hw_hdr _ _ j Hm). }
  split.
  { intros j down. subst down. destruct (Hdown j) as [H1 H2].
    split; [exact H1|]. split; [exact H2|]. split; [apply Hdco | apply Hdmo]. }
  split.
  { intros j up. subst up. destruct (Hup j) as [H1 H2].
    split; [exact H1|]. split; [exact H2|]. split; [apply Huco | apply Humo]. }
  intros j c down up. subst down up.
  destruct (Hdown j) as [Hd1 Hd2]. destruct (Hup j) as [Hu1 Hu2].
  destruct Hok_up as [Hcu Hmu]. destruct Hok_down as [Hcd Hmd].
  split; intros Hbit.
  - assert (Hu : N.testbit (ctrl_members (fst (domain_add_cpu E cpu h s)) j) c = true)
      by (rewrite Hu1; now apply Hset).
    split; [|split; [exact Hu|]].
    + intros Hne.
      assert (Hd : N.testbit (ctrl_members (fst (domain_remove_cpu E cpu h s)) j) c = true)
        by (rewrite Hd1; now apply Hclear).
      split; [exact Hd|].
      apply (linked_iff_members ctrl_hdr _ _ j Hcd). exact (Hbit0 _ _ Hd).
    + apply (linked_iff_members ctrl_hdr _ _ j Hcu). exact (Hbit0 _ _ Hu).
  - assert (Hu : N.testbit (mon_members (fst (domain_add_cpu E cpu h s)) j) c = true)
      by (rewrite Hu2; now apply Hset).
    split; [|split; [exact Hu|]].
    + intros Hne.
      assert (Hd : N.testbit (mon_members (fst (domain_remove_cpu E cpu h s)) j) c = true)
        by (rewrite Hd2; now apply Hclear).
      split; [exact Hd|].
      apply (linked_iff_members mon_hw_hdr _ _ j Hmd). exact (Hbit0 _ _ Hd).
    + apply (linked_iff_members mon_hw_hdr _ _ j Hmu). exact (Hbit0 _ _ Hu).
Qed.

Lemma domain_linked_iff_member_cores_witness :
  let E := sample_env (fun _ => true) in
  let s := kstate_init sample_features in
  let both := fst (domain_add_cpu E 1 (fst (domain_add_cpu E 0 sample_l3 s)) s) in
  let one := fst (domain_remove_cpu_ctrl E 0 both s) in
  let none := fst (domain_remove_cpu_ctrl E 1 one s) in
  let two := fst (domain_add_cpu E 2 both s) in
  let down := fst (domain_remove_cpu E 2 two s) in
  resource_ok both /\
  option_map (fun d => cpu_mask (ctrl_hdr d)) (domain_of_id ctrl_hdr (ctrl_domains (r_resctrl both)) 0)
  = Some 3%N /\
  option_map (fun d => cpu_mask (ctrl_hdr d)) (domain_of_id ctrl_hdr (ctrl_domains (r_resctrl one)) 0)
  = Some 2%N /\
  domain_of_id ctrl_hdr (ctrl_domains (r_resctrl none)) 0 = None /\
  (ctrl_members two 0 = 3%N /\ ctrl_members two 1 = 4%N) /\
  (ctrl_members down 0 = 3%N /\ ctrl_members down 1 = 0%N) /\
  domain_of_id ctrl_hdr (ctrl_domains (r_resctrl down)) 0
  = domain_of_id ctrl_hdr (ctrl_domains (r_resctrl two)) 0 /\
  domain_of_id ctrl_hdr (ctrl_domains (r_resctrl down)) 0 <> None.
Proof.
  intros E s both one none two down.
  assert (H0 : resource_ok sample_l3).
  { split; split; constructor. }
  pose proof (proj1 (proj1 (domain_linked_iff_member_cores E 0%N sample_l3 s H0))) as H1.
  pose proof (proj1 (proj1 (domain_linked_iff_member_cores E 1%N _ s H1))) as H2.
  fold both in H2.
  pose proof (proj1 (proj1 (domain_linked_iff_member_cores E 2%N both s H2))) as H3.
  fold two in H3.
  destruct (domain_linked_iff_member_cores E 0%N both s H2)
    as (_ & _ & _ & _ & _ & Htwo & _).
  destruct (domain_linked_iff_member_cores E 2%N both s H2)
    as (_ & _ & _ & _ & _ & _ & _ & _ & _ & Hjoin & _).
  destruct (domain_linked_iff_member_cores E 2%N two s H3)
    as (_ & _ & _ & _ & _ & _ & _ & _ & Hleave & _ & Hkeep).
  destruct (Htwo 1%N s (ctrl_set_cpu_mask (ctrl_domain_created sample_l3 0 0) 3%N))
    as [Hone Hnone].
  - vm_compute. discriminate.
  - reflexivity.
  - discriminate.
  - reflexivity.
  - reflexivity.
  - assert (Hone' : domain_of_id ctrl_hdr (ctrl_domains (r_resctrl one)) 0
                     = Some (ctrl_set_cpu_mask
                               (ctrl_set_cpu_mask (ctrl_domain_created sample_l3 0 0) 3%N)
                               (cpumask_set_cpu 1 0))) by exact Hone.
    split; [exact H2|]. split; [reflexivity|].
    split; [rewrite Hone'; reflexivity|]. split; [exact Hnone|].
    pose proof (proj1 (Hjoin 0)) as Hj0. pose proof (proj1 (Hjoin 1)) as Hj1.
    pose proof (proj1 (Hleave 0)) as Hl0. pose proof (proj1 (Hleave 1)) as Hl1.
    pose proof (proj1 (proj2 (proj2 (Hleave 0))) eq_refl) as Hsame.
    pose proof (proj1 (Hkeep 0 0%N)) as Hk.
    fold two in Hj0, Hj1. fold down in Hl0, Hl1, Hsame, Hk.
    split; [split; [exact Hj0 | exact Hj1]|].
    split; [split; [exact Hl0 | exact Hl1]|].
    split; [exact Hsame|].
    destruct (Hk eq_refl) as [Hother _]. apply Hother. discriminate.
Defined.

